(* ===== verification/_CoqProject ===== *)
-Q . S2P
Prelude.v
PyList.v
Blocks.v
Dedup.v
Utf8.v
Wikipedia.v
PyIO.v
PyFormat.v
Json.v
JsonLoad.v
Report.v
Letter.v
WikiIO.v
Run.v
Scripts.v
Mongo.v
AllDatabases.v
Elastic.v
Redis.v
