(* ===== verification/Prelude.v ===== *)
(** * A verification development for nextgenmemory

    The repository is a set of Python benchmark scripts.  The one that
    computes something is [src/legal_verification.py].  Its method
    [LegalVerification.process_wikipedia_complete] reads a file in
    fixed-size byte chunks and decodes each chunk as UTF-8 with
    [errors='ignore'].  It cuts the text into fixed-size blocks, hands
    the blocks to an external deduplicating compressor
    ([EnhancedRingCompression.optimize_for_text_files], not in the
    repository), and accumulates block counts and ratios.
    [generate_cryptographic_proof] hashes seven of the results as sorted
    JSON.  [generate_legal_documentation] prints a letter to law firms
    and saves a JSON report.  [run] and [main] chain these steps.
    [src/verify_environment.py] checks for data files, and
    [src/download_test_data.py] prints a download message.  The other
    scripts ([src/test_mongodb_complete.py] and friends) load test data
    with [json.load], time calls into an external module
    [architect_system], which the repository does not contain, and
    print or save what they measured.

    ** Files and what they model

    - [Prelude] (this file): the Python exceptions the modelled code
      raises, the result type [PyResult] with its bind notation
      [x <- c ;; k] in [py_scope], and Python's true division [py_div]
      ([ZeroDivisionError] on a zero divisor).  It also holds [py_len],
      the shared lemmas on lists, options and bit operations, the
      tactics [zlia], [by_decide] and [py_simpl], and the hint databases
      [pysimpl] and [pyhints].
    - [PyList]: Module [Range] is CPython's [range(start, stop, step)],
      and Module [Slice] is [s[i:j]] with CPython's index adjustment.
    - [Blocks]: the block loop of [process_wikipedia_complete]
      (legal_verification.py 129-133), a [fold_left] of [block_step].
    - [Dedup]: the compressor interface.  Its code is not in the
      repository, so the call (lines 139-142) is the class [Compressor].
      The laws the caller relies on are [CompressorLaws], and the spec's
      contract is [DedupSpec].  The spec's seen-set algorithm over a
      [gset] ([deduplicate]) is an instance of all three.
    - [Utf8]: [bytes.decode('utf-8', errors='ignore')] as CPython's
      decoder runs it ([decode_ignore]), the strict decoder of a
      text-mode read ([decode_strict]), and an encoder for round trips.
    - [Wikipedia]: [process_wikipedia_complete] (lines 53-204).  The
      loop state is the record [LoopState].  One iteration is
      [chunk_step], the loop is [chunk_loop] (with fuel), and its
      relational form is [loop_step] and [reachable].  The whole method
      is [process_wikipedia_complete], including the missing-file and
      empty-file paths.
    - [PyIO]: the process as a state.  A [World] holds stdout, stdin,
      the file system (a [gmap] from path to bytes), the importable
      modules, the existing directories and the successive readings of
      [time.perf_counter()].  [IO A] is [World -> PyResult A * World], with stdpp's
      monad notation.  An exception keeps the world it was raised in,
      so what was printed before it stays printed.  The file defines
      [print], [input], [path_exists], [read_file], [open_read],
      [write_file] (with [FileNotFoundError] for a missing directory),
      [perf_counter], [import_module], [for] ([py_for]) and
      [try/except], each with the lemma that runs it, and [prints], the
      output of a computation that only prints.  [io_frame R c] says
      that every run of [c] relates its first and last worlds by the
      preorder [R]; [outputs] relates worlds that differ by printed
      lines and clock readings, and [same_fs] worlds with the same
      files.
    - [PyFormat]: [str] of an [int] and the format specs [','], ['.1f']
      and [',.0f'] on exact rationals, rounding half to even.  It also
      defines [', '.join] and ["="*70].  A Python [str] is a list of
      code points ([pystr]).
    - [Json]: Python values ([PyVal]), [d[k]] with its [KeyError],
      truth values ([py_truthy]), and
      CPython's JSON encoder: [ensure_ascii] escaping, [sort_keys] and
      the [indent] layout.  [json]'s string scanner is defined as well,
      to state the round trip.
    - [Report]: the data of [__init__], the results dict of
      [process_wikipedia_complete] (lines 183-202), and
      [generate_cryptographic_proof] (lines 206-223).
    - [Letter]: [generate_legal_documentation] (lines 225-328): every
      print, both f-strings, the division by the performance factor, the
      report dict and its [json.dump] to a file.
    - [WikiIO]: [process_wikipedia_complete] as the program runs it,
      in [IO]: the session hash, the header, the nine lines and five
      [time.perf_counter()] readings of each chunk, and the results.
    - [Run]: [run] and [main] (lines 330-407), which compose the
      components: [run] calls [WikiIO]'s method, so the world's clock
      and everything the method prints are part of a run.  The texts of
      [datetime], [os.urandom] and [time.time()] and the machine are a
      record of inputs ([RunEnv]).
    - [JsonLoad]: [json.load] and [json.loads] as CPython's C scanner
      runs them: [scan_once], [object_members] and [array_elements]
      with fuel, numbers, constants, duplicate keys, the byte-order-mark
      and extra-data errors, strict UTF-8 and universal newlines.
    - [Scripts]: [verify()] of [verify_environment.py], run in the
      module's global names, and [download_wikipedia].
    - [Mongo]: every function of [test_mongodb_complete.py].  The four
      functions of [architect_system] are the record [Architect];
      [import_or] is the [try/except ImportError] around their import.
    - [Elastic]: [test_elasticsearch_complete.py]; [main] runs in the
      module's global names, which lack [load_test_data] and
      [generate_proof].  [Redis]: [test_redis_complete.py], whose
      globals lack [time], and [test_complex_joins] of
      [test_postgresql_complete.py].  [AllDatabases]:
      [destroy_all()] of [test_all_databases.py], with Python's [*] on
      ints and strs.

    ** What the theorems show

    - Wikipedia: with every chunk decoding to non-empty text, the loop
      runs over the whole file.  It ends at [offset = file_size] after
      [ceil(file_size / chunk_size)] chunks, and the totals are the sums
      of the per-chunk counts.  A chunk that decodes to nothing raises
      [ZeroDivisionError].  Every reachable state satisfies [loop_inv],
      and every reachable state before the end has a successor further
      on.  The final ratio lies in [0, 100] (for a compressor that keeps
      at most the blocks it is given), and the chunks partition the
      file.  A loop that returns has read the whole file, numbers its
      reports [1..n], ends with totals equal to the sums of the
      reported counts, and reports [100%] progress last.  A chunk
      boundary after the lead byte of a multi-byte character loses
      that character, for any text around it.
    - Blocks: the blocks concatenate back to the text and have the right
      shape and count.  [range] fails for size [0] and yields nothing
      below it.
    - Dedup: the seen-set compressor refines the spec's contract.  Its
      output is duplicate-free, keeps first-occurrence order, and is
      idempotent.
    - Utf8: decoding inverts encoding on valid code points, and the
      decoded code points are valid.  Decoding distributes over a split
      at a character boundary; after a lead byte, both pieces drop the
      character.
    - Json: strings round-trip through the encoder and the scanner.
      With [sort_keys] the text does not depend on insertion order, and
      the output is printable ASCII.  PyFormat: [str(int)] parses back.
    - Report: on a results dict the proof raises nothing and hashes the
      entries in sorted key order.  The hash depends on the timestamp,
      although the letter calls it reproducible.
    - Letter: a zero performance factor raises [ZeroDivisionError]
      midway through the letter, before the report is saved.  Otherwise
      the letter is printed and the report is written.  The printed cost
      reduction is below 100% and is negative for a factor below 1.
    - WikiIO: the [IO] method returns the results of [Wikipedia]'s
      model, with the model's timer inputs read off the clock, raises
      exactly when the model raises, and otherwise only prints and
      reads the clock.  Its output contains the model's report of every
      chunk, in order.
    - Run: a missing file ends [run] after its preamble and the
      method's error line.  A run on a clock that advances processes
      the file, saves the report (the only file it writes) and prints
      its closing text.  A run on a clock that does not advance
      prints the method's lines and the proof hash and then ends in
      [ZeroDivisionError], with no file written.
    - Scripts: [verify()] raises [NameError], because [os] is never
      imported.  With [os] it runs to the end.  [download_wikipedia]
      only prints.
    - JsonLoad: [json.load] reads back what [json.dump] writes, for
      values without floats whose dict keys are distinct.  Two lemmas
      show the scanner's fuel is a device of the model: the fuel [loads]
      gives is never exhausted, and more fuel gives the same result.
    - Mongo: a missing data file ends [main] after the banner and the
      load lines.  Without [architect_system] every test only prints
      its heading, and [main] raises [FileNotFoundError] after printing
      its proof hash unless a [results] directory exists; with one it
      saves the proof.  The insert loop hands every document to
      [bulk_insert] once, in order, in batches of at most 100000.  A
      clock that does not advance makes the insert test raise
      [ZeroDivisionError].  [load_test_data] reads back a file written
      by [json.dump].
    - Elastic, Redis: [main] raises [NameError] at [load_test_data];
      [test_redis_operations] returns [None] or raises [NameError]
      before any operation.  AllDatabases: [destroy_all] prints the
      text claims repeated a thousand times.

    ** Choices and bounds

    Numbers that Python computes as floats are exact rationals [Q], so
    float rounding is not modelled.  Python integers are unbounded and
    are [Z] without wrap-around.  The chunk size is a parameter: the
    code's value is [code_chunk_size = 1 GiB], and the theorems hold for
    any positive size.  In [Wikipedia] the timers are inputs: [ptime n]
    is the processing time of chunk [n], and [elapsed] is the total;
    [WikiIO] reads both off the world's clock, five readings per chunk
    ([chunk_ptime]), and [Run] runs that method.

    [chunk_loop] takes fuel.  The method gives it [file_size]
    iterations, which is enough because every iteration moves the
    offset forward by at least one byte; the loop theorems prove that
    the loop ends before the fuel runs out.  [digits] takes
    [log2 n + 1] steps of fuel, which is at least the number of decimal
    digits.

    [JsonLoad.scan_once] takes fuel too.  [loads] gives twice the text
    length plus one: an array element is scanned without consuming a
    character first, and every other call consumes at least one, so the
    fuel bounds twice the remaining length ([scan_progress]).

    The private module [architect_system] is a record of [IO]
    computations ([Mongo.Architect], [Elastic.SearchSystem],
    [Redis.KV]); a theorem about a run with the module states what it
    assumes of them, such as [Mongo.clock_free].  The two readings of
    [datetime.now().isoformat()] and [__file__] are inputs of
    [Mongo.main].

    Four library functions are section variables, because their output
    does not affect the theorems' claims:
    - [float.__repr__] ([float_repr]): shortest round-trip printing of
      doubles;
    - [str()] of a container ([container_str]): no replacement field of
      the program formats one;
    - [hashlib.sha256(...).hexdigest()] ([sha256_hex]): the theorems
      quantify over every hash function;
    - [float(text)] ([float_of_str]) for the JSON numbers with a
      fraction or an exponent.

    ** Not modelled

    - [gc.collect()] and [del], which have no observable effect; the
      text of [os.urandom(32).hex()] is an input.
    - The behaviour of [architect_system], which is not in the
      repository: its functions are parameters.
    - The interpreter's recursion limit in [json.loads] (about a
      thousand nested containers), and float rounding of the timing
      ratios.
    - The module-level import of [ringcompression1_enhanced] (line 17),
      which fails in this repository: the development assumes the
      module is present and models it by the class [Compressor].
    - Monotonicity of [time.perf_counter()]: the clock is any sequence
      of readings, and the theorems that depend on it state what they
      assume of it. *)

From stdpp Require Export base list gmap.
From Stdlib Require Export ZArith QArith Lia.

Declare Scope py_scope.
Delimit Scope py_scope with py.

Create HintDb pyhints.
Create Rewrite HintDb pysimpl.

(** ** Python exceptions and results *)

(** The exceptions that the modelled code can raise. *)
Inductive PyExc :=
| ValueError         (** [range()] with a zero step *)
| ZeroDivisionError  (** [x / 0] *)
| ImportError        (** a missing module, e.g. [architect_system] *)
| KeyError           (** [d[k]] for a key [d] does not hold *)
| TypeError          (** an operation on a value of the wrong type *)
| NameError          (** a name bound neither globally nor as a builtin *)
| EOFError           (** [input()] at the end of standard input *)
| FileNotFoundError  (** [open()] of a missing file, or in a missing directory *)
| UnicodeDecodeError (** strict UTF-8 decoding of invalid bytes *)
| JSONDecodeError    (** [json.loads] of a text that is not one JSON value *)
| RecursionError.    (** nesting deeper than the interpreter's stack *)

#[export] Instance PyExc_eq_dec : EqDecision PyExc.
Proof. solve_decision. Defined.

(** A computation that returns a value or raises an exception. *)
Inductive PyResult (A : Type) : Type :=
| Ok (a : A)
| Raise (e : PyExc).
Arguments Ok {A} a.
Arguments Raise {A} e.

Definition py_bind {A B} (c : PyResult A) (k : A -> PyResult B) : PyResult B :=
  match c with
  | Ok a => k a
  | Raise e => Raise e
  end.

Definition py_map {A B} (f : A -> B) (c : PyResult A) : PyResult B :=
  py_bind c (fun a => Ok (f a)).

Notation "x <- c ;; k" := (py_bind c (fun x => k))
  (at level 60, c at next level, right associativity) : py_scope.

Definition is_ok {A} (c : PyResult A) : bool :=
  match c with Ok _ => true | Raise _ => false end.

(** Python's true division [a / b] on numbers: a float, or
    [ZeroDivisionError] when [b] is zero. *)
Definition py_div (a b : Q) : PyResult Q :=
  if Qeq_bool b 0 then Raise ZeroDivisionError else Ok (a / b).

(** Python's [len] as a Python [int]. *)
Definition py_len {A} (l : list A) : Z := Z.of_nat (length l).

(** ** Shared lemmas *)

Lemma py_bind_Ok {A B} (a : A) (k : A -> PyResult B) : py_bind (Ok a) k = k a.
Proof. reflexivity. Qed.

Lemma py_bind_Raise {A B} e (k : A -> PyResult B) : py_bind (Raise e) k = Raise e.
Proof. reflexivity. Qed.

Lemma py_bind_Ok_inv {A B} (c : PyResult A) (k : A -> PyResult B) b :
  py_bind c k = Ok b -> exists a, c = Ok a /\ k a = Ok b.
Proof. destruct c; simpl; [eauto | discriminate]. Qed.

Lemma Ok_pair_fst {A B} (a c : A) (b d : B) : Ok (a, b) = Ok (c, d) -> a = c.
Proof. intros H. by injection H. Qed.

Lemma py_div_nonzero a b : ~ (b == 0)%Q -> py_div a b = Ok (a / b).
Proof.
  intros Hb. unfold py_div. destruct (Qeq_bool b 0) eqn:E; [|reflexivity].
  apply Qeq_bool_eq in E. contradiction.
Qed.

Lemma py_div_zero a b : (b == 0)%Q -> py_div a b = Raise ZeroDivisionError.
Proof.
  intros Hb. unfold py_div. apply Qeq_bool_iff in Hb. now rewrite Hb.
Qed.

(** A division that returns had a non-zero divisor. *)
Lemma py_div_Ok_nonzero a b q : py_div a b = Ok q -> ~ (b == 0)%Q.
Proof. unfold py_div. intros Hd Hb. apply Qeq_bool_iff in Hb. by rewrite Hb in Hd. Qed.

Lemma py_len_nonneg {A} (l : list A) : (0 <= py_len l)%Z.
Proof. unfold py_len. lia. Qed.

Lemma py_len_app {A} (l1 l2 : list A) : py_len (l1 ++ l2) = (py_len l1 + py_len l2)%Z.
Proof. unfold py_len. rewrite length_app. lia. Qed.

(** [Z.of_nat] of a positive count, as a rational, is not zero. *)
Lemma inject_Z_pos_nonzero (z : Z) : (0 < z)%Z -> ~ (inject_Z z == 0)%Q.
Proof.
  intros Hz Heq. unfold Qeq in Heq. simpl in Heq. lia.
Qed.

(** A ratio [u / n] of counts with [0 <= u <= n], [0 < n] lies in [0, 1]. *)
Lemma Qdiv_counts_bounds (u n : Z) :
  (0 <= u)%Z -> (u <= n)%Z -> (0 < n)%Z ->
  (0 <= inject_Z u / inject_Z n <= 1)%Q.
Proof.
  intros Hu Hun Hn.
  assert (Hq : (0 < inject_Z n)%Q)
    by (change 0%Q with (inject_Z 0); rewrite <- Zlt_Qlt; exact Hn).
  split.
  - apply Qle_shift_div_l; [exact Hq|]. rewrite Qmult_0_l.
    change 0%Q with (inject_Z 0). rewrite <- Zle_Qle. exact Hu.
  - apply Qle_shift_div_r; [exact Hq|]. rewrite Qmult_1_l.
    rewrite <- Zle_Qle. exact Hun.
Qed.

(** A filter that keeps every element is the identity. *)
Lemma filter_Forall_id {A} (P : A -> Prop) `{!forall x, Decision (P x)} (l : list A) :
  Forall P l -> filter P l = l.
Proof.
  induction 1 as [|x l Hx _ IH]; [done|].
  rewrite filter_cons. case_decide; [by rewrite IH | contradiction].
Qed.

(** The sum of [f] over a list, in [Z]. *)
Definition sumZ {A} (f : A -> Z) (l : list A) : Z := foldr (fun x acc => (f x + acc)%Z) 0%Z l.

Lemma sumZ_cons {A} (f : A -> Z) x l : sumZ f (x :: l) = (f x + sumZ f l)%Z.
Proof. reflexivity. Qed.

(** Induction on lists that may recurse on any shorter list. *)
Lemma list_length_ind {A} (P : list A -> Prop) :
  (forall l, (forall l', (length l' < length l)%nat -> P l') -> P l) -> forall l, P l.
Proof.
  intros H l. remember (length l) as n eqn:Hn. revert l Hn.
  induction n as [n IH] using lt_wf_ind. intros l ->. apply H.
  intros l' Hl'. by apply (IH (length l')).
Qed.

(** Non-empty pieces that concatenate to nothing: there are none. *)
Lemma concat_nil_nonempty {A} (l : list (list A)) :
  Forall (fun b => b <> []) l -> concat l = [] -> l = [].
Proof.
  destruct 1 as [|b l Hb _]; [done|]. simpl. intros Hc.
  apply app_eq_nil in Hc as [-> _]. contradiction.
Qed.

(** Stdlib's [map] under stdpp's list lookup. *)
Lemma lookup_map {A B} (f : A -> B) (l : list A) (i : nat) :
  map f l !! i = f <$> (l !! i).
Proof. revert i. induction l as [|x l IH]; intros [|i]; simpl; auto. Qed.

(** ** Integers and bit operations *)

(** [lia] after naming quotients and remainders by constants. *)
Ltac zlia := Z.div_mod_to_equations; lia.

(** Case on every integer comparison in the goal, dropping the
    branches [lia] refutes. *)
Ltac zbool_cases :=
  repeat match goal with
  | |- context [Z.ltb ?a ?b] => destruct (Z.ltb_spec a b); try (exfalso; zlia)
  | |- context [Z.leb ?a ?b] => destruct (Z.leb_spec a b); try (exfalso; zlia)
  | |- context [Z.eqb ?a ?b] => destruct (Z.eqb_spec a b); try (exfalso; zlia)
  end.

(** [a lor b] is [a + b] when [b] fits in the [n] low bits that [a]
    leaves zero. *)
Lemma lor_add_low (a b n : Z) :
  (0 <= n)%Z -> (0 <= b < 2 ^ n)%Z -> (a mod 2 ^ n = 0)%Z -> Z.lor a b = (a + b)%Z.
Proof.
  intros Hn Hb Ha.
  assert (Hland : Z.land a b = 0%Z).
  { apply Z.bits_inj'. intros i Hi. rewrite Z.land_spec, Z.bits_0.
    destruct (Z.lt_ge_cases i n).
    - rewrite (Z.div_mod a (2 ^ n)) by lia. rewrite Ha, Z.add_0_r, Z.mul_comm.
      rewrite Z.mul_pow2_bits_low by lia. done.
    - rewrite <- (Z.mod_small b (2 ^ n)) by lia.
      rewrite Z.mod_pow2_bits_high by lia. apply andb_false_r. }
  rewrite Z.add_nocarry_lxor by exact Hland. by rewrite Z.lxor_lor.
Qed.

Lemma shiftr_div (a n : Z) : (0 <= n)%Z -> Z.shiftr a n = (a / 2 ^ n)%Z.
Proof. apply Z.shiftr_div_pow2. Qed.

Lemma shiftl_mul (a n : Z) : (0 <= n)%Z -> Z.shiftl a n = (a * 2 ^ n)%Z.
Proof. apply Z.shiftl_mul_pow2. Qed.

Lemma land_low_mod (a n : Z) : (0 <= n)%Z -> Z.land a (2 ^ n - 1) = (a mod 2 ^ n)%Z.
Proof. intros Hn. rewrite <- Z.land_ones by done. f_equal. rewrite Z.ones_equiv. lia. Qed.

#[export] Hint Rewrite @py_bind_Ok @py_bind_Raise @sumZ_cons : pysimpl.
#[export] Hint Resolve py_len_nonneg : pyhints.

(** Prove a decidable proposition about closed terms by evaluation. *)
Ltac by_decide := apply (bool_decide_unpack _); vm_compute; exact I.

(** Unfold the result monad after a [simpl]. *)
Ltac py_simpl := repeat (simpl; autorewrite with pysimpl in *).
