(* ===== verification/PyList.v ===== *)
(** * PyList: CPython's [range] and sequence slicing

    The two loops of the program iterate [for i in range(0, n, k)] and
    take [seq[i:i+k]]: the block loop of [process_wikipedia_complete]
    (src/legal_verification.py 130-131) and the batch loop of
    [test_insert_performance] (src/test_mongodb_complete.py 101-102).
    This file models the two library operations as CPython implements
    them ([compute_range_length] and [PySlice_AdjustIndices]) and proves
    the facts the loops need: the elements of a range, its length, and
    that consecutive slices of width [k] taken at the points of the
    range put the sequence back together. *)

From S2P Require Import Prelude.

Local Open Scope Z_scope.

Module Range.

(** Number of elements of [range(start, stop, step)] for a nonzero
    step, as CPython computes it. *)
Definition range_length (start stop step : Z) : Z :=
  if 0 <? step then
    if start <? stop then (stop - start - 1) / step + 1 else 0
  else
    if stop <? start then (start - stop - 1) / (- step) + 1 else 0.

(** The [k]-th element is [start + k * step]. *)
Definition range_items (start step : Z) (count : nat) : list Z :=
  map (fun k => start + Z.of_nat k * step) (seq 0 count).

(** [range(start, stop, step)]: [ValueError] for a zero step. *)
Definition py_range (start stop step : Z) : PyResult (list Z) :=
  if step =? 0 then Raise ValueError
  else Ok (range_items start step (Z.to_nat (range_length start stop step))).

Lemma range_items_S start step m :
  range_items start step (S m) = start :: range_items (start + step) step m.
Proof.
  unfold range_items. simpl. f_equal; [lia|].
  rewrite <- seq_shift, map_map. apply map_ext. intros k. lia.
Qed.

Lemma range_length_pos_nonneg start stop step :
  0 < step -> 0 <= range_length start stop step.
Proof.
  intros Hs. unfold range_length.
  destruct (0 <? step) eqn:E1; [|lia].
  destruct (start <? stop) eqn:E2; [|lia].
  apply Z.ltb_lt in E2. pose proof (Z.div_pos (stop - start - 1) step). lia.
Qed.

(** The range covers [stop]: its last point plus one step reaches it. *)
Lemma range_length_cover start stop step :
  0 < step -> stop <= start + range_length start stop step * step.
Proof.
  intros Hs. unfold range_length.
  destruct (0 <? step) eqn:E1; [|lia].
  destruct (start <? stop) eqn:E2; [|apply Z.ltb_ge in E2; lia].
  pose proof (Z.mod_pos_bound (stop - start - 1) step Hs).
  pose proof (Z.div_mod (stop - start - 1) step ltac:(lia)). nia.
Qed.

(** Every point of the range but the ones past [stop] is in it. *)
Lemma range_length_inside start stop step (k : Z) :
  0 < step -> 0 <= k < range_length start stop step -> start + k * step < stop.
Proof.
  intros Hs Hk. unfold range_length in Hk.
  destruct (0 <? step) eqn:E1; [|lia].
  destruct (start <? stop) eqn:E2; [|lia].
  pose proof (Z.mod_pos_bound (stop - start - 1) step Hs).
  pose proof (Z.div_mod (stop - start - 1) step ltac:(lia)). nia.
Qed.

Lemma elem_of_range_items start step count x :
  x ∈ range_items start step count <->
  exists k, (k < count)%nat /\ x = start + Z.of_nat k * step.
Proof.
  unfold range_items. rewrite list_elem_of_In, in_map_iff. split.
  - intros (k & <- & Hk). apply in_seq in Hk. exists k. split; [lia|done].
  - intros (k & Hk & ->). exists k. split; [done|]. apply in_seq. lia.
Qed.

End Range.

Module Slice.

(** [PySlice_AdjustIndices] for one bound: negative indices count from
    the end, and the result is clamped to [0, len]. *)
Definition adjust_index (len i : Z) : Z :=
  if i <? 0 then Z.max 0 (i + len) else Z.min i len.

(** [seq[i:j]] (step 1) on a list or a string. *)
Definition py_slice {A} (l : list A) (i j : Z) : list A :=
  let n := py_len l in
  let a := adjust_index n i in
  let b := adjust_index n j in
  take (Z.to_nat (b - a)) (drop (Z.to_nat a) l).

Lemma adjust_index_nonneg len i : 0 <= len -> 0 <= i -> adjust_index len i = Z.min i len.
Proof. intros. unfold adjust_index. destruct (i <? 0) eqn:E; [apply Z.ltb_lt in E; lia | done]. Qed.

(** For nonnegative bounds, a slice is a [take] of a [drop]. *)
Lemma py_slice_nonneg {A} (l : list A) (i k : Z) :
  0 <= i -> 0 <= k -> py_slice l i (i + k) = take (Z.to_nat k) (drop (Z.to_nat i) l).
Proof.
  intros Hi Hk. unfold py_slice.
  rewrite !adjust_index_nonneg by (try apply py_len_nonneg; lia).
  unfold py_len. destruct (Z.le_gt_cases (Z.of_nat (length l)) i).
  - rewrite !drop_ge by lia. by rewrite !take_nil.
  - rewrite (Z.min_l i) by lia.
    destruct (Z.le_gt_cases (i + k) (Z.of_nat (length l))).
    + rewrite (Z.min_l (i + k)) by lia. f_equal. lia.
    + rewrite (Z.min_r (i + k)) by lia. rewrite !take_ge; [done| |]; rewrite length_drop; lia.
Qed.

Lemma length_py_slice_le {A} (l : list A) (i k : Z) :
  0 <= i -> 0 <= k -> (length (py_slice l i (i + k)) <= Z.to_nat k)%nat.
Proof. intros. rewrite py_slice_nonneg by done. rewrite length_take. lia. Qed.

(** A slice that starts inside the list is not empty. *)
Lemma py_slice_nonempty {A} (l : list A) (i k : Z) :
  0 <= i -> 0 < k -> i < py_len l -> py_slice l i (i + k) <> [].
Proof.
  intros Hi Hk Hl Heq. rewrite py_slice_nonneg in Heq by lia.
  apply (f_equal length) in Heq. rewrite length_take, length_drop in Heq.
  unfold py_len in Hl. simpl in Heq. lia.
Qed.

(** Consecutive slices of width [k] from [a] on put back [drop a l],
    once the points reach the end of the list. *)
Lemma concat_slices {A} (l : list A) (k : Z) (m : nat) (a : Z) :
  0 < k -> 0 <= a -> py_len l <= a + Z.of_nat m * k ->
  concat (map (fun i => py_slice l i (i + k)) (Range.range_items a k m))
  = drop (Z.to_nat a) l.
Proof.
  unfold py_len. revert a. induction m as [|m IH]; intros a Hk Ha Hcov.
  - simpl. rewrite drop_ge; [done|lia].
  - rewrite Range.range_items_S. simpl.
    rewrite IH by lia. rewrite py_slice_nonneg by lia.
    replace (Z.to_nat (a + k)) with (Z.to_nat a + Z.to_nat k)%nat by lia.
    by rewrite <- drop_drop, take_drop.
Qed.

End Slice.
