(* ===== verification/Blocks.v ===== *)
(** * Blocks: cutting a chunk's text into fixed-size blocks

    Models lines 129-133 of src/legal_verification.py:
<<
        blocks = []
        for i in range(0, len(chunk_text), block_size):
            block = chunk_text[i:i+block_size]
            if block:
                blocks.append(block)
>>
    A text is a Python [str], a list of code points ([list Z]).  The
    loop is a [fold_left] of its body over the [range], in order, and
    the [if block] guard is kept.  The theorems show that for a positive
    block size the blocks put the text back together, that all blocks
    but the last have exactly [block_size] characters, how many there
    are, and what happens for the configured size 1 and for sizes
    [0] (ValueError from [range]) and below (no blocks at all). *)

From S2P Require Import Prelude PyList.

Local Open Scope Z_scope.
Local Open Scope py_scope.

Module Blocks.

Import Range Slice.

(** A Python [str]: its code points. *)
Abbreviation text := (list Z).

(** One iteration of the loop body at index [i]. *)
Definition block_step (chunk_text : text) (block_size : Z)
    (blocks : list text) (i : Z) : list text :=
  let block := py_slice chunk_text i (i + block_size) in
  if bool_decide (block <> []) then blocks ++ [block] else blocks.

(** The whole loop, starting from [blocks = []]. *)
Definition make_blocks (chunk_text : text) (block_size : Z) : PyResult (list text) :=
  idx <- py_range 0 (py_len chunk_text) block_size ;;
  Ok (fold_left (block_step chunk_text block_size) idx []).

(** The number of blocks a positive size yields: [ceil(len / size)]. *)
Definition block_count (n block_size : Z) : Z := (n + block_size - 1) / block_size.

(** ** The loop as a filter of a map *)

Lemma fold_block_step (chunk_text : text) bs idx acc :
  fold_left (block_step chunk_text bs) idx acc
  = acc ++ filter (fun b => b <> []) (map (fun i => py_slice chunk_text i (i + bs)) idx).
Proof.
  revert acc. induction idx as [|i idx IH]; intros acc; simpl.
  - by rewrite app_nil_r.
  - rewrite IH. unfold block_step. rewrite filter_cons.
    case_bool_decide; case_decide; try done; by rewrite <- app_assoc.
Qed.

Section PositiveSize.

Context (chunk_text : text) (block_size : Z).
Hypothesis Hbs : 0 < block_size.

Let n := py_len chunk_text.
Let m := range_length 0 n block_size.
Let slices := map (fun i => py_slice chunk_text i (i + block_size))
                  (range_items 0 block_size (Z.to_nat m)).

Lemma slices_nonempty : Forall (fun b => b <> []) slices.
Proof.
  apply Forall_forall. intros b Hb. apply list_elem_of_In in Hb.
  unfold slices in Hb. apply in_map_iff in Hb as (i & <- & Hi).
  apply list_elem_of_In, elem_of_range_items in Hi as (k & Hk & ->).
  apply py_slice_nonempty; [nia | lia |].
  pose proof (range_length_inside 0 n block_size (Z.of_nat k) Hbs). fold m in H. lia.
Qed.

(** For a positive size the loop computes exactly the slices at the
    points of the range; the [if block] guard never drops one. *)
Lemma make_blocks_slices : make_blocks chunk_text block_size = Ok slices.
Proof.
  unfold make_blocks, py_range. rewrite (proj2 (Z.eqb_neq _ _)) by lia. py_simpl.
  rewrite fold_block_step. simpl. f_equal. apply filter_Forall_id, slices_nonempty.
Qed.

Lemma concat_slices_text : concat slices = chunk_text.
Proof.
  unfold slices. rewrite concat_slices; [done | lia | lia |].
  pose proof (range_length_cover 0 n block_size Hbs).
  pose proof (range_length_pos_nonneg 0 n block_size Hbs). fold m in H, H0. lia.
Qed.

Lemma length_slices : py_len slices = m.
Proof.
  unfold py_len, slices, range_items. rewrite !length_map, length_seq.
  pose proof (range_length_pos_nonneg 0 n block_size Hbs). fold m in H. lia.
Qed.

Lemma lookup_slices (k : nat) b :
  slices !! k = Some b ->
  b = take (Z.to_nat block_size) (drop (Z.to_nat (Z.of_nat k * block_size)) chunk_text)
  /\ Z.of_nat k < m.
Proof.
  unfold slices, range_items. rewrite !lookup_map. intros Hk.
  destruct (seq 0 (Z.to_nat m) !! k) as [j|] eqn:Ej; [|discriminate]. simpl in Hk.
  apply lookup_seq in Ej as [-> Hj]. injection Hk as <-. split; [|lia].
  by rewrite (py_slice_nonneg chunk_text (0 + _) block_size) by lia.
Qed.

Lemma slices_shape (k : nat) b :
  slices !! k = Some b ->
  (0 < length b <= Z.to_nat block_size)%nat /\
  ((S k < length slices)%nat -> length b = Z.to_nat block_size).
Proof.
  intros Hk. pose proof (lookup_slices k b Hk) as [-> Hkm].
  pose proof (range_length_inside 0 n block_size (Z.of_nat k) Hbs) as Hin.
  fold m in Hin. pose proof (length_slices) as Hlen. unfold py_len in Hlen, n.
  rewrite length_take, length_drop. split; [lia|].
  intros HSk. pose proof (range_length_inside 0 n block_size (Z.of_nat (S k)) Hbs).
  fold m in H. unfold n, py_len in H. nia.
Qed.

Lemma slices_count : py_len slices = block_count n block_size.
Proof.
  rewrite length_slices. unfold m, range_length, block_count.
  pose proof (py_len_nonneg chunk_text). fold n in H.
  destruct (0 <? block_size) eqn:E; [|apply Z.ltb_ge in E; lia].
  destruct (0 <? n) eqn:E2.
  - replace (n + block_size - 1) with ((n - 0 - 1) + 1 * block_size) by lia.
    rewrite Z.div_add by lia. lia.
  - apply Z.ltb_ge in E2. replace n with 0 by lia. rewrite Z.div_small; lia.
Qed.

End PositiveSize.

(** [block_count n 1 = n]: one block per character. *)
Lemma block_count_1 n : block_count n 1 = n.
Proof. unfold block_count. rewrite Z.div_1_r. lia. Qed.

(** Blocks of one character that concatenate to a text are its
    characters. *)
Lemma unit_blocks_chars (bl : list text) :
  Forall (fun b => length b = 1%nat) bl -> bl = map (fun c => [c]) (concat bl).
Proof.
  induction 1 as [|b bl Hb _ IH]; [done|].
  destruct b as [|c [|]]; try discriminate. simpl. by rewrite IH at 1.
Qed.

(** ** Properties of the block loop *)

(** C13: for a positive block size the loop succeeds and the blocks,
    concatenated in order, give back the chunk's text. *)
Theorem make_blocks_roundtrip (chunk_text : text) (block_size : Z) :
  0 < block_size ->
  exists blocks, make_blocks chunk_text block_size = Ok blocks /\ concat blocks = chunk_text.
Proof.
  intros Hbs. eexists. split; [apply make_blocks_slices | apply concat_slices_text]; done.
Qed.

(** C14: every block is non-empty and at most [block_size] long, and
    every block but the last is exactly [block_size] long. *)
Theorem make_blocks_shape (chunk_text : text) (block_size : Z) blocks :
  0 < block_size -> make_blocks chunk_text block_size = Ok blocks ->
  forall k b, blocks !! k = Some b ->
  (0 < length b <= Z.to_nat block_size)%nat /\
  ((S k < length blocks)%nat -> length b = Z.to_nat block_size).
Proof.
  intros Hbs Hmk. rewrite make_blocks_slices in Hmk by done. injection Hmk as <-.
  intros k b. by apply slices_shape.
Qed.

(** A positive block size yields [ceil(len(chunk_text) / block_size)]
    blocks. *)
Theorem make_blocks_count (chunk_text : text) (block_size : Z) blocks :
  0 < block_size -> make_blocks chunk_text block_size = Ok blocks ->
  py_len blocks = block_count (py_len chunk_text) block_size.
Proof.
  intros Hbs Hmk. rewrite make_blocks_slices in Hmk by done. injection Hmk as <-.
  by apply slices_count.
Qed.

(** With the configured [block_size = 1] every block is one
    character: the blocks are the characters of the text, in order. *)
Theorem make_blocks_unit (chunk_text : text) :
  make_blocks chunk_text 1 = Ok (map (fun c => [c]) chunk_text).
Proof.
  rewrite make_blocks_slices by lia. f_equal.
  rewrite <- (concat_slices_text chunk_text 1) at 2 by lia.
  apply unit_blocks_chars, Forall_lookup. intros k b Hk.
  pose proof (slices_shape chunk_text 1 ltac:(lia) k b Hk). lia.
Qed.

(** [block_size = 0] makes [range] raise [ValueError]. *)
Theorem make_blocks_zero (chunk_text : text) :
  make_blocks chunk_text 0 = Raise ValueError.
Proof. reflexivity. Qed.

(** A negative [block_size] gives an empty range, hence no blocks at
    all, whatever the text. *)
Theorem make_blocks_negative (chunk_text : text) (block_size : Z) :
  block_size < 0 -> make_blocks chunk_text block_size = Ok [].
Proof.
  intros Hbs. unfold make_blocks, py_range, range_length.
  rewrite (proj2 (Z.eqb_neq _ _)) by lia. py_simpl.
  destruct (0 <? block_size) eqn:E; [apply Z.ltb_lt in E; lia|].
  destruct (py_len chunk_text <? 0) eqn:E2; [|done].
  pose proof (py_len_nonneg chunk_text). apply Z.ltb_lt in E2. lia.
Qed.

(** ** Witnesses *)

Lemma make_blocks_roundtrip_witness :
  exists blocks, make_blocks [104; 105; 33] 2 = Ok blocks /\ concat blocks = [104; 105; 33].
Proof. apply (make_blocks_roundtrip [104; 105; 33] 2). lia. Defined.

Lemma make_blocks_shape_witness :
  let b : text := [104; 105] in
  Nat.lt 0 (length b) /\ Nat.le (length b) (Z.to_nat 2) /\
  (Nat.lt 1 (length [b; [33]]) -> length b = Z.to_nat 2).
Proof.
  intros b. destruct (make_blocks_shape [104; 105; 33] 2 [b; [33]] ltac:(lia)
    ltac:(reflexivity) 0 b ltac:(reflexivity)) as [Hb Hlast].
  split; [lia|]. split; [lia|]. exact Hlast.
Defined.

Lemma make_blocks_count_witness :
  py_len [[104; 105]; [33]] = block_count (py_len [104; 105; 33]) 2.
Proof. apply (make_blocks_count [104; 105; 33] 2); [lia | reflexivity]. Defined.

Lemma make_blocks_negative_witness : make_blocks [104; 105; 33] (-1) = Ok [].
Proof. apply (make_blocks_negative [104; 105; 33] (-1)). lia. Defined.

End Blocks.
