(* ===== verification/Dedup.v ===== *)
(** * Dedup: the block deduplicator behind [optimize_for_text_files]

    [process_wikipedia_complete] calls
    [compressor.optimize_for_text_files(blocks, target_time_ms=...)]
    (src/legal_verification.py 139-142) on an [EnhancedRingCompression]
    object imported from [ringcompression1_enhanced], a module that is
    not in the repository.  The caller only uses [len(compressed)].

    This file states what the caller may rely on as the class
    [Compressor] (the operation) with [CompressorLaws] (the output is
    no longer than the input and holds only input blocks), and the
    spec's contract (section 4.1: distinct blocks in order of first
    appearance, with [count_input], [count_unique] and
    [elimination_ratio]) as [DedupSpec].  The spec's algorithm, a pass
    with a set of seen blocks, is [dedup_go] over a [gset]; it is proved
    equal to [first_occ_from], a reference that scans the list prefix,
    and it is an instance of both classes.  Everything here is modelled
    from the spec, as the code is not in the repository. *)

From S2P Require Import Prelude.

Local Open Scope Z_scope.

Module Dedup.

(** A block: a short text, i.e. a list of code points. *)
Abbreviation block := (list Z).

(** The [stats] the spec names. *)
Record Stats := mkStats {
  count_input : Z;
  count_unique : Z;
  elimination_ratio : Q
}.

(** [1 - count_unique / count_input], and [0] for no input. *)
Definition elimination_ratio_of (n u : Z) : Q :=
  if n =? 0 then 0%Q else (1 - inject_Z u / inject_Z n)%Q.

(** ** Interfaces *)

(** The operation the caller invokes: blocks and a time budget in
    milliseconds (advisory) to the kept blocks and the stats. *)
Class Compressor := {
  optimize_for_text_files : list block -> Z -> list block * Stats
}.

(** What the caller relies on: it never returns more blocks than it got,
    and only blocks it got. *)
Class CompressorLaws `{Compressor} := {
  compress_length : forall bs t,
    (length (optimize_for_text_files bs t).1 <= length bs)%nat;
  compress_incl : forall bs t x,
    x ∈ (optimize_for_text_files bs t).1 -> x ∈ bs
}.

(** ** The spec's algorithm: a pass with a set of seen blocks *)

Fixpoint dedup_go (seen : gset block) (bs : list block) : list block :=
  match bs with
  | [] => []
  | b :: rest =>
      if decide (b ∈ seen) then dedup_go seen rest
      else b :: dedup_go ({[b]} ∪ seen) rest
  end.

Definition deduplicate (bs : list block) : list block * Stats :=
  let u := dedup_go ∅ bs in
  (u, mkStats (py_len bs) (py_len u) (elimination_ratio_of (py_len bs) (py_len u))).

(** Reference: keep a block when it does not occur in the prefix
    already scanned. *)
Fixpoint first_occ_from (prefix : list block) (bs : list block) : list block :=
  match bs with
  | [] => []
  | b :: rest =>
      if decide (b ∈ prefix) then first_occ_from (prefix ++ [b]) rest
      else b :: first_occ_from (prefix ++ [b]) rest
  end.

(** The spec's contract, for any implementation. *)
Class DedupSpec `{Compressor} := {
  dedup_spec_first : forall bs t,
    (optimize_for_text_files bs t).1 = first_occ_from [] bs;
  dedup_spec_stats : forall bs t,
    let '(u, st) := optimize_for_text_files bs t in
    count_input st = py_len bs /\ count_unique st = py_len u /\
    elimination_ratio st = elimination_ratio_of (py_len bs) (py_len u)
}.

#[export] Instance seen_set_compressor : Compressor := {|
  optimize_for_text_files bs _ := deduplicate bs
|}.

(** ** Lemmas on the seen-set pass *)

Section SeenSet.

Implicit Types (seen : gset block) (bs : list block).

Lemma dedup_go_first_occ seen prefix bs :
  (forall x, x ∈ seen <-> x ∈ prefix) -> dedup_go seen bs = first_occ_from prefix bs.
Proof.
  revert seen prefix. induction bs as [|b bs IH]; intros seen prefix Hs; [done|].
  simpl. assert (Hs' : forall x, x ∈ ({[b]} ∪ seen) <-> x ∈ prefix ++ [b]).
  { intros x. rewrite elem_of_union, elem_of_singleton, elem_of_app, list_elem_of_singleton, Hs.
    tauto. }
  destruct (decide (b ∈ seen)) as [Hb|Hb]; destruct (decide (b ∈ prefix)) as [Hp|Hp];
    try (apply Hs in Hb || rewrite <- Hs in Hp); try contradiction.
  - apply IH. intros x. rewrite <- Hs'. set_solver.
  - f_equal. by apply IH.
Qed.

Lemma elem_of_dedup_go seen bs x :
  x ∈ dedup_go seen bs <-> x ∈ bs /\ x ∉ seen.
Proof.
  revert seen. induction bs as [|b bs IH]; intros seen; simpl.
  - rewrite elem_of_nil. tauto.
  - case_decide.
    + rewrite IH, elem_of_cons. split; [tauto|].
      intros [[->|?] ?]; [contradiction | tauto].
    + rewrite !elem_of_cons, IH, elem_of_union, elem_of_singleton. split.
      * intros [->|[? ?]]; [split; [left; done|done]|]. split; [right; done|tauto].
      * intros [[->|?] ?]; [left; done|].
        destruct (decide (x = b)); [left; done|right; tauto].
Qed.

Lemma NoDup_dedup_go seen bs : NoDup (dedup_go seen bs).
Proof.
  revert seen. induction bs as [|b bs IH]; intros seen; simpl; [constructor|].
  case_decide; [done|]. constructor; [|done].
  rewrite elem_of_dedup_go. set_solver.
Qed.

Lemma dedup_go_sublist seen bs : dedup_go seen bs `sublist_of` bs.
Proof.
  revert seen. induction bs as [|b bs IH]; intros seen; simpl; [done|].
  case_decide; [by apply sublist_cons | by apply sublist_skip].
Qed.

(** On duplicate-free input that avoids [seen], the pass keeps all. *)
Lemma dedup_go_NoDup_id seen bs :
  NoDup bs -> (forall x, x ∈ bs -> x ∉ seen) -> dedup_go seen bs = bs.
Proof.
  intros Hnd. revert seen. induction Hnd as [|b bs Hb Hnd IH]; intros seen Hs; [done|].
  simpl. rewrite decide_False by (apply Hs; set_solver).
  f_equal. apply IH. intros x Hx. rewrite elem_of_union, elem_of_singleton.
  intros [->|]; [done|]. apply (Hs x); set_solver.
Qed.

Lemma dedup_go_replicate_seen seen n v :
  v ∈ seen -> dedup_go seen (replicate n v) = [].
Proof. intros Hv. induction n as [|n IH]; simpl; [done|]. by rewrite decide_True. Qed.

(** Position of the first occurrence of [x] ([length l] if absent). *)
Fixpoint index_of (x : block) (l : list block) : nat :=
  match l with
  | [] => 0%nat
  | y :: r => if decide (y = x) then 0%nat else S (index_of x r)
  end.

Lemma dedup_go_order seen bs i j x y :
  (i < j)%nat -> dedup_go seen bs !! i = Some x -> dedup_go seen bs !! j = Some y ->
  (index_of x bs < index_of y bs)%nat.
Proof.
  revert seen i j. induction bs as [|b bs IH]; intros seen i j Hij Hi Hj; [done|].
  assert (Hnot : forall s z k, dedup_go s bs !! k = Some z -> b ∈ s -> b <> z).
  { intros s z k Hk Hb <-. apply list_elem_of_lookup_2, elem_of_dedup_go in Hk. tauto. }
  simpl in Hi, Hj |- *. case_decide as Hb.
  - destruct (decide (b = x)) as [E|_]; [by destruct (Hnot _ _ _ Hi Hb)|].
    destruct (decide (b = y)) as [E|_]; [by destruct (Hnot _ _ _ Hj Hb)|].
    specialize (IH seen i j Hij Hi Hj). lia.
  - destruct j as [|j]; [lia|]. simpl in Hj.
    destruct (decide (b = y)) as [E|_]; [by destruct (Hnot _ _ _ Hj ltac:(set_solver))|].
    destruct i as [|i]; simpl in Hi.
    + injection Hi as <-. rewrite decide_True by done. lia.
    + destruct (decide (b = x)) as [E|_]; [by destruct (Hnot _ _ _ Hi ltac:(set_solver))|].
      specialize (IH _ i j ltac:(lia) Hi Hj). lia.
Qed.

End SeenSet.

Lemma deduplicate_first_occ bs : (deduplicate bs).1 = first_occ_from [] bs.
Proof. apply dedup_go_first_occ. set_solver. Qed.

#[export] Instance seen_set_laws : @CompressorLaws seen_set_compressor.
Proof.
  split; intros bs t; simpl.
  - apply sublist_length, dedup_go_sublist.
  - intros x. rewrite elem_of_dedup_go. tauto.
Qed.

(** ** Properties of the deduplicator *)

(** C17: refinement.  The seen-set pass meets the spec's contract: it
    returns the blocks that do not occur earlier in the input, in input
    order, with the stats the spec defines. *)
Theorem deduplicate_meets_spec : @DedupSpec seen_set_compressor.
Proof.
  split.
  - intros bs t. apply deduplicate_first_occ.
  - intros bs t. simpl. auto.
Qed.

(** C18: the output has no repeated block, is a subsequence of the input,
    and holds exactly the distinct values of the input. *)
Theorem deduplicate_output_wf (bs : list block) (t : Z) :
  let u := (@optimize_for_text_files seen_set_compressor bs t).1 in
  NoDup u /\ u `sublist_of` bs /\ (forall x, x ∈ u <-> x ∈ bs).
Proof.
  simpl. split; [apply NoDup_dedup_go|]. split; [apply dedup_go_sublist|].
  intros x. rewrite elem_of_dedup_go. set_solver.
Qed.

(** Deduplicating the output again changes nothing. *)
Theorem deduplicate_idempotent (bs : list block) (t t' : Z) :
  let u := (@optimize_for_text_files seen_set_compressor bs t).1 in
  (@optimize_for_text_files seen_set_compressor u t').1 = u.
Proof. simpl. apply dedup_go_NoDup_id; [apply NoDup_dedup_go | set_solver]. Qed.

(** On input without duplicates the output is the input and the
    elimination ratio is zero. *)
Theorem deduplicate_distinct (bs : list block) (t : Z) :
  NoDup bs ->
  (@optimize_for_text_files seen_set_compressor bs t).1 = bs /\
  (elimination_ratio (@optimize_for_text_files seen_set_compressor bs t).2 == 0)%Q.
Proof.
  intros Hnd. cbn [optimize_for_text_files seen_set_compressor]. assert (Hid : dedup_go ∅ bs = bs) by (apply dedup_go_NoDup_id; set_solver).
  simpl. rewrite Hid. split; [done|]. unfold elimination_ratio_of.
  destruct (py_len bs =? 0) eqn:E; [done|].
  apply Z.eqb_neq in E. field. apply inject_Z_pos_nonzero. pose proof (py_len_nonneg bs). lia.
Qed.

(** [n > 0] copies of one block give that block once, and the
    elimination ratio [1 - 1/n]. *)
Theorem deduplicate_constant (n : nat) (v : block) (t : Z) :
  (0 < n)%nat ->
  (@optimize_for_text_files seen_set_compressor (replicate n v) t).1 = [v] /\
  elimination_ratio (@optimize_for_text_files seen_set_compressor (replicate n v) t).2
  = (1 - 1 / inject_Z (Z.of_nat n))%Q.
Proof.
  intros Hn. cbn [optimize_for_text_files seen_set_compressor]. destruct n as [|m]; [lia|].
  assert (Hu : dedup_go ∅ (replicate (S m) v) = [v]).
  { simpl. rewrite decide_False by set_solver.
    rewrite dedup_go_replicate_seen by set_solver. done. }
  unfold deduplicate. rewrite Hu. split; [done|]. cbn [fst snd elimination_ratio].
  unfold elimination_ratio_of, py_len. rewrite length_replicate. done.
Qed.

(** The kept blocks appear in the order of their first occurrence in
    the input. *)
Theorem deduplicate_first_occurrence_order (bs : list block) (t : Z) i j x y :
  (i < j)%nat ->
  (@optimize_for_text_files seen_set_compressor bs t).1 !! i = Some x ->
  (@optimize_for_text_files seen_set_compressor bs t).1 !! j = Some y ->
  (index_of x bs < index_of y bs)%nat.
Proof. apply dedup_go_order. Qed.

(** The spec's example: [a b a c b a] gives [a b c], six blocks in,
    three kept, ratio one half. *)
Theorem deduplicate_spec_example (t : Z) :
  let a := [97] in let b := [98] in let c := [99] in
  @optimize_for_text_files seen_set_compressor [a; b; a; c; b; a] t
  = ([a; b; c], mkStats 6 3 (1 - 3 / 6)%Q) /\
  Qeq (elimination_ratio (@optimize_for_text_files seen_set_compressor [a; b; a; c; b; a] t).2)
      (1 # 2).
Proof. split; vm_compute; reflexivity. Qed.

(** ** Witnesses *)

Lemma deduplicate_distinct_witness :
  (@optimize_for_text_files seen_set_compressor [[97]; [98]] 10000).1 = [[97]; [98]] /\
  Qeq (elimination_ratio (@optimize_for_text_files seen_set_compressor [[97]; [98]] 10000).2) 0.
Proof. apply (deduplicate_distinct [[97]; [98]] 10000). by_decide. Defined.

Lemma deduplicate_constant_witness :
  (@optimize_for_text_files seen_set_compressor (replicate 4 [97]) 10000).1 = [[97]] /\
  elimination_ratio (@optimize_for_text_files seen_set_compressor (replicate 4 [97]) 10000).2
  = (1 - 1 / inject_Z (Z.of_nat 4))%Q.
Proof. apply (deduplicate_constant 4 [97] 10000). lia. Defined.

Lemma deduplicate_first_occurrence_order_witness :
  Nat.lt (index_of [97] [[97]; [98]; [97]; [99]]) (index_of [99] [[97]; [98]; [97]; [99]]).
Proof.
  apply (deduplicate_first_occurrence_order [[97]; [98]; [97]; [99]] 10000 0 2 [97] [99]);
    [lia | vm_compute; reflexivity | vm_compute; reflexivity].
Defined.

End Dedup.
