(* ===== verification/Utf8.v ===== *)
(** * Utf8: [bytes.decode('utf-8', errors='ignore')]

    [process_wikipedia_complete] turns each byte chunk into text with
    [chunk_bytes.decode('utf-8', errors='ignore')]
    (src/legal_verification.py 126).  This file models that library
    call as CPython implements it ([Objects/stringlib/codecs.h],
    [utf8_decode]): a lead byte decides the sequence length, the second
    byte of a 3- or 4-byte sequence has the narrowed ranges that exclude
    overlong forms, surrogates and values past U+10FFFF, and on an
    invalid or truncated sequence the error covers the longest valid
    prefix (at least one byte).  With [errors='ignore'] the bytes of the
    error are dropped and decoding resumes after them.

    The encoder [encode] (CPython's [str.encode('utf-8')] on valid
    scalar values) is here to state round trips.  Bytes and code points
    are [Z]. *)

From S2P Require Import Prelude.

Local Open Scope Z_scope.

Module Utf8.

(** ** Decoding *)

Definition is_cont (b : Z) : bool := (0x80 <=? b) && (b <=? 0xBF).

(** The allowed second byte after a 3-byte lead. *)
Definition cont3_ok (b1 b2 : Z) : bool :=
  if b1 =? 0xE0 then (0xA0 <=? b2) && (b2 <=? 0xBF)
  else if b1 =? 0xED then (0x80 <=? b2) && (b2 <=? 0x9F)
  else is_cont b2.

(** The allowed second byte after a 4-byte lead. *)
Definition cont4_ok (b1 b2 : Z) : bool :=
  if b1 =? 0xF0 then (0x90 <=? b2) && (b2 <=? 0xBF)
  else if b1 =? 0xF4 then (0x80 <=? b2) && (b2 <=? 0x8F)
  else is_cont b2.

Definition cp2 (b1 b2 : Z) : Z :=
  Z.lor (Z.shiftl (Z.land b1 0x1F) 6) (Z.land b2 0x3F).

Definition cp3 (b1 b2 b3 : Z) : Z :=
  Z.lor (Z.lor (Z.shiftl (Z.land b1 0x0F) 12) (Z.shiftl (Z.land b2 0x3F) 6))
        (Z.land b3 0x3F).

Definition cp4 (b1 b2 b3 b4 : Z) : Z :=
  Z.lor (Z.lor (Z.lor (Z.shiftl (Z.land b1 0x07) 18) (Z.shiftl (Z.land b2 0x3F) 12))
               (Z.shiftl (Z.land b3 0x3F) 6))
        (Z.land b4 0x3F).

(** [bytes.decode('utf-8', errors='ignore')].  Each [decode_ignore r]
    in an error branch resumes after the maximal valid prefix. *)
Fixpoint decode_ignore (bs : list Z) : list Z :=
  match bs with
  | [] => []
  | b1 :: r1 =>
    if b1 <? 0x80 then b1 :: decode_ignore r1
    else if b1 <? 0xC2 then decode_ignore r1
    else if b1 <? 0xE0 then
      match r1 with
      | b2 :: r2 => if is_cont b2 then cp2 b1 b2 :: decode_ignore r2 else decode_ignore r1
      | [] => []
      end
    else if b1 <? 0xF0 then
      match r1 with
      | b2 :: r2 =>
        if cont3_ok b1 b2 then
          match r2 with
          | b3 :: r3 =>
            if is_cont b3 then cp3 b1 b2 b3 :: decode_ignore r3 else decode_ignore r2
          | [] => []
          end
        else decode_ignore r1
      | [] => []
      end
    else if b1 <? 0xF5 then
      match r1 with
      | b2 :: r2 =>
        if cont4_ok b1 b2 then
          match r2 with
          | b3 :: r3 =>
            if is_cont b3 then
              match r3 with
              | b4 :: r4 =>
                if is_cont b4 then cp4 b1 b2 b3 b4 :: decode_ignore r4
                else decode_ignore r3
              | [] => []
              end
            else decode_ignore r2
          | [] => []
          end
        else decode_ignore r1
      | [] => []
      end
    else decode_ignore r1
  end.

(** [bytes.decode('utf-8')] with the default [errors='strict']: the
    same automaton as [decode_ignore], but the first invalid byte
    raises [UnicodeDecodeError] ([None]). *)
Fixpoint decode_strict (bs : list Z) : option (list Z) :=
  match bs with
  | [] => Some []
  | b1 :: r1 =>
    if b1 <? 0x80 then cons b1 <$> decode_strict r1
    else if b1 <? 0xC2 then None
    else if b1 <? 0xE0 then
      match r1 with
      | b2 :: r2 => if is_cont b2 then cons (cp2 b1 b2) <$> decode_strict r2 else None
      | [] => None
      end
    else if b1 <? 0xF0 then
      match r1 with
      | b2 :: r2 =>
        if cont3_ok b1 b2 then
          match r2 with
          | b3 :: r3 => if is_cont b3 then cons (cp3 b1 b2 b3) <$> decode_strict r3 else None
          | [] => None
          end
        else None
      | [] => None
      end
    else if b1 <? 0xF5 then
      match r1 with
      | b2 :: r2 =>
        if cont4_ok b1 b2 then
          match r2 with
          | b3 :: r3 =>
            if is_cont b3 then
              match r3 with
              | b4 :: r4 => if is_cont b4 then cons (cp4 b1 b2 b3 b4) <$> decode_strict r4 else None
              | [] => None
              end
            else None
          | [] => None
          end
        else None
      | [] => None
      end
    else None
  end.

(** ** Encoding *)

Definition encode_char (c : Z) : list Z :=
  if c <? 0x80 then [c]
  else if c <? 0x800 then
    [Z.lor 0xC0 (Z.shiftr c 6); Z.lor 0x80 (Z.land c 0x3F)]
  else if c <? 0x10000 then
    [Z.lor 0xE0 (Z.shiftr c 12); Z.lor 0x80 (Z.land (Z.shiftr c 6) 0x3F);
     Z.lor 0x80 (Z.land c 0x3F)]
  else
    [Z.lor 0xF0 (Z.shiftr c 18); Z.lor 0x80 (Z.land (Z.shiftr c 12) 0x3F);
     Z.lor 0x80 (Z.land (Z.shiftr c 6) 0x3F); Z.lor 0x80 (Z.land c 0x3F)].

Definition encode (s : list Z) : list Z := concat (map encode_char s).

(** A Unicode scalar value: what [str.encode('utf-8')] accepts. *)
Definition valid_char (c : Z) : bool :=
  (0 <=? c) && (c <=? 0x10FFFF) && negb ((0xD800 <=? c) && (c <=? 0xDFFF)).

Definition is_byte (b : Z) : bool := (0 <=? b) && (b <? 256).

(** ** The bit formulas as arithmetic *)

Lemma lor_add (a b m n : Z) : 0 <= n -> m = 2 ^ n -> 0 <= b < m -> a mod m = 0 ->
  Z.lor a b = a + b.
Proof. intros Hn -> Hb Ha. by apply (lor_add_low a b n). Qed.

Lemma land_mask (a m n : Z) : 0 <= n -> m = 2 ^ n - 1 -> Z.land a m = a mod 2 ^ n.
Proof. intros Hn ->. by apply land_low_mod. Qed.

(** Rewrite the masks and shifts of this file into [mod], [/] and [*]. *)
Ltac bits_arith :=
  repeat first
    [ rewrite (land_mask _ 0x3F 6) by (lia || reflexivity)
    | rewrite (land_mask _ 0x1F 5) by (lia || reflexivity)
    | rewrite (land_mask _ 0x0F 4) by (lia || reflexivity)
    | rewrite (land_mask _ 0x07 3) by (lia || reflexivity)
    | rewrite shiftr_div by lia
    | rewrite shiftl_mul by lia ];
  repeat match goal with
  | |- context [2 ^ ?n] => let v := eval vm_compute in (2 ^ n) in change (2 ^ n) with v
  end.

Lemma cp2_arith b1 b2 : 0xC2 <= b1 <= 0xDF -> 0x80 <= b2 <= 0xBF ->
  cp2 b1 b2 = (b1 - 0xC0) * 64 + (b2 - 0x80).
Proof.
  intros. unfold cp2. bits_arith.
  rewrite (lor_add _ _ 64 6) by (reflexivity || zlia). zlia.
Qed.

Lemma cp3_arith b1 b2 b3 : 0xE0 <= b1 <= 0xEF -> 0x80 <= b2 <= 0xBF -> 0x80 <= b3 <= 0xBF ->
  cp3 b1 b2 b3 = (b1 - 0xE0) * 4096 + (b2 - 0x80) * 64 + (b3 - 0x80).
Proof.
  intros. unfold cp3. bits_arith.
  rewrite (lor_add (_ * 4096) _ 4096 12) by (reflexivity || zlia).
  rewrite (lor_add _ _ 64 6) by (reflexivity || zlia). zlia.
Qed.

Lemma cp4_arith b1 b2 b3 b4 :
  0xF0 <= b1 <= 0xF4 -> 0x80 <= b2 <= 0xBF -> 0x80 <= b3 <= 0xBF -> 0x80 <= b4 <= 0xBF ->
  cp4 b1 b2 b3 b4 =
  (b1 - 0xF0) * 262144 + (b2 - 0x80) * 4096 + (b3 - 0x80) * 64 + (b4 - 0x80).
Proof.
  intros. unfold cp4. bits_arith.
  rewrite (lor_add (_ * 262144) _ 262144 18) by (reflexivity || zlia).
  rewrite (lor_add (_ + _) (_ * 64) 4096 12) by (reflexivity || zlia).
  rewrite (lor_add _ _ 64 6) by (reflexivity || zlia). zlia.
Qed.

Lemma valid_char_spec c :
  valid_char c = true <-> 0 <= c <= 0x10FFFF /\ ~ (0xD800 <= c <= 0xDFFF).
Proof.
  unfold valid_char. rewrite !andb_true_iff, negb_true_iff, andb_false_iff, !Z.leb_le, !Z.leb_gt.
  lia.
Qed.

(** The lead and continuation bytes the encoder writes, as sums. *)
Ltac lead_bytes_arith :=
  repeat first
    [ rewrite (lor_add 0x80 _ 64 6) by (reflexivity || zlia)
    | rewrite (lor_add 0xC0 _ 64 6) by (reflexivity || zlia)
    | rewrite (lor_add 0xE0 _ 16 4) by (reflexivity || zlia)
    | rewrite (lor_add 0xF0 _ 8 3) by (reflexivity || zlia) ].

(** Run the decoder on known lead bytes: decide every test. *)
Ltac decode_steps :=
  simpl; unfold cont3_ok, cont4_ok, is_cont;
  repeat (zbool_cases; simpl).

Lemma decode_encode_char c rest :
  valid_char c = true -> decode_ignore (encode_char c ++ rest) = c :: decode_ignore rest.
Proof.
  intros Hv. apply valid_char_spec in Hv. unfold encode_char.
  destruct (Z.ltb_spec c 0x80); [decode_steps; done|].
  destruct (Z.ltb_spec c 0x800); [|destruct (Z.ltb_spec c 0x10000)];
    bits_arith; lead_bytes_arith; decode_steps;
    first [rewrite cp2_arith by zlia | rewrite cp3_arith by zlia | rewrite cp4_arith by zlia];
    f_equal; zlia.
Qed.

Lemma decode_encode_prefix s bs :
  Forall (fun c => valid_char c = true) s ->
  decode_ignore (encode s ++ bs) = s ++ decode_ignore bs.
Proof.
  induction 1 as [|c s Hc _ IH]; [done|].
  unfold encode in *. simpl. rewrite <- app_assoc, decode_encode_char by done. by rewrite IH.
Qed.

Lemma encode_app (a b : list Z) : encode (a ++ b) = encode a ++ encode b.
Proof. unfold encode. by rewrite map_app, concat_app. Qed.

Lemma encode_cons c s : encode (c :: s) = encode_char c ++ encode s.
Proof. reflexivity. Qed.

(** A lead byte with nothing after it is a truncated sequence: dropped. *)
Lemma decode_lead_alone b : 0xC2 <= b <= 0xF4 -> decode_ignore [b] = [].
Proof. intros Hb. simpl. zbool_cases; reflexivity. Qed.

(** Continuation bytes with no lead byte are each an error: dropped. *)
Lemma decode_conts_skip conts bs :
  Forall (fun b => 0x80 <= b <= 0xBF) conts -> decode_ignore (conts ++ bs) = decode_ignore bs.
Proof.
  induction 1 as [|b conts Hb _ IH]; [done|]. cbn [app decode_ignore].
  zbool_cases. exact IH.
Qed.

(** The encoding of a character above ASCII: a lead byte in
    [C2..F4], then one to three continuation bytes. *)
Lemma encode_char_lead c :
  valid_char c = true -> 0x80 <= c ->
  exists lead conts, encode_char c = lead :: conts /\ 0xC2 <= lead <= 0xF4 /\ conts <> [] /\
                     Forall (fun b => 0x80 <= b <= 0xBF) conts.
Proof.
  intros Hv Hc. apply valid_char_spec in Hv. unfold encode_char.
  destruct (Z.ltb_spec c 0x80); [lia|].
  destruct (Z.ltb_spec c 0x800); [|destruct (Z.ltb_spec c 0x10000)];
    bits_arith; lead_bytes_arith; (do 2 eexists; split; [reflexivity|]);
    (split; [zlia|]); (split; [done|]); repeat (constructor; [zlia|]); constructor.
Qed.

Lemma decode_strict_encode_char c rest :
  valid_char c = true -> decode_strict (encode_char c ++ rest) = cons c <$> decode_strict rest.
Proof.
  intros Hv. apply valid_char_spec in Hv. unfold encode_char.
  destruct (Z.ltb_spec c 0x80); [decode_steps; done|].
  destruct (Z.ltb_spec c 0x800); [|destruct (Z.ltb_spec c 0x10000)];
    bits_arith; lead_bytes_arith; decode_steps;
    first [rewrite cp2_arith by zlia | rewrite cp3_arith by zlia | rewrite cp4_arith by zlia];
    do 2 f_equal; zlia.
Qed.

(** Strict decoding of an encoding succeeds and gives the text back. *)
Lemma decode_strict_encode s bs :
  Forall (fun c => valid_char c = true) s ->
  decode_strict (encode s ++ bs) = (s ++.) <$> decode_strict bs.
Proof.
  induction 1 as [|c s Hc _ IH].
  - simpl. by destruct (decode_strict bs).
  - unfold encode in *. simpl. rewrite <- app_assoc, decode_strict_encode_char, IH by done.
    by destruct (decode_strict bs).
Qed.

(** Where strict decoding succeeds, ignoring errors decodes the same. *)
Lemma decode_strict_ignore bs s : decode_strict bs = Some s -> decode_ignore bs = s.
Proof.
  revert s. induction bs as [bs IH] using list_length_ind.
  destruct bs as [|b1 r1]; intros s H; [by injection H|].
  simpl in *. repeat case_match; subst; try discriminate;
  match type of H with
  | cons ?x <$> decode_strict ?r = Some _ =>
      destruct (decode_strict r) as [t|] eqn:Ht; [|discriminate];
      injection H as <-; f_equal; apply IH; [simpl; lia | exact Ht]
  end.
Qed.

Lemma is_cont_spec b : is_cont b = true -> 0x80 <= b <= 0xBF.
Proof. unfold is_cont. rewrite andb_true_iff, !Z.leb_le. lia. Qed.

Lemma cont3_ok_spec b1 b2 : cont3_ok b1 b2 = true ->
  0x80 <= b2 <= 0xBF /\ (b1 = 0xE0 -> 0xA0 <= b2) /\ (b1 = 0xED -> b2 <= 0x9F).
Proof.
  unfold cont3_ok, is_cont. zbool_cases; rewrite ?andb_true_iff, ?Z.leb_le; lia.
Qed.

Lemma cont4_ok_spec b1 b2 : cont4_ok b1 b2 = true ->
  0x80 <= b2 <= 0xBF /\ (b1 = 0xF0 -> 0x90 <= b2) /\ (b1 = 0xF4 -> b2 <= 0x8F).
Proof.
  unfold cont4_ok, is_cont. zbool_cases; rewrite ?andb_true_iff, ?Z.leb_le; lia.
Qed.

Lemma is_byte_spec b : is_byte b = true <-> 0 <= b < 256.
Proof. unfold is_byte. rewrite andb_true_iff, Z.leb_le, Z.ltb_lt. done. Qed.

(** Turn the decoder's tests in the context into arithmetic facts. *)
Ltac decoder_facts :=
  repeat match goal with
  | H : (_ <? _) = true |- _ => apply Z.ltb_lt in H
  | H : (_ <? _) = false |- _ => apply Z.ltb_ge in H
  | H : is_cont _ = true |- _ => apply is_cont_spec in H
  | H : cont3_ok _ _ = true |- _ => apply cont3_ok_spec in H
  | H : cont4_ok _ _ = true |- _ => apply cont4_ok_spec in H
  | H : is_byte _ = true |- _ => apply is_byte_spec in H
  | H : Forall _ (_ :: _) |- _ => apply Forall_cons in H as [? ?]
  end.

(** Rebuild [Forall is_byte] on a tail from the facts in context. *)
Ltac bytes_ok :=
  repeat (apply Forall_cons; split; [apply is_byte_spec; lia|]); done.

(** A decoded character is a valid scalar value. *)
Ltac decoded_valid :=
  apply valid_char_spec;
  first [ rewrite cp2_arith by zlia | rewrite cp3_arith by zlia
        | rewrite cp4_arith by zlia | idtac ]; zlia.

(** The decoder invariant: bytes in, valid characters out, never more
    characters than bytes. *)
Lemma decode_ignore_inv bs :
  Forall (fun b => is_byte b = true) bs ->
  Forall (fun c => valid_char c = true) (decode_ignore bs) /\
  (length (decode_ignore bs) <= length bs)%nat.
Proof.
  induction bs as [bs IH] using list_length_ind. intros Hb.
  destruct bs as [|b1 r1]; [split; [constructor | done]|].
  simpl. repeat case_match; subst; decoder_facts;
  match goal with
  | |- Forall _ (?x :: decode_ignore ?r) /\ _ =>
      destruct (IH r ltac:(simpl; lia) ltac:(bytes_ok)) as [IH1 IH2];
      split; [constructor; [decoded_valid | done] | cbn [length] in *; lia]
  | |- Forall _ (decode_ignore ?r) /\ _ =>
      destruct (IH r ltac:(simpl; lia) ltac:(bytes_ok)) as [IH1 IH2];
      split; [done | cbn [length] in *; lia]
  | |- Forall _ [] /\ _ => split; [constructor | simpl; lia]
  end.
Qed.

(** ** Properties of the decoder *)

(** C20: round trip.  Decoding the UTF-8 encoding of a string of Unicode
    scalar values gives the string back. *)
Theorem decode_encode_roundtrip (s : list Z) :
  Forall (fun c => valid_char c = true) s -> decode_ignore (encode s) = s.
Proof.
  intros Hs. rewrite <- (app_nil_r (encode s)), decode_encode_prefix by exact Hs.
  apply app_nil_r.
Qed.

(** Decoding bytes with [errors='ignore'] yields only Unicode scalar
    values, and never more characters than there were bytes. *)
Theorem decode_ignore_bounds (bs : list Z) :
  Forall (fun b => is_byte b = true) bs ->
  Forall (fun c => valid_char c = true) (decode_ignore bs) /\
  (length (decode_ignore bs) <= length bs)%nat.
Proof. apply decode_ignore_inv. Qed.

(** C21: cutting bytes where a character ends does not change the text:
    decoding the two pieces apart and joining equals decoding the
    whole, when the first piece is a complete encoding. *)
Theorem decode_split_on_boundary (s : list Z) (bs : list Z) :
  Forall (fun c => valid_char c = true) s ->
  decode_ignore (encode s ++ bs) = decode_ignore (encode s) ++ decode_ignore bs.
Proof.
  intros Hs. rewrite decode_encode_prefix by exact Hs. f_equal.
  rewrite <- (app_nil_r (encode s)), decode_encode_prefix by exact Hs.
  symmetry. apply app_nil_r.
Qed.

(** Cutting bytes after the lead byte of a character loses it: the
    piece that ends with the lead byte decodes to the text before it,
    and the piece that starts with its continuation bytes decodes to
    the text after it. *)
Theorem decode_split_inside_char (s1 s2 : list Z) c lead conts :
  Forall (fun c => valid_char c = true) s1 -> Forall (fun c => valid_char c = true) s2 ->
  valid_char c = true -> 0x80 <= c -> encode_char c = lead :: conts ->
  decode_ignore (encode s1 ++ [lead]) = s1 /\ decode_ignore (conts ++ encode s2) = s2.
Proof.
  intros H1 H2 Hv Hc Henc.
  destruct (encode_char_lead c Hv Hc) as (l' & cs' & E & Hl & _ & Hcs).
  rewrite Henc in E. injection E as <- <-. split.
  - rewrite decode_encode_prefix, decode_lead_alone by done. apply app_nil_r.
  - rewrite decode_conts_skip, <- (app_nil_r (encode s2)), decode_encode_prefix by done.
    apply app_nil_r.
Qed.

(** ** Witnesses *)

Lemma decode_encode_roundtrip_witness :
  decode_ignore (encode [0x41; 0xE9; 0x20AC; 0x1F600]) = [0x41; 0xE9; 0x20AC; 0x1F600].
Proof. apply decode_encode_roundtrip. by_decide. Defined.

Lemma decode_ignore_bounds_witness :
  Forall (fun c => valid_char c = true) (decode_ignore [0x41; 0xC3; 0xA9; 0xFF]) /\
  Nat.le (length (decode_ignore [0x41; 0xC3; 0xA9; 0xFF])) (length [0x41; 0xC3; 0xA9; 0xFF]).
Proof. apply decode_ignore_bounds. by_decide. Defined.

Lemma decode_split_on_boundary_witness :
  decode_ignore (encode [0xE9] ++ [0x41]) = decode_ignore (encode [0xE9]) ++ decode_ignore [0x41].
Proof. apply decode_split_on_boundary. by_decide. Defined.

End Utf8.
