(* ===== verification/Wikipedia.v ===== *)
(** * Wikipedia: the chunk loop of [process_wikipedia_complete]

    Models [LegalVerification.__init__]'s [self.config] and
    [LegalVerification.process_wikipedia_complete]
    (src/legal_verification.py 43-51 and 53-204).  The file is a byte
    list; the [while offset < file_size] loop is [chunk_step] (one
    iteration, lines 116-175) iterated by [chunk_loop] with fuel, and
    also the relation [loop_step] whose reachable states satisfy
    [loop_inv].  Each iteration slices the bytes, decodes them with
    [Utf8.decode_ignore], cuts blocks with [Blocks.make_blocks], calls
    the compressor through the [Dedup.Compressor] interface, updates
    the running totals, and computes the printed percentages, where
    [len(compressed)/len(blocks)] may raise [ZeroDivisionError].

    The chunk size is a parameter of [chunk_loop] so that the theorems
    hold for every positive size; [process_wikipedia_complete] fixes it
    to the code's [1 * 1024 * 1024 * 1024].  Timer readings are inputs:
    [ptime k] is the [process_time] of chunk [k] and [elapsed] the final
    [total_elapsed]. *)

From S2P Require Import Prelude PyList Blocks Dedup Utf8.
From Stdlib Require Import Lqa.

Local Open Scope Z_scope.
Local Open Scope py_scope.

Module Wikipedia.

Import Slice Blocks.Blocks Dedup.Dedup Utf8.Utf8.

(** ** Configuration and state *)

(** [self.config]. *)
Record Config := mkConfig {
  compression_ratio : Q;
  similarity_threshold : Z;
  batch_size : Z;
  num_workers : Z;
  enable_bloom : bool;
  target_time_ms : Z;
  block_size : Z
}.

Definition default_config : Config :=
  mkConfig (1 # 100) 1 2000000000 2 false 10000 1.

(** [chunk_size = 1 * 1024 * 1024 * 1024]. *)
Definition code_chunk_size : Z := 1 * 1024 * 1024 * 1024.

(** The locals the [while] loop updates. *)
Record LoopState := mkLoop {
  offset : Z;
  chunk_num : Z;
  total_blocks : Z;
  total_unique : Z
}.

Definition init_state : LoopState := mkLoop 0 0 0 0.

(** What one iteration prints. *)
Record ChunkReport := mkReport {
  rep_chunk : Z;
  rep_blocks : Z;
  rep_unique : Z;
  rep_compression_percent : Q;
  rep_throughput : Q;
  rep_progress : Q
}.

(** The [results] dictionary (the fields that are not printing or
    hardware). *)
Record Results := mkResults {
  res_file_size : Z;
  res_blocks_processed : Z;
  res_unique_blocks : Z;
  res_compression_ratio : Q;
  res_elapsed_seconds : Q;
  res_blocks_per_second : Q;
  res_performance_factor : Q
}.

Section Loop.

Context `{Compressor}.
Variable cfg : Config.
Variable chunk_size : Z.
Variable data : list Z.
Variable ptime : Z -> Q.

Definition file_size : Z := py_len data.

(** [x / y if y > 0 else 0] for a timer reading [y]. *)
Definition rate (x : Z) (y : Q) : Q := if Qle_bool y 0 then 0 else inject_Z x / y.

(** The bytes of the chunk that starts at [off]. *)
Definition chunk_end (off : Z) : Z := Z.min (off + chunk_size) file_size.
Definition chunk_bytes (off : Z) : list Z := py_slice data off (chunk_end off).

(** One iteration of the loop body, lines 116-175. *)
Definition chunk_step (st : LoopState) : PyResult (LoopState * ChunkReport) :=
  let num := chunk_num st + 1 in
  let cend := chunk_end (offset st) in
  let chunk_text := decode_ignore (chunk_bytes (offset st)) in
  blocks <- make_blocks chunk_text (block_size cfg) ;;
  let compressed := (optimize_for_text_files blocks (target_time_ms cfg)).1 in
  let throughput := rate (py_len blocks) (ptime num) in
  let tb := total_blocks st + py_len blocks in
  let tu := total_unique st + py_len compressed in
  kept <- py_div (inject_Z (py_len compressed)) (inject_Z (py_len blocks)) ;;
  let compression_percent := ((1 - kept) * 100)%Q in
  progress <- py_div (inject_Z cend) (inject_Z file_size) ;;
  Ok (mkLoop cend num tb tu,
      mkReport num (py_len blocks) (py_len compressed) compression_percent throughput
        (progress * 100)%Q).

(** The [while offset < file_size] loop, with [fuel] iterations at most. *)
Fixpoint chunk_loop (fuel : nat) (st : LoopState) : PyResult (LoopState * list ChunkReport) :=
  match fuel with
  | O => Ok (st, [])
  | S fuel' =>
    if offset st <? file_size then
      p <- chunk_step st ;;
      q <- chunk_loop fuel' p.1 ;;
      Ok (q.1, p.2 :: q.2)
    else Ok (st, [])
  end.

(** The loop step as a relation: reachable states. *)
Inductive loop_step : LoopState -> LoopState -> Prop :=
| loop_step_chunk st st' r :
    offset st < file_size -> chunk_step st = Ok (st', r) -> loop_step st st'.

Inductive reachable : LoopState -> Prop :=
| reachable_init : reachable init_state
| reachable_step st st' : reachable st -> loop_step st st' -> reachable st'.

(** The final computation, lines 178-202. *)
Definition final_results (st : LoopState) (elapsed : Q) : Results :=
  let final_throughput := rate (total_blocks st) elapsed in
  let ratio :=
    if 0 <? total_blocks st
    then ((1 - inject_Z (total_unique st) / inject_Z (total_blocks st)) * 100)%Q
    else 0%Q in
  mkResults file_size (total_blocks st) (total_unique st) ratio elapsed
    final_throughput (final_throughput / 200)%Q.

(** ** Specification helpers: the chunks the loop visits *)

(** The offsets [0, chunk_size, 2 * chunk_size, ...] below [file_size]. *)
Definition chunk_offsets : list Z :=
  Range.range_items 0 chunk_size (Z.to_nat (Range.range_length 0 file_size chunk_size)).

Definition chunk_text (off : Z) : list Z := decode_ignore (chunk_bytes off).

Definition chunk_blocks (off : Z) : list block :=
  match make_blocks (chunk_text off) (block_size cfg) with Ok b => b | Raise _ => [] end.

Definition chunk_compressed (off : Z) : list block :=
  (optimize_for_text_files (chunk_blocks off) (target_time_ms cfg)).1.

(** The invariant of reachable states. *)
Definition loop_inv (st : LoopState) : Prop :=
  0 <= chunk_num st /\ 0 <= offset st <= file_size /\
  offset st = Z.min (chunk_num st * chunk_size) file_size /\
  0 <= total_unique st <= total_blocks st.

End Loop.

(** [process_wikipedia_complete]: [None] when the file does not exist
    (lines 56-58); [ValueError] when it is empty, which is what
    [mmap.mmap(f.fileno(), 0)] raises for an empty file (line 110);
    otherwise the loop over 1 GiB chunks and the results.  The fuel
    [file_size] is enough: every iteration advances [offset] by at
    least one byte. *)
Definition process_wikipedia_complete `{Compressor} (cfg : Config)
    (file : option (list Z)) (ptime : Z -> Q) (elapsed : Q) : PyResult (option Results) :=
  match file with
  | None => Ok None
  | Some data =>
    if file_size data =? 0 then Raise ValueError else
    r <- chunk_loop cfg code_chunk_size data ptime (Z.to_nat (file_size data)) init_state ;;
    Ok (Some (final_results data r.1 elapsed))
  end.

(** ** Lemmas on one iteration *)

Section StepLemmas.

Context `{Compressor}.
Variables (cfg : Config) (chunk_size : Z) (data : list Z) (ptime : Z -> Q).
Hypothesis Hcs : 0 < chunk_size.
Hypothesis Hbs : 0 < block_size cfg.

Let fs := file_size data.

Lemma chunk_step_Ok_inv st st' r :
  chunk_step cfg chunk_size data ptime st = Ok (st', r) ->
  exists blocks,
    offset st' = chunk_end chunk_size data (offset st) /\
    chunk_num st' = chunk_num st + 1 /\
    total_blocks st' = total_blocks st + py_len blocks /\
    total_unique st' = total_unique st + py_len (optimize_for_text_files blocks (target_time_ms cfg)).1.
Proof.
  unfold chunk_step. intros Hst.
  destruct (make_blocks _ _) as [blocks|]; [|discriminate]. py_simpl.
  destruct (py_div _ _); [|discriminate]. py_simpl.
  destruct (py_div _ _); [|discriminate]. py_simpl.
  injection Hst as <- _. exists blocks. done.
Qed.

Lemma make_blocks_chunk off :
  make_blocks (chunk_text chunk_size data off) (block_size cfg) = Ok (chunk_blocks cfg chunk_size data off) /\
  concat (chunk_blocks cfg chunk_size data off) = chunk_text chunk_size data off.
Proof.
  unfold chunk_blocks. rewrite make_blocks_slices by done.
  split; [done|]. by apply concat_slices_text.
Qed.

(** A chunk whose text is not empty is processed. *)
Lemma chunk_step_next st :
  0 <= offset st < fs -> chunk_text chunk_size data (offset st) <> [] ->
  exists r, chunk_step cfg chunk_size data ptime st =
    Ok (mkLoop (chunk_end chunk_size data (offset st)) (chunk_num st + 1)
          (total_blocks st + py_len (chunk_blocks cfg chunk_size data (offset st)))
          (total_unique st + py_len (chunk_compressed cfg chunk_size data (offset st))), r).
Proof.
  intros Hoff Htext. destruct (make_blocks_chunk (offset st)) as [Hmk Hcat].
  unfold chunk_step. fold (chunk_text chunk_size data (offset st)). rewrite Hmk. py_simpl.
  assert (Hne : (0 < py_len (chunk_blocks cfg chunk_size data (offset st)))%Z).
  { unfold py_len. destruct (chunk_blocks cfg chunk_size data (offset st)); [|simpl; lia].
    simpl in Hcat. by rewrite <- Hcat in Htext. }
  rewrite py_div_nonzero by (apply inject_Z_pos_nonzero; lia). py_simpl.
  assert (Hcend : (0 < chunk_end chunk_size data (offset st))%Z).
  { unfold chunk_end. fold fs. lia. }
  rewrite py_div_nonzero.
  - eexists. reflexivity.
  - apply inject_Z_pos_nonzero. unfold fs in Hoff. lia.
Qed.

(** A chunk whose text is empty makes [len(compressed)/len(blocks)]
    raise. *)
Lemma chunk_step_empty st :
  chunk_text chunk_size data (offset st) = [] ->
  chunk_step cfg chunk_size data ptime st = Raise ZeroDivisionError.
Proof.
  intros Htext. destruct (make_blocks_chunk (offset st)) as [Hmk Hcat].
  unfold chunk_step. fold (chunk_text chunk_size data (offset st)). rewrite Hmk. py_simpl.
  assert (Hnil : chunk_blocks cfg chunk_size data (offset st) = []).
  { apply concat_nil_nonempty; [|by rewrite Hcat].
    unfold chunk_blocks. rewrite make_blocks_slices by done. by apply slices_nonempty. }
  rewrite Hnil. by rewrite py_div_zero.
Qed.

(** Where the next chunk starts: [chunk_size] further on, or the end
    of the file after the last chunk. *)
Lemma range_items_after st (n : nat) :
  0 <= offset st < fs ->
  Forall (fun o => o < fs) (Range.range_items (offset st + chunk_size) chunk_size n) ->
  fs <= offset st + Z.of_nat (S n) * chunk_size ->
  Range.range_items (chunk_end chunk_size data (offset st)) chunk_size n
  = Range.range_items (offset st + chunk_size) chunk_size n /\
  (n = 0%nat -> chunk_end chunk_size data (offset st) = fs).
Proof.
  intros Hoff Hall Hcov. unfold chunk_end. fold fs. destruct n as [|n].
  - split; [done|]. intros _. lia.
  - rewrite Range.range_items_S in Hall. apply Forall_cons in Hall as [Hlt _].
    rewrite Z.min_l by lia. split; [done | lia].
Qed.

Lemma chunk_loop_ok (n : nat) : forall st f,
  0 <= offset st <= fs -> (n <= f)%nat ->
  Forall (fun o => o < fs /\ chunk_text chunk_size data o <> [])
    (Range.range_items (offset st) chunk_size n) ->
  fs <= offset st + Z.of_nat n * chunk_size ->
  exists reps,
    chunk_loop cfg chunk_size data ptime f st =
      Ok (mkLoop fs (chunk_num st + Z.of_nat n)
            (total_blocks st + sumZ (fun o => py_len (chunk_blocks cfg chunk_size data o))
                                  (Range.range_items (offset st) chunk_size n))
            (total_unique st + sumZ (fun o => py_len (chunk_compressed cfg chunk_size data o))
                                  (Range.range_items (offset st) chunk_size n)), reps) /\
    length reps = n.
Proof.
  induction n as [|n IH]; intros st f Hoff Hf Hall Hcov.
  - exists []. assert (Hend : offset st = fs) by lia.
    destruct f as [|f]; simpl; [|rewrite (proj2 (Z.ltb_ge _ _)) by (unfold fs in *; lia)];
      (split; [|done]); destruct st; simpl in *; repeat f_equal; lia.
  - rewrite Range.range_items_S in Hall |- *. apply Forall_cons in Hall as [[Hlt Hne] Hall].
    destruct f as [|f]; [lia|].
    destruct (chunk_step_next st ltac:(lia) Hne) as [r Hr].
    destruct (range_items_after st n ltac:(lia) ltac:(eapply Forall_impl; [exact Hall | naive_solver])
      ltac:(lia)) as [Hri Hlast].
    cbn [chunk_loop]. rewrite (proj2 (Z.ltb_lt _ _)) by (unfold fs in *; lia).
    set (st1 := mkLoop _ _ _ _) in Hr.
    rewrite Hr. cbn [py_bind fst snd].
    assert (Hend1 : offset st1 = fs \/ (0 < n)%nat /\ offset st1 = offset st + chunk_size).
    { simpl. destruct n as [|n]; [left; by apply Hlast|right].
      rewrite Range.range_items_S in Hall. apply Forall_cons in Hall as [[? _] _].
      split; [lia|]. unfold chunk_end. fold fs. lia. }
    destruct (IH st1 f) as (reps & Hloop & Hlen).
    { simpl. unfold chunk_end. fold fs. lia. }
    { lia. }
    { simpl offset. rewrite Hri. exact Hall. }
    { destruct Hend1 as [->|[_ ->]]; lia. }
    rewrite Hloop. cbn [py_bind fst snd]. exists (r :: reps). split; [|simpl; lia].
    unfold st1. simpl offset. rewrite Hri, !sumZ_cons. cbn [chunk_num total_blocks total_unique].
    do 3 f_equal; lia.
Qed.

Lemma chunk_loop_raise (n : nat) : forall st f,
  0 <= offset st -> (n <= f)%nat ->
  Forall (fun o => o < fs) (Range.range_items (offset st) chunk_size n) ->
  Exists (fun o => chunk_text chunk_size data o = []) (Range.range_items (offset st) chunk_size n) ->
  chunk_loop cfg chunk_size data ptime f st = Raise ZeroDivisionError.
Proof.
  induction n as [|n IH]; intros st f Hoff Hf Hall Hex; [inversion Hex|].
  rewrite Range.range_items_S in Hall, Hex. apply Forall_cons in Hall as [Hlt Hall].
  destruct f as [|f]; [lia|]. cbn [chunk_loop].
  rewrite (proj2 (Z.ltb_lt _ _)) by (unfold fs in *; lia).
  destruct (decide (chunk_text chunk_size data (offset st) = [])) as [Hemp|Hne].
  - by rewrite chunk_step_empty.
  - apply Exists_cons in Hex as [Hemp|Hex]; [contradiction|].
    destruct (chunk_step_next st ltac:(lia) Hne) as [r Hr]. rewrite Hr. py_simpl.
    destruct n as [|n]; [inversion Hex|].
    assert (Hcov : fs <= offset st + Z.of_nat (S (S n)) * chunk_size \/
                   offset st + chunk_size < fs).
    { rewrite Range.range_items_S in Hall. apply Forall_cons in Hall as [? _]. lia. }
    assert (Hend : chunk_end chunk_size data (offset st) = offset st + chunk_size).
    { rewrite Range.range_items_S in Hall. apply Forall_cons in Hall as [? _].
      unfold chunk_end. fold fs. lia. }
    rewrite (IH _ f); [done | simpl; lia | lia | simpl; by rewrite Hend | simpl; by rewrite Hend].
Qed.

Lemma chunk_offsets_facts :
  let m := Range.range_length 0 fs chunk_size in
  0 <= m /\ (Z.to_nat m <= Z.to_nat fs)%nat /\ fs <= 0 + Z.of_nat (Z.to_nat m) * chunk_size /\
  Forall (fun o => 0 <= o < fs) (chunk_offsets chunk_size data).
Proof.
  intros m. pose proof (Range.range_length_pos_nonneg 0 fs chunk_size Hcs) as Hm.
  pose proof (Range.range_length_cover 0 fs chunk_size Hcs) as Hcov. fold m in Hm, Hcov.
  split; [done|]. split; [|split; [lia|]].
  - unfold m, Range.range_length. pose proof (py_len_nonneg data). unfold fs, file_size in *.
    destruct (0 <? chunk_size) eqn:E0; [|apply Z.ltb_ge in E0; lia].
    destruct (0 <? py_len data) eqn:E; [|lia].
    apply Z.ltb_lt in E.
    pose proof (Z.div_le_upper_bound (py_len data - 0 - 1) chunk_size (py_len data - 0 - 1) Hcs
      ltac:(nia)).
    pose proof (Z.div_pos (py_len data - 0 - 1) chunk_size ltac:(lia) Hcs). lia.
  - apply Forall_forall. intros o Ho. apply Range.elem_of_range_items in Ho as (k & Hk & ->).
    change (Range.range_length 0 (file_size data) chunk_size) with m in Hk.
    pose proof (Range.range_length_inside 0 fs chunk_size (Z.of_nat k) Hcs). fold m in H0. nia.
Qed.

End StepLemmas.

(** ** Properties of the loop *)

Section LoopTheorems.

Context `{Compressor}.
Variables (cfg : Config) (chunk_size : Z) (data : list Z) (ptime : Z -> Q).
Hypothesis Hcs : 0 < chunk_size.
Hypothesis Hbs : 0 < block_size cfg.

(** The loop over a file whose chunks all decode to some text ends
    without an exception. *)
Lemma chunk_loop_completes :
  Forall (fun o => chunk_text chunk_size data o <> []) (chunk_offsets chunk_size data) ->
  exists st reps,
    chunk_loop cfg chunk_size data ptime (Z.to_nat (file_size data)) init_state = Ok (st, reps).
Proof.
  intros Hall. destruct (chunk_offsets_facts chunk_size data Hcs) as (Hm & Hfuel & Hcov & Hin).
  destruct (chunk_loop_ok cfg chunk_size data ptime Hcs Hbs
    (Z.to_nat (Range.range_length 0 (file_size data) chunk_size)) init_state (Z.to_nat (file_size data)))
    as (reps & Hloop & _); simpl offset; try done.
  - pose proof (py_len_nonneg data). unfold file_size. lia.
  - apply Forall_and; split; [eapply Forall_impl; [exact Hin | intros ? ?; cbv beta in *; lia] | exact Hall].
  - eauto.
Qed.

(** C1: termination and functional behaviour.  When every chunk of the
    file decodes to some text, the loop, run with [file_size] fuel from
    the initial state, processes the whole file: it ends at
    [offset = file_size] after [ceil(file_size / chunk_size)] chunks,
    one report each, with [total_blocks] and [total_unique] the sums of
    the per-chunk block and kept-block counts. *)
Theorem chunk_loop_whole_file :
  Forall (fun o => chunk_text chunk_size data o <> []) (chunk_offsets chunk_size data) ->
  exists reps,
    chunk_loop cfg chunk_size data ptime (Z.to_nat (file_size data)) init_state =
      Ok (mkLoop (file_size data) (Range.range_length 0 (file_size data) chunk_size)
            (sumZ (fun o => py_len (chunk_blocks cfg chunk_size data o)) (chunk_offsets chunk_size data))
            (sumZ (fun o => py_len (chunk_compressed cfg chunk_size data o)) (chunk_offsets chunk_size data)),
          reps) /\
    py_len reps = Range.range_length 0 (file_size data) chunk_size.
Proof.
  intros Hall. destruct (chunk_offsets_facts chunk_size data Hcs) as (Hm & Hfuel & Hcov & Hin).
  destruct (chunk_loop_ok cfg chunk_size data ptime Hcs Hbs
    (Z.to_nat (Range.range_length 0 (file_size data) chunk_size)) init_state (Z.to_nat (file_size data)))
    as (reps & Hloop & Hlen); simpl offset; try done.
  - pose proof (py_len_nonneg data). unfold file_size. lia.
  - apply Forall_and; split; [eapply Forall_impl; [exact Hin | intros ? ?; cbv beta in *; lia] | exact Hall].
  - exists reps. rewrite Hloop. simpl. unfold py_len. rewrite Hlen. split; [|lia].
    repeat f_equal. lia.
Qed.

(** C5: error path.  If some chunk decodes to no text at all (e.g. it
    holds only bytes that are not valid UTF-8), the loop raises
    [ZeroDivisionError] at [len(compressed)/len(blocks)]. *)
Theorem chunk_loop_zero_division :
  Exists (fun o => chunk_text chunk_size data o = []) (chunk_offsets chunk_size data) ->
  chunk_loop cfg chunk_size data ptime (Z.to_nat (file_size data)) init_state
  = Raise ZeroDivisionError.
Proof.
  intros Hex. destruct (chunk_offsets_facts chunk_size data Hcs) as (Hm & Hfuel & Hcov & Hin).
  apply (chunk_loop_raise cfg chunk_size data ptime Hcs Hbs (Z.to_nat (Range.range_length 0 (file_size data) chunk_size)));
    simpl offset; try done.
  eapply Forall_impl; [exact Hin | intros ? ?; cbv beta in *; lia].
Qed.

End LoopTheorems.

(** ** The invariant of the loop *)

Section Invariant.

Context `{CompressorLaws}.
Variables (cfg : Config) (chunk_size : Z) (data : list Z) (ptime : Z -> Q).
Hypothesis Hcs : 0 < chunk_size.

Lemma loop_inv_init : loop_inv chunk_size data init_state.
Proof. pose proof (py_len_nonneg data). unfold loop_inv, file_size. simpl. lia. Qed.

Lemma chunk_step_inv st st' r :
  loop_inv chunk_size data st -> offset st < file_size data ->
  chunk_step cfg chunk_size data ptime st = Ok (st', r) -> loop_inv chunk_size data st'.
Proof.
  intros (Hk & Hoff & Hmin & Hu) Hlt Hst.
  destruct (chunk_step_Ok_inv cfg chunk_size data ptime st st' r Hst)
    as (blocks & Ho & Hn & Hb & Hu').
  pose proof (compress_length blocks (target_time_ms cfg)).
  pose proof (py_len_nonneg (optimize_for_text_files blocks (target_time_ms cfg)).1).
  unfold loop_inv, py_len in *. rewrite Ho, Hn, Hb, Hu'. unfold chunk_end.
  split; [lia|]. split; [lia|]. split; [|lia]. nia.
Qed.

Lemma chunk_loop_inv f st st' reps :
  loop_inv chunk_size data st -> chunk_loop cfg chunk_size data ptime f st = Ok (st', reps) ->
  loop_inv chunk_size data st'.
Proof.
  revert st st' reps. induction f as [|f IH]; intros st st' reps Hinv Hloop; simpl in Hloop.
  - by injection Hloop as <- _.
  - destruct (offset st <? file_size data) eqn:Hlt; [|by injection Hloop as <- _].
    apply Z.ltb_lt in Hlt.
    destruct (chunk_step _ _ _ _ st) as [[st1 r]|] eqn:Hst; [|discriminate].
    cbn [py_bind fst snd] in Hloop.
    destruct (chunk_loop _ _ _ _ f st1) as [[st2 rs]|] eqn:Hl; [|discriminate].
    cbn [py_bind fst snd] in Hloop.
    injection Hloop as <- _. eapply IH; [|exact Hl]. by eapply chunk_step_inv.
Qed.

(** C2: invariant, by induction on the step relation.  In every state
    the loop can reach, [offset] is [min(chunk_num * chunk_size,
    file_size)] and within the file, and [0 <= total_unique <=
    total_blocks]: the compressor never reports more kept blocks than it
    was given. *)
Theorem reachable_loop_inv st :
  reachable cfg chunk_size data ptime st -> loop_inv chunk_size data st.
Proof.
  induction 1 as [|st st' _ IH Hstep]; [apply loop_inv_init|].
  destruct Hstep as [st st' r Hlt Hst]. by eapply chunk_step_inv.
Qed.

End Invariant.

(** ** Progress of the loop *)

Section Progress.

Context `{Compressor}.
Variables (cfg : Config) (chunk_size : Z) (data : list Z) (ptime : Z -> Q).
Hypothesis Hcs : 0 < chunk_size.
Hypothesis Hbs : 0 < block_size cfg.

Lemma reachable_offset st :
  reachable cfg chunk_size data ptime st -> 0 <= offset st <= file_size data.
Proof.
  induction 1 as [|st st' _ IH Hstep]; [pose proof (py_len_nonneg data); unfold file_size; simpl; lia|].
  destruct Hstep as [st st' r Hlt Hst].
  destruct (chunk_step_Ok_inv cfg chunk_size data ptime st st' r Hst) as (blocks & Ho & _).
  rewrite Ho. unfold chunk_end. lia.
Qed.

(** C30: liveness (progress).  A reachable state that has not reached
    the end of the file, and whose next chunk decodes to some text, has
    a successor, whose offset is strictly larger: the loop is never
    stuck before the end of a file whose chunks decode. *)
Theorem reachable_progress st :
  reachable cfg chunk_size data ptime st -> offset st < file_size data ->
  chunk_text chunk_size data (offset st) <> [] ->
  exists st', loop_step cfg chunk_size data ptime st st' /\ offset st < offset st' /\
              reachable cfg chunk_size data ptime st'.
Proof.
  intros Hr Hlt Hne. pose proof (reachable_offset st Hr) as Hoff.
  destruct (chunk_step_next cfg chunk_size data ptime Hcs Hbs st ltac:(lia) Hne) as [rep Hst].
  assert (Hstep : loop_step cfg chunk_size data ptime st
                    (mkLoop (chunk_end chunk_size data (offset st)) (chunk_num st + 1)
                       (total_blocks st + py_len (chunk_blocks cfg chunk_size data (offset st)))
                       (total_unique st + py_len (chunk_compressed cfg chunk_size data (offset st)))))
    by (econstructor; [exact Hlt | exact Hst]).
  eexists. split; [exact Hstep|]. split.
  - simpl. unfold chunk_end. lia.
  - by eapply reachable_step.
Qed.

End Progress.

(** Refinement.  Every state the executable loop ends in is
    reachable by the step relation from the state it started in, so the
    relation's invariants hold of the loop's results. *)
Theorem chunk_loop_reachable `{Compressor} cfg chunk_size data ptime f st st' reps :
  reachable cfg chunk_size data ptime st ->
  chunk_loop cfg chunk_size data ptime f st = Ok (st', reps) ->
  reachable cfg chunk_size data ptime st'.
Proof.
  revert st st' reps. induction f as [|f IH]; intros st st' reps Hr Hloop; simpl in Hloop.
  - by injection Hloop as <- _.
  - destruct (offset st <? file_size data) eqn:Hlt; [|by injection Hloop as <- _].
    apply Z.ltb_lt in Hlt.
    destruct (chunk_step _ _ _ _ st) as [[st1 r]|] eqn:Hst; [|discriminate].
    cbn [py_bind fst snd] in Hloop.
    destruct (chunk_loop _ _ _ _ f st1) as [[st2 rs]|] eqn:Hl; [|discriminate].
    cbn [py_bind fst snd] in Hloop.
    injection Hloop as <- _. eapply IH; [|exact Hl].
    eapply reachable_step; [exact Hr|]. by econstructor.
Qed.

(** ** What the loop reports *)

Section Reports.

Context `{Compressor}.
Variables (cfg : Config) (chunk_size : Z) (data : list Z) (ptime : Z -> Q).

(** One iteration's report: its number, and the counts and progress
    that match the new state. *)
Lemma chunk_step_report st st' r :
  chunk_step cfg chunk_size data ptime st = Ok (st', r) ->
  rep_chunk r = chunk_num st + 1 /\ chunk_num st' = chunk_num st + 1 /\
  total_blocks st' = total_blocks st + rep_blocks r /\
  total_unique st' = total_unique st + rep_unique r /\
  rep_progress r = (inject_Z (offset st') / inject_Z (file_size data) * 100)%Q.
Proof.
  unfold chunk_step. destruct (make_blocks _ _) as [blocks|]; [|done]. cbn [py_bind].
  destruct (py_div _ (inject_Z (py_len blocks))); [|done]. cbn [py_bind].
  destruct (py_div (inject_Z (chunk_end _ _ _)) _) as [p|] eqn:Ep; [|done]. cbn [py_bind].
  intros Hs. injection Hs as <- <-. cbn. repeat split.
  unfold py_div in Ep. destruct (Qeq_bool _ 0); [done|]. by injection Ep as <-.
Qed.

(** A loop that processes no chunk leaves the state alone. *)
Lemma chunk_loop_nil f st st' :
  chunk_loop cfg chunk_size data ptime f st = Ok (st', []) -> st' = st.
Proof.
  destruct f as [|f]; cbn [chunk_loop]; [by intros [= ->]|].
  destruct (_ <? _); [|by intros [= ->]].
  destruct (chunk_step _ _ _ _ st) as [[st1 r]|]; [|done]. cbn [py_bind fst snd].
  by destruct (chunk_loop _ _ _ _ f st1) as [[st2 rs]|].
Qed.

Lemma chunk_loop_reports_from f st st' reps :
  chunk_loop cfg chunk_size data ptime f st = Ok (st', reps) ->
  map rep_chunk reps = map (fun k => chunk_num st + Z.of_nat k) (seq 1 (length reps)) /\
  total_blocks st' = total_blocks st + sumZ rep_blocks reps /\
  total_unique st' = total_unique st + sumZ rep_unique reps /\
  (forall r, last reps = Some r ->
     rep_progress r = (inject_Z (offset st') / inject_Z (file_size data) * 100)%Q).
Proof.
  revert st st' reps. induction f as [|f IH]; intros st st' reps; cbn [chunk_loop].
  { intros [= <- <-]. cbn. repeat split; [lia..|done]. }
  destruct (_ <? _); [|intros [= <- <-]; cbn; repeat split; [lia..|done]].
  destruct (chunk_step _ _ _ _ st) as [[st1 r]|] eqn:Es; [|done]. cbn [py_bind fst snd].
  destruct (chunk_loop _ _ _ _ f st1) as [[st2 rs]|] eqn:El; [|done]. cbn [py_bind fst snd].
  intros [= <- <-].
  destruct (chunk_step_report _ _ _ Es) as (Hc & Hn & Hb & Hu & Hp).
  destruct (IH _ _ _ El) as (IHc & IHb & IHu & IHp).
  rewrite !sumZ_cons. split; [|split; [lia|split; [lia|]]].
  - cbn [map length seq]. rewrite Hc, IHc, <- (seq_shift _ 1), map_map, Hn.
    f_equal. apply map_ext. intros k. lia.
  - intros r' Hl. destruct rs as [|r2 rs].
    + injection Hl as <-. by rewrite (chunk_loop_nil _ _ _ El), Hp.
    + apply IHp. exact Hl.
Qed.

(** With [file_size] fuel from a state inside the file, a loop that
    returns has read to the end of the file: every iteration moves the
    offset forward. *)
Lemma chunk_loop_ends_at_eof f st st' reps :
  0 < chunk_size -> 0 <= offset st <= file_size data -> (Z.to_nat (file_size data - offset st) <= f)%nat ->
  chunk_loop cfg chunk_size data ptime f st = Ok (st', reps) -> offset st' = file_size data.
Proof.
  intros Hcs. revert st st' reps. induction f as [|f IH]; intros st st' reps Hoff Hf; cbn [chunk_loop].
  { intros [= <- _]. lia. }
  destruct (offset st <? file_size data) eqn:Hlt; [|intros [= <- _]; apply Z.ltb_ge in Hlt; lia].
  apply Z.ltb_lt in Hlt.
  destruct (chunk_step _ _ _ _ st) as [[st1 r]|] eqn:Es; [|done]. cbn [py_bind fst snd].
  destruct (chunk_loop _ _ _ _ f st1) as [[st2 rs]|] eqn:El; [|done]. cbn [py_bind fst snd].
  intros [= <- _].
  assert (Ho : offset st1 = chunk_end chunk_size data (offset st)).
  { revert Es. unfold chunk_step. destruct (make_blocks _ _); [|done]. cbn [py_bind].
    destruct (py_div _ _); [|done]. cbn [py_bind]. destruct (py_div _ _); [|done].
    by intros [= <- _]. }
  apply (IH st1 st2 rs); [| |exact El]; rewrite Ho; unfold chunk_end; lia.
Qed.

End Reports.

(** C7: functional.  When the loop, run from its initial locals with
    [file_size] fuel, returns, it has read the whole file; it reports
    the chunks numbered [1, 2, ..., n] in order; the totals it ends
    with are the sums of the per-chunk [Blocks] and [Unique] counts it
    reports; and the progress it reports for the last chunk is
    [100%]. *)
Theorem chunk_loop_reports `{Compressor} cfg chunk_size data ptime st reps :
  0 < chunk_size ->
  chunk_loop cfg chunk_size data ptime (Z.to_nat (file_size data)) init_state = Ok (st, reps) ->
  offset st = file_size data /\
  map rep_chunk reps = map Z.of_nat (seq 1 (length reps)) /\
  total_blocks st = sumZ rep_blocks reps /\ total_unique st = sumZ rep_unique reps /\
  (forall r, last reps = Some r -> (rep_progress r == 100)%Q).
Proof.
  intros Hcs Hloop.
  assert (Hend : offset st = file_size data).
  { eapply chunk_loop_ends_at_eof; [exact Hcs| | |exact Hloop]; cbn [offset init_state];
      pose proof (py_len_nonneg data); unfold file_size in *; lia. }
  destruct (chunk_loop_reports_from _ _ _ _ _ _ _ _ Hloop) as (Hc & Hb & Hu & Hp).
  cbn [chunk_num total_blocks total_unique init_state] in Hc, Hb, Hu.
  split; [done|]. split; [rewrite Hc; apply map_ext; intros k; lia|]. split; [lia|]. split; [lia|].
  intros r Hl. rewrite (Hp r Hl), Hend.
  assert (Hfs : 0 < file_size data).
  { pose proof (py_len_nonneg data). unfold file_size in *.
    destruct (Z.eq_dec (py_len data) 0) as [E|]; [|lia].
    rewrite E in Hloop. cbn in Hloop. injection Hloop as _ <-. done. }
  field. by apply inject_Z_pos_nonzero.
Qed.

(** C3: bounds.  When [process_wikipedia_complete] returns results, the
    reported [compression_ratio] is a percentage in [0, 100] and
    [0 <= unique_blocks <= blocks_processed]. *)
Theorem process_results_bounds `{CompressorLaws} cfg data ptime elapsed res :
  process_wikipedia_complete cfg (Some data) ptime elapsed = Ok (Some res) ->
  (0 <= res_compression_ratio res <= 100)%Q /\
  0 <= res_unique_blocks res <= res_blocks_processed res.
Proof.
  unfold process_wikipedia_complete. destruct (file_size data =? 0); [discriminate|].
  destruct (chunk_loop _ _ _ _ _ _) as [[st reps]|] eqn:Hl; [|discriminate]. py_simpl.
  intros Hres. injection Hres as <-.
  pose proof (chunk_loop_inv cfg code_chunk_size data ptime ltac:(unfold code_chunk_size; lia)
    _ init_state st reps
    (loop_inv_init code_chunk_size data) Hl) as (_ & _ & _ & Hu).
  unfold final_results. simpl. split; [|lia].
  destruct (0 <? total_blocks st) eqn:Hpos; [|lra].
  apply Z.ltb_lt in Hpos.
  pose proof (Qdiv_counts_bounds (total_unique st) (total_blocks st) ltac:(lia) ltac:(lia) Hpos).
  lra.
Qed.

(** ** Chunks and their bytes *)

Lemma chunk_bytes_slice chunk_size data o :
  0 < chunk_size -> 0 <= o -> chunk_bytes chunk_size data o = py_slice data o (o + chunk_size).
Proof.
  intros Hcs Ho. unfold chunk_bytes, chunk_end, py_slice, file_size.
  pose proof (py_len_nonneg data).
  rewrite !(adjust_index_nonneg (py_len data)) by lia. do 3 f_equal. lia.
Qed.

(** C4: round trip.  The chunks the loop reads cover the file end to end,
    without gaps or overlap: their bytes concatenate to the file. *)
Theorem chunks_partition_file chunk_size data :
  0 < chunk_size ->
  concat (map (chunk_bytes chunk_size data) (chunk_offsets chunk_size data)) = data.
Proof.
  intros Hcs. unfold chunk_offsets.
  rewrite (map_ext_in _ (fun o => py_slice data o (o + chunk_size))).
  - rewrite concat_slices by (try lia; pose proof (Range.range_length_cover 0 (file_size data)
      chunk_size Hcs); pose proof (Range.range_length_pos_nonneg 0 (file_size data) chunk_size Hcs);
      unfold file_size in *; lia). done.
  - intros o Ho. apply list_elem_of_In, Range.elem_of_range_items in Ho as (k & _ & ->).
    apply chunk_bytes_slice; lia.
Qed.

(** Error path.  On an existing but empty file the method raises
    [ValueError] ([mmap] cannot map an empty file) before the loop: the
    guards [if total_blocks > 0 else 0] and [if total_elapsed > 0 else 0]
    are never reached with zero blocks. *)
Theorem process_empty_file_raises `{Compressor} cfg ptime elapsed :
  process_wikipedia_complete cfg (Some []) ptime elapsed = Raise ValueError.
Proof. reflexivity. Qed.

(** C6: functional.  A chunk boundary that falls after the lead byte
    of a multi-byte character loses that character.  The file holds the
    UTF-8 of [s1 ++ c :: s2] for a character [c] above ASCII, and the
    chunk size puts the first boundary right after [c]'s lead byte
    ([len(encode s1) + 1]; the rest of the file fits in a second
    chunk).  Each chunk's [decode('utf-8', errors='ignore')] drops its
    piece of [c]: the loop's texts are [s1] and [s2], while the file
    decodes to [s1 ++ c :: s2]. *)
Theorem chunk_boundary_drops_char (s1 s2 : list Z) c :
  Forall (fun x => valid_char x = true) s1 -> Forall (fun x => valid_char x = true) s2 ->
  valid_char c = true -> 0x80 <= c ->
  (length (encode (c :: s2)) <= length (encode s1) + 2)%nat ->
  map (chunk_text (py_len (encode s1) + 1) (encode (s1 ++ c :: s2)))
      (chunk_offsets (py_len (encode s1) + 1) (encode (s1 ++ c :: s2))) = [s1; s2] /\
  decode_ignore (encode (s1 ++ c :: s2)) = s1 ++ c :: s2.
Proof.
  intros H1 H2 Hv Hc Hlen.
  destruct (encode_char_lead c Hv Hc) as (lead & conts & E & Hl & Hne & Hconts).
  rewrite encode_cons, E in Hlen. cbn [length app] in Hlen. rewrite length_app in Hlen.
  assert (Hdata : encode (s1 ++ c :: s2) = (encode s1 ++ [lead]) ++ (conts ++ encode s2)).
  { by rewrite encode_app, encode_cons, E, <- app_assoc. }
  split.
  2:{ rewrite <- (app_nil_r (encode (s1 ++ c :: s2))), decode_encode_prefix by (apply Forall_app; auto).
      apply app_nil_r. }
  rewrite Hdata. set (cs := py_len (encode s1) + 1).
  assert (Hcs : cs = py_len (encode s1 ++ [lead])) by (unfold cs, py_len; rewrite length_app; simpl; lia).
  assert (Hfs : file_size ((encode s1 ++ [lead]) ++ conts ++ encode s2) =
                cs + py_len (conts ++ encode s2)) by (unfold file_size, cs, py_len; rewrite !length_app; simpl; lia).
  assert (Hne' : (1 <= length conts)%nat) by (destruct conts; [done|simpl; lia]).
  assert (Hoffs : chunk_offsets cs ((encode s1 ++ [lead]) ++ conts ++ encode s2) = [0; cs]).
  { unfold chunk_offsets, Range.range_length. rewrite Hfs.
    unfold cs, py_len in *. rewrite length_app in *.
    rewrite (proj2 (Z.ltb_lt 0 _)) by lia. rewrite (proj2 (Z.ltb_lt 0 _)) by lia.
    replace ((_ - 0 - 1) / _) with 1 by (apply (Z.div_unique _ _ 1 (Z.of_nat (length conts + length (encode s2)) - 1)); lia).
    change (Z.to_nat (1 + 1)) with 2%nat. rewrite !Range.range_items_S.
    unfold Range.range_items. cbn [seq map]. f_equal. }
  rewrite Hoffs. cbn [map]. unfold chunk_text.
  rewrite !chunk_bytes_slice by (unfold cs, py_len; lia).
  rewrite !py_slice_nonneg by (unfold cs, py_len; lia). rewrite drop_0.
  rewrite Hcs. unfold py_len. rewrite !Nat2Z.id, take_app_length, drop_app_length.
  rewrite take_ge by (unfold cs, py_len in *; rewrite !length_app in *; simpl in *; lia).
  destruct (decode_split_inside_char s1 s2 c lead conts H1 H2 Hv Hc E) as [D1 D2].
  by rewrite D1, D2.
Qed.

(** ** Witnesses *)

Lemma chunk_loop_whole_file_witness :
  exists reps,
    chunk_loop default_config 2 [0x41; 0x42; 0x41] (fun _ => 1%Q)
      (Z.to_nat (file_size [0x41; 0x42; 0x41])) init_state =
      Ok (mkLoop (file_size [0x41; 0x42; 0x41])
            (Range.range_length 0 (file_size [0x41; 0x42; 0x41]) 2)
            (sumZ (fun o => py_len (chunk_blocks default_config 2 [0x41; 0x42; 0x41] o))
               (chunk_offsets 2 [0x41; 0x42; 0x41]))
            (sumZ (fun o => py_len (chunk_compressed default_config 2 [0x41; 0x42; 0x41] o))
               (chunk_offsets 2 [0x41; 0x42; 0x41])), reps) /\
    py_len reps = Range.range_length 0 (file_size [0x41; 0x42; 0x41]) 2.
Proof.
  apply (chunk_loop_whole_file default_config 2 [0x41; 0x42; 0x41] (fun _ => 1%Q));
    [lia | vm_compute; reflexivity | by_decide].
Defined.

Lemma chunk_boundary_drops_char_witness :
  map (chunk_text (py_len (encode [0x41]) + 1) (encode ([0x41] ++ 0xE9 :: [0x42])))
      (chunk_offsets (py_len (encode [0x41]) + 1) (encode ([0x41] ++ 0xE9 :: [0x42]))) = [[0x41]; [0x42]] /\
  decode_ignore (encode ([0x41] ++ 0xE9 :: [0x42])) = [0x41] ++ 0xE9 :: [0x42].
Proof.
  apply (chunk_boundary_drops_char [0x41] [0x42] 0xE9); [by_decide | by_decide | reflexivity | lia |
    vm_compute; lia].
Defined.

(** The loop on [ABC] with two-byte chunks, as it runs. *)
Definition abc_run : LoopState * list ChunkReport :=
  match chunk_loop default_config 2 [0x41; 0x42; 0x43] (fun _ => 1%Q) 3 init_state with
  | Ok p => p
  | Raise _ => (init_state, [])
  end.

Lemma chunk_loop_reports_witness :
  offset abc_run.1 = file_size [0x41; 0x42; 0x43] /\
  map rep_chunk abc_run.2 = map Z.of_nat (seq 1 (length abc_run.2)) /\
  total_blocks abc_run.1 = sumZ rep_blocks abc_run.2 /\ total_unique abc_run.1 = sumZ rep_unique abc_run.2 /\
  (forall r, last abc_run.2 = Some r -> (rep_progress r == 100)%Q).
Proof.
  apply (chunk_loop_reports default_config 2 [0x41; 0x42; 0x43] (fun _ => 1%Q)); [lia|].
  vm_compute. reflexivity.
Defined.

Lemma chunk_loop_zero_division_witness :
  chunk_loop default_config 1 [0x41; 0xFF] (fun _ => 1%Q)
    (Z.to_nat (file_size [0x41; 0xFF])) init_state = Raise ZeroDivisionError.
Proof.
  apply (chunk_loop_zero_division default_config 1 [0x41; 0xFF] (fun _ => 1%Q));
    [lia | vm_compute; reflexivity | by_decide].
Defined.

Lemma reachable_loop_inv_witness : loop_inv 2 [0x41; 0x42] init_state.
Proof.
  apply (reachable_loop_inv default_config 2 [0x41; 0x42] (fun _ => 1%Q)); [lia | constructor].
Defined.

Lemma chunk_loop_reachable_witness :
  reachable default_config 2 [0x41; 0x42; 0x43] (fun _ => 1%Q) (mkLoop 3 2 3 3).
Proof.
  apply (chunk_loop_reachable default_config 2 [0x41; 0x42; 0x43] (fun _ => 1%Q) 3 init_state
    (mkLoop 3 2 3 3) (match chunk_loop default_config 2 [0x41; 0x42; 0x43] (fun _ => 1%Q) 3
                        init_state with Ok p => p.2 | Raise _ => [] end));
    [constructor | vm_compute; reflexivity].
Defined.

Lemma process_results_bounds_witness :
  let res := mkResults 2 2 1 ((1 - inject_Z 1 / inject_Z 2) * 100)%Q 1%Q (inject_Z 2 / 1)%Q
               (inject_Z 2 / 1 / 200)%Q in
  (0 <= res_compression_ratio res <= 100)%Q /\ 0 <= res_unique_blocks res <= res_blocks_processed res.
Proof.
  apply (process_results_bounds default_config [0x41; 0x41] (fun _ => 1%Q) 1%Q).
  vm_compute. reflexivity.
Defined.

Lemma chunks_partition_file_witness :
  concat (map (chunk_bytes 2 [1; 2; 3]) (chunk_offsets 2 [1; 2; 3])) = [1; 2; 3].
Proof. apply chunks_partition_file. lia. Defined.


Lemma reachable_progress_witness :
  exists st', loop_step default_config 2 [0x41; 0x42] (fun _ => 1%Q) init_state st' /\
    offset init_state < offset st' /\ reachable default_config 2 [0x41; 0x42] (fun _ => 1%Q) st'.
Proof.
  apply (reachable_progress default_config 2 [0x41; 0x42] (fun _ => 1%Q)); [lia | reflexivity | constructor
    | reflexivity | vm_compute; discriminate].
Defined.

End Wikipedia.
