(* ===== verification/PyIO.v ===== *)
(** * PyIO: the effects of the scripts as a world-passing monad

    The report, the environment check and the download script do little
    but print, look up files, read [input()], import modules and write
    files.  This file models those effects: a [World] record holds what
    a script can observe or change, and [IO A] is a function from the
    world to a result and the new world.  An exception keeps the world
    it was raised in, so the output printed before a [raise] stays
    printed, as in Python.  [IO] is an instance of stdpp's [MRet] and
    [MBind], so the files that use it write [x ← c; k] and [c ;; k].

    A Python [str] is its list of code points ([pystr]), as in the
    other files; file contents are bytes. *)

From S2P Require Import Prelude.

Local Open Scope Z_scope.

Module PyIO.

(** A Python [str]: its code points. *)
Abbreviation pystr := (list Z).

(** What a script observes and changes. *)
Record World := mkWorld {
  stdout : list pystr;        (** what was written to [sys.stdout], oldest first *)
  stdin : list pystr;         (** the lines [input()] has still to read *)
  fs : gmap pystr (list Z);   (** the files: path to bytes *)
  modules : gset pystr;       (** the modules [import] can load *)
  dirs : gset pystr;          (** the directories besides the working one and [/] *)
  clock : nat -> Q;           (** the successive readings of [time.perf_counter()] *)
  ticks : nat                 (** how many readings were taken *)
}.

(** A world at the start of a script: nothing printed, no directory
    but the working one, no clock reading taken. *)
Definition start_world (input : list pystr) (files : gmap pystr (list Z)) (mods : gset pystr) : World :=
  mkWorld [] input files mods ∅ (fun _ => 0%Q) 0.

(** ** Updates of one field *)

(** Lines appended to the output. *)
Definition write_lines (ls : list pystr) (w : World) : World :=
  mkWorld (stdout w ++ ls) (stdin w) (fs w) (modules w) (dirs w) (clock w) (ticks w).

Definition set_stdin (l : list pystr) (w : World) : World :=
  mkWorld (stdout w) l (fs w) (modules w) (dirs w) (clock w) (ticks w).

Definition set_fs (f : gmap pystr (list Z)) (w : World) : World :=
  mkWorld (stdout w) (stdin w) f (modules w) (dirs w) (clock w) (ticks w).

Definition tick (w : World) : World :=
  mkWorld (stdout w) (stdin w) (fs w) (modules w) (dirs w) (clock w) (S (ticks w)).

Definition IO (A : Type) : Type := World -> PyResult A * World.

#[export] Instance io_ret : MRet IO := fun A a w => (Ok a, w).

#[export] Instance io_bind : MBind IO := fun A B k c w =>
  match c w with
  | (Ok a, w') => k a w'
  | (Raise e, w') => (Raise e, w')
  end.

(** [raise e]. *)
Definition throw {A} (e : PyExc) : IO A := fun w => (Raise e, w).

(** A pure computation that may raise, run in the world. *)
Definition lift {A} (r : PyResult A) : IO A := fun w => (r, w).

(** [print(s)]: writes [s] and a newline. *)
Definition print (s : pystr) : IO unit := fun w => (Ok tt, write_lines [s ++ [10]] w).

(** [input(prompt)]: writes the prompt, then reads a line, or raises
    [EOFError] when standard input is exhausted. *)
Definition input (prompt : pystr) : IO pystr := fun w =>
  let w1 := write_lines [prompt] w in
  match stdin w1 with
  | [] => (Raise EOFError, w1)
  | l :: rest => (Ok l, set_stdin rest w1)
  end.

(** [os.path.exists(path)]. *)
Definition path_exists (path : pystr) : IO bool := fun w =>
  (Ok (bool_decide (is_Some (fs w !! path))), w).

(** The contents of the file at [path], when it exists. *)
Definition read_file (path : pystr) : IO (option (list Z)) := fun w => (Ok (fs w !! path), w).

(** [open(path, 'rb').read()]: [FileNotFoundError] for a missing file. *)
Definition open_read (path : pystr) : IO (list Z) := fun w =>
  match fs w !! path with
  | Some data => (Ok data, w)
  | None => (Raise FileNotFoundError, w)
  end.

(** The directory part of a path, read from its reversed text: what
    precedes the last ['/'], if there is one. *)
Fixpoint dir_of_rev (r : pystr) : option pystr :=
  match r with
  | [] => None
  | c :: r' => if c =? 47 then Some (rev r') else dir_of_rev r'
  end.

Definition parent_dir (path : pystr) : option pystr := dir_of_rev (rev path).

(** The directory a path names exists: the working directory ([None]),
    the root ([Some []]), or one of [dirs]. *)
Definition dir_exists (w : World) (d : option pystr) : bool :=
  match d with
  | None | Some [] => true
  | Some p => bool_decide (p ∈ dirs w)
  end.

(** [with open(path, 'w') as f: f.write(data)], for [data] already
    encoded: [FileNotFoundError] when the directory is missing. *)
Definition write_file (path : pystr) (data : list Z) : IO unit := fun w =>
  if dir_exists w (parent_dir path) then (Ok tt, set_fs (<[path := data]> (fs w)) w)
  else (Raise FileNotFoundError, w).

(** [time.perf_counter()]: the next reading of the clock. *)
Definition perf_counter : IO Q := fun w => (Ok (clock w (ticks w)), tick w).

(** [import m]: [ImportError] unless the module can be loaded. *)
Definition import_module (m : pystr) : IO unit := fun w =>
  if bool_decide (m ∈ modules w) then (Ok tt, w) else (Raise ImportError, w).

(** [for x in l: body(x)]. *)
Fixpoint py_for {A} (l : list A) (body : A -> IO unit) : IO unit :=
  match l with
  | [] => mret tt
  | x :: rest => body x ;; py_for rest body
  end.

(** [try: c except e: h]: runs [h] in the world where [c] raised [e]. *)
Definition try_except {A} (c : IO A) (e : PyExc) (h : IO A) : IO A := fun w =>
  match c w with
  | (Raise e', w') => if decide (e' = e) then h w' else (Raise e', w')
  | r => r
  end.

(** ** Running computations *)

Lemma io_ret_run {A} (a : A) w : (mret a : IO A) w = (Ok a, w).
Proof. reflexivity. Qed.

Lemma io_bind_run {A B} (c : IO A) (k : A -> IO B) w :
  (c ≫= k) w = match c w with (Ok a, w') => k a w' | (Raise e, w') => (Raise e, w') end.
Proof. reflexivity. Qed.

Lemma io_bind_Ok {A B} (c : IO A) (k : A -> IO B) w a w' :
  c w = (Ok a, w') -> (c ≫= k) w = k a w'.
Proof. intros Hc. by rewrite io_bind_run, Hc. Qed.

Lemma io_bind_Raise {A B} (c : IO A) (k : A -> IO B) w e w' :
  c w = (Raise e, w') -> (c ≫= k) w = (Raise e, w').
Proof. intros Hc. by rewrite io_bind_run, Hc. Qed.

(** The monad laws, pointwise in the world. *)
Lemma io_bind_ret_l {A B} (a : A) (k : A -> IO B) w : (mret a ≫= k) w = k a w.
Proof. reflexivity. Qed.

Lemma io_bind_ret_r {A} (c : IO A) w : (c ≫= mret) w = c w.
Proof. rewrite io_bind_run. by destruct (c w) as [[a|e] w']. Qed.

Lemma io_bind_assoc {A B C} (c : IO A) (k1 : A -> IO B) (k2 : B -> IO C) w :
  ((c ≫= k1) ≫= k2) w = (c ≫= (fun a => k1 a ≫= k2)) w.
Proof. rewrite !io_bind_run. by destruct (c w) as [[a|e] w']. Qed.

Lemma py_for_app {A} (l1 l2 : list A) (body : A -> IO unit) w :
  py_for (l1 ++ l2) body w = (py_for l1 body ;; py_for l2 body) w.
Proof.
  revert w. induction l1 as [|x l1 IH]; intros w; simpl; [reflexivity|].
  rewrite !io_bind_run. destruct (body x w) as [[[]|e] w']; [|reflexivity].
  rewrite IH. reflexivity.
Qed.

Lemma write_lines_nil w : write_lines [] w = w.
Proof. destruct w. unfold write_lines. simpl. by rewrite app_nil_r. Qed.

Lemma write_lines_app l1 l2 w : write_lines l2 (write_lines l1 w) = write_lines (l1 ++ l2) w.
Proof. unfold write_lines. simpl. by rewrite app_assoc. Qed.

Lemma fs_write_lines l w : fs (write_lines l w) = fs w.
Proof. reflexivity. Qed.

Lemma write_lines_set_fs l f w : write_lines l (set_fs f w) = set_fs f (write_lines l w).
Proof. reflexivity. Qed.

Lemma write_lines_set_stdin l r w : write_lines l (set_stdin r w) = set_stdin r (write_lines l w).
Proof. reflexivity. Qed.

Lemma print_run s w : print s w = (Ok tt, write_lines [s ++ [10]] w).
Proof. reflexivity. Qed.

Lemma lift_Ok_run {A} (a : A) w : lift (Ok a) w = (Ok a, w).
Proof. reflexivity. Qed.

Lemma lift_Raise_run {A} e w : @lift A (Raise e) w = (Raise e, w).
Proof. reflexivity. Qed.

Lemma input_run p w l rest :
  stdin w = l :: rest -> input p w = (Ok l, set_stdin rest (write_lines [p] w)).
Proof. intros Hin. unfold input. simpl. by rewrite Hin. Qed.

Lemma read_file_run path w : read_file path w = (Ok (fs w !! path), w).
Proof. reflexivity. Qed.

Lemma write_file_run path data w :
  dir_exists w (parent_dir path) = true ->
  write_file path data w = (Ok tt, set_fs (<[path := data]> (fs w)) w).
Proof. intros Hd. unfold write_file. by rewrite Hd. Qed.

Lemma write_file_missing_dir path data w :
  dir_exists w (parent_dir path) = false -> write_file path data w = (Raise FileNotFoundError, w).
Proof. intros Hd. unfold write_file. by rewrite Hd. Qed.

Lemma dir_of_rev_none r : Forall (fun c => c <> 47) r -> dir_of_rev r = None.
Proof.
  induction 1 as [|c r Hc _ IH]; [done|]. simpl.
  by rewrite (proj2 (Z.eqb_neq _ _) Hc).
Qed.

(** A file name without ['/'] is in the working directory. *)
Lemma parent_dir_plain path : Forall (fun c => c <> 47) path -> parent_dir path = None.
Proof. intros H. apply dir_of_rev_none. by apply Forall_rev. Qed.

Lemma open_read_run path data w : fs w !! path = Some data -> open_read path w = (Ok data, w).
Proof. intros H. unfold open_read. by rewrite H. Qed.

Lemma perf_counter_run w : perf_counter w = (Ok (clock w (ticks w)), tick w).
Proof. reflexivity. Qed.

(** One step of a sequence: run the first computation with [lem]. *)
Ltac io_step lem := rewrite io_bind_run; erewrite lem; cbv beta iota zeta.

(** A loop that prints one line per element. *)
Lemma py_for_print {A} (l : list A) (f : A -> pystr) w :
  py_for l (fun x => print (f x)) w = (Ok tt, write_lines (map (fun x => f x ++ [10]) l) w).
Proof.
  revert w. induction l as [|x l IH]; intros w; simpl.
  - by rewrite write_lines_nil.
  - rewrite io_bind_run, print_run, IH, write_lines_app. reflexivity.
Qed.

(** ** Computations that only print *)

(** [c] writes the lines [out] and returns, whatever the world. *)
Definition prints (c : IO unit) (out : list pystr) : Prop := forall w, c w = (Ok tt, write_lines out w).

Lemma prints_ret : prints (mret tt) [].
Proof. intros w. by rewrite io_ret_run, write_lines_nil. Qed.

Lemma prints_print s : prints (print s) [s ++ [10]].
Proof. intros w. apply print_run. Qed.

Lemma prints_seq (c1 c2 : IO unit) o1 o2 : prints c1 o1 -> prints c2 o2 -> prints (c1 ;; c2) (o1 ++ o2).
Proof. intros H1 H2 w. by rewrite io_bind_run, H1, H2, write_lines_app. Qed.

Lemma prints_lift {A} (r : PyResult A) a (k : A -> IO unit) o :
  r = Ok a -> prints (k a) o -> prints (lift r ≫= k) o.
Proof. intros -> H w. apply H. Qed.

Lemma prints_py_for {A} (l : list A) body (f : A -> list pystr) :
  (forall x, prints (body x) (f x)) -> prints (py_for l body) (concat (map f l)).
Proof.
  intros Hb. induction l as [|x l IH]; cbn [py_for map concat]; [apply prints_ret|].
  by apply prints_seq.
Qed.

(** The output of a straight-line sequence of [print]s and of
    computations that cannot raise. *)
Ltac prints_steps :=
  repeat first [ apply prints_seq | apply prints_print | apply prints_ret
               | eapply prints_lift; [reflexivity|] ].

(** ** What a computation can change *)

(** [io_frame R c]: every run of [c] relates the world it starts in to
    the world it ends in by [R], whether it returns or raises.  For a
    preorder [R] the rules below build it along [≫=], loops and
    [try]. *)
Section Frame.

Context (R : relation World) `{!PreOrder R}.

Definition io_frame {A} (c : IO A) : Prop := forall w, R w (c w).2.

Lemma io_frame_observe {A} (c : IO A) : (forall w, (c w).2 = w) -> io_frame c.
Proof. intros Hc w. rewrite Hc. reflexivity. Qed.

Lemma io_frame_ret {A} (a : A) : io_frame (mret a).
Proof. by apply io_frame_observe. Qed.

Lemma io_frame_lift {A} (r : PyResult A) : io_frame (lift r).
Proof. by apply io_frame_observe. Qed.

Lemma io_frame_throw {A} e : io_frame (@throw A e).
Proof. by apply io_frame_observe. Qed.

Lemma io_frame_bind {A B} (c : IO A) (k : A -> IO B) :
  io_frame c -> (forall a, io_frame (k a)) -> io_frame (c ≫= k).
Proof.
  intros Hc Hk w. rewrite io_bind_run. specialize (Hc w).
  destruct (c w) as [[a|e] w']; cbn [snd] in *; [by etrans; [|apply Hk]|done].
Qed.

Lemma io_frame_py_for {A} (l : list A) body :
  (forall x, io_frame (body x)) -> io_frame (py_for l body).
Proof.
  intros Hb. induction l as [|x l IH]; cbn [py_for]; [apply io_frame_ret|].
  apply io_frame_bind; [apply Hb | intros; apply IH].
Qed.

Lemma io_frame_try {A} (c h : IO A) e : io_frame c -> io_frame h -> io_frame (try_except c e h).
Proof.
  intros Hc Hh w. unfold try_except. specialize (Hc w).
  destruct (c w) as [[a|e'] w']; cbn [snd] in *; [done|].
  case_decide; cbn [snd]; [by etrans; [|apply Hh]|done].
Qed.

End Frame.

Create HintDb io_frame.
#[export] Hint Resolve io_frame_ret io_frame_lift io_frame_throw io_frame_py_for
  io_frame_try : io_frame.
#[export] Hint Extern 0 (PreOrder _) => typeclasses eauto : io_frame.

(** The worlds that differ by lines printed and clock readings taken. *)
Definition outputs (w w' : World) : Prop :=
  exists out k, w' = write_lines out (Nat.iter k tick w).

Lemma tick_write_lines l w : tick (write_lines l w) = write_lines l (tick w).
Proof. reflexivity. Qed.

Lemma iter_tick_write_lines k l w : Nat.iter k tick (write_lines l w) = write_lines l (Nat.iter k tick w).
Proof. induction k as [|k IH]; [done|]. by rewrite !Nat.iter_succ, IH. Qed.

Lemma iter_tick_set_stdin k l w : Nat.iter k tick (set_stdin l w) = set_stdin l (Nat.iter k tick w).
Proof. induction k as [|k IH]; [done|]. by rewrite !Nat.iter_succ, IH. Qed.

#[export] Instance outputs_preorder : PreOrder outputs.
Proof.
  split.
  - intros w. exists [], 0%nat. by rewrite write_lines_nil.
  - intros w1 w2 w3 (o1 & k1 & ->) (o2 & k2 & ->). exists (o1 ++ o2), (k2 + k1)%nat.
    rewrite iter_tick_write_lines, write_lines_app, Nat.iter_add. done.
Qed.

(** [c] only prints and reads the clock: the files, the input, the
    modules and the directories are those it started with. *)
Abbreviation only_outputs := (io_frame outputs).

Lemma only_outputs_print s : only_outputs (print s).
Proof. intros w. by exists [s ++ [10]], 0%nat. Qed.

Lemma only_outputs_perf_counter : only_outputs perf_counter.
Proof. intros w. exists [], 1%nat. by rewrite write_lines_nil. Qed.

Lemma only_outputs_path_exists p : only_outputs (path_exists p).
Proof. apply (io_frame_observe outputs). intros w. reflexivity. Qed.

Lemma only_outputs_open_read p : only_outputs (open_read p).
Proof. apply (io_frame_observe outputs). intros w. unfold open_read. by destruct (fs w !! p). Qed.

#[export] Hint Resolve only_outputs_print only_outputs_perf_counter only_outputs_path_exists
  only_outputs_open_read : io_frame.

(** [c] writes no file. *)
Definition same_fs (w w' : World) : Prop := fs w' = fs w.

#[export] Instance same_fs_preorder : PreOrder same_fs.
Proof. unfold same_fs. split; [intros w; reflexivity | intros w1 w2 w3 H1 H2; congruence]. Qed.

Lemma fs_iter_tick k w : fs (Nat.iter k tick w) = fs w.
Proof. induction k as [|k IH]; [done|]. by rewrite Nat.iter_succ. Qed.

Lemma outputs_same_fs w w' : outputs w w' -> same_fs w w'.
Proof. intros (o & k & ->). unfold same_fs. by rewrite fs_write_lines, fs_iter_tick. Qed.

Lemma only_outputs_keeps_fs {A} (c : IO A) : only_outputs c -> io_frame same_fs c.
Proof. intros Hc w. apply outputs_same_fs, Hc. Qed.

Lemma input_keeps_fs p : io_frame same_fs (input p).
Proof. intros w. unfold input. by destruct (stdin _). Qed.

Lemma import_keeps_fs m : io_frame same_fs (import_module m).
Proof. apply (io_frame_observe same_fs). intros w. unfold import_module. by case_bool_decide. Qed.

#[export] Hint Resolve input_keeps_fs import_keeps_fs : io_frame.

(** A frame through a sequence of binds, one step at a time. *)
Ltac io_frame_steps :=
  repeat match goal with
  | |- io_frame _ (_ ≫= _) => refine (io_frame_bind _ _ _ _ _); intros
  | |- io_frame _ (let _ := _ in _) => cbv zeta
  | |- _ => solve [auto with io_frame]
  end.

End PyIO.
