(* ===== verification/PyFormat.v ===== *)
(** * PyFormat: Python's conversions of numbers to text

    The report and the scripts print numbers with f-strings: [str(n)]
    of an [int] ([{n}]), [format(x, '.1f')], [format(x, ',.0f')] and
    [format(n, ',')], and they build text with [+], [*] and
    [str.join].  This file gives those conversions on code points:

    - [digits] and [int_repr]: CPython's [long_to_decimal_string],
      which divides by ten until the quotient is a single digit;
    - [round_half_even] and [fmt_fixed]: the ['f'] presentation type,
      which rounds the exact value half to even, with the [','] option
      ([group]) inserting a comma every three digits;
    - [lit]: a string literal of the source, read from its UTF-8 bytes;
    - [py_join] and [py_repeat]: [sep.join(l)] and [s * n].

    The theorems: [digits] is a faithful decimal numeral (its value is
    the number, every code point is a digit, no leading zero) and
    [int_repr] reads back with [parse_int]. *)

From S2P Require Import Prelude Utf8.
From Stdlib Require Import Qround.
From Stdlib Require String Ascii.
Export String.StringSyntax.

Local Open Scope Z_scope.

Module PyFormat.

Import Utf8.Utf8.

Abbreviation pystr := (list Z).

(** ** Text *)

(** A string literal of the source, as code points: the bytes of the
    literal decoded as UTF-8. *)
Definition lit (s : String.string) : pystr :=
  decode_ignore (map (fun a => Z.of_nat (Ascii.nat_of_ascii a)) (String.list_ascii_of_string s)).
Arguments lit s%_string_scope.

(** Evaluate the literals of a goal, each on its own closed term. *)
Ltac eval_lits :=
  repeat match goal with
  | |- context [lit ?s] => let v := eval vm_compute in (lit s) in change (lit s) with v
  end.

(** [sep.join(l)]. *)
Fixpoint py_join (sep : pystr) (l : list pystr) : pystr :=
  match l with
  | [] => []
  | [x] => x
  | x :: rest => x ++ sep ++ py_join sep rest
  end.

Lemma py_join_cons_cons sep x y l :
  py_join sep (x :: y :: l) = x ++ sep ++ py_join sep (y :: l).
Proof. reflexivity. Qed.

(** [s * n]. *)
Definition py_repeat (s : pystr) (n : nat) : pystr := concat (repeat s n).

(** ** Integers *)

(** The decimal digits of [n >= 0], most significant first.  Each step
    emits the last digit and continues with [n / 10]; the fuel
    [1 + log2 n] bounds the number of digits. *)
Fixpoint digits_go (fuel : nat) (n : Z) (acc : pystr) : pystr :=
  match fuel with
  | O => acc
  | S f =>
    if n <? 10 then (48 + n) :: acc
    else digits_go f (n / 10) ((48 + n mod 10) :: acc)
  end.

Definition digits (n : Z) : pystr := digits_go (S (Z.to_nat (Z.log2 n))) n [].

(** [str(z)] for an [int]. *)
Definition int_repr (z : Z) : pystr :=
  if z <? 0 then 45 :: digits (- z) else digits z.

Definition is_digit (c : Z) : bool := (48 <=? c) && (c <=? 57).

(** The value of a numeral, by Horner's rule. *)
Definition digits_value (l : pystr) : Z := fold_left (fun v c => v * 10 + (c - 48)) l 0.

(** [int(s)] on the numerals [int_repr] prints: an optional minus sign
    and one or more digits. *)
Definition parse_int (s : pystr) : option Z :=
  let '(sign, ds) :=
    match s with
    | c :: r => if c =? 45 then (-1, r) else (1, s)
    | [] => (1, [])
    end in
  if bool_decide (ds <> []) && forallb is_digit ds then Some (sign * digits_value ds) else None.

(** ** Floats *)

(** Rounding to an integer, ties to even. *)
Definition round_half_even (q : Q) : Z :=
  let f := Qfloor q in
  match Qcompare (q - inject_Z f) (1 # 2) with
  | Lt => f
  | Gt => f + 1
  | Eq => if Z.even f then f else f + 1
  end.

(** [int(x)] of a float: truncation toward zero. *)
Definition py_trunc (q : Q) : Z := if Qle_bool 0 q then Qfloor q else - Qfloor (- q).

(** Commas between groups of three digits, counted from the right; the
    digits are given reversed. *)
Fixpoint group_rev (k : nat) (l : pystr) : pystr :=
  match l with
  | [] => []
  | d :: rest =>
    match k with
    | O => 44 :: d :: group_rev 2 rest
    | S k' => d :: group_rev k' rest
    end
  end.

Definition group (ds : pystr) : pystr := rev (group_rev 3 (rev ds)).

(** [n] digits, padded on the left with zeros to [w]. *)
Definition pad_zeros (w : nat) (ds : pystr) : pystr :=
  repeat 48 (w - length ds) ++ ds.

(** [format(x, '.{prec}f')], and with [grouping] [format(x, ',.{prec}f')]:
    the sign of [x], the integer part (grouped), and [prec] digits of
    fraction, of [x] rounded half to even at [prec] places. *)
Definition fmt_fixed (grouping : bool) (prec : nat) (x : Q) : pystr :=
  let p := 10 ^ Z.of_nat prec in
  let a := Z.abs (round_half_even (x * inject_Z p)) in
  let ip := digits (a / p) in
  (if Qle_bool 0 x then [] else [45]) ++
  (if grouping then group ip else ip) ++
  (match prec with O => [] | _ => 46 :: pad_zeros prec (digits (a mod p)) end).

(** [format(n, ',')] for an [int]. *)
Definition int_grouped (z : Z) : pystr :=
  if z <? 0 then 45 :: group (digits (- z)) else group (digits z).

(** ** Lemmas on digits *)

Lemma digits_go_acc f n acc : digits_go f n acc = digits_go f n [] ++ acc.
Proof.
  revert n acc. induction f as [|f IH]; intros n acc; simpl; [done|].
  destruct (n <? 10); [done|]. rewrite IH, (IH _ [_]). by rewrite <- app_assoc.
Qed.

Lemma digits_go_S f n acc :
  digits_go (S f) n acc =
  if n <? 10 then (48 + n) :: acc else digits_go f (n / 10) ((48 + n mod 10) :: acc).
Proof. reflexivity. Qed.

Lemma digits_value_snoc l c : digits_value (l ++ [c]) = digits_value l * 10 + (c - 48).
Proof. unfold digits_value. by rewrite fold_left_app. Qed.

Lemma digits_go_spec f n :
  0 <= n < 10 ^ Z.of_nat (S f) ->
  digits_value (digits_go (S f) n []) = n /\ Forall (fun c => is_digit c = true) (digits_go (S f) n []) /\
  exists c rest, digits_go (S f) n [] = c :: rest /\ (c = 48 -> n = 0).
Proof.
  revert n. induction f as [|f IH]; intros n Hn; rewrite digits_go_S.
  - rewrite Nat2Z.inj_succ, Z.pow_succ_r, Z.pow_0_r in Hn by lia.
    rewrite (proj2 (Z.ltb_lt _ _)) by lia. unfold is_digit.
    split; [unfold digits_value; simpl; lia|]. split; [constructor; [zbool_cases; done|constructor]|].
    eexists _, []. split; [done | lia].
  - destruct (Z.ltb_spec n 10).
    { unfold is_digit. split; [unfold digits_value; simpl; lia|]. split; [constructor; [zbool_cases; done|constructor]|].
      eexists _, []. split; [done | lia]. }
    assert (Hq : 0 <= n / 10 < 10 ^ Z.of_nat (S f)).
    { rewrite !Nat2Z.inj_succ, !Z.pow_succ_r in * by lia. split; [zlia|].
      apply Z.div_lt_upper_bound; lia. }
    destruct (IH _ Hq) as (Hv & Hd & c & rest & Hcr & Hc).
    rewrite digits_go_acc, digits_value_snoc, Hv. split; [zlia|]. split.
    + apply Forall_app; split; [done|]. constructor; [|constructor].
      unfold is_digit. zbool_cases; done.
    + rewrite Hcr. eexists c, _. split; [done|]. intros ->. specialize (Hc eq_refl). zlia.
Qed.

Lemma digits_fuel n : 0 <= n -> 0 <= n < 10 ^ Z.of_nat (S (Z.to_nat (Z.log2 n))).
Proof.
  intros Hn. split; [done|].
  destruct (Z.eq_dec n 0) as [->|Hn0]; [simpl; lia|].
  destruct (Z.log2_spec n ltac:(lia)) as [_ Hlt].
  rewrite Nat2Z.inj_succ, Z2Nat.id by apply Z.log2_nonneg.
  eapply Z.lt_le_trans; [exact Hlt|].
  apply Z.pow_le_mono_l. pose proof (Z.log2_nonneg n). lia.
Qed.

(** [digits n] is the decimal numeral of [n]. *)
Lemma digits_spec n :
  0 <= n ->
  digits_value (digits n) = n /\ Forall (fun c => is_digit c = true) (digits n) /\
  exists c rest, digits n = c :: rest /\ (c = 48 -> n = 0).
Proof. intros Hn. apply digits_go_spec, digits_fuel, Hn. Qed.

Lemma digits_nonempty n : 0 <= n -> digits n <> [].
Proof. intros Hn. destruct (digits_spec n Hn) as (_ & _ & c & rest & -> & _). done. Qed.

Lemma forallb_digits n : 0 <= n -> forallb is_digit (digits n) = true.
Proof.
  intros Hn. destruct (digits_spec n Hn) as (_ & Hd & _). apply forallb_forall.
  intros c Hc. rewrite Forall_forall in Hd. apply Hd. by apply list_elem_of_In.
Qed.

Lemma digits_head_not_minus n : 0 <= n -> exists c rest, digits n = c :: rest /\ c <> 45.
Proof.
  intros Hn. destruct (digits_spec n Hn) as (_ & Hd & c & rest & Hcr & _).
  exists c, rest. split; [done|]. rewrite Hcr in Hd. inversion Hd as [|? ? Hc _]; subst.
  unfold is_digit in Hc. intros ->. discriminate.
Qed.

(** ** Properties *)

(** The characters of [str(z)]: a minus sign and decimal digits. *)
Lemma int_repr_chars z : Forall (fun c => c = 45 \/ 48 <= c <= 57) (int_repr z).
Proof.
  assert (Hd : forall n, 0 <= n -> Forall (fun c => c = 45 \/ 48 <= c <= 57) (digits n)).
  { intros n Hn. destruct (digits_spec n Hn) as (_ & Hds & _). eapply Forall_impl; [exact Hds|].
    intros c. unfold is_digit. intros Hc. apply andb_true_iff in Hc as [H1 H2].
    apply Z.leb_le in H1, H2. lia. }
  unfold int_repr. destruct (Z.ltb_spec z 0); [constructor; [by left|]|]; apply Hd; lia.
Qed.

(** Round trip.  [str(z)] of every [int] reads back as [z]: the
    numeral is a minus sign for negative numbers and the decimal
    digits of [|z|], with no leading zero. *)
Theorem int_repr_roundtrip (z : Z) : parse_int (int_repr z) = Some z.
Proof.
  unfold int_repr, parse_int. destruct (Z.ltb_spec z 0) as [Hz|Hz].
  - rewrite Z.eqb_refl, forallb_digits by lia.
    rewrite bool_decide_true by (apply digits_nonempty; lia). simpl.
    f_equal. rewrite (proj1 (digits_spec (- z) ltac:(lia))). lia.
  - destruct (digits_head_not_minus z Hz) as (c & rest & Hcr & Hc). rewrite Hcr.
    rewrite (proj2 (Z.eqb_neq c 45) Hc), <- Hcr, forallb_digits by lia.
    rewrite bool_decide_true by (apply digits_nonempty; lia). simpl.
    f_equal. rewrite (proj1 (digits_spec z Hz)). lia.
Qed.

End PyFormat.
