(* ===== verification/Json.v ===== *)
(** * Json: Python values and [json.dumps]

    The program hashes and saves Python dictionaries through
    [json.dumps(d, sort_keys=True)] (legal_verification.py 71, 220) and
    [json.dump(report, f, indent=2)] (line 324).  This file models:

    - [PyVal], the Python values those dictionaries hold ([None], [bool],
      [int], [float], [str], [list], [dict] as an association list in
      insertion order), and [getitem], [d[k]] with its [KeyError] and
      [TypeError];
    - [escape], CPython's [ascii_escape_unicode] (the [ensure_ascii]
      string encoder): printable ASCII stays, the backslash, the double
      quote and the control characters get their short escapes, everything else
      becomes [\uXXXX], as a surrogate pair above [U+FFFF];
    - [dumps], CPython's encoder ([_make_iterencode] / [c_make_encoder])
      with the default separators, [sort_keys] (Python's [sorted] on the
      items, modelled by stdpp's [merge_sort] on the keys) and [indent];
      [float.__repr__] is a parameter [float_repr], as floats are exact
      rationals here;
    - [scan], the string scanner of [json.decoder.py_scanstring], used to
      state that [escape] can be read back.

    The theorems: [escape] reads back ([json_string_roundtrip]); the
    output of [dumps] is printable ASCII when [float.__repr__] is; with
    [sort_keys] the text does not depend on the order the keys were
    inserted in. *)

From stdpp Require Import sorting.
From S2P Require Import Prelude Utf8 PyFormat.

Local Open Scope Z_scope.

Module Json.

Import Utf8.Utf8 PyFormat.PyFormat.

(** ** Values *)

Inductive PyVal :=
| PNone
| PBool (b : bool)
| PInt (z : Z)
| PFloat (q : Q)
| PStr (s : pystr)
| PList (l : list PyVal)
| PDict (d : list (pystr * PyVal)).

(** The value of the first entry with key [k]. *)
Fixpoint assoc_lookup (k : pystr) (d : list (pystr * PyVal)) : option PyVal :=
  match d with
  | [] => None
  | (k', v) :: rest => if bool_decide (k = k') then Some v else assoc_lookup k rest
  end.

(** [v[k]] for a [str] key. *)
Definition getitem (v : PyVal) (k : pystr) : PyResult PyVal :=
  match v with
  | PDict d => match assoc_lookup k d with Some x => Ok x | None => Raise KeyError end
  | _ => Raise TypeError
  end.

(** [bool(v)]: [None], [False], zero and empty containers are false. *)
Definition py_truthy (v : PyVal) : bool :=
  match v with
  | PNone => false
  | PBool b => b
  | PInt z => negb (z =? 0)
  | PFloat q => negb (Qeq_bool q 0)
  | PStr s => bool_decide (s <> [])
  | PList l => bool_decide (l <> [])
  | PDict d => bool_decide (d <> [])
  end.

(** ** Escaping strings *)

Definition hexdigit (n : Z) : Z := if n <? 10 then 48 + n else 87 + n.

Definition hex4 (n : Z) : pystr :=
  [hexdigit (Z.land (Z.shiftr n 12) 0xf); hexdigit (Z.land (Z.shiftr n 8) 0xf);
   hexdigit (Z.land (Z.shiftr n 4) 0xf); hexdigit (Z.land n 0xf)].

(** [\uXXXX]. *)
Definition u_escape (n : Z) : pystr := 92 :: 117 :: hex4 n.

(** [ascii_escape_unichar]. *)
Definition escape_char (c : Z) : pystr :=
  if (0x20 <=? c) && (c <=? 0x7e) && negb (c =? 92) && negb (c =? 34) then [c]
  else if c =? 92 then [92; 92]
  else if c =? 34 then [92; 34]
  else if c =? 8 then [92; 98]
  else if c =? 12 then [92; 102]
  else if c =? 10 then [92; 110]
  else if c =? 13 then [92; 114]
  else if c =? 9 then [92; 116]
  else if c <? 0x10000 then u_escape c
  else
    let n := c - 0x10000 in
    u_escape (Z.lor 0xd800 (Z.land (Z.shiftr n 10) 0x3ff)) ++
    u_escape (Z.lor 0xdc00 (Z.land n 0x3ff)).

(** [encode_basestring_ascii(s)]: the quoted, escaped string. *)
Definition escape (s : pystr) : pystr := 34 :: concat (map escape_char s) ++ [34].

(** ** Reading a string back *)

Definition hexval (c : Z) : option Z :=
  if (48 <=? c) && (c <=? 57) then Some (c - 48)
  else if (97 <=? c) && (c <=? 102) then Some (c - 87)
  else if (65 <=? c) && (c <=? 70) then Some (c - 55)
  else None.

(** [_decode_uXXXX]. *)
Definition decode_hex4 (a b c d : Z) : option Z :=
  va ← hexval a; vb ← hexval b; vc ← hexval c; vd ← hexval d;
  Some (((va * 16 + vb) * 16 + vc) * 16 + vd).

Definition cons_fst (c : Z) (r : option (pystr * pystr)) : option (pystr * pystr) :=
  (fun p => (c :: p.1, p.2)) <$> r.

(** The character a short escape [\e] stands for. *)
Definition short_escape (e : Z) : option Z :=
  if e =? 34 then Some 34 else if e =? 92 then Some 92 else if e =? 47 then Some 47
  else if e =? 98 then Some 8 else if e =? 102 then Some 12 else if e =? 110 then Some 10
  else if e =? 114 then Some 13 else if e =? 116 then Some 9 else None.

(** [py_scanstring] after the opening quote, in strict mode: the
    characters up to the closing quote and the text after it, or [None]
    for an unterminated string, a bad escape or a raw control
    character. *)
Fixpoint scan (l : pystr) : option (pystr * pystr) :=
  match l with
  | [] => None
  | c :: rest =>
    if c =? 34 then Some ([], rest)
    else if c =? 92 then
      match rest with
      | [] => None
      | e :: rest1 =>
        if e =? 117 then
          match rest1 with
          | a :: b :: c1 :: d :: rest2 =>
            match decode_hex4 a b c1 d with
            | None => None
            | Some u =>
              if (0xd800 <=? u) && (u <=? 0xdbff) then
                match rest2 with
                | x :: y :: a2 :: b2 :: c2 :: d2 :: rest3 =>
                  if (x =? 92) && (y =? 117) then
                    match decode_hex4 a2 b2 c2 d2 with
                    | None => None
                    | Some u2 =>
                      if (0xdc00 <=? u2) && (u2 <=? 0xdfff)
                      then cons_fst (0x10000 + Z.lor (Z.shiftl (u - 0xd800) 10) (u2 - 0xdc00)) (scan rest3)
                      else cons_fst u (scan rest2)
                    end
                  else cons_fst u (scan rest2)
                | _ => cons_fst u (scan rest2)
                end
              else cons_fst u (scan rest2)
            end
          | _ => None
          end
        else
          match short_escape e with
          | Some ch => cons_fst ch (scan rest1)
          | None => None
          end
      end
    else if c <? 0x20 then None
    else cons_fst c (scan rest)
  end.

(** A JSON string token: its opening quote, then [scan]. *)
Definition scan_string (l : pystr) : option (pystr * pystr) :=
  match l with
  | c :: rest => if c =? 34 then scan rest else None
  | [] => None
  end.

(** ** Lemmas on escaping *)

Lemma hexval_hexdigit n : 0 <= n < 16 -> hexval (hexdigit n) = Some n.
Proof.
  intros Hn. unfold hexdigit, hexval.
  destruct (Z.ltb_spec n 10); zbool_cases; f_equal; lia.
Qed.

Lemma hexdigit_range n : 0 <= n < 16 -> (48 <= hexdigit n <= 57) \/ (97 <= hexdigit n <= 102).
Proof. intros Hn. unfold hexdigit. destruct (Z.ltb_spec n 10); lia. Qed.

Lemma decode_hex4_hex4 n :
  0 <= n < 0x10000 ->
  exists a b c d, hex4 n = [a; b; c; d] /\ decode_hex4 a b c d = Some n.
Proof.
  intros Hn. do 4 eexists. split; [reflexivity|]. unfold decode_hex4.
  rewrite !(land_mask _ 0xf 4), !shiftr_div by (lia || reflexivity).
  change (2 ^ 4) with 16. change (2 ^ 8) with 256. change (2 ^ 12) with 4096.
  rewrite !hexval_hexdigit by zlia. simpl. f_equal. zlia.
Qed.

Lemma scan_u_escape n l :
  0 <= n < 0x10000 -> ~ (0xd800 <= n <= 0xdbff) ->
  scan (u_escape n ++ l) = cons_fst n (scan l).
Proof.
  intros Hn Hs. destruct (decode_hex4_hex4 n Hn) as (a & b & c & d & Hh & Hd).
  unfold u_escape. rewrite Hh. simpl. rewrite Hd.
  destruct ((0xd800 <=? n) && (n <=? 0xdbff)) eqn:E; [|done].
  apply andb_true_iff in E as [E1 E2]. apply Z.leb_le in E1, E2. lia.
Qed.

(** The surrogate pair of a code point above [U+FFFF] reads back as it. *)
Lemma scan_surrogates c l :
  0x10000 <= c <= 0x10FFFF ->
  scan (u_escape (Z.lor 0xd800 (Z.land (Z.shiftr (c - 0x10000) 10) 0x3ff)) ++
        u_escape (Z.lor 0xdc00 (Z.land (c - 0x10000) 0x3ff)) ++ l) = cons_fst c (scan l).
Proof.
  intros Hc. set (n := c - 0x10000).
  rewrite !(land_mask _ 0x3ff 10), shiftr_div by (lia || reflexivity). change (2 ^ 10) with 1024.
  rewrite (lor_add 0xd800 _ 1024 10), (lor_add 0xdc00 _ 1024 10) by (reflexivity || zlia).
  destruct (decode_hex4_hex4 (0xd800 + n / 1024 mod 1024)) as (a & b & c1 & d & Hh & Hd); [zlia|].
  destruct (decode_hex4_hex4 (0xdc00 + n mod 1024)) as (a2 & b2 & c2 & d2 & Hh2 & Hd2); [zlia|].
  unfold u_escape. rewrite Hh, Hh2. simpl. rewrite Hd.
  rewrite (proj2 (andb_true_iff _ _)) by (split; apply Z.leb_le; zlia). simpl. rewrite Hd2.
  rewrite (proj2 (andb_true_iff _ _)) by (split; apply Z.leb_le; zlia).
  do 2 f_equal. rewrite shiftl_mul by lia. change (2 ^ 10) with 1024.
  rewrite (lor_add _ _ 1024 10) by (reflexivity || zlia). zlia.
Qed.

(** One escaped character reads back as itself. *)
Lemma scan_escape_char c l :
  valid_char c = true -> scan (escape_char c ++ l) = cons_fst c (scan l).
Proof.
  intros Hv. apply valid_char_spec in Hv. unfold escape_char.
  destruct ((0x20 <=? c) && (c <=? 0x7e) && negb (c =? 92) && negb (c =? 34)) eqn:E.
  { repeat rewrite andb_true_iff in E. rewrite !negb_true_iff in E.
    destruct E as [[[E1 E2] E3] E4]. simpl. rewrite E3, E4.
    apply Z.leb_le in E1. rewrite (proj2 (Z.ltb_ge c 0x20)) by lia. done. }
  repeat match goal with
  | |- context [c =? ?k] => destruct (Z.eqb_spec c k); [subst; reflexivity|]
  end.
  destruct (Z.ltb_spec c 0x10000).
  - apply scan_u_escape; lia.
  - rewrite <- app_assoc. apply scan_surrogates. lia.
Qed.

Lemma scan_escaped s l :
  Forall (fun c => valid_char c = true) s ->
  scan (concat (map escape_char s) ++ 34 :: l) = Some (s, l).
Proof.
  induction 1 as [|c s Hc _ IH]; [reflexivity|].
  simpl. rewrite <- app_assoc, scan_escape_char by done. by rewrite IH.
Qed.

Lemma scan_string_escape (s rest : pystr) :
  Forall (fun c => valid_char c = true) s ->
  scan_string (escape s ++ rest) = Some (s, rest).
Proof.
  intros Hs. unfold escape. simpl. rewrite <- app_assoc. by apply scan_escaped.
Qed.

(** ** Python's order on [str] *)

(** [a < b] on [str]: code point by code point. *)
Fixpoint str_compare (a b : pystr) : comparison :=
  match a, b with
  | [], [] => Eq
  | [], _ :: _ => Lt
  | _ :: _, [] => Gt
  | x :: a', y :: b' => match Z.compare x y with Eq => str_compare a' b' | o => o end
  end.

(** The order [sorted(d.items())] puts the items of a dict in: by key,
    as the keys of a dict are distinct. *)
Definition key_le {A} (x y : pystr * A) : Prop := str_compare x.1 y.1 <> Gt.

#[export] Instance key_le_dec {A} : RelDecision (@key_le A).
Proof. intros x y. unfold key_le. apply _. Defined.

Lemma str_compare_sym a b : str_compare b a = CompOpp (str_compare a b).
Proof.
  revert b. induction a as [|x a IH]; intros [|y b]; simpl; try done.
  rewrite (Z.compare_antisym x y). destruct (x ?= y); simpl; auto.
Qed.

Lemma str_compare_eq a b : str_compare a b = Eq -> a = b.
Proof.
  revert b. induction a as [|x a IH]; intros [|y b]; simpl; try done.
  destruct (Z.compare_spec x y); try discriminate. subst. intros H. f_equal. by apply IH.
Qed.

Lemma str_compare_trans a b c :
  str_compare a b <> Gt -> str_compare b c <> Gt -> str_compare a c <> Gt.
Proof.
  revert b c. induction a as [|x a IH]; intros [|y b] [|z c]; simpl; try done.
  destruct (Z.compare_spec x y), (Z.compare_spec y z), (Z.compare_spec x z);
    subst; try done; try lia. apply IH.
Qed.

#[export] Instance key_le_trans {A} : Transitive (@key_le A).
Proof. intros x y z. apply str_compare_trans. Qed.

#[export] Instance key_le_total {A} : Total (@key_le A).
Proof.
  intros x y. unfold key_le. rewrite (str_compare_sym x.1 y.1).
  destruct (str_compare x.1 y.1); [left | left | right]; simpl; congruence.
Qed.

(** ** The encoder *)

(** Python's [sorted] on the items when [sort_keys] is set. *)
Definition sort_items {A} (sort_keys : bool) (items : list (pystr * A)) : list (pystr * A) :=
  if sort_keys then merge_sort key_le items else items.

(** [newline_indent] at a nesting level ([''] without [indent]). *)
Definition newline_indent (indent : option nat) (level : nat) : pystr :=
  match indent with None => [] | Some n => 10 :: repeat 32 (n * level) end.

(** The default [item_separator]: [', '], or [','] with an [indent]. *)
Definition item_separator (indent : option nat) : pystr :=
  match indent with None => [44; 32] | Some _ => [44] end.

Section Encoder.

(** [float.__repr__]. *)
Variable float_repr : Q -> pystr.

Fixpoint dumps_go (sort_keys : bool) (indent : option nat) (level : nat) (v : PyVal) : pystr :=
  match v with
  | PNone => lit "null"
  | PBool true => lit "true"
  | PBool false => lit "false"
  | PInt z => int_repr z
  | PFloat q => float_repr q
  | PStr s => escape s
  | PList l =>
    match l with
    | [] => lit "[]"
    | _ =>
      let nl := newline_indent indent (S level) in
      [91] ++ nl ++ py_join (item_separator indent ++ nl)
                      (map (dumps_go sort_keys indent (S level)) l) ++
      newline_indent indent level ++ [93]
    end
  | PDict d =>
    match d with
    | [] => lit "{}"
    | _ =>
      let nl := newline_indent indent (S level) in
      let items := sort_items sort_keys
                     (map (fun '(k, x) => (k, dumps_go sort_keys indent (S level) x)) d) in
      [123] ++ nl ++ py_join (item_separator indent ++ nl)
                       (map (fun '(k, t) => escape k ++ [58; 32] ++ t) items) ++
      newline_indent indent level ++ [125]
    end
  end.

(** [json.dumps(v, sort_keys=..., indent=...)]. *)
Definition dumps (sort_keys : bool) (indent : option nat) (v : PyVal) : pystr :=
  dumps_go sort_keys indent 0 v.

End Encoder.

(** ** Induction on values *)

Section PyVal_ind'.
Variable P : PyVal -> Prop.
Hypothesis HNone : P PNone.
Hypothesis HBool : forall b, P (PBool b).
Hypothesis HInt : forall z, P (PInt z).
Hypothesis HFloat : forall q, P (PFloat q).
Hypothesis HStr : forall s, P (PStr s).
Hypothesis HList : forall l, Forall P l -> P (PList l).
Hypothesis HDict : forall d, Forall (fun kv => P kv.2) d -> P (PDict d).

Fixpoint PyVal_ind' (v : PyVal) : P v :=
  match v with
  | PNone => HNone
  | PBool b => HBool b
  | PInt z => HInt z
  | PFloat q => HFloat q
  | PStr s => HStr s
  | PList l =>
    HList l ((fix go (l : list PyVal) : Forall P l :=
                match l with
                | [] => Forall_nil_2 _
                | x :: r => Forall_cons_2 _ x r (PyVal_ind' x) (go r)
                end) l)
  | PDict d =>
    HDict d ((fix go (d : list (pystr * PyVal)) : Forall (fun kv => P kv.2) d :=
                match d with
                | [] => Forall_nil_2 _
                | kv :: r => Forall_cons_2 _ kv r (PyVal_ind' kv.2) (go r)
                end) d)
  end.
End PyVal_ind'.

(** ** Lemmas on the encoder *)

Lemma NoDup_fst_inj {A B} (l : list (A * B)) x y :
  NoDup l.*1 -> x ∈ l -> y ∈ l -> x.1 = y.1 -> x = y.
Proof.
  induction l as [|z l IH]; intros Hnd Hx Hy Hxy; [by apply elem_of_nil in Hx|].
  simpl in Hnd. apply NoDup_cons in Hnd as [Hz Hnd].
  apply elem_of_cons in Hx as [->|Hx], Hy as [->|Hy]; try done.
  - destruct Hz. rewrite Hxy. by apply list_elem_of_fmap_2.
  - destruct Hz. rewrite <- Hxy. by apply list_elem_of_fmap_2.
  - by apply IH.
Qed.

(** The text of a non-empty dict with [sort_keys] and no [indent]. *)
Lemma dumps_go_sorted_dict float_repr lvl kv d :
  dumps_go float_repr true None lvl (PDict (kv :: d)) =
  [123] ++ py_join [44; 32] (map (fun '(k, t) => escape k ++ [58; 32] ++ t)
     (merge_sort key_le (map (fun '(k, x) => (k, dumps_go float_repr true None (S lvl) x)) (kv :: d)))) ++
  [125].
Proof. reflexivity. Qed.

(** Sorting items with distinct keys gives one order, whatever order
    they come in. *)
Lemma merge_sort_keys_perm {A} (l1 l2 : list (pystr * A)) :
  l1 ≡ₚ l2 -> NoDup l1.*1 -> merge_sort key_le l1 = merge_sort key_le l2.
Proof.
  intros Hp Hnd. apply (Sorted_unique_strong key_le); try apply Sorted_merge_sort; try apply _.
  - intros x1 x2 Hx1 Hx2 H12 H21. apply (NoDup_fst_inj l1); [done | | |].
    + by rewrite <- (merge_sort_Permutation key_le l1).
    + by rewrite Hp, <- (merge_sort_Permutation key_le l2).
    + apply str_compare_eq. unfold key_le in *.
      rewrite (str_compare_sym x1.1 x2.1) in H21.
      destruct (str_compare x1.1 x2.1); done.
  - by rewrite !merge_sort_Permutation.
Qed.

Lemma fmap_fst_map_snd {A B} (f : A -> B) (l : list (pystr * A)) :
  (map (fun '(k, x) => (k, f x)) l).*1 = l.*1.
Proof. induction l as [|[k x] l IH]; [done|]. cbn [map]. by rewrite !fmap_cons, IH. Qed.

Lemma Forall_py_join (P : Z -> Prop) sep l :
  Forall P sep -> Forall (Forall P) l -> Forall P (py_join sep l).
Proof.
  intros Hs. induction 1 as [|x l Hx _ IH]; [constructor|].
  destruct l as [|y l]; [done|]. simpl. rewrite !Forall_app. auto.
Qed.

Lemma sort_items_Forall {A} (P : pystr * A -> Prop) sk l :
  Forall P l -> Forall P (sort_items sk l).
Proof. destruct sk; simpl; [|done]. by rewrite merge_sort_Permutation. Qed.

(** [0x20 <= c <= 0x7e]. *)
Definition printable (c : Z) : bool := (0x20 <=? c) && (c <=? 0x7e).

Lemma hex4_printable n : Forall (fun c => printable c = true) (hex4 n).
Proof.
  unfold hex4. rewrite !(land_mask _ 0xf 4) by (lia || reflexivity). change (2 ^ 4) with 16.
  repeat constructor; unfold printable;
    match goal with |- context [hexdigit (?x mod 16)] =>
      pose proof (Z.mod_pos_bound x 16 ltac:(lia));
      destruct (hexdigit_range (x mod 16)) as [?|?]; [lia | zbool_cases; done | zbool_cases; done]
    end.
Qed.

Lemma u_escape_printable n : Forall (fun c => printable c = true) (u_escape n).
Proof. constructor; [done|]. constructor; [done|]. apply hex4_printable. Qed.

Lemma escape_char_printable c : Forall (fun x => printable x = true) (escape_char c).
Proof.
  unfold escape_char.
  destruct ((0x20 <=? c) && (c <=? 0x7e) && negb (c =? 92) && negb (c =? 34)) eqn:E.
  { constructor; [|constructor]. unfold printable.
    repeat rewrite andb_true_iff in E. destruct E as [[[-> ->] _] _]. done. }
  repeat match goal with |- context [if ?b then _ else _] => destruct b end;
    rewrite ?Forall_app; repeat split; try apply u_escape_printable; by repeat constructor.
Qed.

Lemma escape_printable s : Forall (fun x => printable x = true) (escape s).
Proof.
  unfold escape. constructor; [done|]. apply Forall_app. split; [|by repeat constructor].
  apply Forall_concat, Forall_forall. intros t Ht. apply list_elem_of_In, in_map_iff in Ht as (c & <- & _).
  apply escape_char_printable.
Qed.

Lemma int_repr_printable z : Forall (fun x => printable x = true) (int_repr z).
Proof.
  assert (Hd : forall n, 0 <= n -> Forall (fun x => printable x = true) (digits n)).
  { intros n Hn. destruct (digits_spec n Hn) as (_ & Hds & _). eapply Forall_impl; [exact Hds|].
    intros c. unfold is_digit, printable. intros Hc. apply andb_true_iff in Hc as [H1 H2].
    apply Z.leb_le in H1, H2. zbool_cases; done. }
  unfold int_repr. destruct (Z.ltb_spec z 0); [constructor; [done|]|]; apply Hd; lia.
Qed.

(** Printable ASCII is valid text. *)
Lemma printable_valid c : printable c = true -> valid_char c = true.
Proof.
  unfold printable. intros Hc. apply andb_true_iff in Hc as [H1 H2].
  apply Z.leb_le in H1, H2. apply valid_char_spec. lia.
Qed.

Lemma printable_valid_all (l : pystr) :
  Forall (fun c => printable c = true) l -> Forall (fun c => valid_char c = true) l.
Proof. intros Hl. eapply Forall_impl; [exact Hl|]. apply printable_valid. Qed.


(** ** Properties of the encoder *)

(** C23: round trip.  A [str] that holds Unicode scalar values, dumped
    by [json.dumps], reads back as the same [str] with [json]'s own
    string scanner, whatever text follows it. *)
Theorem json_string_roundtrip float_repr sort_keys indent (s rest : pystr) :
  Forall (fun c => valid_char c = true) s ->
  scan_string (dumps float_repr sort_keys indent (PStr s) ++ rest) = Some (s, rest).
Proof. intros Hs. by apply scan_string_escape. Qed.

(** C22: equivalence.  With [sort_keys=True] the text of a dict does not
    depend on the order its entries were inserted in: two dicts with the
    same (distinct) keys and values give the same JSON text. *)
Theorem dumps_sort_keys_perm float_repr indent (d1 d2 : list (pystr * PyVal)) :
  d1 ≡ₚ d2 -> NoDup d1.*1 ->
  dumps float_repr true indent (PDict d1) = dumps float_repr true indent (PDict d2).
Proof.
  intros Hp Hnd. unfold dumps. cbn [dumps_go].
  destruct d1 as [|kv1 d1], d2 as [|kv2 d2];
    [done | by apply Permutation_nil_cons in Hp | symmetry in Hp; by apply Permutation_nil_cons in Hp |].
  unfold sort_items. erewrite merge_sort_keys_perm; [reflexivity | |].
  - by apply Permutation_map.
  - by rewrite fmap_fst_map_snd.
Qed.

(** C24: safety.  When [float.__repr__] prints ASCII (digits, signs, [.],
    [e], [inf], [nan]), every code point [json.dumps] outputs is
    printable ASCII, except the newlines of an [indent]: the default
    [ensure_ascii] escapes everything else. *)
Theorem dumps_printable (float_repr : Q -> pystr) sort_keys indent (v : PyVal) :
  (forall q, Forall (fun c => printable c = true) (float_repr q)) ->
  Forall (fun c => printable c = true \/ (indent <> None /\ c = 10))
    (dumps float_repr sort_keys indent v).
Proof.
  intros Hf. unfold dumps. generalize 0%nat as lvl.
  set (Q := fun c => printable c = true \/ (indent <> None /\ c = 10)).
  assert (Hpr : forall l, Forall (fun c => printable c = true) l -> Forall Q l).
  { intros l Hl. eapply Forall_impl; [exact Hl|]. intros c Hc. by left. }
  assert (Hnl : forall n, Forall Q (newline_indent indent n)).
  { intros n. destruct indent as [k|]; [|constructor]. constructor; [right; done|].
    apply Hpr, Forall_forall. intros c Hc. apply list_elem_of_In, repeat_spec in Hc. by subst. }
  assert (Hsep : forall n, Forall Q (item_separator indent ++ newline_indent indent n)).
  { intros n. apply Forall_app. split; [|apply Hnl]. apply Hpr. destruct indent; by repeat constructor. }
  induction v as [| b | z | q | str | l IH | d IH] using PyVal_ind'; intros lvl; cbn [dumps_go].
  - apply Hpr. vm_compute. by repeat constructor.
  - apply Hpr. destruct b; vm_compute; by repeat constructor.
  - apply Hpr, int_repr_printable.
  - apply Hpr, Hf.
  - apply Hpr, escape_printable.
  - destruct l as [|x l]; [apply Hpr; vm_compute; by repeat constructor|].
    rewrite !Forall_app. repeat split; [by repeat constructor | apply Hnl | | apply Hnl | by repeat constructor].
    apply Forall_py_join; [apply Hsep|]. apply Forall_forall. intros t Ht.
    apply list_elem_of_In, in_map_iff in Ht as (y & <- & Hy). rewrite Forall_forall in IH.
    apply IH. by apply list_elem_of_In.
  - destruct d as [|kv d]; [apply Hpr; vm_compute; by repeat constructor|].
    rewrite !Forall_app. repeat split; [by repeat constructor | apply Hnl | | apply Hnl | by repeat constructor].
    apply Forall_py_join; [apply Hsep|]. apply Forall_forall. intros t Ht.
    apply list_elem_of_In, in_map_iff in Ht as ([k u] & <- & Hy). apply list_elem_of_In in Hy.
    assert (Hall : Forall (fun kt : pystr * pystr => Forall Q kt.2)
                     (sort_items sort_keys (map (fun '(k, x) => (k, dumps_go float_repr sort_keys indent (S lvl) x)) (kv :: d)))).
    { apply sort_items_Forall, Forall_forall. intros [k' t'] Hkt.
      apply list_elem_of_In, in_map_iff in Hkt as ([k0 x0] & Heq & Hx0). injection Heq as <- <-.
      rewrite Forall_forall in IH. apply (IH (k0, x0)). by apply list_elem_of_In. }
    rewrite Forall_forall in Hall. specialize (Hall _ Hy). simpl in Hall.
    rewrite !Forall_app. repeat split; [apply Hpr, escape_printable | by repeat constructor | done].
Qed.


(** ** Witnesses *)

Lemma json_string_roundtrip_witness :
  scan_string (dumps (fun _ => [48]) true None (PStr [104; 0xE9; 0x1F600]) ++ [44; 32]) =
  Some ([104; 0xE9; 0x1F600], [44; 32]).
Proof. apply json_string_roundtrip. by repeat constructor. Defined.

Lemma dumps_sort_keys_perm_witness :
  dumps (fun _ => [48]) true None (PDict [([98], PInt 1); ([97], PFloat 2)]) =
  dumps (fun _ => [48]) true None (PDict [([97], PFloat 2); ([98], PInt 1)]).
Proof.
  apply dumps_sort_keys_perm; [constructor | by_decide].
Defined.

Lemma dumps_printable_witness :
  Forall (fun c => printable c = true \/ (Some 2%nat <> None /\ c = 10))
    (dumps (fun _ => [48]) false (Some 2%nat) (PDict [([0xE9], PList [PFloat 1; PStr [10]])])).
Proof. apply dumps_printable. intros q. by repeat constructor. Defined.

End Json.
