(* ===== verification/JsonLoad.v ===== *)
(** * JsonLoad: [json.load] and [json.loads]

    The benchmark scripts read their data with [json.load(f)] on a file
    opened in text mode: the bytes are decoded as UTF-8 (strictly), the
    line endings are translated, and [json.loads] runs CPython's C
    scanner ([_json.c]: [scan_once_unicode], [_parse_object_unicode],
    [_parse_array_unicode], [_match_number_unicode]) over the text.

    The scanner is written here with fuel: the three mutually recursive
    functions [scan_once], [object_members] and [array_elements] each
    take one unit per call, and running out is a [RecursionError] value
    of the model.  The fuel [loads] gives, twice the length of the text
    plus one, is never exhausted ([loads_no_recursion_error]) and any
    more fuel gives the same result ([scan_fuel_independent]): these two
    lemmas show the fuel is a device of the model, not a behaviour of
    the program.  The interpreter's own recursion limit (about a
    thousand nested containers), at which CPython's [json.loads] raises
    [RecursionError], is not modelled.  Numbers with a fraction or an exponent are [float(text)],
    a parameter ([float_of_str]), like [float.__repr__] in [Json].

    The theorems: the model's fuel is enough and more fuel changes nothing; and
    [json.loads(json.dumps(v))] gives [v] back for every value without
    floats whose dicts have distinct keys and whose strings hold Unicode
    scalar values, with or without an [indent]. *)

From S2P Require Import Prelude Utf8 PyFormat Json.

Local Open Scope Z_scope.

Module JsonLoad.

Import Utf8.Utf8 PyFormat.PyFormat Json.Json.

(** ** Lexical helpers *)

(** JSON whitespace: space, tab, newline, carriage return. *)
Definition is_ws (c : Z) : bool := (c =? 32) || (c =? 9) || (c =? 10) || (c =? 13).

(** [_w(s, end).end()]: the text after the whitespace at its start. *)
Fixpoint skip_ws (s : pystr) : pystr :=
  match s with
  | c :: r => if is_ws c then skip_ws r else s
  | [] => []
  end.

Definition is_ascii_digit (c : Z) : bool := (48 <=? c) && (c <=? 57).

(** The ASCII digits at the start of a text, and what follows them. *)
Fixpoint span_digits (s : pystr) : pystr * pystr :=
  match s with
  | c :: r => if is_ascii_digit c then let '(d, r') := span_digits r in (c :: d, r') else ([], s)
  | [] => ([], [])
  end.

(** [string[idx:idx + len(p)] == p]. *)
Definition starts_with (p s : pystr) : bool := bool_decide (take (length p) s = p).

(** The integer digits: a lone [0], or a non-zero digit and all the
    digits after it. *)
Definition int_part (s : pystr) : option (pystr * pystr) :=
  match s with
  | c :: r =>
    if c =? 48 then Some ([48], r)
    else if is_ascii_digit c then let '(d, r') := span_digits r in Some (c :: d, r')
    else None
  | [] => None
  end.

(** [.] followed by at least one digit, and all the digits. *)
Definition frac_part (s : pystr) : pystr * pystr :=
  match s with
  | p :: c :: r =>
    if (p =? 46) && is_ascii_digit c then let '(d, r') := span_digits r in (p :: c :: d, r') else ([], s)
  | _ => ([], s)
  end.

(** [e] or [E], an optional sign and at least one digit; otherwise the
    scanner backtracks to the [e]. *)
Definition exp_part (s : pystr) : pystr * pystr :=
  match s with
  | e :: r =>
    if (e =? 101) || (e =? 69) then
      let '(sg, r1) := match r with
                       | c :: r' => if (c =? 45) || (c =? 43) then ([c], r') else ([], r)
                       | [] => ([], [])
                       end in
      match span_digits r1 with
      | ([], _) => ([], s)
      | (d, r2) => (e :: sg ++ d, r2)
      end
    else ([], s)
  | [] => ([], [])
  end.

(** [_match_number_unicode]: the sign, the integer digits, the fraction,
    the exponent and the rest of the text. *)
Definition match_number (s : pystr) : option (bool * pystr * pystr * pystr * pystr) :=
  let '(neg, s1) := match s with c :: r => if c =? 45 then (true, r) else (false, s) | [] => (false, s) end in
  match int_part s1 with
  | None => None
  | Some (ip, r1) =>
    let '(fr, r2) := frac_part r1 in
    let '(ex, r3) := exp_part r2 in
    Some (neg, ip, fr, ex, r3)
  end.

(** [dict(pairs)]: a repeated key keeps its first position and takes
    its last value. *)
Fixpoint dict_set (k : pystr) (v : PyVal) (d : list (pystr * PyVal)) : list (pystr * PyVal) :=
  match d with
  | [] => [(k, v)]
  | (k', v') :: r => if bool_decide (k = k') then (k, v) :: r else (k', v') :: dict_set k v r
  end.

Definition dict_of_pairs (ps : list (pystr * PyVal)) : list (pystr * PyVal) :=
  fold_left (fun d '(k, v) => dict_set k v d) ps [].

Section Scanner.

(** [float(text)] for a number with a fraction or an exponent, and for
    the constants [NaN], [Infinity] and [-Infinity]. *)
Variable float_of_str : pystr -> Q.

Local Open Scope py_scope.

(** The named constants and the numbers: the end of
    [scan_once_unicode], after the string, object and array cases. *)
Definition scan_scalar (s : pystr) : PyResult (PyVal * pystr) :=
  if starts_with (lit "null") s then Ok (PNone, drop 4 s)
  else if starts_with (lit "true") s then Ok (PBool true, drop 4 s)
  else if starts_with (lit "false") s then Ok (PBool false, drop 5 s)
  else if starts_with (lit "NaN") s then Ok (PFloat (float_of_str (lit "NaN")), drop 3 s)
  else if starts_with (lit "Infinity") s then Ok (PFloat (float_of_str (lit "Infinity")), drop 8 s)
  else if starts_with (lit "-Infinity") s then Ok (PFloat (float_of_str (lit "-Infinity")), drop 9 s)
  else
    match match_number s with
    | Some (neg, ip, [], [], r) => Ok (PInt (if neg then - digits_value ip else digits_value ip), r)
    | Some (neg, ip, fr, ex, r) =>
      Ok (PFloat (float_of_str ((if neg then [45] else []) ++ ip ++ fr ++ ex)), r)
    | None => Raise JSONDecodeError
    end.

Fixpoint scan_once (fuel : nat) (s : pystr) {struct fuel} : PyResult (PyVal * pystr) :=
  match fuel with
  | O => Raise RecursionError
  | S f =>
    match s with
    | [] => Raise JSONDecodeError
    | c :: rest =>
      if c =? 34 then
        match scan rest with Some (str, r) => Ok (PStr str, r) | None => Raise JSONDecodeError end
      else if c =? 123 then
        match skip_ws rest with
        | d :: r =>
          if d =? 125 then Ok (PDict [], r)
          else if d =? 34 then p <- object_members f r ;; Ok (PDict (dict_of_pairs p.1), p.2)
          else Raise JSONDecodeError
        | [] => Raise JSONDecodeError
        end
      else if c =? 91 then
        match skip_ws rest with
        | d :: r => if d =? 93 then Ok (PList [], r) else p <- array_elements f (d :: r) ;; Ok (PList p.1, p.2)
        | [] => p <- array_elements f [] ;; Ok (PList p.1, p.2)
        end
      else scan_scalar s
    end
  end

(** The members of an object, after the opening quote of a key. *)
with object_members (fuel : nat) (s : pystr) {struct fuel} : PyResult (list (pystr * PyVal) * pystr) :=
  match fuel with
  | O => Raise RecursionError
  | S f =>
    match scan s with
    | None => Raise JSONDecodeError
    | Some (key, r) =>
      match skip_ws r with
      | d1 :: r1 =>
        if d1 =? 58 then
          p <- scan_once f (skip_ws r1) ;;
          match skip_ws p.2 with
          | d3 :: r3 =>
            if d3 =? 125 then Ok ([(key, p.1)], r3)
            else if d3 =? 44 then
              match skip_ws r3 with
              | d4 :: r4 =>
                if d4 =? 34 then q <- object_members f r4 ;; Ok ((key, p.1) :: q.1, q.2)
                else Raise JSONDecodeError
              | [] => Raise JSONDecodeError
              end
            else Raise JSONDecodeError
          | [] => Raise JSONDecodeError
          end
        else Raise JSONDecodeError
      | [] => Raise JSONDecodeError
      end
    end
  end

(** The elements of a non-empty array, from the first one. *)
with array_elements (fuel : nat) (s : pystr) {struct fuel} : PyResult (list PyVal * pystr) :=
  match fuel with
  | O => Raise RecursionError
  | S f =>
    p <- scan_once f s ;;
    match skip_ws p.2 with
    | d :: r1 =>
      if d =? 93 then Ok ([p.1], r1)
      else if d =? 44 then q <- array_elements f (skip_ws r1) ;; Ok (p.1 :: q.1, q.2)
      else Raise JSONDecodeError
    | [] => Raise JSONDecodeError
    end
  end.

(** [json.loads(s)]: no byte-order mark, one value between whitespace
    and nothing after it ("Extra data"). *)
Definition loads (s : pystr) : PyResult PyVal :=
  if starts_with [0xFEFF] s then Raise JSONDecodeError
  else
    p <- scan_once (S (2 * length s)) (skip_ws s) ;;
    if bool_decide (skip_ws p.2 = []) then Ok p.1 else Raise JSONDecodeError.

End Scanner.

(** Universal newlines of a text-mode read: [\r\n] and [\r] become [\n]. *)
Fixpoint universal_newlines (s : pystr) : pystr :=
  match s with
  | c :: r =>
    if c =? 13 then
      match r with
      | d :: r' => if d =? 10 then 10 :: universal_newlines r' else 10 :: universal_newlines r
      | [] => [10]
      end
    else c :: universal_newlines r
  | [] => []
  end.

(** [f.read()] of a file opened with [open(path, 'r')] (UTF-8). *)
Definition read_text (bytes : list Z) : PyResult pystr :=
  match decode_strict bytes with
  | Some s => Ok (universal_newlines s)
  | None => Raise UnicodeDecodeError
  end.

(** [json.load(f)] on the bytes of the file. *)
Definition load (float_of_str : pystr -> Q) (bytes : list Z) : PyResult PyVal :=
  py_bind (read_text bytes) (loads float_of_str).

(** ** Values [json.dumps] and [json.loads] agree on *)

(** No float (its text is [float.__repr__]'s), distinct keys in every
    dict, and strings of Unicode scalar values. *)
Fixpoint json_safe (v : PyVal) : bool :=
  match v with
  | PNone | PBool _ | PInt _ => true
  | PFloat _ => false
  | PStr s => forallb valid_char s
  | PList l => forallb json_safe l
  | PDict d => bool_decide (NoDup d.*1) && forallb (fun '(k, x) => forallb valid_char k && json_safe x) d
  end.

(** What may follow a value in the text [json.dumps] writes: nothing, a
    comma, a newline of an indent, or a closing bracket. *)
Definition value_end (rest : pystr) : Prop :=
  match rest with
  | [] => True
  | c :: _ => c = 44 \/ c = 10 \/ c = 93 \/ c = 125
  end.

(** ** Whitespace *)

Lemma skip_ws_ws w s : Forall (fun c => is_ws c = true) w -> skip_ws (w ++ s) = skip_ws s.
Proof. induction 1 as [|c w Hc _ IH]; [done|]. simpl. by rewrite Hc. Qed.

Lemma skip_ws_solid c s : is_ws c = false -> skip_ws (c :: s) = c :: s.
Proof. intros H. simpl. by rewrite H. Qed.

Lemma newline_indent_ws indent lvl : Forall (fun c => is_ws c = true) (newline_indent indent lvl).
Proof.
  destruct indent as [n|]; simpl; [|constructor].
  constructor; [done|]. apply Forall_forall. intros c Hc.
  apply list_elem_of_In, repeat_spec in Hc. by subst.
Qed.

Lemma item_separator_split indent :
  exists w, item_separator indent = 44 :: w /\ Forall (fun c => is_ws c = true) w.
Proof. destruct indent; simpl; eexists; split; try reflexivity; repeat constructor. Qed.

(** [starts_with] on a literal prefix. *)
Lemma starts_with_app p s : starts_with p (p ++ s) = true.
Proof. unfold starts_with. rewrite take_app_length. by apply bool_decide_true. Qed.

Lemma starts_with_cons_ne a p c s : a <> c -> starts_with (a :: p) (c :: s) = false.
Proof. intros H. unfold starts_with. apply bool_decide_false. simpl. congruence. Qed.

Lemma starts_with_cons a p s : starts_with (a :: p) (a :: s) = starts_with p s.
Proof. unfold starts_with. simpl. apply bool_decide_ext. split; [congruence | intros ->; done]. Qed.


(** ** Reading numbers *)

Lemma span_digits_app d r :
  Forall (fun c => is_ascii_digit c = true) d -> value_end r -> span_digits (d ++ r) = (d, r).
Proof.
  intros Hd Hr. induction Hd as [|c d Hc _ IH]; simpl.
  - destruct r as [|c r]; [done|]. simpl in Hr. unfold is_ascii_digit.
    by destruct Hr as [-> | [-> | [-> | ->] ] ].
  - by rewrite Hc, IH.
Qed.

Lemma frac_exp_end r : value_end r -> frac_part r = ([], r) /\ exp_part r = ([], r).
Proof.
  destruct r as [|c r]; [done|]. intros Hr. simpl in Hr. unfold frac_part, exp_part.
  destruct r; by destruct Hr as [-> | [-> | [-> | ->] ] ].
Qed.

(** The numeral [digits n] of a non-negative [n]: ASCII digits, a lone
    [0] or a non-zero leading digit. *)
Lemma digits_shape n : 0 <= n ->
  exists c t, digits n = c :: t /\ is_ascii_digit c = true /\
    Forall (fun c => is_ascii_digit c = true) t /\ (c = 48 -> t = []) /\ digits_value (c :: t) = n.
Proof.
  intros Hn. destruct (digits_spec n Hn) as (Hv & Hall & c & t & Ht & H0).
  rewrite Ht in Hall, Hv. apply Forall_cons in Hall as [Hc Hall].
  exists c, t. repeat split; try done.
  intros ->. specialize (H0 eq_refl). rewrite H0 in Ht. vm_compute in Ht. by injection Ht.
Qed.

Lemma match_number_digits n rest : 0 <= n -> value_end rest ->
  exists c t, digits n = c :: t /\ is_ascii_digit c = true /\
    int_part (digits n ++ rest) = Some (digits n, rest).
Proof.
  intros Hn Hr. destruct (digits_shape n Hn) as (c & t & Ht & Hc & Hall & H0 & _).
  exists c, t. rewrite Ht. repeat split; try done. simpl.
  destruct (Z.eqb_spec c 48) as [->|Hne]; [by rewrite (H0 eq_refl)|].
  by rewrite Hc, span_digits_app.
Qed.

Lemma ascii_digit_range c : is_ascii_digit c = true -> 48 <= c <= 57.
Proof. unfold is_ascii_digit. rewrite andb_true_iff, !Z.leb_le. lia. Qed.

Lemma scan_scalar_int fs z rest : value_end rest -> scan_scalar fs (int_repr z ++ rest) = Ok (PInt z, rest).
Proof.
  intros Hr. destruct (frac_exp_end rest Hr) as [Hf He].
  unfold int_repr. destruct (Z.ltb_spec z 0) as [Hz|Hz].
  - destruct (match_number_digits (-z) rest ltac:(lia) Hr) as (c & t & Ht & Hc & Hi).
    apply ascii_digit_range in Hc. unfold scan_scalar. eval_lits. cbn [app].
    rewrite Ht. cbn [app].
    rewrite !starts_with_cons_ne by lia. rewrite starts_with_cons, starts_with_cons_ne by lia.
    replace (c :: t ++ rest) with (digits (-z) ++ rest) by (rewrite Ht; reflexivity).
    unfold match_number. rewrite Z.eqb_refl. cbv iota beta zeta. rewrite Hi. cbv iota beta zeta. rewrite Hf. cbv iota beta zeta. rewrite He. cbv iota beta zeta.
    destruct (digits_shape (-z)) as (c' & t' & Ht' & _ & _ & _ & Hv); [lia|].
    rewrite Ht', Hv. by rewrite Z.opp_involutive.
  - destruct (match_number_digits z rest ltac:(lia) Hr) as (c & t & Ht & Hc & Hi).
    apply ascii_digit_range in Hc. unfold scan_scalar. eval_lits.
    rewrite Ht. cbn [app].
    rewrite !starts_with_cons_ne by lia.
    unfold match_number. rewrite (proj2 (Z.eqb_neq c 45)) by lia.
    replace (c :: t ++ rest) with (digits z ++ rest) by (rewrite Ht; reflexivity).
    cbv iota beta zeta. rewrite Hi. cbv iota beta zeta. rewrite Hf. cbv iota beta zeta. rewrite He. cbv iota beta zeta.
    destruct (digits_shape z) as (c' & t' & Ht' & _ & _ & _ & Hv); [lia|].
    by rewrite Ht', Hv.
Qed.

Lemma dict_set_fresh k v acc : k ∉ acc.*1 -> dict_set k v acc = acc ++ [(k, v)].
Proof.
  induction acc as [|[k' v'] acc IH]; intros Hk; [done|]. simpl in *.
  rewrite not_elem_of_cons in Hk. destruct Hk as [Hne Hk].
  rewrite bool_decide_false by done. by rewrite IH.
Qed.

(** [dict(pairs)] of pairs with distinct keys is the pairs. *)
Lemma dict_of_pairs_nodup d : NoDup d.*1 -> dict_of_pairs d = d.
Proof.
  unfold dict_of_pairs. intros Hnd. change d with ([] ++ d) at 2.
  assert (H : NoDup (([] : list (pystr * PyVal)).*1 ++ d.*1)) by done. clear Hnd. revert H.
  generalize ([] : list (pystr * PyVal)) as acc.
  induction d as [|[k x] d IH]; intros acc Hnd; simpl; [by rewrite app_nil_r|].
  rewrite dict_set_fresh.
  - rewrite IH, <- app_assoc; [done|]. by rewrite fmap_app, <- app_assoc.
  - intros Hk. rewrite fmap_cons in Hnd. apply NoDup_app in Hnd as (_ & Hdis & _).
    apply (Hdis k); [done | left].
Qed.

Section Roundtrip.
Variable fs : pystr -> Q.
Variable fr : Q -> pystr.
Variable indent : option nat.

Local Abbreviation text := (dumps_go fr false indent).

Definition solid_head (s : pystr) : Prop :=
  match s with c :: _ => is_ws c = false /\ c <> 93 /\ c <> 125 /\ c < 128 | [] => False end.

Lemma solid_head_app s r : solid_head s -> solid_head (s ++ r).
Proof. by destruct s. Qed.

Lemma skip_ws_head s : solid_head s -> skip_ws s = s.
Proof. destruct s as [|c s]; [done|]. intros [H _]. by apply skip_ws_solid. Qed.

Lemma int_repr_head z : solid_head (int_repr z).
Proof.
  unfold int_repr. destruct (Z.ltb_spec z 0); [done|].
  destruct (digits_shape z) as (c & t & -> & Hc & _); [lia|].
  apply ascii_digit_range in Hc. simpl. unfold is_ws. repeat split; [|lia..].
  repeat (rewrite (proj2 (Z.eqb_neq _ _)) by lia). done.
Qed.

Lemma text_head lvl v : json_safe v = true -> solid_head (text lvl v).
Proof.
  destruct v as [| [] | z | q | s | [|x l] | [|kv d]]; intros Hs; try done;
    try apply int_repr_head; simpl; eval_lits; done.
Qed.

Lemma forallb_Forall {A} (p : A -> bool) l : forallb p l = true -> Forall (fun x => p x = true) l.
Proof. intros H. apply Forall_forall. intros x Hx. apply list_elem_of_In in Hx. by eapply forallb_forall in H. Qed.

Lemma scan_once_scalar f c s :
  c <> 34 -> c <> 123 -> c <> 91 -> scan_once fs (S f) (c :: s) = scan_scalar fs (c :: s).
Proof. intros H1 H2 H3. simpl. by rewrite !(proj2 (Z.eqb_neq _ _)). Qed.

Lemma value_end_close lvl c rest : c = 93 \/ c = 125 -> value_end (newline_indent indent lvl ++ c :: rest).
Proof. intros Hc. destruct indent; simpl; [by right; left|]. destruct Hc as [->| ->]; tauto. Qed.

Lemma skip_ws_close lvl c rest : skip_ws (newline_indent indent lvl ++ c :: rest) = skip_ws (c :: rest).
Proof. apply skip_ws_ws, newline_indent_ws. Qed.

Definition reads_back (v : PyVal) : Prop :=
  forall lvl f rest, json_safe v = true -> value_end rest -> (2 * length (text lvl v) < f)%nat ->
  scan_once fs f (text lvl v ++ rest) = Ok (v, rest).

Lemma text_length lvl v : json_safe v = true -> (1 <= length (text lvl v))%nat.
Proof. intros H. pose proof (text_head lvl v H) as Hh. destruct (text lvl v); simpl in *; [done|lia]. Qed.

(** The separator and the indentation between two items, after the comma. *)
Lemma sep_skip lvl s : solid_head s ->
  exists w, item_separator indent ++ newline_indent indent (S lvl) ++ s = 44 :: w ++ s /\
            skip_ws (w ++ s) = s /\ (1 <= length (item_separator indent ++ newline_indent indent (S lvl)))%nat.
Proof.
  intros Hs. destruct (item_separator_split indent) as (w & Hw & Hws). rewrite Hw.
  exists (w ++ newline_indent indent (S lvl)). split; [simpl; by rewrite <- app_assoc|]. split; [|simpl; lia].
  rewrite skip_ws_ws; [by apply skip_ws_head|]. apply Forall_app; split; [done|apply newline_indent_ws].
Qed.

Lemma py_join_prefix sep a ys : exists t, py_join sep (a :: ys) = a ++ t.
Proof. destruct ys; simpl; eexists; [by rewrite app_nil_r | reflexivity]. Qed.

Lemma elements_read_back lvl (l : list PyVal) : l <> [] -> Forall reads_back l -> forallb json_safe l = true ->
  forall f rest,
  (2 * length (py_join (item_separator indent ++ newline_indent indent (S lvl)) (map (text (S lvl)) l)) + 1 < f)%nat ->
  array_elements fs f (py_join (item_separator indent ++ newline_indent indent (S lvl)) (map (text (S lvl)) l) ++
                        newline_indent indent lvl ++ 93 :: rest) = Ok (l, rest).
Proof.
  induction l as [|x l IH]; intros Hne Hall Hs f rest Hf; [done|].
  apply Forall_cons in Hall as [Hx Hall]. simpl in Hs. apply andb_true_iff in Hs as [Hsx Hsl].
  destruct f as [|f]; [lia|]. simpl. destruct l as [|y l].
  - simpl in *. rewrite (Hx (S lvl) f); [| done | by apply value_end_close; left | lia].
    cbn [py_bind fst snd]. rewrite ?app_nil_l, skip_ws_close. simpl. reflexivity.
  - cbn [map] in *. rewrite py_join_cons_cons in *. rewrite <- !app_assoc.
    assert (Hsy : json_safe y = true) by (simpl in Hsl; by apply andb_true_iff in Hsl as [? _]).
    set (J := py_join (item_separator indent ++ newline_indent indent (S lvl)) (text (S lvl) y :: map (text (S lvl)) l)).
    destruct (sep_skip lvl (J ++ newline_indent indent lvl ++ 93 :: rest)) as (w & Hw & Hskip & Hlen).
    { destruct (py_join_prefix (item_separator indent ++ newline_indent indent (S lvl)) (text (S lvl) y)
          (map (text (S lvl)) l)) as [t Ht].
      unfold J. rewrite Ht, <- app_assoc. by apply solid_head_app, text_head. }
    rewrite Hw.
    rewrite (Hx (S lvl) f); [| done | simpl; by left | rewrite !length_app in Hf; lia].
    cbn [py_bind fst snd]. simpl skip_ws. cbv iota beta. rewrite Hskip.
    rewrite (IH ltac:(done) Hall); [done | exact Hsl |].
    rewrite !length_app in Hf. cbn [map] in *. pose proof (text_length (S lvl) x Hsx). unfold J. lia.
Qed.

(** The text of the entries of a dict, as [json.dumps] writes them
    without [sort_keys]. *)
Definition entries lvl (d : list (pystr * PyVal)) : list pystr :=
  map (fun kv => escape kv.1 ++ [58; 32] ++ text (S lvl) kv.2) d.

Lemma dict_entries lvl d :
  map (fun '(k, t) => escape k ++ [58; 32] ++ t)
    (sort_items false (map (fun '(k, x) => (k, text (S lvl) x)) d)) = entries lvl d.
Proof. unfold sort_items, entries. induction d as [|[k x] d IH]; [done|]. cbn [map]. f_equal. exact IH. Qed.

Lemma skip_ws_space s : skip_ws (32 :: s) = skip_ws s.
Proof. reflexivity. Qed.

Lemma members_read_back lvl d : d <> [] -> Forall (fun kv => reads_back kv.2) d ->
  forallb (fun '(k, x) => forallb valid_char k && json_safe x) d = true ->
  forall f s rest,
  34 :: s = py_join (item_separator indent ++ newline_indent indent (S lvl)) (entries lvl d) ++
            newline_indent indent lvl ++ 125 :: rest ->
  (2 * length (py_join (item_separator indent ++ newline_indent indent (S lvl)) (entries lvl d)) + 1 < f)%nat ->
  object_members fs f s = Ok (d, rest).
Proof.
  induction d as [|[k x] d IH]; intros Hne Hall Hs f s rest Heq Hf; [done|].
  apply Forall_cons in Hall as [Hx Hall]. simpl in Hx.
  cbn [forallb] in Hs. apply andb_true_iff in Hs as [Hkx Hsd]. apply andb_true_iff in Hkx as [Hk Hsx].
  destruct f as [|f]; [lia|]. cbn [object_members].
  destruct (py_join_prefix (item_separator indent ++ newline_indent indent (S lvl))
      (escape k ++ [58; 32] ++ text (S lvl) x) (entries lvl d)) as [T0 HT0].
  unfold entries in Heq, Hf. cbn [map fst snd] in Heq, Hf. fold (entries lvl d) in Heq, Hf.
  rewrite HT0 in Heq, Hf. rewrite <- !app_assoc in Heq.
  assert (Hscan : scan s = Some (k, 58 :: 32 :: text (S lvl) x ++ T0 ++ newline_indent indent lvl ++ 125 :: rest)).
  { change (scan s) with (scan_string (34 :: s)). rewrite Heq. by apply scan_string_escape, forallb_Forall. }
  rewrite Hscan. cbv iota beta. rewrite (skip_ws_solid 58) by reflexivity. rewrite Z.eqb_refl.
  rewrite skip_ws_space.
  rewrite skip_ws_head by (by apply solid_head_app, text_head).
  destruct d as [|kv d].
  - assert (T0 = []) as ->.
    { unfold entries in HT0. cbn [py_join map] in HT0. apply (f_equal length) in HT0. rewrite (length_app _ T0) in HT0.
      apply length_zero_iff_nil. lia. }
    rewrite (Hx (S lvl) f); [| done | by apply value_end_close; right | rewrite !length_app in Hf; lia].
    cbn [py_bind fst snd]. rewrite ?app_nil_l, skip_ws_close. simpl. reflexivity.
  - destruct kv as [k2 x2]. unfold entries in HT0. cbn [map fst snd] in HT0. fold (entries lvl d) in HT0.
    rewrite py_join_cons_cons in HT0. apply app_inv_head in HT0. subst T0. fold (entries lvl ((k2, x2) :: d)).
    cbn [forallb] in Hsd.
    assert (Hsd' := Hsd). apply andb_true_iff in Hsd' as [Hk2x2 _]. apply andb_true_iff in Hk2x2 as [_ Hsx2].
    set (J := py_join (item_separator indent ++ newline_indent indent (S lvl))
                ((escape k2 ++ [58; 32] ++ text (S lvl) x2) :: entries lvl d)).
    destruct (py_join_prefix (item_separator indent ++ newline_indent indent (S lvl))
        (escape k2 ++ [58; 32] ++ text (S lvl) x2) (entries lvl d)) as [T1 HT1].
    assert (HJ : J = 34 :: (concat (map escape_char k2) ++ [34]) ++ [58; 32] ++ text (S lvl) x2 ++ T1).
    { unfold J. rewrite HT1. unfold escape. simpl.
      by rewrite <- !app_assoc. }
    destruct (sep_skip lvl (J ++ newline_indent indent lvl ++ 125 :: rest)) as (w & Hw & Hskip & Hlen).
    { rewrite HJ. simpl. repeat split; discriminate || lia || reflexivity. }
    rewrite <- !app_assoc, Hw.
    rewrite (Hx (S lvl) f); [| done | simpl; by left | rewrite !length_app in Hf; lia].
    cbn [py_bind fst snd]. simpl skip_ws. cbv iota beta. rewrite Hskip, HJ. cbn [skip_ws is_ws orb Z.eqb app].
    cbv iota beta.
    rewrite (IH ltac:(done) Hall Hsd f _ rest); [done| |].
    + change (py_join (item_separator indent ++ newline_indent indent (S lvl)) (entries lvl ((k2, x2) :: d)))
        with J. rewrite HJ. reflexivity.
    + change (py_join (item_separator indent ++ newline_indent indent (S lvl)) (entries lvl ((k2, x2) :: d)))
        with J. fold J in Hf. rewrite !length_app in Hf. simpl length in Hf. lia.
Qed.

Lemma int_repr_first z : exists c t, int_repr z = c :: t /\ (c = 45 \/ 48 <= c <= 57).
Proof.
  unfold int_repr. destruct (Z.ltb_spec z 0); [by eexists _, _; split; [|left]|].
  destruct (digits_shape z) as (c & t & -> & Hc & _); [lia|].
  apply ascii_digit_range in Hc. eexists _, _. split; [reflexivity | by right].
Qed.

Lemma text_reads_back v : reads_back v.
Proof.
  induction v as [| b | z | q | s | l IHl | d IHd] using PyVal_ind'; intros lvl f rest Hs Hr Hf;
    destruct f as [|f]; try lia; try discriminate.
  - eval_lits. simpl. unfold scan_scalar, starts_with. eval_lits. simpl. reflexivity.
  - destruct b; eval_lits; simpl; unfold scan_scalar, starts_with; eval_lits; simpl; reflexivity.
  - cbn [dumps_go]. destruct (int_repr_first z) as (c & t & Ht & Hc).
    rewrite Ht. cbn [app]. rewrite scan_once_scalar by lia.
    replace (c :: t ++ rest) with (int_repr z ++ rest) by (by rewrite Ht).
    by apply scan_scalar_int.
  - cbn [dumps_go]. unfold escape. cbn [app]. simpl scan_once. rewrite ?Z.eqb_refl.
    change (scan ((concat (map escape_char s) ++ [34]) ++ rest)) with (scan_string (escape s ++ rest)).
    by rewrite scan_string_escape by (by apply forallb_Forall).
  - destruct l as [|x l].
    + eval_lits. simpl. reflexivity.
    + cbn [dumps_go]. cbn [json_safe] in Hs.
      set (J := py_join (item_separator indent ++ newline_indent indent (S lvl)) (map (text (S lvl)) (x :: l))).
      assert (HJ : solid_head (J ++ newline_indent indent lvl ++ 93 :: rest)).
      { unfold J. cbn [map].
        destruct (py_join_prefix (item_separator indent ++ newline_indent indent (S lvl))
          (text (S lvl) x) (map (text (S lvl)) l)) as [T ->].
        rewrite <- app_assoc. apply solid_head_app, text_head. by apply andb_true_iff in Hs as [? _]. }
      rewrite <- !app_assoc. simpl scan_once. cbv iota beta.
      rewrite skip_ws_ws by apply newline_indent_ws. rewrite (skip_ws_head _ HJ).
      destruct (J ++ newline_indent indent lvl ++ 93 :: rest) as [|c r] eqn:E; [done|].
      destruct HJ as (_ & H93 & _). rewrite (proj2 (Z.eqb_neq c 93)) by done. rewrite <- E.
      unfold J. rewrite elements_read_back; [done | done | done | done |].
      fold J. cbn [dumps_go] in Hf. fold J in Hf. rewrite !length_app in Hf. cbn [length] in Hf. lia.
  - destruct d as [|[k x] d].
    + eval_lits. simpl. reflexivity.
    + cbn [dumps_go]. rewrite dict_entries. cbn [json_safe] in Hs.
      apply andb_true_iff in Hs as [Hnd Hs]. apply bool_decide_eq_true in Hnd.
      set (J := py_join (item_separator indent ++ newline_indent indent (S lvl)) (entries lvl ((k, x) :: d))).
      assert (HJ : exists s, J ++ newline_indent indent lvl ++ 125 :: rest = 34 :: s).
      { unfold J, entries. cbn [map fst snd].
        destruct (py_join_prefix (item_separator indent ++ newline_indent indent (S lvl))
          (escape k ++ [58; 32] ++ text (S lvl) x) (map (λ kv, escape kv.1 ++ [58; 32] ++ text (S lvl) kv.2) d))
          as [T ->].
        unfold escape. simpl. eexists. reflexivity. }
      destruct HJ as [s HJ].
      rewrite <- !app_assoc. simpl scan_once. cbv iota beta.
      rewrite skip_ws_ws by apply newline_indent_ws. rewrite HJ, skip_ws_solid by reflexivity.
      rewrite (proj2 (Z.eqb_neq 34 125)), Z.eqb_refl by lia.
      rewrite (members_read_back lvl ((k, x) :: d) ltac:(done) IHd Hs f s rest).
      * cbn [py_bind fst snd]. by rewrite dict_of_pairs_nodup.
      * by rewrite <- HJ.
      * fold J. cbn [dumps_go] in Hf. rewrite dict_entries in Hf. fold J in Hf.
        rewrite !length_app in Hf. cbn [length] in Hf. lia.
Qed.

(** Floats are the only values whose text depends on [float.__repr__]. *)
Lemma dumps_go_float_free fr1 fr2 sk v : json_safe v = true ->
  forall lvl, dumps_go fr1 sk indent lvl v = dumps_go fr2 sk indent lvl v.
Proof.
  induction v as [| | | | | l IH | d IH] using PyVal_ind'; intros Hs lvl; try done.
  - destruct l as [|x l]; [done|]. cbn [json_safe] in Hs. apply forallb_Forall in Hs.
    enough (map (dumps_go fr1 sk indent (S lvl)) (x :: l) =
            map (dumps_go fr2 sk indent (S lvl)) (x :: l)) as E
      by (cbn [dumps_go]; rewrite E; reflexivity).
    clear - IH Hs. induction IH as [|y l0 Hy _ IHl]; [done|].
    apply Forall_cons in Hs as [Hsy Hsl]. cbn [map]. by rewrite Hy, IHl.
  - destruct d as [|kv d]; [done|]. cbn [json_safe] in Hs.
    apply andb_true_iff in Hs as [_ Hs]. apply forallb_Forall in Hs.
    enough (map (fun '(k, x) => (k, dumps_go fr1 sk indent (S lvl) x)) (kv :: d) =
            map (fun '(k, x) => (k, dumps_go fr2 sk indent (S lvl) x)) (kv :: d)) as E
      by (cbn [dumps_go]; rewrite E; reflexivity).
    clear - IH Hs. induction IH as [|[k y] d0 Hy _ IHd]; [done|].
    apply Forall_cons in Hs as [Hsy Hsd]. apply andb_true_iff in Hsy as [_ Hsy].
    cbn [map]. by rewrite Hy, IHd.
Qed.
End Roundtrip.

(** ** Fuel

    Every call of the scanner either reads a non-empty prefix or fails
    with an error other than [RecursionError] when its fuel exceeds twice
    the length of its text ([scan_progress]); and more fuel never
    changes a result that is not [RecursionError] ([scan_mono]). *)

Lemma cons_fst_shorter c l' n x r :
  (forall x r, scan l' = Some (x, r) -> (length r < length l')%nat) -> (length l' < n)%nat ->
  cons_fst c (scan l') = Some (x, r) -> (length r < n)%nat.
Proof.
  intros IH Hn. unfold cons_fst. destruct (scan l') as [[x' r']|]; [|done].
  intros [= _ <-]. specialize (IH x' r' eq_refl). lia.
Qed.

Lemma scan_shorter l x r : scan l = Some (x, r) -> (length r < length l)%nat.
Proof.
  revert x r. induction l as [l IH] using list_length_ind. intros x r Hs.
  destruct l as [|c rest]; [done|]. cbn [scan] in Hs.
  repeat match type of Hs with
         | context [match ?t with _ => _ end] => destruct t eqn:?
         end;
  first [ discriminate | injection Hs as _ <-; cbn [length]; lia
        | refine (cons_fst_shorter _ _ _ _ _ _ _ Hs);
          [intros ?? E; eapply IH; [cbn [length]; lia | exact E] | cbn [length]; lia] ].
Qed.

Lemma skip_ws_length s : (length (skip_ws s) <= length s)%nat.
Proof. induction s as [|c s IH]; simpl; [lia|]. destruct (is_ws c); simpl; lia. Qed.

Lemma span_digits_split s d r : span_digits s = (d, r) -> s = d ++ r.
Proof.
  revert d r. induction s as [|c s IH]; simpl; intros d r H; [by simplify_eq|].
  destruct (is_ascii_digit c); [|by simplify_eq].
  destruct (span_digits s) as [d' r']. injection H as <- <-. by rewrite (IH d' r' eq_refl).
Qed.

Lemma int_part_split s ip r : int_part s = Some (ip, r) -> s = ip ++ r /\ ip <> [].
Proof.
  destruct s as [|c s]; simpl; [done|]. destruct (Z.eqb_spec c 48) as [->|]; [by intros [= <- <-]|].
  destruct (is_ascii_digit c); [|done]. destruct (span_digits s) as [d r'] eqn:E.
  intros [= <- <-]. by rewrite (span_digits_split _ _ _ E).
Qed.

Lemma frac_part_split s fr r : frac_part s = (fr, r) -> s = fr ++ r.
Proof.
  destruct s as [|p [|c s]]; simpl; try by intros [= <- <-].
  destruct ((p =? 46) && is_ascii_digit c); [|by intros [= <- <-]].
  destruct (span_digits s) as [d r'] eqn:E. intros [= <- <-]. by rewrite (span_digits_split _ _ _ E).
Qed.

Lemma exp_part_split s ex r : exp_part s = (ex, r) -> s = ex ++ r.
Proof.
  destruct s as [|e s]; simpl; [by intros [= <- <-]|].
  destruct ((e =? 101) || (e =? 69)); [|by intros [= <- <-]].
  assert (exists sg r1, (match s with
                         | c :: r' => if (c =? 45) || (c =? 43) then ([c], r') else ([], s)
                         | [] => ([], [])
                         end) = (sg, r1) /\ s = sg ++ r1) as (sg & r1 & -> & Hs).
  { destruct s as [|c s]; [by exists [], []|].
    destruct ((c =? 45) || (c =? 43)); eauto. }
  destruct (span_digits r1) as [[|x d] r2] eqn:E; [by intros [= <- <-]|].
  intros [= <- <-]. rewrite Hs, (span_digits_split _ _ _ E). simpl. by rewrite <- app_assoc.
Qed.

Lemma match_number_shorter s neg ip fr ex r :
  match_number s = Some (neg, ip, fr, ex, r) -> (length r < length s)%nat.
Proof.
  unfold match_number.
  destruct (match s with c :: r => if c =? 45 then (true, r) else (false, s) | [] => (false, s) end)
    as [ng s1] eqn:E1.
  assert (length s1 <= length s)%nat as Hl.
  { destruct s as [|c s]; simplify_eq/=; [lia|]. destruct (c =? 45); simplify_eq/=; lia. }
  destruct (int_part s1) as [[ip' r1]|] eqn:E2; [|done].
  destruct (frac_part r1) as [fr' r2] eqn:E3. destruct (exp_part r2) as [ex' r3] eqn:E4.
  intros [= _ <- <- <- <-].
  apply int_part_split in E2 as [-> Hip]. apply frac_part_split in E3 as ->.
  apply exp_part_split in E4 as ->. rewrite !length_app in Hl.
  destruct ip'; [done|]. simpl in Hl. lia.
Qed.

(** A scanner result that made progress: a value read from a non-empty
    prefix, or an error other than running out of fuel. *)
Definition consumed {A} (c : PyResult (A * pystr)) (s : pystr) : Prop :=
  match c with Ok p => (length p.2 < length s)%nat | Raise e => e <> RecursionError end.

Lemma consumed_raise {A} e s : e <> RecursionError -> consumed (A:=A) (Raise e) s.
Proof. done. Qed.

Lemma consumed_ok {A} (x : A) r s : (length r < length s)%nat -> consumed (Ok (x, r)) s.
Proof. done. Qed.

Lemma consumed_bind {A B} (c : PyResult (A * pystr)) (k : A * pystr -> PyResult (B * pystr)) s' s :
  consumed c s' -> (forall p, (length p.2 < length s')%nat -> consumed (k p) s) ->
  consumed (py_bind c k) s.
Proof. destruct c; simpl; auto. Qed.

Lemma starts_with_drop p s n : starts_with p s = true -> length p = n -> (0 < n)%nat ->
  (length (drop n s) < length s)%nat.
Proof.
  unfold starts_with. rewrite bool_decide_eq_true. intros H <- Hn.
  assert (length (take (length p) s) = length p) as Hl by (by rewrite H).
  rewrite length_take in Hl. rewrite length_drop. lia.
Qed.

Section Progress.
Variable fs : pystr -> Q.

Lemma scan_scalar_consumed s : consumed (scan_scalar fs s) s.
Proof.
  unfold scan_scalar.
  repeat match goal with
         | |- consumed (if starts_with (lit ?w) s then _ else _) s =>
           destruct (starts_with (lit w) s) eqn:?;
           [apply consumed_ok, (starts_with_drop (lit w)); [done | reflexivity | lia] |]
         end.
  destruct (match_number s) as [[[[[neg ip] fr] ex] r]|] eqn:E; [|done].
  apply match_number_shorter in E. destruct fr, ex; by apply consumed_ok.
Qed.
End Progress.

Ltac no_rec := apply consumed_raise; discriminate.

Section FuelStep.
Variables (fs : pystr -> Q) (f : nat).
Hypothesis IHs : forall s, (2 * length s < f)%nat -> consumed (scan_once fs f s) s.
Hypothesis IHo : forall s, (2 * length s + 1 < f)%nat -> consumed (object_members fs f s) s.
Hypothesis IHa : forall s, (2 * length s + 1 < f)%nat -> consumed (array_elements fs f s) s.

Lemma scan_once_step s : (2 * length s < S f)%nat -> consumed (scan_once fs (S f) s) s.
Proof.
  intros Hl. destruct s as [|c rest]; [no_rec|]. cbn [scan_once]. cbn [length] in Hl.
  pose proof (skip_ws_length rest) as Hw.
  destruct (c =? 34).
  { destruct (scan rest) as [[str r]|] eqn:E; [|no_rec].
    apply consumed_ok. apply scan_shorter in E. simpl; lia. }
  destruct (c =? 123).
  { destruct (skip_ws rest) as [|d r]; [no_rec|]. simpl in Hw.
    destruct (d =? 125); [apply consumed_ok; simpl; lia|]. destruct (d =? 34); [|no_rec].
    apply (consumed_bind _ _ r); [apply IHo; lia|]. intros p Hp. apply consumed_ok. simpl; lia. }
  destruct (c =? 91); [|apply scan_scalar_consumed].
  destruct (skip_ws rest) as [|d r]; simpl in Hw.
  - apply (consumed_bind _ _ []); [apply IHa; simpl; lia|]. intros p Hp. simpl in Hp. lia.
  - destruct (d =? 93); [apply consumed_ok; simpl; lia|].
    apply (consumed_bind _ _ (d :: r)); [apply IHa; simpl; lia|].
    intros p Hp. apply consumed_ok. simpl in *; lia.
Qed.

Lemma object_members_step s : (2 * length s + 1 < S f)%nat -> consumed (object_members fs (S f) s) s.
Proof.
  intros Hl. cbn [object_members].
  destruct (scan s) as [[key r]|] eqn:E; [|no_rec]. apply scan_shorter in E.
  pose proof (skip_ws_length r) as Hw. destruct (skip_ws r) as [|d1 r1]; [no_rec|]. simpl in Hw.
  destruct (d1 =? 58); [|no_rec]. pose proof (skip_ws_length r1).
  apply (consumed_bind _ _ (skip_ws r1)); [apply IHs; lia|]. intros p Hp.
  pose proof (skip_ws_length p.2) as Hw2. destruct (skip_ws p.2) as [|d3 r3]; [no_rec|]. simpl in Hw2.
  destruct (d3 =? 125); [apply consumed_ok; lia|]. destruct (d3 =? 44); [|no_rec].
  pose proof (skip_ws_length r3) as Hw3. destruct (skip_ws r3) as [|d4 r4]; [no_rec|]. simpl in Hw3.
  destruct (d4 =? 34); [|no_rec].
  apply (consumed_bind _ _ r4); [apply IHo; lia|]. intros q Hq. apply consumed_ok. simpl. lia.
Qed.

Lemma array_elements_step s : (2 * length s + 1 < S f)%nat -> consumed (array_elements fs (S f) s) s.
Proof.
  intros Hl. cbn [array_elements].
  apply (consumed_bind _ _ s); [apply IHs; lia|]. intros p Hp.
  pose proof (skip_ws_length p.2) as Hw. destruct (skip_ws p.2) as [|d r1]; [no_rec|]. simpl in Hw.
  destruct (d =? 93); [apply consumed_ok; lia|]. destruct (d =? 44); [|no_rec].
  pose proof (skip_ws_length r1).
  apply (consumed_bind _ _ (skip_ws r1)); [apply IHa; lia|]. intros q Hq. apply consumed_ok. simpl. lia.
Qed.
End FuelStep.

Lemma scan_progress fs f :
  (forall s, (2 * length s < f)%nat -> consumed (scan_once fs f s) s) /\
  (forall s, (2 * length s + 1 < f)%nat -> consumed (object_members fs f s) s) /\
  (forall s, (2 * length s + 1 < f)%nat -> consumed (array_elements fs f s) s).
Proof.
  induction f as [|f (IHs & IHo & IHa)]; [split_and!; intros; lia|].
  split_and!; intros s Hs;
    [apply scan_once_step | apply object_members_step | apply array_elements_step]; done.
Qed.

(** [c'] is [c] unless [c] ran out of fuel. *)
Definition fuel_le {A} (c c' : PyResult A) : Prop := c = Raise RecursionError \/ c' = c.

Lemma fuel_le_refl {A} (c : PyResult A) : fuel_le c c.
Proof. by right. Qed.

Lemma fuel_le_bind {A B} (c c' : PyResult A) (k k' : A -> PyResult B) :
  fuel_le c c' -> (forall a, fuel_le (k a) (k' a)) -> fuel_le (py_bind c k) (py_bind c' k').
Proof. intros [-> | ->] Hk; [by left|]. destruct c; simpl; [apply Hk | by right]. Qed.

Ltac fuel_mono :=
  repeat first [ apply fuel_le_refl
               | apply fuel_le_bind; [solve [auto] | intros ?]
               | case_match ].

Section FuelMono.
Variables (fs : pystr -> Q) (f f' : nat).
Hypothesis IHs : forall s, fuel_le (scan_once fs f s) (scan_once fs f' s).
Hypothesis IHo : forall s, fuel_le (object_members fs f s) (object_members fs f' s).
Hypothesis IHa : forall s, fuel_le (array_elements fs f s) (array_elements fs f' s).

Lemma scan_mono_step :
  (forall s, fuel_le (scan_once fs (S f) s) (scan_once fs (S f') s)) /\
  (forall s, fuel_le (object_members fs (S f) s) (object_members fs (S f') s)) /\
  (forall s, fuel_le (array_elements fs (S f) s) (array_elements fs (S f') s)).
Proof. split_and!; intros s; cbn [scan_once object_members array_elements]; fuel_mono. Qed.
End FuelMono.

Lemma scan_mono fs f f' : (f <= f')%nat ->
  (forall s, fuel_le (scan_once fs f s) (scan_once fs f' s)) /\
  (forall s, fuel_le (object_members fs f s) (object_members fs f' s)) /\
  (forall s, fuel_le (array_elements fs f s) (array_elements fs f' s)).
Proof.
  revert f'. induction f as [|f IH]; intros f' Hf; [split_and!; intros; by left|].
  destruct f' as [|f']; [lia|]. destruct (IH f' ltac:(lia)) as (? & ? & ?).
  by apply scan_mono_step.
Qed.

Lemma universal_newlines_id s : Forall (fun c => c <> 13) s -> universal_newlines s = s.
Proof. induction 1 as [|c s Hc _ IH]; [done|]. simpl. by rewrite (proj2 (Z.eqb_neq _ _) Hc), IH. Qed.

(** [json.loads] reads back what [json.dumps] writes. *)
Lemma loads_text_roundtrip float_of_str float_repr indent v :
  json_safe v = true -> loads float_of_str (dumps float_repr false indent v) = Ok v.
Proof.
  intros Hs. unfold loads, dumps.
  pose proof (text_reads_back float_of_str float_repr indent v 0%nat
                (S (2 * length (dumps_go float_repr false indent 0%nat v))) [] Hs I ltac:(lia)) as R.
  pose proof (text_head float_repr indent 0 v Hs) as Hh.
  rewrite app_nil_r in R. revert R Hh.
  generalize (dumps_go float_repr false indent 0%nat v) as t. intros [|c t] R Hh; [done|].
  destruct Hh as (Hw & _ & _ & Hc). rewrite starts_with_cons_ne by lia.
  rewrite skip_ws_solid by done. rewrite R. done.
Qed.

(** Reading a file [json.dump] wrote gives back the text: its UTF-8
    bytes decode strictly and it holds no carriage return.  The text
    does not depend on [float.__repr__], as there is no float. *)
Lemma read_text_dump float_repr indent v : json_safe v = true ->
  read_text (encode (dumps float_repr false indent v)) = Ok (dumps (fun _ => []) false indent v).
Proof.
  intros Hs. unfold dumps. rewrite (dumps_go_float_free indent float_repr (fun _ => []) false v Hs 0).
  pose proof (dumps_printable (fun _ => []) false indent v ltac:(constructor)) as Hp. unfold dumps in Hp.
  unfold read_text. rewrite <- (app_nil_r (encode _)), decode_strict_encode.
  - cbn [fmap option_fmap option_map decode_strict]. rewrite app_nil_r, universal_newlines_id; [done|].
    eapply Forall_impl; [exact Hp|]. intros c [Hc | [_ ->]]; [|done].
    unfold printable in Hc. apply andb_true_iff in Hc as [H1 _]. apply Z.leb_le in H1. lia.
  - eapply Forall_impl; [exact Hp|]. intros c [Hc | [_ ->]]; [by apply printable_valid | done].
Qed.

(** ** Properties of [json.loads] *)

(** C16: round trip through a file.  What [json.dump(v, f, indent=...)]
    writes, [json.load] on the file opened in text mode reads back as
    [v], for every value without floats whose dicts have distinct keys
    and whose strings hold Unicode scalar values. *)
Theorem load_dump_file_roundtrip float_of_str float_repr indent v :
  json_safe v = true -> load float_of_str (encode (dumps float_repr false indent v)) = Ok v.
Proof.
  intros Hs. unfold load. rewrite read_text_dump by done. cbn [py_bind].
  by apply loads_text_roundtrip.
Qed.

(** Adequacy of the fuel.  The fuel [loads] gives the model is never
    exhausted, so the model's out-of-fuel value never arises.  This is a
    fact about the model: CPython's own recursion limit, which makes
    [json.loads] raise [RecursionError] on about a thousand nested
    containers, is not modelled. *)
Lemma loads_no_recursion_error fs s : loads fs s <> Raise RecursionError.
Proof.
  unfold loads. destruct (starts_with _ s); [discriminate|].
  pose proof (skip_ws_length s).
  pose proof (proj1 (scan_progress fs (S (2 * length s))) (skip_ws s) ltac:(lia)) as Hc.
  destruct (scan_once fs _ (skip_ws s)) as [p|e]; cbn [py_bind].
  - by case_bool_decide.
  - simpl in Hc. congruence.
Qed.

(** Adequacy of the fuel, continued: any fuel at least the one [loads]
    gives the model scans the text to the same result, so the bound is
    not observable in the model's results. *)
Lemma scan_fuel_independent fs s f : (S (2 * length s) <= f)%nat ->
  scan_once fs f (skip_ws s) = scan_once fs (S (2 * length s)) (skip_ws s).
Proof.
  intros Hf. pose proof (skip_ws_length s).
  pose proof (proj1 (scan_progress fs (S (2 * length s))) (skip_ws s) ltac:(lia)) as Hc.
  destruct (proj1 (scan_mono fs _ _ Hf) (skip_ws s)) as [E | E]; [|done].
  rewrite E in Hc. by destruct Hc.
Qed.

(** ** Witnesses *)

Lemma load_dump_file_roundtrip_witness :
  load (fun _ => 0%Q)
    (encode (dumps (fun _ => []) false (Some 2%nat)
               (PDict [(lit "a", PList [PInt 1; PStr (lit "x")]); (lit "b", PNone)]))) =
  Ok (PDict [(lit "a", PList [PInt 1; PStr (lit "x")]); (lit "b", PNone)]).
Proof.
  exact (load_dump_file_roundtrip (fun _ => 0%Q) (fun _ => []) (Some 2%nat)
           (PDict [(lit "a", PList [PInt 1; PStr (lit "x")]); (lit "b", PNone)]) eq_refl).
Defined.

Lemma scan_fuel_independent_witness :
  scan_once (fun _ => 0%Q) 100 (skip_ws (lit " [1, {}]")) =
  scan_once (fun _ => 0%Q) (S (2 * length (lit " [1, {}]"))) (skip_ws (lit " [1, {}]")).
Proof.
  exact (scan_fuel_independent (fun _ => 0%Q) (lit " [1, {}]") 100 ltac:(vm_compute; lia)).
Defined.

End JsonLoad.
