(* ===== verification/Report.v ===== *)
(** * Report: the results dictionary and its cryptographic proof

    [LegalVerification.__init__] (legal_verification.py 19-51) fixes the
    data the report prints: the input path, the law firms, the affected
    companies and [self.config].  [process_wikipedia_complete] packs its
    metrics into the [results] dict (lines 183-202), and
    [generate_cryptographic_proof] (lines 206-223) hashes seven of its
    entries: [sha256(json.dumps(proof_data, sort_keys=True).encode())].

    - [results_dict] builds the dict from the [Results] record of
      [Wikipedia.final_results], the timestamp and the machine; the
      branches [... if total_blocks > 0 else 0] and
      [... if total_elapsed > 0 else 0] give the [int] [0];
    - [generate_cryptographic_proof] is the method, over a [sha256_hex]
      that stands for [hashlib.sha256(b).hexdigest()] and the
      [float_repr] of [Json].

    The theorems: on the dict the program builds, the method never
    raises and hashes one fixed text, its seven entries in sorted key
    order; and that text contains the timestamp, so two runs that differ
    only in their start time get equal hashes only through a SHA-256
    collision, whatever the dataset: the hash cannot confirm that
    results are reproducible, which the letter says it does (line 250). *)

From stdpp Require Import sorting.
From S2P Require Import Prelude Utf8 Dedup Wikipedia PyFormat Json.

Local Open Scope Z_scope.

Module Report.

Import Utf8.Utf8 Wikipedia.Wikipedia PyFormat.PyFormat Json.Json.

(** ** The data of [LegalVerification.__init__] *)

Definition wikipedia_file : pystr := lit "/app/enwiki-latest-pages-articles.xml".

Definition firms : list pystr :=
  [lit "Wilson Sonsini Goodrich & Rosati";
   lit "Fenwick & West LLP";
   lit "Cooley LLP";
   lit "Latham & Watkins LLP";
   lit "Morrison & Foerster LLP"].

(** [self.affected_companies], in insertion order. *)
Definition affected_companies : list (pystr * list pystr) :=
  [(lit "Database companies facing obsolescence",
    [lit "MongoDB"; lit "Elastic"; lit "Redis Labs"; lit "Databricks"; lit "Snowflake"]);
   (lit "Cloud providers requiring license",
    [lit "Oracle"; lit "Microsoft Azure"; lit "Google Cloud"; lit "Amazon AWS"; lit "IBM Cloud"])].

(** [self.config] as the dict it is. *)
Definition config_dict (cfg : Config) : PyVal :=
  PDict [(lit "compression_ratio", PFloat (compression_ratio cfg));
         (lit "similarity_threshold", PInt (similarity_threshold cfg));
         (lit "batch_size", PInt (batch_size cfg));
         (lit "num_workers", PInt (num_workers cfg));
         (lit "enable_bloom", PBool (enable_bloom cfg));
         (lit "target_time_ms", PInt (target_time_ms cfg));
         (lit "block_size", PInt (block_size cfg))].

(** ** The machine and the [results] dict *)

(** What [platform.processor()] and [os.sysconf] report. *)
Record Machine := mkMachine {
  processor : pystr;
  page_size : Z;     (** [os.sysconf('SC_PAGE_SIZE')] *)
  phys_pages : Z     (** [os.sysconf('SC_PHYS_PAGES')] *)
}.

(** [platform.processor() or 'Standard CPU']. *)
Definition cpu_name (m : Machine) : pystr :=
  match processor m with [] => lit "Standard CPU" | p => p end.

(** [os.sysconf('SC_PAGE_SIZE') * os.sysconf('SC_PHYS_PAGES') / (1024**3)]. *)
Definition ram_gb (m : Machine) : Q := (inject_Z (page_size m * phys_pages m) / inject_Z (1024 ^ 3))%Q.

(** The [results] dict of lines 183-202, from the metrics of
    [final_results] and the [datetime.utcnow().isoformat() + 'Z'] of
    the end of the run. *)
Definition results_dict (timestamp : pystr) (m : Machine) (cfg : Config) (r : Results) : PyVal :=
  PDict [(lit "timestamp", PStr timestamp);
         (lit "file", PStr wikipedia_file);
         (lit "file_size", PInt (res_file_size r));
         (lit "file_size_gb", PFloat (inject_Z (res_file_size r) / inject_Z (1024 ^ 3))%Q);
         (lit "blocks_processed", PInt (res_blocks_processed r));
         (lit "unique_blocks", PInt (res_unique_blocks r));
         (lit "compression_ratio",
          if 0 <? res_blocks_processed r then PFloat (res_compression_ratio r) else PInt 0);
         (lit "elapsed_seconds", PFloat (res_elapsed_seconds r));
         (lit "elapsed_minutes", PFloat (res_elapsed_seconds r / 60)%Q);
         (lit "blocks_per_second",
          if Qle_bool (res_elapsed_seconds r) 0 then PInt 0 else PFloat (res_blocks_per_second r));
         (lit "mongodb_baseline", PInt 200);
         (lit "performance_factor", PFloat (res_performance_factor r));
         (lit "configuration", config_dict cfg);
         (lit "hardware", PDict [(lit "cpu", PStr (cpu_name m));
                                 (lit "ram_gb", PFloat (ram_gb m));
                                 (lit "gpu", PStr (lit "NOT USED"))])].

(** Looking a key up in a results dict: evaluate the keys, compare. *)
Ltac results_lookup :=
  unfold results_dict; eval_lits; cbn [getitem assoc_lookup];
  repeat (rewrite bool_decide_false by discriminate || rewrite bool_decide_true by reflexivity);
  reflexivity.

(** ** [generate_cryptographic_proof] *)

Section Proof.

(** [float.__repr__] and [hashlib.sha256(b).hexdigest()]. *)
Variable float_repr : Q -> pystr.
Variable sha256_hex : list Z -> pystr.

Local Open Scope py_scope.

(** The text that is hashed: [json.dumps(proof_data, sort_keys=True)]. *)
Definition proof_json (proof_data : PyVal) : pystr := dumps float_repr true None proof_data.

Definition generate_cryptographic_proof (results : PyVal) : PyResult (pystr * PyVal) :=
  timestamp <- getitem results (lit "timestamp") ;;
  file_size <- getitem results (lit "file_size") ;;
  blocks_processed <- getitem results (lit "blocks_processed") ;;
  unique_blocks <- getitem results (lit "unique_blocks") ;;
  elapsed_seconds <- getitem results (lit "elapsed_seconds") ;;
  blocks_per_second <- getitem results (lit "blocks_per_second") ;;
  performance_factor <- getitem results (lit "performance_factor") ;;
  let proof_data :=
    PDict [(lit "timestamp", timestamp);
           (lit "file_size", file_size);
           (lit "blocks_processed", blocks_processed);
           (lit "unique_blocks", unique_blocks);
           (lit "elapsed_seconds", elapsed_seconds);
           (lit "blocks_per_second", blocks_per_second);
           (lit "performance_factor", performance_factor)] in
  Ok (sha256_hex (encode (proof_json proof_data)), proof_data).

End Proof.

(** ** The text that is hashed *)

Section ProofText.

Variable float_repr : Q -> pystr.

(** One entry of the dumped dict: [json.dumps(k) + ': ' + json.dumps(v)]. *)
Definition json_entry (k : pystr) (v : PyVal) : pystr :=
  escape k ++ [58; 32] ++ dumps_go float_repr true None 1 v.

(** The value [results['blocks_per_second']] holds. *)
Definition bps_value (r : Results) : PyVal :=
  if Qle_bool (res_elapsed_seconds r) 0 then PInt 0 else PFloat (res_blocks_per_second r).

(** The seven entries before the timestamp in sorted key order, and
    the one after it. *)
Definition proof_before (r : Results) : list pystr :=
  [json_entry (lit "blocks_per_second") (bps_value r);
   json_entry (lit "blocks_processed") (PInt (res_blocks_processed r));
   json_entry (lit "elapsed_seconds") (PFloat (res_elapsed_seconds r));
   json_entry (lit "file_size") (PInt (res_file_size r));
   json_entry (lit "performance_factor") (PFloat (res_performance_factor r))].

Definition proof_after (r : Results) : pystr :=
  json_entry (lit "unique_blocks") (PInt (res_unique_blocks r)).

(** The entries [generate_cryptographic_proof] copies from a results dict. *)
Definition proof_data_of (ts : pystr) (r : Results) : PyVal :=
  PDict [(lit "timestamp", PStr ts);
         (lit "file_size", PInt (res_file_size r));
         (lit "blocks_processed", PInt (res_blocks_processed r));
         (lit "unique_blocks", PInt (res_unique_blocks r));
         (lit "elapsed_seconds", PFloat (res_elapsed_seconds r));
         (lit "blocks_per_second", bps_value r);
         (lit "performance_factor", PFloat (res_performance_factor r))].

Lemma proof_keys_sorted {A} (v1 v2 v3 v4 v5 v6 v7 : A) :
  merge_sort key_le
    [(lit "timestamp", v1); (lit "file_size", v2); (lit "blocks_processed", v3);
     (lit "unique_blocks", v4); (lit "elapsed_seconds", v5); (lit "blocks_per_second", v6);
     (lit "performance_factor", v7)] =
  [(lit "blocks_per_second", v6); (lit "blocks_processed", v3); (lit "elapsed_seconds", v5);
   (lit "file_size", v2); (lit "performance_factor", v7); (lit "timestamp", v1);
   (lit "unique_blocks", v4)].
Proof. vm_compute. reflexivity. Qed.

(** On a results dict the lookups succeed and copy the seven entries. *)
Lemma proof_of_results_dict sha256_hex ts m cfg r :
  generate_cryptographic_proof float_repr sha256_hex (results_dict ts m cfg r) =
  Ok (sha256_hex (encode (proof_json float_repr (proof_data_of ts r))), proof_data_of ts r).
Proof.
  unfold generate_cryptographic_proof, results_dict, proof_data_of, bps_value. eval_lits.
  cbn [getitem assoc_lookup py_bind].
  repeat (rewrite bool_decide_false by discriminate || rewrite bool_decide_true by reflexivity).
  reflexivity.
Qed.

(** The text of the proof data: the entries in sorted key order. *)
Lemma proof_json_text ts r :
  proof_json float_repr (proof_data_of ts r) =
  [123] ++ py_join [44; 32]
    (proof_before r ++ [json_entry (lit "timestamp") (PStr ts); proof_after r]) ++ [125].
Proof.
  unfold proof_json, dumps, proof_data_of. rewrite dumps_go_sorted_dict.
  cbn [map]. rewrite proof_keys_sorted. reflexivity.
Qed.

(** ** Helpers on the hashed text *)

Lemma py_join_app (sep : pystr) l1 l2 :
  l1 <> [] -> l2 <> [] -> py_join sep (l1 ++ l2) = py_join sep l1 ++ sep ++ py_join sep l2.
Proof.
  intros H1 H2. induction l1 as [|x l1 IH]; [done|].
  destruct l1 as [|y l1].
  - simpl. destruct l2; [done|]. reflexivity.
  - specialize (IH ltac:(done)). cbn [app] in IH |- *.
    rewrite !py_join_cons_cons, IH. by rewrite <- !app_assoc.
Qed.

(** The hashed text around the timestamp: a prefix and a suffix that
    depend only on the metrics. *)
Lemma proof_text_split ts r :
  [123] ++ py_join [44; 32]
    (proof_before r ++ [json_entry (lit "timestamp") (PStr ts); proof_after r]) ++ [125] =
  ([123] ++ py_join [44; 32] (proof_before r) ++ [44; 32] ++ escape (lit "timestamp") ++ [58; 32]) ++
  escape ts ++ ([44; 32] ++ proof_after r ++ [125]).
Proof.
  rewrite py_join_app by done. unfold json_entry. cbn [py_join dumps_go].
  by rewrite <- !app_assoc.
Qed.

Lemma proof_after_printable r : Forall (fun c => printable c = true) ([44; 32] ++ proof_after r ++ [125]).
Proof.
  unfold proof_after, json_entry. cbn [dumps_go]. rewrite !Forall_app.
  repeat split; try apply escape_printable; try apply int_repr_printable; by repeat constructor.
Qed.

End ProofText.

(** ** Properties of the proof *)

(** C12: functional.  On the results dict [process_wikipedia_complete]
    builds, [generate_cryptographic_proof] raises no [KeyError]: it
    returns the seven copied entries and the SHA-256 of the UTF-8 of
    their JSON text, which lists them in sorted key order
    ([blocks_per_second], [blocks_processed], [elapsed_seconds],
    [file_size], [performance_factor], [timestamp], [unique_blocks]). *)
Theorem cryptographic_proof_of_results float_repr sha256_hex ts m cfg r :
  generate_cryptographic_proof float_repr sha256_hex (results_dict ts m cfg r) =
  Ok (sha256_hex (encode ([123] ++ py_join [44; 32]
        (proof_before float_repr r ++
         [json_entry float_repr (lit "timestamp") (PStr ts); proof_after float_repr r]) ++ [125])),
      proof_data_of ts r).
Proof. by rewrite proof_of_results_dict, proof_json_text. Qed.

(** C10: spec-code divergence.  The letter says the hash shows the
    metrics are reproducible (line 250), but the hashed text holds the
    time the run ended: two runs with the same metrics whose timestamps
    differ get the same proof hash only if the hash function has a
    collision. *)
Theorem proof_hash_depends_on_timestamp float_repr sha256_hex ts1 ts2 m1 m2 cfg1 cfg2 r
    h1 d1 h2 d2 :
  Forall (fun c => valid_char c = true) ts1 -> Forall (fun c => valid_char c = true) ts2 ->
  ts1 <> ts2 ->
  generate_cryptographic_proof float_repr sha256_hex (results_dict ts1 m1 cfg1 r) = Ok (h1, d1) ->
  generate_cryptographic_proof float_repr sha256_hex (results_dict ts2 m2 cfg2 r) = Ok (h2, d2) ->
  h1 = h2 ->
  exists x y, x <> y /\ sha256_hex x = sha256_hex y.
Proof.
  intros Hv1 Hv2 Hne. rewrite !proof_of_results_dict, !proof_json_text, !proof_text_split.
  intros E1 E2 Heq. apply Ok_pair_fst in E1, E2. subst h1 h2.
  do 2 eexists. split; [|exact Heq].
  rewrite !encode_app. intros Henc. apply app_inv_head in Henc.
  rewrite <- !encode_app in Henc. apply (f_equal decode_ignore) in Henc.
  pose proof (printable_valid_all _ (proof_after_printable float_repr r)) as Hs.
  rewrite <- (app_nil_r (encode (escape ts1 ++ _))), <- (app_nil_r (encode (escape ts2 ++ _))),
    !decode_encode_prefix, !app_nil_r in Henc
    by (apply Forall_app; split; [apply printable_valid_all, escape_printable | exact Hs]).
  apply (f_equal scan_string) in Henc. rewrite !scan_string_escape in Henc by done.
  congruence.
Qed.


(** ** Witnesses *)

Lemma proof_hash_depends_on_timestamp_witness :
  exists x y, x <> y /\ (fun _ : list Z => @nil Z) x = (fun _ : list Z => @nil Z) y.
Proof.
  apply (proof_hash_depends_on_timestamp (fun _ => [48]) (fun _ => []) [49] [50]
    (mkMachine [] 1 1) (mkMachine [] 1 1) default_config default_config
    (mkResults 1 1 1 0 1 1 (1 # 200)) [] (proof_data_of [49] (mkResults 1 1 1 0 1 1 (1 # 200)))
    [] (proof_data_of [50] (mkResults 1 1 1 0 1 1 (1 # 200))));
    [by repeat constructor | by repeat constructor | discriminate
    | vm_compute; reflexivity | vm_compute; reflexivity | reflexivity].
Defined.

End Report.
