(* ===== verification/Letter.v ===== *)
(** * Letter: [generate_legal_documentation] and [run]

    [generate_legal_documentation] (legal_verification.py 225-328)
    prints a letter to the law firms, with the metrics of the [results]
    dict formatted into two f-strings, then saves a JSON report;
    [run] (lines 330-403) prints a banner, waits for [input()], runs
    [process_wikipedia_complete], and for a result prints the proof and
    the letter.  Both are [IO] computations of [PyIO]:

    - the f-string texts are the [summary_i], [implications_i] and
      [banner_i] literals, cut at the replacement fields; each field is
      evaluated left to right, before the [print], as Python does, and
      [format_value] is [format(v, spec)] for the specs the code uses
      ([''], [','], ['.1f'], [',.0f']);
    - the business implication [(pf - 1) / pf * 100] is
      [cost_reduction], with its [ZeroDivisionError];
    - the report is written to [legal_verification_<int(time.time())>.json]
      as [json.dump(report, f, indent=2)].

    [process_wikipedia_complete] is the model of [Wikipedia]; its own
    printing (the session hash and the per-chunk lines) is not part of
    the output modelled here. *)

From Stdlib Require Import Lqa.
From S2P Require Import Prelude Utf8 Dedup Wikipedia PyIO PyFormat Json Report.

Local Open Scope Z_scope.

Module Letter.

Import Utf8.Utf8 Dedup.Dedup Wikipedia.Wikipedia PyIO.PyIO PyFormat.PyFormat Json.Json Report.Report.

(** ** The texts of the letter and the banner *)

(** The 79 dashes under each heading of the letter. *)
Definition dash_line : pystr := py_repeat (lit "-") 79.

Definition summary_0 : pystr := lit "
TO: ".

Definition summary_1 : pystr := lit "

RE: Patent Representation Opportunity - Algorithmic Breakthrough

EXECUTIVE SUMMARY:
" ++ dash_line ++ lit "
Technology:     Compression/deduplication algorithm
Performance:    ".

Definition summary_2 : pystr := lit " blocks/second
Benchmark:      MongoDB baseline ".

Definition summary_3 : pystr := lit " blocks/second
Factor:         ".

Definition summary_4 : pystr := lit "x improvement
Dataset:        Wikipedia complete (".

Definition summary_5 : pystr := lit "GB)
Hardware:       Consumer CPU, ".

Definition summary_6 : pystr := lit "GB RAM, NO GPU

CRYPTOGRAPHIC VERIFICATION:
" ++ dash_line ++ lit "
SHA-256: ".

Definition summary_7 : pystr := lit "

This hash verifies the performance metrics are reproducible and accurate.
Any party can verify these results using the same dataset and configuration.

PATENT STATUS:
" ++ dash_line ++ lit "
Filed:          July 9, 2025 (provisional)
Inventor:       Individual, no institutional claims
Prior Art:      Comprehensive search reveals no comparable technology
Claims:         Core algorithm, implementation methods, applications

MARKET IMPACT:
" ++ dash_line ++ lit "
Affected Companies:
".

Definition implications_0 : pystr := lit "
BUSINESS IMPLICATIONS:
" ++ dash_line ++ lit "
• Data processing costs reduced by ".

Definition implications_1 : pystr := lit "%
• Real-time analytics on previously batch-only datasets
• Cloud infrastructure requirements decimated
• Energy consumption near-elimination

DEMONSTRATION:
" ++ dash_line ++ lit "
Dataset:    https://dumps.wikimedia.org/enwiki/latest/
Size:       ".

Definition implications_2 : pystr := lit " GB" ++ [10] ++ lit "Time:       ".

Definition implications_3 : pystr := lit " minutes
Throughput: ".

Definition implications_4 : pystr := lit " blocks/second

TO REPRODUCE:
1. Download Wikipedia dataset (link above)
2. Run: python legal_verification.py
3. Verify hash matches: ".

Definition implications_5 : pystr := lit "...

RESPONSE REQUIRED:
" ++ dash_line ++ lit "
Deadline:   Tuesday, August 27, 2025, 5:00 PM PST

Include:
1. Conflicts check regarding database/cloud companies
2. Proposed team and lead partner
3. IP strategy outline
4. Fee structure proposal

SELECTION CRITERIA:
" ++ dash_line ++ lit "
• Technical competence in software patents
• Existing relationships with affected companies
• Litigation capability if required
• International filing experience

One firm will be selected for exclusive representation.
The market opportunity exceeds any patent since PageRank.

Contact: [Provided separately to interested firms]
".

Definition banner_0 : pystr := lit "
╔═══════════════════════════════════════════════════════════════════╗
║                    VIDEO PROOF - LEGAL VERIFICATION                ║
║                                                                    ║
║  DATE: ".

Definition banner_1 : pystr := lit "                                        ║
║  SECOND NOTICE TO IP LAW FIRMS                                    ║
║                                                                    ║
║  First email sent: August 23, 2025 (NO RESPONSE)                  ║
║  This video proof: August 26, 2025                                ║
║  Public release: August 27, 2025 at 5:00 PM PST                   ║
║                                                                    ║
║  Dataset: Wikipedia COMPLETE database                             ║
║  Source: dumps.wikimedia.org/enwiki/latest/                       ║
║  Size: 103 GB (111,230,476,288 bytes)                            ║
║  Current as of: August 2025                                       ║
║                                                                    ║
║  THIS IS NOT A SIMULATION - REAL DATA, REAL PERFORMANCE           ║
╚═══════════════════════════════════════════════════════════════════╝
".

(** ** Formatting values *)

(** The format specs of the program's replacement fields. *)
Inductive FSpec :=
| SPlain                              (** [{x}] *)
| SGroup                              (** [{x:,}] *)
| SFixed (grouping : bool) (prec : nat).  (** [{x:.1f}], [{x:,.0f}] *)

Section Format.

(** [float.__repr__], and [str()] of a list or a dict (which no
    replacement field of the program formats). *)
Variable float_repr : Q -> pystr.
Variable container_str : PyVal -> pystr.

(** [str(v)]. *)
Definition py_str (v : PyVal) : pystr :=
  match v with
  | PNone => lit "None"
  | PBool true => lit "True"
  | PBool false => lit "False"
  | PInt z => int_repr z
  | PFloat q => float_repr q
  | PStr s => s
  | PList _ | PDict _ => container_str v
  end.

(** The leading digits of a text. *)
Fixpoint leading_digits (s : pystr) : pystr :=
  match s with
  | c :: r => if is_digit c then c :: leading_digits r else []
  | [] => []
  end.

(** [format(x, ',')] of a float: the digits before the point or the
    exponent are grouped. *)
Definition group_repr (s : pystr) : pystr :=
  let '(sign, rest) := match s with c :: r => if c =? 45 then ([45], r) else ([], s) | [] => ([], []) end in
  let ip := leading_digits rest in
  sign ++ group ip ++ drop (length ip) rest.

(** [format(v, spec)]: [ValueError] for a [str] with a numeric spec,
    [TypeError] for [None] and containers. *)
Definition format_value (spec : FSpec) (v : PyVal) : PyResult pystr :=
  match spec with
  | SPlain => Ok (py_str v)
  | SGroup =>
    match v with
    | PInt z => Ok (int_grouped z)
    | PBool b => Ok (int_grouped (Z.b2z b))
    | PFloat q => Ok (group_repr (float_repr q))
    | PStr _ => Raise ValueError
    | _ => Raise TypeError
    end
  | SFixed g p =>
    match v with
    | PInt z => Ok (fmt_fixed g p (inject_Z z))
    | PBool b => Ok (fmt_fixed g p (inject_Z (Z.b2z b)))
    | PFloat q => Ok (fmt_fixed g p q)
    | PStr _ => Raise ValueError
    | _ => Raise TypeError
    end
  end.

(** A number operand of [-], [/], [*]. *)
Definition as_number (v : PyVal) : PyResult Q :=
  match v with
  | PInt z => Ok (inject_Z z)
  | PBool b => Ok (inject_Z (Z.b2z b))
  | PFloat q => Ok q
  | _ => Raise TypeError
  end.

Local Open Scope py_scope.

(** [results[k]] formatted with [spec]. *)
Definition field (results : PyVal) (k : pystr) (spec : FSpec) : PyResult pystr :=
  v <- getitem results k ;; format_value spec v.

(** [(results['performance_factor']-1)/results['performance_factor']*100]. *)
Definition cost_reduction (results : PyVal) : PyResult Q :=
  pf1 <- getitem results (lit "performance_factor") ;;
  a <- as_number pf1 ;;
  pf2 <- getitem results (lit "performance_factor") ;;
  b <- as_number pf2 ;;
  x <- py_div (a - 1) b ;;
  Ok (x * 100)%Q.

(** The f-string of lines 232-263. *)
Definition letter_summary (results : PyVal) (proof_hash : pystr) : PyResult pystr :=
  let firms_s := py_join (lit ", ") firms in
  bps <- field results (lit "blocks_per_second") (SFixed true 0) ;;
  mb <- field results (lit "mongodb_baseline") SPlain ;;
  pf <- field results (lit "performance_factor") (SFixed true 0) ;;
  gb <- field results (lit "file_size_gb") (SFixed false 1) ;;
  hw <- getitem results (lit "hardware") ;;
  ram <- field hw (lit "ram_gb") (SFixed false 1) ;;
  Ok (summary_0 ++ firms_s ++ summary_1 ++ bps ++ summary_2 ++ mb ++ summary_3 ++ pf ++
      summary_4 ++ gb ++ summary_5 ++ ram ++ summary_6 ++ proof_hash ++ summary_7).

(** The f-string of lines 270-311. *)
Definition letter_implications (results : PyVal) (proof_hash : pystr) : PyResult pystr :=
  cr <- cost_reduction results ;;
  cr_s <- format_value (SFixed false 1) (PFloat cr) ;;
  gb <- field results (lit "file_size_gb") (SFixed false 1) ;;
  mins <- field results (lit "elapsed_minutes") (SFixed false 1) ;;
  bps <- field results (lit "blocks_per_second") (SFixed true 0) ;;
  Ok (implications_0 ++ cr_s ++ implications_1 ++ gb ++ implications_2 ++ mins ++
      implications_3 ++ bps ++ implications_4 ++ take 32 proof_hash ++ implications_5).

Local Close Scope py_scope.

(** [print("=" * 70)] and its variants. *)
Definition rule : pystr := py_repeat (lit "=") 70.

(** The loop over [self.affected_companies] (lines 265-268, 358-361). *)
Definition print_companies : IO unit :=
  py_for affected_companies (fun '(category, companies) =>
    print ([10] ++ category ++ lit ":") ;;
    py_for companies (fun company => print (lit "  • " ++ company))).

(** The dict saved as the report (lines 314-320). *)
Definition report_dict (results : PyVal) (proof_hash : pystr) : PyVal :=
  PDict [(lit "results", results);
         (lit "proof_hash", PStr proof_hash);
         (lit "firms_contacted", PList (map PStr firms));
         (lit "affected_companies",
          PDict (map (fun '(c, l) => (c, PList (map PStr l))) affected_companies));
         (lit "deadline", PStr (lit "Tuesday, August 27, 2025, 5:00 PM PST"))].

(** [f"legal_verification_{int(time.time())}.json"]. *)
Definition report_filename (now : Q) : pystr :=
  lit "legal_verification_" ++ int_repr (py_trunc now) ++ lit ".json".

(** [generate_legal_documentation(results, proof_hash)], at time [now]. *)
Definition generate_legal_documentation (results : PyVal) (proof_hash : pystr) (now : Q) : IO PyVal :=
  print ([10] ++ rule) ;;
  print (lit "LEGAL DOCUMENTATION") ;;
  print rule ;;
  summary ← lift (letter_summary results proof_hash) ;
  print summary ;;
  print_companies ;;
  implications ← lift (letter_implications results proof_hash) ;
  print implications ;;
  let report := report_dict results proof_hash in
  let filename := report_filename now in
  write_file filename (encode (dumps float_repr false (Some 2%nat) report)) ;;
  print ([10] ++ lit "Report saved: " ++ filename) ;;
  mret report.

End Format.

(** ** Running the documentation *)

Section Run.

Variable float_repr : Q -> pystr.
Variable container_str : PyVal -> pystr.

(** The lines the loop over [self.affected_companies] prints. *)
Definition company_lines : list pystr :=
  concat (map (fun '(category, companies) =>
    (([10] ++ category ++ lit ":") ++ [10]) :: map (fun company => (lit "  • " ++ company) ++ [10]) companies)
    affected_companies).

Lemma print_companies_run w : print_companies w = (Ok tt, write_lines company_lines w).
Proof.
  unfold print_companies, company_lines. generalize affected_companies as l. intros l.
  revert w. induction l as [|[c cs] l IH]; intros w; cbn [py_for map concat].
  - by rewrite write_lines_nil.
  - rewrite io_bind_run, io_bind_run, print_run, py_for_print, write_lines_app. cbv beta iota.
    rewrite IH, write_lines_app. reflexivity.
Qed.

(** What the letter prints before the business implications. *)
Definition doc_head (summary : pystr) : list pystr :=
  [([10] ++ rule) ++ [10]; lit "LEGAL DOCUMENTATION" ++ [10]; rule ++ [10]; summary ++ [10]] ++
  company_lines.

Lemma doc_run_raise results proof_hash now w summary e :
  letter_summary float_repr container_str results proof_hash = Ok summary ->
  letter_implications float_repr container_str results proof_hash = Raise e ->
  generate_legal_documentation float_repr container_str results proof_hash now w =
  (Raise e, write_lines (doc_head summary) w).
Proof.
  intros Hs Hi. unfold generate_legal_documentation.
  io_step print_run. io_step print_run. io_step print_run.
  rewrite Hs. io_step (@lift_Ok_run pystr). io_step print_run. io_step print_companies_run.
  rewrite Hi. rewrite io_bind_run, lift_Raise_run. cbv iota.
  rewrite !write_lines_app. reflexivity.
Qed.

(** The report is written in the working directory. *)
Lemma report_filename_plain now : parent_dir (report_filename now) = None.
Proof.
  apply parent_dir_plain. unfold report_filename.
  apply Forall_app; split; [eval_lits; by_decide|]. apply Forall_app; split; [|eval_lits; by_decide].
  eapply Forall_impl; [apply int_repr_chars | intros c; cbv beta; lia].
Qed.

Lemma doc_run_ok results proof_hash now w summary impl :
  letter_summary float_repr container_str results proof_hash = Ok summary ->
  letter_implications float_repr container_str results proof_hash = Ok impl ->
  generate_legal_documentation float_repr container_str results proof_hash now w =
  (Ok (report_dict results proof_hash),
   set_fs (<[report_filename now :=
               encode (dumps float_repr false (Some 2%nat) (report_dict results proof_hash))]> (fs w))
     (write_lines (doc_head summary ++
        [impl ++ [10]; ([10] ++ lit "Report saved: " ++ report_filename now) ++ [10]]) w)).
Proof.
  intros Hs Hi. unfold generate_legal_documentation.
  io_step print_run. io_step print_run. io_step print_run.
  rewrite Hs. io_step (@lift_Ok_run pystr). io_step print_run. io_step print_companies_run.
  rewrite Hi. io_step (@lift_Ok_run pystr). io_step print_run.
  io_step write_file_run; [|by rewrite report_filename_plain].
  io_step print_run. rewrite io_ret_run, write_lines_set_fs, !write_lines_app, !fs_write_lines.
  by rewrite <- !app_assoc.
Qed.

End Run.

(** ** The documentation of the program's results *)

Section Results.

Variable float_repr : Q -> pystr.
Variable container_str : PyVal -> pystr.
Variables (ts : pystr) (m : Machine) (cfg : Config) (r : Results).

Lemma results_pf :
  getitem (results_dict ts m cfg r) (lit "performance_factor") = Ok (PFloat (res_performance_factor r)).
Proof. results_lookup. Qed.

Lemma results_bps :
  getitem (results_dict ts m cfg r) (lit "blocks_per_second") = Ok (bps_value r).
Proof. unfold bps_value. results_lookup. Qed.

Lemma results_mb : getitem (results_dict ts m cfg r) (lit "mongodb_baseline") = Ok (PInt 200).
Proof. results_lookup. Qed.

Lemma results_gb :
  getitem (results_dict ts m cfg r) (lit "file_size_gb") =
  Ok (PFloat (inject_Z (res_file_size r) / inject_Z (1024 ^ 3))%Q).
Proof. results_lookup. Qed.

Lemma results_minutes :
  getitem (results_dict ts m cfg r) (lit "elapsed_minutes") = Ok (PFloat (res_elapsed_seconds r / 60)%Q).
Proof. results_lookup. Qed.

Lemma results_bp :
  getitem (results_dict ts m cfg r) (lit "blocks_processed") = Ok (PInt (res_blocks_processed r)).
Proof. results_lookup. Qed.

Lemma results_ub :
  getitem (results_dict ts m cfg r) (lit "unique_blocks") = Ok (PInt (res_unique_blocks r)).
Proof. results_lookup. Qed.

Lemma results_cr :
  getitem (results_dict ts m cfg r) (lit "compression_ratio") =
  Ok (if 0 <? res_blocks_processed r then PFloat (res_compression_ratio r) else PInt 0).
Proof. results_lookup. Qed.

Lemma results_ram :
  exists hw, getitem (results_dict ts m cfg r) (lit "hardware") = Ok hw /\
             getitem hw (lit "ram_gb") = Ok (PFloat (ram_gb m)).
Proof. eexists. split; [results_lookup|]. eval_lits. reflexivity. Qed.

Lemma format_bps g p : exists s, format_value float_repr container_str (SFixed g p) (bps_value r) = Ok s.
Proof. unfold bps_value. destruct (Qle_bool _ _); eexists; reflexivity. Qed.

(** The first f-string never raises on a results dict. *)
Lemma letter_summary_results proof_hash :
  exists s, letter_summary float_repr container_str (results_dict ts m cfg r) proof_hash = Ok s.
Proof.
  unfold letter_summary, field. rewrite results_bps. cbn [py_bind].
  destruct (format_bps true 0) as [bps Hbps]. rewrite Hbps. cbn [py_bind].
  rewrite results_mb, results_pf, results_gb. cbn [py_bind format_value].
  destruct results_ram as (hw & Hhw & Hram). rewrite Hhw. cbn [py_bind]. rewrite Hram.
  eexists. reflexivity.
Qed.

Lemma cost_reduction_results :
  cost_reduction (results_dict ts m cfg r) =
  py_bind (py_div (res_performance_factor r - 1) (res_performance_factor r)) (fun x => Ok (x * 100)%Q).
Proof. unfold cost_reduction. rewrite results_pf. reflexivity. Qed.

Lemma letter_implications_zero proof_hash :
  (res_performance_factor r == 0)%Q ->
  letter_implications float_repr container_str (results_dict ts m cfg r) proof_hash = Raise ZeroDivisionError.
Proof.
  intros Hz. unfold letter_implications. rewrite cost_reduction_results, py_div_zero by done.
  reflexivity.
Qed.

Lemma letter_implications_nonzero proof_hash :
  ~ (res_performance_factor r == 0)%Q ->
  exists s, letter_implications float_repr container_str (results_dict ts m cfg r) proof_hash = Ok s.
Proof.
  intros Hz. unfold letter_implications, field. rewrite cost_reduction_results, py_div_nonzero by done.
  rewrite results_gb, results_minutes, results_bps. destruct (format_bps true 0) as [bps Hbps].
  cbn [py_bind]. rewrite Hbps. cbn [py_bind format_value]. eexists. reflexivity.
Qed.

End Results.

(** ** Properties of the documentation *)

(** C11: error path and ordering.  When the run's performance factor is
    [0] (no time elapsed, or no blocks), the business implication
    [(pf - 1) / pf * 100] raises [ZeroDivisionError] after the header,
    the first part of the letter with the proof hash, and the list of
    companies are printed, and before the report is saved: the files
    are left as they were. *)
Theorem documentation_zero_division float_repr container_str ts m cfg r proof_hash now w :
  (res_performance_factor r == 0)%Q ->
  exists summary,
    generate_legal_documentation float_repr container_str (results_dict ts m cfg r) proof_hash now w =
    (Raise ZeroDivisionError, write_lines (doc_head summary) w).
Proof.
  intros Hz. destruct (letter_summary_results float_repr container_str ts m cfg r proof_hash) as [s Hs].
  exists s. apply doc_run_raise; [done|]. by apply letter_implications_zero.
Qed.

(** C25: functional.  Otherwise the method prints the whole letter, then
    saves [json.dump(report, f, indent=2)] under
    [legal_verification_<int(time.time())>.json], prints where, and
    returns the report: the results, the proof hash, the firms, the
    companies and the deadline. *)
Theorem documentation_saves_report float_repr container_str ts m cfg r proof_hash now w :
  ~ (res_performance_factor r == 0)%Q ->
  exists summary impl,
    generate_legal_documentation float_repr container_str (results_dict ts m cfg r) proof_hash now w =
    (Ok (report_dict (results_dict ts m cfg r) proof_hash),
     set_fs (<[report_filename now :=
                encode (dumps float_repr false (Some 2%nat)
                          (report_dict (results_dict ts m cfg r) proof_hash))]> (fs w))
       (write_lines (doc_head summary ++
          [impl ++ [10]; ([10] ++ lit "Report saved: " ++ report_filename now) ++ [10]]) w)).
Proof.
  intros Hz. destruct (letter_summary_results float_repr container_str ts m cfg r proof_hash) as [s Hs].
  destruct (letter_implications_nonzero float_repr container_str ts m cfg r proof_hash Hz) as [i Hi].
  exists s, i. by apply doc_run_ok.
Qed.

(** C26: bounds.  For a positive performance factor the cost reduction
    the letter prints is below [100%], and it is non-negative exactly
    when the factor is at least [1]: a run slower than the MongoDB
    baseline prints a negative reduction. *)
Theorem cost_reduction_bounds ts m cfg r :
  (0 < res_performance_factor r)%Q ->
  exists x, cost_reduction (results_dict ts m cfg r) = Ok x /\ (x < 100)%Q /\
            ((0 <= x)%Q <-> (1 <= res_performance_factor r)%Q).
Proof.
  intros Hpos. assert (Hnz : ~ (res_performance_factor r == 0)%Q) by (intros Hq; lra).
  rewrite cost_reduction_results, (py_div_nonzero _ _ Hnz).
  set (pf := res_performance_factor r) in *.
  eexists. split; [reflexivity|].
  assert (Hy : (0 < / pf)%Q) by (apply Qinv_lt_0_compat, Hpos).
  assert (Hpy : (pf * / pf == 1)%Q) by (apply Qmult_inv_r; intros Hq; lra).
  assert (Hx : ((pf - 1) / pf * 100 == 100 - 100 * / pf)%Q).
  { field. exact Hnz. }
  rewrite Hx. split; [lra|]. split.
  - intros H0. nra.
  - intros H1. nra.
Qed.


(** ** Witnesses *)

Lemma documentation_zero_division_witness :
  exists summary,
    generate_legal_documentation (fun _ => [48]) (fun _ => []) (results_dict [] (mkMachine [] 1 1)
      default_config (mkResults 1 1 1 0 0 0 0)) [97] 0 (start_world [] ∅ ∅) =
    (Raise ZeroDivisionError, write_lines (doc_head summary) (start_world [] ∅ ∅)).
Proof. apply documentation_zero_division. reflexivity. Defined.

Lemma documentation_saves_report_witness :
  exists summary impl,
    generate_legal_documentation (fun _ => [48]) (fun _ => []) (results_dict [] (mkMachine [] 1 1)
      default_config (mkResults 1 1 1 0 1 200 1)) [97] 0 (start_world [] ∅ ∅) =
    (Ok (report_dict (results_dict [] (mkMachine [] 1 1) default_config (mkResults 1 1 1 0 1 200 1)) [97]),
     set_fs (<[report_filename 0 :=
                encode (dumps (fun _ => [48]) false (Some 2%nat)
                  (report_dict (results_dict [] (mkMachine [] 1 1) default_config
                     (mkResults 1 1 1 0 1 200 1)) [97]))]> (fs (start_world [] ∅ ∅)))
       (write_lines (doc_head summary ++
          [impl ++ [10]; ([10] ++ lit "Report saved: " ++ report_filename 0) ++ [10]]) (start_world [] ∅ ∅))).
Proof.
  exact (documentation_saves_report (fun _ => [48]) (fun _ => []) [] (mkMachine [] 1 1) default_config
    (mkResults 1 1 1 0 1 200 1) [97] 0 (start_world [] ∅ ∅) ltac:(discriminate)).
Defined.

Lemma cost_reduction_bounds_witness :
  exists x, cost_reduction (results_dict [] (mkMachine [] 1 1) default_config (mkResults 1 1 1 0 1 400 2)) = Ok x /\
            (x < 100)%Q /\ ((0 <= x)%Q <-> (1 <= 2)%Q).
Proof. apply (cost_reduction_bounds [] (mkMachine [] 1 1) default_config (mkResults 1 1 1 0 1 400 2)). reflexivity. Defined.

End Letter.
