(* ===== verification/WikiIO.v ===== *)
(** * WikiIO: [process_wikipedia_complete] as the program runs it

    [Wikipedia] models the method's computation with the timer readings
    as inputs and without its output.  This file models the whole method
    (src/legal_verification.py 53-204) in [IO]: the existence check, the
    session hash, the header it prints, the [while] loop with its five
    [time.perf_counter()] readings and nine lines per chunk, and the
    results dict.  [os.urandom(32).hex()], the two
    [datetime.utcnow().isoformat() + 'Z'] texts and the machine are
    inputs; [float.__repr__] and SHA-256 are parameters.

    The theorem: the results this method returns are the ones of
    [Wikipedia.process_wikipedia_complete] with the processing time of
    chunk [n] read off the world's clock ([chunk_ptime]) and the total
    elapsed time from the first and the last reading, and it raises
    exactly when that model raises: the timer inputs of the model are
    what the code measures.  Besides, the method only prints and reads
    the clock, and what it prints for each chunk contains the model's
    [ChunkReport] of that chunk ([report_lines]), in order. *)

From S2P Require Import Prelude PyList Blocks Dedup Utf8 Wikipedia PyIO PyFormat Json Report Letter.

Local Open Scope Z_scope.

Module WikiIO.

Import Slice Blocks.Blocks Dedup.Dedup Utf8.Utf8 Wikipedia.Wikipedia PyIO.PyIO PyFormat.PyFormat
  Json.Json Report.Report Letter.Letter.

(** [1024**3]. *)
Definition gib : Q := inject_Z (1024 ^ 3).

Section Method.

Context `{Compressor}.
Variable float_repr : Q -> pystr.
Variable sha256_hex : list Z -> pystr.
Variable cfg : Config.
Variable data : list Z.
Variable session_hash : pystr.

(** One iteration of [while offset < file_size] (lines 116-175), with
    the clock reading [start_time] of line 104. *)
Definition chunk_io (start_time : Q) (st : LoopState) : IO LoopState :=
  let num := chunk_num st + 1 in
  let cend := chunk_end code_chunk_size data (offset st) in
  print ([10] ++ lit "Chunk " ++ int_repr num ++ lit " (" ++ fmt_fixed false 1 (inject_Z (offset st) / gib) ++
         lit "GB - " ++ fmt_fixed false 1 (inject_Z cend / gib) ++ lit "GB):") ;;
  print (lit "SESSION: " ++ take 16 session_hash ++ lit "...") ;;
  perf_counter ;;
  let chunk_text := decode_ignore (chunk_bytes code_chunk_size data (offset st)) in
  blocks ← lift (make_blocks chunk_text (block_size cfg));
  perf_counter ;;
  process_start ← perf_counter;
  let compressed := (optimize_for_text_files blocks (target_time_ms cfg)).1 in
  process_end ← perf_counter;
  let process_time := (process_end - process_start)%Q in
  let throughput := rate (py_len blocks) process_time in
  let tb := total_blocks st + py_len blocks in
  let tu := total_unique st + py_len compressed in
  kept ← lift (py_div (inject_Z (py_len compressed)) (inject_Z (py_len blocks)));
  let compression_percent := ((1 - kept) * 100)%Q in
  print (lit "  Blocks: " ++ int_grouped (py_len blocks)) ;;
  print (lit "  Unique: " ++ int_grouped (py_len compressed)) ;;
  print (lit "  Compression: " ++ fmt_fixed false 1 compression_percent ++ lit "% eliminated") ;;
  print (lit "  Process time: " ++ fmt_fixed false 2 process_time ++ lit "s") ;;
  print (lit "  Throughput: " ++ fmt_fixed true 0 throughput ++ lit " blocks/sec") ;;
  print (lit "  Performance factor: " ++ fmt_fixed true 0 (throughput / 200)%Q ++ lit "x") ;;
  p ← lift (py_div (inject_Z cend) (inject_Z (file_size data)));
  let progress := (p * 100)%Q in
  now ← perf_counter;
  let elapsed := (now - start_time)%Q in
  let eta := if Qle_bool progress 0 then 0%Q else (elapsed / progress * 100 - elapsed)%Q in
  print (lit "  Progress: " ++ fmt_fixed false 1 progress ++ lit "% (ETA: " ++ fmt_fixed false 1 (eta / 60)%Q ++
         lit " min)") ;;
  mret (mkLoop cend num tb tu).

Fixpoint chunk_loop_io (start_time : Q) (fuel : nat) (st : LoopState) : IO LoopState :=
  match fuel with
  | O => mret st
  | S fuel' =>
    if offset st <? file_size data then
      st' ← chunk_io start_time st;
      chunk_loop_io start_time fuel' st'
    else mret st
  end.

End Method.

Section Complete.

Context `{Compressor}.
Variable float_repr : Q -> pystr.
Variable sha256_hex : list Z -> pystr.

(** [process_wikipedia_complete()], with the text of
    [os.urandom(32).hex()], the two [datetime.utcnow().isoformat() + 'Z']
    and the machine. *)
Definition process_wikipedia_io (cfg : Config) (random_seed start_stamp end_stamp : pystr) (m : Machine) :
    IO (option PyVal) :=
  path_exists wikipedia_file ≫= fun found : bool =>
  if negb found then (
    print (lit "ERROR: Wikipedia file not found at " ++ wikipedia_file) ;;
    mret None
  ) else (
  data ← open_read wikipedia_file;
  let fsize := file_size data in
  let file_size_gb := (inject_Z fsize / gib)%Q in
  let session_data :=
    PDict [(lit "start_time", PStr start_stamp); (lit "file", PStr wikipedia_file);
           (lit "file_size", PInt fsize); (lit "config", config_dict cfg);
           (lit "random_seed", PStr random_seed)] in
  let session_hash := sha256_hex (encode (dumps float_repr true None session_data)) in
  print ([10] ++ rule) ;;
  print (lit "WIKIPEDIA COMPLETE DATABASE PROCESSING") ;;
  print rule ;;
  print (lit "SESSION HASH (proof this is one continuous run):") ;;
  print session_hash ;;
  print rule ;;
  print (lit "File: " ++ wikipedia_file) ;;
  print (lit "Size: " ++ int_grouped fsize ++ lit " bytes (" ++ fmt_fixed false 1 file_size_gb ++ lit " GB)") ;;
  print (lit "Hardware: " ++ cpu_name m) ;;
  print (lit "RAM: " ++ fmt_fixed false 1 (ram_gb m) ++ lit " GB") ;;
  print (lit "NO GPU REQUIRED - Pure algorithmic approach") ;;
  print ([10] ++ lit "Configuration (cryptographically verified):") ;;
  print (dumps float_repr false (Some 2%nat) (config_dict cfg)) ;;
  start_time ← perf_counter;
  print ([10] ++ lit "Processing in " ++ int_repr (block_size cfg) ++ lit " byte continuous blocks...") ;;
  print rule ;;
  (if fsize =? 0 then throw ValueError else mret tt) ;;
  st ← chunk_loop_io cfg data session_hash start_time (Z.to_nat fsize) init_state;
  stop ← perf_counter;
  let total_elapsed := (stop - start_time)%Q in
  mret (Some (results_dict end_stamp m cfg (final_results data st total_elapsed)))).

End Complete.

(** ** Running the method *)

(** The processing time of chunk [n] on a clock whose reading of line
    104 is the [k0]-th: readings [k0 + 5n - 2] and [k0 + 5n - 1]. *)
Definition chunk_ptime (k0 : nat) (clk : nat -> Q) (n : Z) : Q :=
  (clk (k0 + 5 * Z.to_nat n - 1)%nat - clk (k0 + 5 * Z.to_nat n - 2)%nat)%Q.

(** The lines of lines 151-160 that print a chunk's report: what
    [Wikipedia.chunk_step] returns as a [ChunkReport]. *)
Definition report_lines (r : ChunkReport) : list pystr :=
  [(lit "  Blocks: " ++ int_grouped (rep_blocks r)) ++ [10];
   (lit "  Unique: " ++ int_grouped (rep_unique r)) ++ [10];
   (lit "  Compression: " ++ fmt_fixed false 1 (rep_compression_percent r) ++ lit "% eliminated") ++ [10];
   (lit "  Throughput: " ++ fmt_fixed true 0 (rep_throughput r) ++ lit " blocks/sec") ++ [10];
   (lit "  Performance factor: " ++ fmt_fixed true 0 (rep_throughput r / 200)%Q ++ lit "x") ++ [10]].

Lemma ticks_write_lines l w : ticks (write_lines l w) = ticks w.
Proof. reflexivity. Qed.
Lemma clock_write_lines l w : clock (write_lines l w) = clock w.
Proof. reflexivity. Qed.
Lemma clock_tick w : clock (tick w) = clock w.
Proof. reflexivity. Qed.
Lemma ticks_tick w : ticks (tick w) = S (ticks w).
Proof. reflexivity. Qed.
Lemma ticks_iter_tick k w : ticks (Nat.iter k tick w) = (k + ticks w)%nat.
Proof. induction k as [|k IH]; [done|]. rewrite Nat.iter_succ. cbn [ticks tick]. by rewrite IH. Qed.
Lemma clock_iter_tick k w : clock (Nat.iter k tick w) = clock w.
Proof. induction k as [|k IH]; [done|]. by rewrite Nat.iter_succ. Qed.

Section Step.
Context `{Compressor}.
Variables (fr : Q -> pystr) (cfg : Config) (data : list Z) (sh : pystr) (t0 : Q) (k0 : nat) (clk : nat -> Q).

Lemma chunk_io_run st w :
  0 <= chunk_num st -> ticks w = (k0 + 1 + 5 * Z.to_nat (chunk_num st))%nat -> clock w = clk ->
  (chunk_io cfg data sh t0 st w).1 = py_map fst (chunk_step cfg code_chunk_size data (chunk_ptime k0 clk) st) /\
  forall st', (chunk_io cfg data sh t0 st w).1 = Ok st' ->
    ticks (chunk_io cfg data sh t0 st w).2 = (ticks w + 5)%nat /\ clock (chunk_io cfg data sh t0 st w).2 = clk.
Proof.
  intros Hc Ht Hk. unfold chunk_io, chunk_step. cbv zeta.
  do 2 io_step print_run. io_step perf_counter_run.
  rewrite io_bind_run. destruct (make_blocks _ _) as [blocks|e]; cbn [lift py_bind py_map]; [|done].
  io_step perf_counter_run. io_step perf_counter_run. io_step perf_counter_run.
  rewrite io_bind_run.
  destruct (py_div _ _) as [kept|e] eqn:Ek; cbn [lift py_bind py_map]; [|done].
  do 6 io_step print_run.
  rewrite io_bind_run.
  unfold py_div. destruct (Qeq_bool (inject_Z (file_size data)) 0); cbn [lift py_bind py_map]; [done|].
  io_step perf_counter_run. io_step print_run. rewrite io_ret_run. cbn [fst snd].
  split.
  - reflexivity.
  - intros st' [= <-]. cbn [tick ticks clock write_lines]. split; [lia | done].
Qed.
End Step.

Lemma chunk_step_num `{Compressor} cfg cs data ptime st st' r :
  chunk_step cfg cs data ptime st = Ok (st', r) -> chunk_num st' = chunk_num st + 1.
Proof.
  unfold chunk_step. destruct (make_blocks _ _); [|done]. cbn [py_bind].
  destruct (py_div _ _); [|done]. cbn [py_bind]. destruct (py_div _ _); [|done].
  by intros [= <- _].
Qed.

(** Every chunk that is processed adds at least one block: with no
    block, [len(compressed) / len(blocks)] would have raised. *)
Lemma chunk_step_adds_blocks `{Compressor} cfg cs data ptime st st' r :
  chunk_step cfg cs data ptime st = Ok (st', r) -> total_blocks st < total_blocks st'.
Proof.
  unfold chunk_step. destruct (make_blocks _ _) as [blocks|]; [|done]. cbn [py_bind].
  destruct (py_div _ (inject_Z (py_len blocks))) as [kept|] eqn:Ek; [|done]. cbn [py_bind].
  destruct (py_div _ (inject_Z (file_size _))); [|done].
  apply py_div_Ok_nonzero in Ek. intros ?; simplify_eq/=.
  pose proof (py_len_nonneg blocks). assert (py_len blocks <> 0) by (intros E; apply Ek; by rewrite E).
  lia.
Qed.

Lemma chunk_loop_blocks `{Compressor} cfg cs data ptime f st st' reps :
  chunk_loop cfg cs data ptime f st = Ok (st', reps) -> total_blocks st + py_len reps <= total_blocks st'.
Proof.
  revert st reps. induction f as [|f IH]; intros st reps; cbn [chunk_loop].
  { intros ?; simplify_eq/=. unfold py_len. simpl. lia. }
  destruct (_ <? _); [|intros ?; simplify_eq/=; unfold py_len; simpl; lia].
  destruct (chunk_step _ _ _ _ st) as [[st1 r]|] eqn:Es; [|done]. cbn [py_bind fst snd].
  destruct (chunk_loop _ _ _ _ f st1) as [[st2 reps2]|] eqn:El; [|done]. cbn [py_bind fst snd].
  intros ?; simplify_eq/=. apply chunk_step_adds_blocks in Es. apply IH in El.
  unfold py_len in *. cbn [length]. lia.
Qed.

(** A loop with fuel that starts before the end of the file processes
    a chunk. *)
Lemma chunk_loop_first `{Compressor} cfg cs data ptime f st st' reps :
  offset st < file_size data -> chunk_loop cfg cs data ptime (S f) st = Ok (st', reps) -> reps <> [].
Proof.
  intros Hoff. cbn [chunk_loop]. rewrite (proj2 (Z.ltb_lt _ _) Hoff).
  destruct (chunk_step _ _ _ _ st) as [[st1 r]|]; [|done]. cbn [py_bind fst snd].
  destruct (chunk_loop _ _ _ _ f st1) as [[st2 reps2]|]; [|done]. by intros ?; simplify_eq/=.
Qed.

Section Loop.
Context `{Compressor}.
Variables (cfg : Config) (data : list Z) (sh : pystr) (t0 : Q) (k0 : nat) (clk : nat -> Q).

Lemma chunk_loop_io_run fuel st w :
  0 <= chunk_num st -> ticks w = (k0 + 1 + 5 * Z.to_nat (chunk_num st))%nat -> clock w = clk ->
  (chunk_loop_io cfg data sh t0 fuel st w).1 =
    py_map fst (chunk_loop cfg code_chunk_size data (chunk_ptime k0 clk) fuel st) /\
  forall st', (chunk_loop_io cfg data sh t0 fuel st w).1 = Ok st' ->
    ticks (chunk_loop_io cfg data sh t0 fuel st w).2 = (k0 + 1 + 5 * Z.to_nat (chunk_num st'))%nat /\
    clock (chunk_loop_io cfg data sh t0 fuel st w).2 = clk.
Proof.
  revert st w. induction fuel as [|fuel IH]; intros st w Hc Ht Hk; cbn [chunk_loop_io chunk_loop].
  { split; [done|]. intros st' [= <-]. done. }
  destruct (offset st <? file_size data); [|split; [done|]; intros st' [= <-]; done].
  destruct (chunk_io_run cfg data sh t0 k0 clk st w Hc Ht Hk) as [E1 E2].
  rewrite io_bind_run.
  destruct (chunk_step cfg code_chunk_size data (chunk_ptime k0 clk) st) as [[st1 r]|e] eqn:Es;
    cbn [py_map py_bind fst] in *.
  - destruct (chunk_io cfg data sh t0 st w) as [[st1'|e] w1] eqn:Ew; cbn [fst snd] in *; [|done].
    injection E1 as ->. destruct (E2 st1 eq_refl) as [T1 K1].
    pose proof (chunk_step_num _ _ _ _ _ _ _ Es) as Hn.
    destruct (IH st1 w1 ltac:(lia) ltac:(rewrite T1, Ht, Hn; lia) K1) as [F1 F2].
    split; [rewrite F1; by destruct (chunk_loop _ _ _ _ _ _) as [[]|]|exact F2].
  - destruct (chunk_io cfg data sh t0 st w) as [[st1'|e'] w1] eqn:Ew; cbn [fst snd] in *; [done|].
    split; [done|]. intros st' [=].
Qed.
End Loop.

(** ** What the method prints *)

Section Reports.
Context `{Compressor}.
Variables (cfg : Config) (data : list Z) (sh : pystr) (t0 : Q) (k0 : nat) (clk : nat -> Q).

(** One chunk prints the model's report for it, among its nine lines,
    and reads the clock five times. *)
Lemma chunk_io_report st w st1 r :
  0 <= chunk_num st -> ticks w = (k0 + 1 + 5 * Z.to_nat (chunk_num st))%nat -> clock w = clk ->
  chunk_step cfg code_chunk_size data (chunk_ptime k0 clk) st = Ok (st1, r) ->
  exists out, chunk_io cfg data sh t0 st w = (Ok st1, write_lines out (Nat.iter 5 tick w)) /\
              report_lines r `sublist_of` out.
Proof.
  intros Hc Ht Hk. unfold chunk_io, chunk_step. cbv zeta.
  do 2 io_step print_run. io_step perf_counter_run.
  rewrite io_bind_run. destruct (make_blocks _ _) as [blocks|e]; cbn [lift py_bind]; [|done].
  io_step perf_counter_run. io_step perf_counter_run. io_step perf_counter_run.
  rewrite io_bind_run.
  destruct (py_div _ (inject_Z (py_len blocks))) as [kept|e] eqn:Ek; cbn [lift py_bind]; [|done].
  do 6 io_step print_run.
  rewrite io_bind_run.
  unfold py_div. destruct (Qeq_bool (inject_Z (file_size data)) 0); cbn [lift py_bind]; [done|].
  io_step perf_counter_run. io_step print_run. rewrite io_ret_run.
  intros Hs. injection Hs as <- <-.
  rewrite ?clock_tick, ?ticks_tick, ?clock_write_lines, ?ticks_write_lines, Hk, Ht.
  rewrite !tick_write_lines, !write_lines_app.
  unfold chunk_ptime.
  replace (k0 + 5 * Z.to_nat (chunk_num st + 1) - 1)%nat
    with (S (S (S (k0 + 1 + 5 * Z.to_nat (chunk_num st)))))%nat by lia.
  replace (k0 + 5 * Z.to_nat (chunk_num st + 1) - 2)%nat
    with (S (S (k0 + 1 + 5 * Z.to_nat (chunk_num st))))%nat by lia.
  eexists. split; [reflexivity|].
  cbn [app]. unfold report_lines. cbn [rep_throughput rep_blocks rep_unique rep_compression_percent].
  repeat first [apply sublist_nil_l | apply sublist_skip | apply sublist_cons].
Qed.

(** The loop prints the model's reports in order, five clock readings
    per chunk. *)
Lemma chunk_loop_io_reports fuel st w st' reps :
  0 <= chunk_num st -> ticks w = (k0 + 1 + 5 * Z.to_nat (chunk_num st))%nat -> clock w = clk ->
  chunk_loop cfg code_chunk_size data (chunk_ptime k0 clk) fuel st = Ok (st', reps) ->
  exists out,
    chunk_loop_io cfg data sh t0 fuel st w = (Ok st', write_lines out (Nat.iter (5 * length reps) tick w)) /\
    concat (map report_lines reps) `sublist_of` out.
Proof.
  revert st w st' reps. induction fuel as [|fuel IH]; intros st w st' reps Hc Ht Hk; cbn [chunk_loop chunk_loop_io].
  { intros Heq; injection Heq as <- <-. exists []. by rewrite write_lines_nil. }
  destruct (offset st <? file_size data); [|intros Heq; injection Heq as <- <-; exists []; by rewrite write_lines_nil].
  destruct (chunk_step _ _ _ _ st) as [[st1 r]|] eqn:Es; [|done]. cbn [py_bind fst snd].
  destruct (chunk_loop _ _ _ _ fuel st1) as [[st2 reps2]|] eqn:El; [|done]. cbn [py_bind fst snd].
  intros Heq; injection Heq as <- <-.
  destruct (chunk_io_report st w st1 r Hc Ht Hk Es) as (out1 & E1 & S1).
  pose proof (chunk_step_num _ _ _ _ _ _ _ Es) as Hn.
  destruct (IH st1 (write_lines out1 (Nat.iter 5 tick w)) st2 reps2 ltac:(lia)
    ltac:(rewrite ticks_write_lines, ticks_iter_tick, Ht, Hn; lia)
    ltac:(by rewrite clock_write_lines, clock_iter_tick) El) as (out2 & E2 & S2).
  exists (out1 ++ out2). rewrite io_bind_run, E1, E2. split; [|by apply sublist_app].
  rewrite iter_tick_write_lines, write_lines_app, <- Nat.iter_add. do 3 f_equal. cbn [length]. lia.
Qed.

End Reports.

(** A missing file: the error line, and [None]. *)
Lemma process_wikipedia_io_missing `{Compressor} fr sha cfg seed s1 s2 m w :
  fs w !! wikipedia_file = None ->
  process_wikipedia_io fr sha cfg seed s1 s2 m w =
    (Ok None, write_lines [(lit "ERROR: Wikipedia file not found at " ++ wikipedia_file) ++ [10]] w).
Proof.
  intros Hf. unfold process_wikipedia_io. rewrite io_bind_run. unfold path_exists. cbv beta.
  rewrite Hf, bool_decide_false by (intros [? ?]; discriminate). cbn [negb].
  io_step print_run. reflexivity.
Qed.

(** The result of the method, read off the model. *)
Lemma process_wikipedia_io_result `{Compressor} fr sha cfg seed s1 s2 m w :
  (process_wikipedia_io fr sha cfg seed s1 s2 m w).1 =
  match fs w !! wikipedia_file with
  | None => Ok None
  | Some data =>
    if file_size data =? 0 then Raise ValueError else
    py_map (fun st => Some (results_dict s2 m cfg (final_results data st
              (clock w (ticks w + 1 + 5 * Z.to_nat (chunk_num st))%nat - clock w (ticks w))%Q)))
      (py_map fst (chunk_loop cfg code_chunk_size data (chunk_ptime (ticks w) (clock w))
                     (Z.to_nat (file_size data)) init_state))
  end.
Proof.
  destruct (fs w !! wikipedia_file) as [data|] eqn:Ef; [|by rewrite process_wikipedia_io_missing].
  unfold process_wikipedia_io. rewrite io_bind_run. unfold path_exists. rewrite Ef.
  cbv beta iota. rewrite bool_decide_true by done. cbn [negb].
  io_step open_read_run; [|exact Ef].
  do 13 io_step print_run. io_step perf_counter_run. do 2 io_step print_run.
  destruct (file_size data =? 0).
  { rewrite io_bind_run. reflexivity. }
  rewrite io_bind_run, io_ret_run. cbv beta iota.
  set (w1 := tick _).
  rewrite io_bind_run.
  lazymatch goal with |- context [chunk_loop_io _ _ ?sh ?t0 ?f ?st ?w2] =>
    destruct (chunk_loop_io_run cfg data sh t0 (ticks w) (clock w) f st w2 ltac:(done)
                ltac:(subst w1; cbn; lia) ltac:(reflexivity)) as [L1 L2] end.
  destruct (chunk_loop_io _ _ _ _ _ _ _) as [[st|e] w2] eqn:Ew; cbn [fst snd] in *.
  - destruct (L2 st eq_refl) as [T2 K2].
    rewrite <- L1. io_step perf_counter_run. rewrite io_ret_run. cbn [fst py_map].
    rewrite T2, K2. reflexivity.
  - rewrite <- L1. reflexivity.
Qed.

(** The method only prints and reads the clock. *)
Lemma chunk_io_outputs `{Compressor} cfg data sh t0 st : only_outputs (chunk_io cfg data sh t0 st).
Proof. unfold chunk_io. io_frame_steps. Qed.

Lemma chunk_loop_io_outputs `{Compressor} cfg data sh t0 fuel st :
  only_outputs (chunk_loop_io cfg data sh t0 fuel st).
Proof.
  revert st. induction fuel as [|fuel IH]; intros st; cbn [chunk_loop_io]; [auto with io_frame|].
  destruct (_ <? _); io_frame_steps; auto using chunk_io_outputs.
Qed.

Lemma process_wikipedia_io_outputs `{Compressor} fr sha cfg seed s1 s2 m :
  only_outputs (process_wikipedia_io fr sha cfg seed s1 s2 m).
Proof.
  unfold process_wikipedia_io. io_frame_steps.
  lazymatch goal with |- io_frame _ (if negb ?b then _ else _) => destruct b end; cbn [negb]; io_frame_steps.
  all: try destruct (_ =? 0); auto using chunk_loop_io_outputs with io_frame.
Qed.

(** C38: refinement.  The method as the program runs it, with its
    output and its clock, returns what [Wikipedia]'s model computes:
    [None] for a missing file, [ValueError] for an empty one, and
    otherwise the results dict of the model's loop, with the total
    elapsed time read from the first clock reading and the one after
    the last of the five readings of each chunk; it raises exactly the
    exception the model's loop raises.  Besides its result it only
    prints and reads the clock: the files, the input, the modules and
    the directories are left as they were. *)
Theorem process_wikipedia_io_refines `{Compressor} fr sha cfg seed s1 s2 m w :
  (process_wikipedia_io fr sha cfg seed s1 s2 m w).1 =
  (match fs w !! wikipedia_file with
  | None => Ok None
  | Some data =>
    if file_size data =? 0 then Raise ValueError else
    py_map (fun st => Some (results_dict s2 m cfg (final_results data st
              (clock w (ticks w + 1 + 5 * Z.to_nat (chunk_num st))%nat - clock w (ticks w))%Q)))
      (py_map fst (chunk_loop cfg code_chunk_size data (chunk_ptime (ticks w) (clock w))
                     (Z.to_nat (file_size data)) init_state))
  end) /\
  outputs w (process_wikipedia_io fr sha cfg seed s1 s2 m w).2.
Proof. split; [apply process_wikipedia_io_result | exact (process_wikipedia_io_outputs fr sha cfg seed s1 s2 m w)]. Qed.


(** C19: refinement of the output.  On a non-empty file whose loop
    the model runs to the end with the reports [reps], the method prints,
    among its header and per-chunk lines, the model's report of every
    chunk in order (blocks, unique blocks, compression, throughput and
    performance factor, formatted as lines 151-160 format them), reads
    the clock [2 + 5 * len(reps)] times, and returns the results dict
    of the model's final state. *)
Theorem process_wikipedia_io_prints_reports `{Compressor} fr sha cfg seed s1 s2 m w data st reps :
  fs w !! wikipedia_file = Some data -> file_size data <> 0 ->
  chunk_loop cfg code_chunk_size data (chunk_ptime (ticks w) (clock w)) (Z.to_nat (file_size data)) init_state =
    Ok (st, reps) ->
  exists out,
    process_wikipedia_io fr sha cfg seed s1 s2 m w =
      (Ok (Some (results_dict s2 m cfg (final_results data st
          (clock w (ticks w + 1 + 5 * length reps)%nat - clock w (ticks w))%Q))),
       write_lines out (Nat.iter (2 + 5 * length reps) tick w)) /\
    concat (map report_lines reps) `sublist_of` out.
Proof.
  intros Ef Hfs Hloop.
  unfold process_wikipedia_io. rewrite io_bind_run. unfold path_exists. rewrite Ef.
  cbv beta iota. rewrite bool_decide_true by done. cbn [negb].
  io_step open_read_run; [|exact Ef].
  do 13 io_step print_run. io_step perf_counter_run. do 2 io_step print_run.
  rewrite (proj2 (Z.eqb_neq _ _) Hfs), io_bind_run, io_ret_run. cbv beta iota.
  rewrite io_bind_run.
  lazymatch goal with |- context [chunk_loop_io _ _ ?sh ?t0 ?f ?st0 ?w1] =>
    destruct (chunk_loop_io_reports cfg data sh t0 (ticks w) (clock w) f st0 w1 st reps ltac:(done)
                ltac:(cbn; lia) ltac:(reflexivity) Hloop) as (out & E & Hsub) end.
  rewrite E. io_step perf_counter_run. rewrite io_ret_run.
  rewrite ticks_write_lines, ticks_iter_tick, clock_write_lines, clock_iter_tick.
  cbn [ticks clock tick write_lines].
  eexists. split; [|by apply sublist_inserts_l].
  repeat rewrite ?tick_write_lines, ?iter_tick_write_lines. rewrite !write_lines_app, <- Nat.iter_succ_r, !app_assoc.
  replace (5 * length reps + S (ticks w))%nat with (ticks w + 1 + 5 * length reps)%nat by lia.
  reflexivity.
Qed.

(** ** Witnesses *)

Definition wiki_witness_world : World := start_world [] (<[wikipedia_file := [65; 66]]> ∅) ∅.

(** The model's loop on the two-byte file [AB], read off its result. *)
Definition witness_run : LoopState * list ChunkReport :=
  match chunk_loop (H := seen_set_compressor) default_config code_chunk_size [65; 66]
          (chunk_ptime (ticks wiki_witness_world) (clock wiki_witness_world)) 2 init_state with
  | Ok p => p
  | Raise _ => (init_state, [])
  end.

Lemma process_wikipedia_io_prints_reports_witness :
  exists out,
    process_wikipedia_io (H := seen_set_compressor) (fun _ => [48]) (fun _ => []) default_config [] [] []
      (mkMachine [] 1 1) wiki_witness_world =
      (Ok (Some (results_dict [] (mkMachine [] 1 1) default_config (final_results [65; 66] witness_run.1
          (clock wiki_witness_world (ticks wiki_witness_world + 1 + 5 * length witness_run.2)%nat
           - clock wiki_witness_world (ticks wiki_witness_world))%Q))),
       write_lines out (Nat.iter (2 + 5 * length witness_run.2) tick wiki_witness_world)) /\
    concat (map report_lines witness_run.2) `sublist_of` out.
Proof.
  exact (@process_wikipedia_io_prints_reports seen_set_compressor (fun _ => [48]) (fun _ => []) default_config
    [] [] [] (mkMachine [] 1 1) wiki_witness_world [65; 66] witness_run.1 witness_run.2 eq_refl
    ltac:(vm_compute; discriminate) ltac:(vm_compute; reflexivity)).
Defined.

End WikiIO.
