(* ===== verification/Run.v ===== *)
(** * Run: [LegalVerification.run] and [main]

    [run] (legal_verification.py 330-403) prints the banner, the firms
    and the companies, waits for [input()], calls
    [process_wikipedia_complete], and when it returns results computes
    the proof, prints the metrics, writes the letter and the report, and
    prints the closing text.  [main] (lines 405-407) builds a
    [LegalVerification] and calls [run].

    The environment of a run is a [RunEnv]: the texts the code reads
    from [datetime] and [os.urandom], the machine, and [time.time()];
    the file, standard input and the [time.perf_counter()] clock are in
    the [World].  The compressor is any [Compressor].  [process_io] is
    the call of [process_wikipedia_complete] at line 365: the method of
    [WikiIO], with its output and its clock readings, so that [run] is
    the program's sequence of effects from the banner to the last
    line.

    The theorems compose the components: a missing file ends the run
    after the preamble and the method's error line, with no proof and
    no report; on a file the loop processes, a run on a clock that
    advances saves the report and ends with [END OF DEMONSTRATION],
    while a run on a clock that does not advance raises
    [ZeroDivisionError] in the letter, after printing the method's lines
    and the proof hash and without saving the report.  The lemmas behind [WikiIO.process_wikipedia_io_refines]
    supply the method's results and the fact that it only prints and
    reads the clock. *)

From Stdlib Require Import Lqa.
From S2P Require Import Prelude Utf8 Dedup Wikipedia PyIO PyFormat Json Report Letter WikiIO.

Local Open Scope Z_scope.

Module Run.

Import Utf8.Utf8 Dedup.Dedup Wikipedia.Wikipedia PyIO.PyIO PyFormat.PyFormat Json.Json Report.Report
  Letter.Letter WikiIO.WikiIO.

(** What a run reads besides the world: the texts of the clock and of
    [os.urandom], and the machine. *)
Record RunEnv := mkRunEnv {
  env_date : pystr;        (** [datetime.now().strftime("%B %d, %Y at %I:%M %p")] *)
  env_random_seed : pystr; (** [os.urandom(32).hex()] *)
  env_start_stamp : pystr; (** [datetime.utcnow().isoformat() + 'Z'] of the session data *)
  env_timestamp : pystr;   (** [datetime.utcnow().isoformat() + 'Z'] after the loop *)
  env_machine : Machine;
  env_now : Q              (** [time.time()] when the report is saved *)
}.

(** The banner of lines 333-351, [.format]ted with the date. *)
Definition banner (date : pystr) : pystr := banner_0 ++ date ++ banner_1.

Definition prompt : pystr :=
  [10] ++ lit ">>> PRESS ENTER TO BEGIN PROCESSING THE FULL 103GB WIKIPEDIA DATABASE <<<" ++ [10].

Section Run.

Context `{Compressor}.
Variable float_repr : Q -> pystr.
Variable container_str : PyVal -> pystr.
Variable sha256_hex : list Z -> pystr.

(** [results = self.process_wikipedia_complete()]. *)
Definition process_io (cfg : Config) (env : RunEnv) : IO (option PyVal) :=
  process_wikipedia_io float_repr sha256_hex cfg (env_random_seed env) (env_start_stamp env)
    (env_timestamp env) (env_machine env).

(** [print(label + format(results[k], spec) + suffix)]. *)
Definition print_field (results : PyVal) (label : pystr) (k : pystr) (spec : FSpec) (suffix : pystr) :
    IO unit :=
  s ← lift (field float_repr container_str results k spec);
  print (label ++ s ++ suffix).

(** The body of [if results:] (lines 369-403). *)
Definition run_results (env : RunEnv) (results : PyVal) : IO unit :=
  '(proof_hash, _) ← lift (generate_cryptographic_proof float_repr sha256_hex results);
  print ([10] ++ rule) ;;
  print (lit "PROCESSING COMPLETE") ;;
  print rule ;;
  print_field results (lit "Total blocks: ") (lit "blocks_processed") SGroup [] ;;
  print_field results (lit "Unique blocks: ") (lit "unique_blocks") SGroup [] ;;
  print_field results (lit "Compression: ") (lit "compression_ratio") (SFixed false 1) (lit "%") ;;
  print_field results (lit "Time: ") (lit "elapsed_minutes") (SFixed false 1) (lit " minutes") ;;
  print_field results (lit "Throughput: ") (lit "blocks_per_second") (SFixed true 0) (lit " blocks/sec") ;;
  print_field results (lit "Performance: ") (lit "performance_factor") (SFixed true 0) (lit "x baseline") ;;
  print ([10] ++ lit "CRYPTOGRAPHIC PROOF:") ;;
  print (lit "SHA-256: " ++ proof_hash) ;;
  _ ← generate_legal_documentation float_repr container_str results proof_hash (env_now env);
  print ([10] ++ rule) ;;
  print (lit "VERIFICATION COMPLETE") ;;
  print rule ;;
  print (lit "Results have been cryptographically signed and documented.") ;;
  print ([10] ++ lit "TO THE LAW FIRMS:") ;;
  print (lit "  You were contacted privately. Twice.") ;;
  print (lit "  You chose not to respond.") ;;
  print (lit "  This video will go public at 5:00 PM PST tomorrow.") ;;
  print ([10] ++ lit "TO THE DATABASE COMPANIES:") ;;
  print (lit "  Your technology just became obsolete.") ;;
  print (lit "  The proof is in the hash.") ;;
  print (lit "  The math doesn't lie.") ;;
  print ([10] ++ lit "Verification Hash: " ++ proof_hash) ;;
  print ([10] ++ lit "This same test can be run by ANYONE with the Wikipedia dataset.") ;;
  print (lit "The results are REPRODUCIBLE and VERIFIABLE.") ;;
  print ([10] ++ lit "END OF DEMONSTRATION").

(** [run()]. *)
Definition run (cfg : Config) (env : RunEnv) : IO unit :=
  print (banner (env_date env)) ;;
  print ([10] ++ lit "FIRMS WHO WERE NOTIFIED BUT DID NOT RESPOND:") ;;
  py_for firms (fun firm => print (lit "  • " ++ firm)) ;;
  print ([10] ++ lit "COMPANIES WHOSE TECHNOLOGY BECOMES OBSOLETE:") ;;
  print_companies ;;
  _ ← input prompt;
  results ← process_io cfg env;
  match results with
  | Some r => if py_truthy r then run_results env r else mret tt
  | None => mret tt
  end.

(** [main()]: [LegalVerification()] has the default configuration. *)
Definition main (env : RunEnv) : IO unit := run default_config env.


End Run.

(** ** Running [run] *)

Section RunLemmas.

Context `{Compressor}.
Variable float_repr : Q -> pystr.
Variable container_str : PyVal -> pystr.
Variable sha256_hex : list Z -> pystr.

(** What [run] prints before it reads standard input. *)
Definition preamble (env : RunEnv) : list pystr :=
  [banner (env_date env) ++ [10]; ([10] ++ lit "FIRMS WHO WERE NOTIFIED BUT DID NOT RESPOND:") ++ [10]] ++
  map (fun firm => (lit "  • " ++ firm) ++ [10]) firms ++
  [([10] ++ lit "COMPANIES WHOSE TECHNOLOGY BECOMES OBSOLETE:") ++ [10]] ++ company_lines ++ [prompt].

(** The continuation of [run] after [input()]. *)
Definition run_rest (cfg : Config) (env : RunEnv) : IO unit :=
  results ← process_io float_repr sha256_hex cfg env;
  match results with
  | Some r => if py_truthy r then run_results float_repr container_str sha256_hex env r else mret tt
  | None => mret tt
  end.

Lemma run_after_input cfg env w l rest :
  stdin w = l :: rest ->
  run float_repr container_str sha256_hex cfg env w =
  run_rest cfg env (set_stdin rest (write_lines (preamble env) w)).
Proof.
  intros Hin. unfold run.
  io_step print_run. io_step print_run. io_step (@py_for_print pystr). io_step print_run.
  io_step print_companies_run. rewrite io_bind_run, (input_run _ _ l rest) by exact Hin.
  cbv beta iota. rewrite !write_lines_app. unfold preamble. by rewrite <- !app_assoc.
Qed.

(** The line [process_wikipedia_complete] prints for a missing file. *)
Definition missing_line : pystr := (lit "ERROR: Wikipedia file not found at " ++ wikipedia_file) ++ [10].

Lemma process_io_missing cfg env w :
  fs w !! wikipedia_file = None -> process_io float_repr sha256_hex cfg env w = (Ok None, write_lines [missing_line] w).
Proof. unfold process_io, missing_line. apply process_wikipedia_io_missing. Qed.

(** A non-empty file whose chunks all decode gives results, after the
    method's lines and clock readings. *)
Lemma process_io_completes cfg env w data :
  0 < block_size cfg -> fs w !! wikipedia_file = Some data -> data <> [] ->
  Forall (fun o => chunk_text code_chunk_size data o <> []) (chunk_offsets code_chunk_size data) ->
  exists st out k,
    process_io float_repr sha256_hex cfg env w =
      (Ok (Some (results_dict (env_timestamp env) (env_machine env) cfg (final_results data st
         (clock w (ticks w + 1 + 5 * Z.to_nat (chunk_num st))%nat - clock w (ticks w))%Q))),
       write_lines out (Nat.iter k tick w)) /\
    0 < total_blocks st.
Proof.
  intros Hbs Hf Hne Hall. unfold process_io.
  pose proof (process_wikipedia_io_result float_repr sha256_hex cfg (env_random_seed env)
    (env_start_stamp env) (env_timestamp env) (env_machine env) w) as R.
  destruct (process_wikipedia_io_outputs float_repr sha256_hex cfg (env_random_seed env)
    (env_start_stamp env) (env_timestamp env) (env_machine env) w) as (out & k & E).
  destruct (process_wikipedia_io _ _ _ _ _ _ _ w) as [r w']; cbn [fst snd] in R, E.
  rewrite Hf, (proj2 (Z.eqb_neq _ _)) in R by (unfold file_size, py_len; destruct data; [done | simpl; lia]).
  destruct (chunk_loop_completes cfg code_chunk_size data (chunk_ptime (ticks w) (clock w))
    ltac:(unfold code_chunk_size; lia) Hbs Hall) as (st & reps & Hloop).
  assert (Hpos : 0 < total_blocks st).
  { pose proof (chunk_loop_blocks _ _ _ _ _ _ _ _ Hloop) as Hb.
    assert (Hfs : 0 < file_size data) by (unfold file_size, py_len; destruct data; [done | simpl; lia]).
    destruct (Z.to_nat (file_size data)) as [|f] eqn:Ef; [lia|].
    pose proof (chunk_loop_first _ _ _ _ _ init_state _ _ Hfs Hloop) as Hr.
    destruct reps; [done|]. unfold py_len in Hb. cbn [length init_state total_blocks] in Hb. lia. }
  rewrite Hloop in R. cbn [py_map fst] in R. subst. by exists st, out, k.
Qed.

Lemma print_field_run results label k spec suffix s w :
  field float_repr container_str results k spec = Ok s ->
  print_field float_repr container_str results label k spec suffix w =
  (Ok tt, write_lines [(label ++ s ++ suffix) ++ [10]] w).
Proof. intros Hf. unfold print_field. rewrite Hf. reflexivity. Qed.

End RunLemmas.



(** ** Lemmas on the program's results *)

Section ResultLemmas.

Context `{Compressor}.
Variable float_repr : Q -> pystr.
Variable container_str : PyVal -> pystr.
Variables (ts : pystr) (m : Machine) (cfg : Config) (r : Results).

Ltac field_ok lem := eexists; unfold field; rewrite lem; reflexivity.

Lemma field_bp : exists s,
  field float_repr container_str (results_dict ts m cfg r) (lit "blocks_processed") SGroup = Ok s.
Proof. field_ok results_bp. Qed.

Lemma field_ub : exists s,
  field float_repr container_str (results_dict ts m cfg r) (lit "unique_blocks") SGroup = Ok s.
Proof. field_ok results_ub. Qed.

Lemma field_cr : exists s,
  field float_repr container_str (results_dict ts m cfg r) (lit "compression_ratio") (SFixed false 1) = Ok s.
Proof. unfold field. rewrite results_cr. destruct (0 <? _); eexists; reflexivity. Qed.

Lemma field_minutes : exists s,
  field float_repr container_str (results_dict ts m cfg r) (lit "elapsed_minutes") (SFixed false 1) = Ok s.
Proof. field_ok results_minutes. Qed.

Lemma field_bps : exists s,
  field float_repr container_str (results_dict ts m cfg r) (lit "blocks_per_second") (SFixed true 0) = Ok s.
Proof. unfold field. rewrite results_bps. apply format_bps. Qed.

Lemma field_pf : exists s,
  field float_repr container_str (results_dict ts m cfg r) (lit "performance_factor") (SFixed true 0) = Ok s.
Proof. field_ok results_pf. Qed.

Lemma results_dict_truthy : py_truthy (results_dict ts m cfg r) = true.
Proof. unfold results_dict. cbn [py_truthy]. by rewrite bool_decide_true. Qed.

End ResultLemmas.

(** A later reading that is not above an earlier one: no elapsed time. *)
Lemma elapsed_nonpos (t1 t0 : Q) : (t1 <= t0 -> t1 - t0 <= 0)%Q.
Proof. intros Ht. lra. Qed.

(** With some blocks and some elapsed time the performance factor is
    positive. *)
Lemma final_pf_pos data st elapsed :
  0 < total_blocks st -> (0 < elapsed)%Q -> (0 < res_performance_factor (final_results data st elapsed))%Q.
Proof.
  intros Hb He. unfold final_results, rate. cbn [res_performance_factor].
  destruct (Qle_bool elapsed 0) eqn:E; [apply Qle_bool_iff in E; exfalso; by apply (Qlt_not_le _ _ He)|].
  apply Qlt_shift_div_l; [reflexivity|]. apply Qlt_shift_div_l; [exact He|].
  rewrite !Qmult_0_l. unfold Qlt. simpl. lia.
Qed.

Lemma elapsed_pos (t1 t0 : Q) : (t0 < t1 -> 0 < t1 - t0)%Q.
Proof. intros Ht. lra. Qed.

(** With no elapsed time the performance factor is [0]. *)
Lemma final_pf_zero data st elapsed :
  (elapsed <= 0)%Q -> (res_performance_factor (final_results data st elapsed) == 0)%Q.
Proof.
  intros He. unfold final_results, rate. cbn [res_performance_factor].
  rewrite (proj2 (Qle_bool_iff _ _) He). reflexivity.
Qed.

(** [run_results] on results with a zero performance factor: the
    metrics and the proof hash are printed, then the letter raises. *)
Lemma run_results_zero `{Compressor} float_repr container_str sha256_hex env ts m cfg r w :
  (res_performance_factor r == 0)%Q ->
  exists lines,
    run_results float_repr container_str sha256_hex env (results_dict ts m cfg r) w =
      (Raise ZeroDivisionError, write_lines lines w) /\
    (lit "SHA-256: " ++ sha256_hex (encode (proof_json float_repr (proof_data_of ts r)))) ++ [10] ∈ lines.
Proof.
  intros Hz. unfold run_results. rewrite io_bind_run, proof_of_results_dict, lift_Ok_run. cbv beta iota.
  io_step print_run. io_step print_run. io_step print_run.
  destruct (field_bp float_repr container_str ts m cfg r) as [s1 H1].
  destruct (field_ub float_repr container_str ts m cfg r) as [s2 H2].
  destruct (field_cr float_repr container_str ts m cfg r) as [s3 H3].
  destruct (field_minutes float_repr container_str ts m cfg r) as [s4 H4].
  destruct (field_bps float_repr container_str ts m cfg r) as [s5 H5].
  destruct (field_pf float_repr container_str ts m cfg r) as [s6 H6].
  rewrite io_bind_run; erewrite print_field_run by exact H1; cbv beta iota zeta.
  rewrite io_bind_run; erewrite print_field_run by exact H2; cbv beta iota zeta.
  rewrite io_bind_run; erewrite print_field_run by exact H3; cbv beta iota zeta.
  rewrite io_bind_run; erewrite print_field_run by exact H4; cbv beta iota zeta.
  rewrite io_bind_run; erewrite print_field_run by exact H5; cbv beta iota zeta.
  rewrite io_bind_run; erewrite print_field_run by exact H6; cbv beta iota zeta.
  io_step print_run. io_step print_run.
  destruct (letter_summary_results float_repr container_str ts m cfg r
    (sha256_hex (encode (proof_json float_repr (proof_data_of ts r))))) as [summary Hs].
  rewrite io_bind_run, (doc_run_raise _ _ _ _ _ _ summary ZeroDivisionError Hs)
    by (by apply letter_implications_zero).
  cbv iota. rewrite !write_lines_app. eexists. split; [reflexivity|].
  apply list_elem_of_In. rewrite !in_app_iff. cbn [In]. tauto.
Qed.

(** The line [run] prints last. *)
Definition end_line : pystr := ([10] ++ lit "END OF DEMONSTRATION") ++ [10].

(** [run_results] on results with a non-zero performance factor: the
    metrics, the proof hash and the letter are printed, the report is
    saved, and the closing text ends with [END OF DEMONSTRATION]. *)
Lemma run_results_ok `{Compressor} float_repr container_str sha256_hex env ts m cfg r w :
  ~ (res_performance_factor r == 0)%Q ->
  exists lines,
    run_results float_repr container_str sha256_hex env (results_dict ts m cfg r) w =
      (Ok tt, set_fs (<[report_filename (env_now env) :=
                encode (dumps float_repr false (Some 2%nat) (report_dict (results_dict ts m cfg r)
                  (sha256_hex (encode (proof_json float_repr (proof_data_of ts r))))))]> (fs w))
              (write_lines (lines ++ [end_line]) w)) /\
    (lit "SHA-256: " ++ sha256_hex (encode (proof_json float_repr (proof_data_of ts r)))) ++ [10] ∈ lines.
Proof.
  intros Hz. unfold run_results. rewrite io_bind_run, proof_of_results_dict, lift_Ok_run. cbv beta iota.
  io_step print_run. io_step print_run. io_step print_run.
  destruct (field_bp float_repr container_str ts m cfg r) as [s1 H1].
  destruct (field_ub float_repr container_str ts m cfg r) as [s2 H2].
  destruct (field_cr float_repr container_str ts m cfg r) as [s3 H3].
  destruct (field_minutes float_repr container_str ts m cfg r) as [s4 H4].
  destruct (field_bps float_repr container_str ts m cfg r) as [s5 H5].
  destruct (field_pf float_repr container_str ts m cfg r) as [s6 H6].
  rewrite io_bind_run; erewrite print_field_run by exact H1; cbv beta iota zeta.
  rewrite io_bind_run; erewrite print_field_run by exact H2; cbv beta iota zeta.
  rewrite io_bind_run; erewrite print_field_run by exact H3; cbv beta iota zeta.
  rewrite io_bind_run; erewrite print_field_run by exact H4; cbv beta iota zeta.
  rewrite io_bind_run; erewrite print_field_run by exact H5; cbv beta iota zeta.
  rewrite io_bind_run; erewrite print_field_run by exact H6; cbv beta iota zeta.
  io_step print_run. io_step print_run.
  set (ph := sha256_hex _).
  destruct (letter_summary_results float_repr container_str ts m cfg r ph) as [summary Hs].
  destruct (letter_implications_nonzero float_repr container_str ts m cfg r ph Hz) as [impl Hi].
  rewrite io_bind_run, (doc_run_ok _ _ _ _ _ _ summary impl Hs Hi). cbv beta iota.
  repeat io_step print_run. rewrite print_run.
  rewrite !write_lines_set_fs, !write_lines_app, !fs_write_lines. eexists. split.
  { unfold end_line. rewrite !app_assoc. reflexivity. }
  apply list_elem_of_In. rewrite !in_app_iff. cbn [In]. tauto.
Qed.


(** ** Properties of [run] *)

(** C27: functional.  When [self.wikipedia_file] does not exist, [run]
    prints the banner, the firms, the companies and the prompt, reads
    one line, prints the error line of [process_wikipedia_complete], and
    ends: no clock is read, no proof is computed and no file is
    written. *)
Theorem run_missing_file `{Compressor} float_repr container_str sha256_hex cfg env w l rest :
  fs w !! wikipedia_file = None -> stdin w = l :: rest ->
  run float_repr container_str sha256_hex cfg env w =
  (Ok tt, set_stdin rest (write_lines (preamble env ++ [missing_line]) w)).
Proof.
  intros Hf Hin. rewrite (run_after_input _ _ _ _ _ _ _ _ Hin). unfold run_rest.
  rewrite io_bind_run, process_io_missing by exact Hf.
  by rewrite write_lines_set_stdin, write_lines_app.
Qed.

(** C9: composition and error path.  On a non-empty file whose chunks
    all decode to text, a run on a clock that does not advance after the
    prompt ([time.perf_counter()] never reads more than its first
    reading) gets through the loop, the results and the proof, prints
    the SHA-256 line, and then raises [ZeroDivisionError] in the letter
    ([performance_factor] is [0]): the run ends with the exception after
    printing and reading the clock, and no report is written. *)
Theorem run_zero_elapsed `{Compressor} float_repr container_str sha256_hex cfg env w l rest data :
  0 < block_size cfg ->
  fs w !! wikipedia_file = Some data -> data <> [] ->
  Forall (fun o => chunk_text code_chunk_size data o <> []) (chunk_offsets code_chunk_size data) ->
  (forall i, (ticks w <= i)%nat -> (clock w i <= clock w (ticks w))%Q) -> stdin w = l :: rest ->
  exists proof_hash lines k,
    run float_repr container_str sha256_hex cfg env w =
      (Raise ZeroDivisionError, set_stdin rest (write_lines (preamble env ++ lines) (Nat.iter k tick w))) /\
    (lit "SHA-256: " ++ proof_hash) ++ [10] ∈ lines.
Proof.
  intros Hbs Hf Hne Hall Hclk Hin.
  rewrite (run_after_input _ _ _ _ _ _ _ _ Hin). unfold run_rest.
  destruct (process_io_completes float_repr sha256_hex cfg env (set_stdin rest (write_lines (preamble env) w))
    data Hbs Hf Hne Hall) as (st & out & k & Hproc & _).
  rewrite io_bind_run, Hproc. cbv beta iota. rewrite results_dict_truthy.
  cbn [clock ticks set_stdin write_lines].
  lazymatch goal with |- context [run_results _ _ _ _ (results_dict ?ts ?m _ (final_results _ _ ?e)) ?w2] =>
    destruct (run_results_zero float_repr container_str sha256_hex env ts m cfg (final_results data st e) w2)
      as (lines & Hrun & Hin'); [apply final_pf_zero, elapsed_nonpos, Hclk; lia|] end.
  rewrite Hrun. eexists _, (out ++ lines), k. split; [|by apply elem_of_app; right].
  by rewrite write_lines_app, iter_tick_set_stdin, iter_tick_write_lines, write_lines_set_stdin, write_lines_app,
    app_assoc.
Qed.


(** C8: composition and functional behaviour.  On a non-empty file
    whose chunks all decode to text, a run on a clock that advances
    ([time.perf_counter()] reads more after the prompt than at it)
    processes the whole file, prints the method's lines, the metrics and
    the SHA-256 line of the proof, writes the letter, saves the report
    [json.dump(report, f, indent=2)] under
    [legal_verification_<int(time.time())>.json], and ends with
    [END OF DEMONSTRATION]: the performance factor is positive, and the
    report is the only file written. *)
Theorem run_saves_report `{Compressor} float_repr container_str sha256_hex cfg env w l rest data :
  0 < block_size cfg ->
  fs w !! wikipedia_file = Some data -> data <> [] ->
  Forall (fun o => chunk_text code_chunk_size data o <> []) (chunk_offsets code_chunk_size data) ->
  (forall i, (ticks w < i)%nat -> (clock w (ticks w) < clock w i)%Q) -> stdin w = l :: rest ->
  exists r proof_hash lines k,
    (0 < res_performance_factor r)%Q /\
    run float_repr container_str sha256_hex cfg env w =
      (Ok tt, set_fs (<[report_filename (env_now env) :=
                 encode (dumps float_repr false (Some 2%nat)
                   (report_dict (results_dict (env_timestamp env) (env_machine env) cfg r) proof_hash))]> (fs w))
               (set_stdin rest (write_lines (preamble env ++ lines ++ [end_line]) (Nat.iter k tick w)))) /\
    (lit "SHA-256: " ++ proof_hash) ++ [10] ∈ lines.
Proof.
  intros Hbs Hf Hne Hall Hclk Hin.
  rewrite (run_after_input _ _ _ _ _ _ _ _ Hin). unfold run_rest.
  destruct (process_io_completes float_repr sha256_hex cfg env (set_stdin rest (write_lines (preamble env) w))
    data Hbs Hf Hne Hall) as (st & out & k & Hproc & Hpos).
  rewrite io_bind_run, Hproc. cbv beta iota. rewrite results_dict_truthy.
  cbn [clock ticks set_stdin write_lines].
  lazymatch goal with |- context [run_results _ _ _ _ (results_dict ?ts ?m _ (final_results _ _ ?e)) ?w2] =>
    assert (Hpf : (0 < res_performance_factor (final_results data st e))%Q)
      by (apply final_pf_pos, elapsed_pos, Hclk; [done | lia]);
    destruct (run_results_ok float_repr container_str sha256_hex env ts m cfg (final_results data st e) w2
      ltac:(intros Hq; rewrite Hq in Hpf; by apply (Qlt_irrefl 0)))
      as (lines & Hrun & Hin') end.
  rewrite Hrun. eexists _, _, (out ++ lines), k. split; [exact Hpf|]. split; [|by apply elem_of_app; right].
  rewrite iter_tick_set_stdin, iter_tick_write_lines, !write_lines_set_stdin, !write_lines_app.
  cbn [fs set_stdin write_lines]. rewrite fs_iter_tick. by rewrite <- !app_assoc.
Qed.


(** ** Witnesses *)

Definition witness_env : RunEnv := mkRunEnv [] [] [] [] (mkMachine [] 1 1) 0.

Lemma run_missing_file_witness :
  run (fun _ => [48]) (fun _ => []) (fun _ => []) default_config witness_env (start_world [[]] ∅ ∅) =
  (Ok tt, set_stdin [] (write_lines (preamble witness_env ++ [missing_line]) (start_world [[]] ∅ ∅))).
Proof.
  exact (@run_missing_file seen_set_compressor (fun _ => [48]) (fun _ => []) (fun _ => []) default_config
    witness_env (start_world [[]] ∅ ∅) [] [] eq_refl eq_refl).
Defined.

Definition witness_files : gmap pystr (list Z) := <[wikipedia_file := [65; 66]]> ∅.

Lemma run_zero_elapsed_witness :
  exists proof_hash lines k,
    run (fun _ => [48]) (fun _ => []) (fun _ => []) default_config witness_env
      (start_world [[]] witness_files ∅) =
    (Raise ZeroDivisionError, set_stdin []
       (write_lines (preamble witness_env ++ lines) (Nat.iter k tick (start_world [[]] witness_files ∅)))) /\
    (lit "SHA-256: " ++ proof_hash) ++ [10] ∈ lines.
Proof.
  assert (Hall : Forall (fun o => chunk_text code_chunk_size [65; 66] o <> [])
                   (chunk_offsets code_chunk_size [65; 66])) by by_decide.
  exact (@run_zero_elapsed seen_set_compressor (fun _ => [48]) (fun _ => []) (fun _ => []) default_config
    witness_env (start_world [[]] witness_files ∅) [] [] [65; 66] eq_refl eq_refl ltac:(discriminate) Hall
    (fun i _ => Qle_refl 0) eq_refl).
Defined.

(** A clock that reads [i] seconds at its [i]-th reading. *)
Definition witness_world : World :=
  mkWorld [] [[]] witness_files ∅ ∅ (fun i => inject_Z (Z.of_nat i)) 0.

Lemma run_saves_report_witness :
  exists r proof_hash lines k,
    (0 < res_performance_factor r)%Q /\
    run (fun _ => [48]) (fun _ => []) (fun _ => []) default_config witness_env witness_world =
      (Ok tt, set_fs (<[report_filename (env_now witness_env) :=
                 encode (dumps (fun _ => [48]) false (Some 2%nat)
                   (report_dict (results_dict (env_timestamp witness_env) (env_machine witness_env)
                      default_config r) proof_hash))]> (fs witness_world))
               (set_stdin [] (write_lines (preamble witness_env ++ lines ++ [end_line])
                  (Nat.iter k tick witness_world)))) /\
    (lit "SHA-256: " ++ proof_hash) ++ [10] ∈ lines.
Proof.
  assert (Hall : Forall (fun o => chunk_text code_chunk_size [65; 66] o <> [])
                   (chunk_offsets code_chunk_size [65; 66])) by by_decide.
  assert (Hclk : forall i, (ticks witness_world < i)%nat ->
                   (clock witness_world (ticks witness_world) < clock witness_world i)%Q).
  { intros i Hi. cbn [clock ticks witness_world]. unfold Qlt. simpl. lia. }
  exact (@run_saves_report seen_set_compressor (fun _ => [48]) (fun _ => []) (fun _ => []) default_config
    witness_env witness_world [] [] [65; 66] eq_refl eq_refl ltac:(discriminate) Hall Hclk eq_refl).
Defined.

End Run.
