(* ===== verification/Scripts.v ===== *)
(** * Scripts: [verify_environment.py] and [download_test_data.py]

    Two small scripts.  [verify()] (verify_environment.py 6-24) prints a
    line, checks three data files with [os.path.exists], tries to import
    [architect_system] and prints two closing lines; the module never
    imports [os].  [download_wikipedia(size_gb)]
    (download_test_data.py 7-11) builds a URL and prints one line; the
    download its docstring announces is a comment.  Neither module calls
    its function at the top level.

    A function body runs in the module's global names: [lookup_global]
    raises [NameError] for a name that is neither global nor a builtin.
    [verify] takes the set of global names, so that the module as
    written ([verify_environment_globals], which lacks [os]) and the
    module with [import os] can both be stated.

    The theorems: [verify()] as written raises [NameError] right after
    its first line, before any file check or import; with [os] imported
    it would run to the end; [download_wikipedia] writes no file. *)

From S2P Require Import Prelude Utf8 PyIO PyFormat Json Letter.

Local Open Scope Z_scope.

Module Scripts.

Import PyIO.PyIO PyFormat.PyFormat Json.Json Letter.Letter.

(** [x] looked up in the module's globals (the builtins the scripts use,
    [print] and [ImportError], are always found and not looked up). *)
Definition lookup_global (globals : gset pystr) (x : pystr) : IO unit := fun w =>
  if bool_decide (x ∈ globals) then (Ok tt, w) else (Raise NameError, w).

(** ** [verify_environment.py] *)

(** The globals of the module after it ran: the [def] binds [verify];
    nothing imports [os]. *)
Definition verify_environment_globals : gset pystr := {[ lit "verify" ]}.

(** [f"wikipedia_{size}gb.json"]. *)
Definition data_file (size : Z) : pystr := lit "wikipedia_" ++ int_repr size ++ lit "gb.json".

(** The body of [for size in [10, 15, 25]]. *)
Definition check_file (globals : gset pystr) (size : Z) : IO unit :=
  let file := data_file size in
  lookup_global globals (lit "os") ;;
  path_exists file ≫= fun found : bool =>
    if found then print (lit "✓ " ++ file ++ lit " found")
    else print (lit "✗ " ++ file ++ lit " missing - run download_test_data.py").

(** [verify()]. *)
Definition verify (globals : gset pystr) : IO unit :=
  print (lit "Checking test environment...") ;;
  py_for [10; 15; 25] (check_file globals) ;;
  try_except
    (import_module (lit "architect_system") ;;
     print (lit "✓ architect_system found (HOW?!)"))
    ImportError
    (print (lit "✗ architect_system not found (expected - it's private)")) ;;
  print ([10] ++ lit "You can run the tests but they'll fail at the import.") ;;
  print (lit "That's the point - the tests are real, the system is private.").

(** ** [download_test_data.py] *)

Section Download.

Variable float_repr : Q -> pystr.
Variable container_str : PyVal -> pystr.

(** [download_wikipedia(size_gb)]: the URL is built and not used. *)
Definition download_wikipedia (size_gb : PyVal) : IO unit :=
  let url := lit "https://dumps.wikimedia.org/subset_" ++ py_str float_repr container_str size_gb ++
             lit "gb.xml" in
  print (lit "Downloading " ++ py_str float_repr container_str size_gb ++ lit "GB test set...").

End Download.


(** ** Running the scripts *)

Lemma os_not_global : lit "os" ∉ verify_environment_globals.
Proof. unfold verify_environment_globals. rewrite elem_of_singleton. eval_lits. discriminate. Qed.

Lemma lookup_global_found g x w : x ∈ g -> lookup_global g x w = (Ok tt, w).
Proof. intros Hx. unfold lookup_global. by rewrite bool_decide_true. Qed.

Lemma lookup_global_missing g x w : x ∉ g -> lookup_global g x w = (Raise NameError, w).
Proof. intros Hx. unfold lookup_global. by rewrite bool_decide_false. Qed.

(** The line [check_file] prints for a file that exists or not. *)
Definition file_line (found : bool) (size : Z) : pystr :=
  (if found then lit "✓ " ++ data_file size ++ lit " found"
   else lit "✗ " ++ data_file size ++ lit " missing - run download_test_data.py") ++ [10].

Lemma check_file_run g size w :
  lit "os" ∈ g ->
  check_file g size w =
  (Ok tt, write_lines [file_line (bool_decide (is_Some (fs w !! data_file size))) size] w).
Proof.
  intros Hos. unfold check_file. io_step lookup_global_found; [|done].
  rewrite io_bind_run. unfold path_exists. cbv beta iota.
  unfold file_line. destruct (bool_decide _); apply print_run.
Qed.

(** The line the [try] block prints. *)
Definition import_line (loaded : bool) : pystr :=
  (if loaded then lit "✓ architect_system found (HOW?!)"
   else lit "✗ architect_system not found (expected - it's private)") ++ [10].

Lemma import_check_run w :
  try_except
    (import_module (lit "architect_system") ;; print (lit "✓ architect_system found (HOW?!)"))
    ImportError
    (print (lit "✗ architect_system not found (expected - it's private)")) w =
  (Ok tt, write_lines [import_line (bool_decide (lit "architect_system" ∈ modules w))] w).
Proof.
  unfold try_except, import_module, import_line. rewrite io_bind_run.
  case_bool_decide; reflexivity.
Qed.

(** ** Properties of the scripts *)

(** C28: error path.  [verify()] as the module is written raises
    [NameError] ([os] is never imported) on the first file check: it
    has printed one line, checked no file and not tried the import of
    [architect_system]. *)
Theorem verify_name_error w :
  verify verify_environment_globals w =
  (Raise NameError, write_lines [lit "Checking test environment..." ++ [10]] w).
Proof.
  unfold verify. io_step print_run. rewrite io_bind_run. cbn [py_for].
  rewrite io_bind_run. unfold check_file. cbv zeta.
  rewrite io_bind_run, lookup_global_missing by apply os_not_global. reflexivity.
Qed.

(** Functional.  With [os] among the module's globals, [verify()]
    runs to its end: it prints its first line, one line per data file
    saying whether it exists, whether [architect_system] can be
    imported, and the two closing lines, and raises nothing. *)
Theorem verify_with_os g w :
  lit "os" ∈ g ->
  verify g w =
  (Ok tt, write_lines
     ([lit "Checking test environment..." ++ [10]] ++
      map (fun size => file_line (bool_decide (is_Some (fs w !! data_file size))) size) [10; 15; 25] ++
      [import_line (bool_decide (lit "architect_system" ∈ modules w));
       ([10] ++ lit "You can run the tests but they'll fail at the import.") ++ [10];
       lit "That's the point - the tests are real, the system is private." ++ [10]]) w).
Proof.
  intros Hos. unfold verify. io_step print_run. rewrite io_bind_run. cbn [py_for].
  io_step check_file_run; [|done]. io_step check_file_run; [|done]. io_step check_file_run; [|done].
  rewrite io_ret_run. cbv iota. io_step import_check_run. io_step print_run.
  rewrite print_run, !write_lines_app. reflexivity.
Qed.

(** Functional.  [download_wikipedia(size_gb)] prints one line and
    returns: it downloads nothing, and the files are as they were. *)
Theorem download_wikipedia_prints_only float_repr container_str size_gb w :
  download_wikipedia float_repr container_str size_gb w =
  (Ok tt, write_lines [(lit "Downloading " ++ py_str float_repr container_str size_gb ++
                        lit "GB test set...") ++ [10]] w).
Proof. reflexivity. Qed.


(** ** Witnesses *)

Lemma verify_with_os_witness :
  verify {[lit "os"]} (start_world [] ∅ ∅) =
  (Ok tt, write_lines
     ([lit "Checking test environment..." ++ [10]] ++
      map (fun size => file_line (bool_decide (is_Some (fs (start_world [] ∅ ∅) !! data_file size))) size)
        [10; 15; 25] ++
      [import_line (bool_decide (lit "architect_system" ∈ modules (start_world [] ∅ ∅)));
       ([10] ++ lit "You can run the tests but they'll fail at the import.") ++ [10];
       lit "That's the point - the tests are real, the system is private." ++ [10]]) (start_world [] ∅ ∅)).
Proof. exact (verify_with_os {[lit "os"]} (start_world [] ∅ ∅) (elem_of_singleton_2 _ _ eq_refl)). Defined.

End Scripts.
