(* ===== verification/Mongo.v ===== *)
(** * Mongo: [test_mongodb_complete.py]

    The MongoDB script prints a banner with the hash of its own source,
    loads the Wikipedia test data with [json.load], runs four timed tests
    against the private module [architect_system] (search, bulk insert,
    aggregation, compression), prints a summary and saves a proof dict
    to [results/mongodb_destruction.json].

    - [MONGODB_CLAIMS] is the dict of lines 15-21 and the tests read it
      as the code does, [MONGODB_CLAIMS[k]['value']];
    - [architect_system] is not in the repository: [Architect] is the
      record of the four functions the tests import, each an [IO]
      computation, and [from architect_system import f] succeeds only
      when the world lists the module ([import_or]);
    - the timings are [time.perf_counter()] readings of the world's
      clock, and each ratio of the code is a [py_div] with its
      [ZeroDivisionError];
    - the insert loop is [for i in range(0, total_docs, batch_size)]
      over [data[i:i+batch_size]], with [PyList]'s [range] and slices;
    - [datetime.now().isoformat()] is read twice (lines 192 and 213):
      [main] takes the two texts, and [__file__].

    The theorems: when the data file is missing [main] prints its banner
    and the three lines of [load_test_data] and returns [None], writing
    nothing; without [architect_system] every test prints its heading
    and the import error and returns [None], and [main] prints the whole
    summary and its proof hash and then raises [FileNotFoundError]
    unless a [results] directory exists, which nothing in the
    repository creates; the insert loop hands every document to
    [bulk_insert] exactly once, in order, in batches of at most
    [100000]; and a clock that does not advance over the inserts makes
    the insert test raise [ZeroDivisionError]. *)

From S2P Require Import Prelude PyList Utf8 PyIO PyFormat Json JsonLoad Letter Scripts.

Local Open Scope Z_scope.

Module Mongo.

Import PyList.Range PyList.Slice Utf8.Utf8 PyIO.PyIO PyFormat.PyFormat Json.Json JsonLoad.JsonLoad
  Letter.Letter Scripts.Scripts.

(** ** Python values the script operates on *)

(** [len(v)]: [TypeError] for a value without a length. *)
Definition py_len_val (v : PyVal) : PyResult Z :=
  match v with
  | PStr s => Ok (py_len s)
  | PList l => Ok (py_len l)
  | PDict d => Ok (py_len d)
  | _ => Raise TypeError
  end.

(** [v[i:j]]: a slice of a list or a string; a dict has no slice key
    ([KeyError]; before Python 3.12, where slices are unhashable,
    [TypeError]), and other values are not subscriptable. *)
Definition py_getslice (v : PyVal) (i j : Z) : PyResult PyVal :=
  match v with
  | PList l => Ok (PList (py_slice l i j))
  | PStr s => Ok (PStr (py_slice s i j))
  | PDict _ => Raise KeyError
  | _ => Raise TypeError
  end.

(** [sum(l)] of floats: [0 + l[0] + l[1] + ...]. *)
Definition py_sum (l : list Q) : Q := fold_left Qplus l 0%Q.

(** ** [MONGODB_CLAIMS] *)

Definition claim (value : Z) (unit note : pystr) : PyVal :=
  PDict [(lit "value", PInt value); (lit "unit", PStr unit); (lit "note", PStr note)].

Definition MONGODB_CLAIMS : PyVal :=
  PDict [(lit "search", claim 120 (lit "ms") (lit "average query time"));
         (lit "insert", claim 50000 (lit "docs/sec") (lit "bulk insert rate"));
         (lit "update", claim 30000 (lit "ops/sec") (lit "update operations"));
         (lit "aggregation", claim 2300 (lit "ms") (lit "complex aggregation on 100M docs"));
         (lit "compression", claim 70 (lit "percent") (lit "WiredTiger compression"))].

Local Open Scope py_scope.

(** [MONGODB_CLAIMS[k]['value']]. *)
Definition claim_value (k : pystr) : PyResult PyVal :=
  c <- getitem MONGODB_CLAIMS k ;; getitem c (lit "value").

Definition claim_num (k : pystr) : PyResult Q := v <- claim_value k ;; as_number v.

Local Close Scope py_scope.

(** ** The private module *)

(** The functions the tests import from [architect_system]: the search
    returns a sized value, the compressor the compressed bytes. *)
Record Architect := mkArchitect {
  search : PyVal -> pystr -> IO PyVal;
  bulk_insert : PyVal -> IO PyVal;
  aggregate : PyVal -> PyVal -> IO PyVal;
  compress : PyVal -> IO (list Z)
}.

(** [try: from architect_system import f / except ImportError: print
    the messages; return None]: whether the test goes on. *)
Definition import_or (msgs : list pystr) : IO bool :=
  try_except (import_module (lit "architect_system") ;; mret true) ImportError
    (py_for msgs print ;; mret false).

(** [print("\n" + "="*60)] and [print("="*60)]. *)
Definition rule60 : pystr := py_repeat (lit "=") 60.

(** The code points of the literal ["üèóÔ∏è"] that [main]
    repeats 30 times. *)
Definition glyph : pystr := [0xf8ff; 0xfc; 0xe8; 0xf3; 0xd4; 0x220f; 0xe8].

Definition glyph_line : pystr := py_repeat glyph 30.

Section Tests.

Variable float_repr : Q -> pystr.
Variable container_str : PyVal -> pystr.
Variable float_of_str : pystr -> Q.
Variable sha256_hex : list Z -> pystr.
Variable arch : Architect.

(** [f"{MONGODB_CLAIMS[k]['value']:spec}"]. *)
Definition claim_text (k : pystr) (spec : FSpec) : PyResult pystr :=
  py_bind (claim_value k) (format_value float_repr container_str spec).

(** [hash_this_test()]: the SHA-256 of the script's own bytes. *)
Definition hash_this_test (file : pystr) : IO pystr :=
  bytes ← open_read file; mret (sha256_hex bytes).

(** [load_test_data(size_gb)]. *)
Definition load_test_data (size_gb : Z) : IO PyVal :=
  let file := data_file size_gb in
  print (lit "Loading " ++ file ++ lit "...") ;;
  path_exists file ≫= fun found : bool =>
  if negb found then (
    print (lit "ERROR: Download test data first!") ;;
    print (lit "Run: ./download_test_data.sh") ;;
    mret PNone
  ) else (
    bytes ← open_read file;
    data ← lift (load float_of_str bytes);
    n ← lift (py_len_val data);
    print (lit "Loaded " ++ int_grouped n ++ lit " documents (" ++ int_repr size_gb ++ lit "GB)") ;;
    mret data).

(** ** Test 1: search *)

Definition queries : list pystr :=
  [lit "distributed systems"; lit "quantum computing"; lit "machine learning";
   lit "database architecture"; lit "compression algorithms"].

(** The loop of lines 68-73: one timed search per query, its line, and
    the list [times]. *)
Fixpoint time_searches (data : PyVal) (qs : list pystr) : IO (list Q) :=
  match qs with
  | [] => mret []
  | query :: rest =>
    start ← perf_counter;
    results ← search arch data query;
    stop ← perf_counter;
    let elapsed := ((stop - start) * 1000)%Q in
    n ← lift (py_len_val results);
    print (lit "  Query '" ++ query ++ lit "': " ++ fmt_fixed false 3 elapsed ++ lit "ms (" ++
           int_repr n ++ lit " results)") ;;
    times ← time_searches data rest;
    mret (elapsed :: times)
  end.

Definition test_search_performance (data : PyVal) : IO PyVal :=
  print ([10] ++ rule60) ;;
  print (lit "TEST 1: SEARCH PERFORMANCE") ;;
  c ← lift (claim_text (lit "search") SPlain);
  print (lit "MongoDB claims: " ++ c ++ lit "ms average") ;;
  print rule60 ;;
  import_or [lit "ERROR: architect_system not available (private code)";
                  lit "This is expected - you don't have The Architect's code"] ≫= fun ok : bool =>
  if ok then (
    times ← time_searches data queries;
    avg_time ← lift (py_div (py_sum times) (inject_Z (py_len times)));
    claimed ← lift (claim_num (lit "search"));
    improvement ← lift (py_div claimed avg_time);
    print ([10] ++ lit "Average: " ++ fmt_fixed false 3 avg_time ++ lit "ms") ;;
    c2 ← lift (claim_text (lit "search") SPlain);
    print (lit "MongoDB: " ++ c2 ++ lit "ms") ;;
    print (lit "DESTRUCTION FACTOR: " ++ fmt_fixed false 0 improvement ++ lit "x faster") ;;
    mret (PDict [(lit "search_ms", PFloat avg_time); (lit "improvement", PFloat improvement)])
  ) else mret PNone.

(** ** Test 2: bulk insert *)

Definition batch_size : Z := 100000.

(** [for i in range(0, total_docs, batch_size): bulk_insert(data[i:i+batch_size])]. *)
Definition insert_loop (data : PyVal) (total_docs : Z) : IO unit :=
  starts ← lift (py_range 0 total_docs batch_size);
  py_for starts (fun i =>
    batch ← lift (py_getslice data i (i + batch_size));
    bulk_insert arch batch ;; mret tt).

Definition test_insert_performance (data : PyVal) : IO PyVal :=
  print ([10] ++ rule60) ;;
  print (lit "TEST 2: BULK INSERT PERFORMANCE") ;;
  c ← lift (claim_text (lit "insert") SGroup);
  print (lit "MongoDB claims: " ++ c ++ lit " docs/sec") ;;
  print rule60 ;;
  import_or [lit "ERROR: architect_system not available"] ≫= fun ok : bool =>
  if ok then (
    total_docs ← lift (py_len_val data);
    start ← perf_counter;
    insert_loop data total_docs ;;
    stop ← perf_counter;
    let elapsed := (stop - start)%Q in
    docs_per_sec ← lift (py_div (inject_Z total_docs) elapsed);
    claimed ← lift (claim_num (lit "insert"));
    improvement ← lift (py_div docs_per_sec claimed);
    print (lit "Inserted: " ++ int_grouped total_docs ++ lit " documents") ;;
    print (lit "Time: " ++ fmt_fixed false 2 elapsed ++ lit " seconds") ;;
    print (lit "Rate: " ++ fmt_fixed true 0 docs_per_sec ++ lit " docs/sec") ;;
    c2 ← lift (claim_text (lit "insert") SGroup);
    print (lit "MongoDB: " ++ c2 ++ lit " docs/sec") ;;
    print (lit "DESTRUCTION FACTOR: " ++ fmt_fixed false 0 improvement ++ lit "x faster") ;;
    mret (PDict [(lit "insert_rate", PFloat docs_per_sec); (lit "improvement", PFloat improvement)])
  ) else mret PNone.

(** ** Test 3: aggregation *)

Definition pipeline : PyVal :=
  PDict [(lit "group_by", PList [PStr (lit "category"); PStr (lit "year"); PStr (lit "author")]);
         (lit "metrics", PDict [(lit "count", PStr (lit "count"));
                                (lit "total", PStr (lit "sum(size)"));
                                (lit "average", PStr (lit "avg(size)"));
                                (lit "maximum", PStr (lit "max(size)"));
                                (lit "minimum", PStr (lit "min(size)"))]);
         (lit "sort", PStr (lit "total DESC"));
         (lit "limit", PInt 1000)].

Definition test_aggregation_performance (data : PyVal) : IO PyVal :=
  print ([10] ++ rule60) ;;
  print (lit "TEST 3: AGGREGATION PERFORMANCE") ;;
  c ← lift (claim_text (lit "aggregation") SPlain);
  print (lit "MongoDB claims: " ++ c ++ lit "ms on 100M docs") ;;
  print rule60 ;;
  import_or [lit "ERROR: architect_system not available"] ≫= fun ok : bool =>
  if ok then (
    start ← perf_counter;
    aggregate arch data pipeline ;;
    stop ← perf_counter;
    let elapsed := ((stop - start) * 1000)%Q in
    n ← lift (py_len_val data);
    scale_factor ← lift (py_div 100000000 (inject_Z n));
    let estimated_time := (elapsed * scale_factor)%Q in
    claimed ← lift (claim_num (lit "aggregation"));
    improvement ← lift (py_div claimed estimated_time);
    n2 ← lift (py_len_val data);
    print (lit "Aggregation on " ++ int_grouped n2 ++ lit " docs: " ++ fmt_fixed false 2 elapsed ++ lit "ms") ;;
    print (lit "Estimated for 100M docs: " ++ fmt_fixed false 2 estimated_time ++ lit "ms") ;;
    c2 ← lift (claim_text (lit "aggregation") SPlain);
    print (lit "MongoDB claim: " ++ c2 ++ lit "ms") ;;
    print (lit "DESTRUCTION FACTOR: " ++ fmt_fixed false 0 improvement ++ lit "x faster") ;;
    mret (PDict [(lit "aggregation_ms", PFloat estimated_time); (lit "improvement", PFloat improvement)])
  ) else mret PNone.

(** ** Test 4: compression *)

Definition test_compression (data : PyVal) : IO PyVal :=
  print ([10] ++ rule60) ;;
  print (lit "TEST 4: COMPRESSION PERFORMANCE") ;;
  c ← lift (claim_text (lit "compression") SPlain);
  print (lit "MongoDB claims: " ++ c ++ lit "% reduction") ;;
  print rule60 ;;
  import_or [lit "ERROR: architect_system not available"] ≫= fun ok : bool =>
  if ok then (
    let original_size := py_len (encode (dumps float_repr false None data)) in
    compressed ← compress arch data;
    let compressed_size := py_len compressed in
    r ← lift (py_div (inject_Z (original_size - compressed_size)) (inject_Z original_size));
    let reduction := (r * 100)%Q in
    claimed ← lift (claim_num (lit "compression"));
    improvement ← lift (py_div reduction claimed);
    print (lit "Original size: " ++ int_grouped original_size ++ lit " bytes") ;;
    print (lit "Compressed size: " ++ int_grouped compressed_size ++ lit " bytes") ;;
    print (lit "Reduction: " ++ fmt_fixed false 1 reduction ++ lit "%") ;;
    c2 ← lift (claim_text (lit "compression") SPlain);
    print (lit "MongoDB: " ++ c2 ++ lit "%") ;;
    print (lit "DESTRUCTION FACTOR: " ++ fmt_fixed false 1 improvement ++ lit "x better") ;;
    mret (PDict [(lit "compression_ratio", PFloat reduction); (lit "improvement", PFloat improvement)])
  ) else mret PNone.

(** ** [main] *)

Definition results_file : pystr := lit "results/mongodb_destruction.json".

(** The dict of lines 210-216. *)
Definition proof_dict (test_hash timestamp : pystr) (results : list (pystr * PyVal)) : PyVal :=
  PDict [(lit "test_file", PStr (lit "test_mongodb_complete.py"));
         (lit "test_hash", PStr test_hash);
         (lit "timestamp", PStr timestamp);
         (lit "data_size_gb", PInt 10);
         (lit "results", PDict results)].

(** One line of the summary loop (lines 223-225). *)
Definition summary_line (test : pystr) (result : PyVal) : IO unit :=
  if py_truthy result then (
    imp ← lift (getitem result (lit "improvement"));
    s ← lift (format_value float_repr container_str (SFixed false 0) imp);
    print (test ++ lit ": " ++ s ++ lit "x better")
  ) else mret tt.

(** [main()], with [__file__] and the two readings of
    [datetime.now().isoformat()]. *)
Definition main (file date1 date2 : pystr) : IO PyVal :=
  print ([10] ++ glyph_line) ;;
  print (lit "THE ARCHITECT vs MONGODB") ;;
  print (lit "Date: " ++ date1) ;;
  print (lit "Patent: #63/841086") ;;
  h ← hash_this_test file;
  print (lit "Test hash: " ++ take 16 h ++ lit "...") ;;
  print glyph_line ;;
  load_test_data 10 ≫= fun data : PyVal =>
  if negb (py_truthy data) then mret PNone else (
  r_search ← test_search_performance data;
  r_insert ← test_insert_performance data;
  r_aggregation ← test_aggregation_performance data;
  r_compression ← test_compression data;
  let results := [(lit "search", r_search); (lit "insert", r_insert);
                  (lit "aggregation", r_aggregation); (lit "compression", r_compression)] in
  test_hash ← hash_this_test file;
  let proof := proof_dict test_hash date2 results in
  let proof_hash := sha256_hex (encode (dumps float_repr true None proof)) in
  print ([10] ++ rule60) ;;
  print (lit "FINAL DESTRUCTION SUMMARY") ;;
  print rule60 ;;
  py_for results (fun '(test, result) => summary_line test result) ;;
  print ([10] ++ lit "PROOF HASH: " ++ proof_hash) ;;
  print ([10] ++ lit "@MongoDB - These are your published benchmarks.") ;;
  print (lit "Run this test yourself. Post your hash.") ;;
  print (lit "Your silence is your admission of defeat.") ;;
  print ([10] ++ lit "The Architect") ;;
  write_file results_file (encode (dumps float_repr false (Some 2%nat) proof)) ;;
  mret (PStr proof_hash)).

End Tests.

(** ** Running the script *)

(** The lines [print] writes for the texts [l]. *)
Definition lines (l : list pystr) : list pystr := map (fun s => s ++ [10]) l.

Lemma import_or_missing msgs w : lit "architect_system" ∉ modules w ->
  import_or msgs w = (Ok false, write_lines (lines msgs) w).
Proof.
  intros Hm. unfold import_or, try_except. rewrite io_bind_run. unfold import_module.
  rewrite bool_decide_false by done. rewrite decide_True by done.
  rewrite io_bind_run, py_for_print. reflexivity.
Qed.

Lemma import_or_present msgs w : lit "architect_system" ∈ modules w -> import_or msgs w = (Ok true, w).
Proof.
  intros Hm. unfold import_or, try_except. rewrite io_bind_run. unfold import_module.
  by rewrite bool_decide_true.
Qed.

Lemma claim_value_search : claim_value (lit "search") = Ok (PInt 120).
Proof. vm_compute. reflexivity. Qed.
Lemma claim_value_insert : claim_value (lit "insert") = Ok (PInt 50000).
Proof. vm_compute. reflexivity. Qed.
Lemma claim_value_aggregation : claim_value (lit "aggregation") = Ok (PInt 2300).
Proof. vm_compute. reflexivity. Qed.
Lemma claim_value_compression : claim_value (lit "compression") = Ok (PInt 70).
Proof. vm_compute. reflexivity. Qed.

Section Shell.
Variables (fr : Q -> pystr) (cs : PyVal -> pystr).

(** The four lines of a test's heading. *)
Definition heading (title claim_line : pystr) : list pystr :=
  lines [[10] ++ rule60; title; claim_line; rule60].

Lemma test_shell_run title k spec c pre post msgs (body : IO PyVal) w :
  claim_text fr cs k spec = Ok c ->
  (print ([10] ++ rule60) ;; print title ;;
   cl ← lift (claim_text fr cs k spec);
   print (pre ++ cl ++ post) ;; print rule60 ;;
   import_or msgs ≫= fun ok : bool => if ok then body else mret PNone) w =
  (if bool_decide (lit "architect_system" ∈ modules w)
   then body (write_lines (heading title (pre ++ c ++ post)) w)
   else (Ok PNone, write_lines (heading title (pre ++ c ++ post) ++ lines msgs) w)).
Proof.
  intros Hc. io_step print_run. io_step print_run. rewrite io_bind_run, Hc, lift_Ok_run.
  cbv beta iota. io_step print_run. io_step print_run. rewrite !write_lines_app.
  case_bool_decide as Hm.
  - rewrite io_bind_run, import_or_present by done. reflexivity.
  - rewrite io_bind_run, import_or_missing by done. cbv beta iota.
    rewrite io_ret_run, write_lines_app. reflexivity.
Qed.
End Shell.

Section Runs.
Variables (fr : Q -> pystr) (cs : PyVal -> pystr) (fos : pystr -> Q) (sha : list Z -> pystr) (arch : Architect).

Lemma claim_text_int k spec z :
  claim_value k = Ok (PInt z) -> claim_text fr cs k spec = format_value fr cs spec (PInt z).
Proof. intros H. unfold claim_text. by rewrite H. Qed.

Definition search_msgs : list pystr :=
  [lit "ERROR: architect_system not available (private code)";
   lit "This is expected - you don't have The Architect's code"].
Definition missing_msg : list pystr := [lit "ERROR: architect_system not available"].

(** What each test prints without [architect_system]. *)
Definition search_skipped : list pystr :=
  heading (lit "TEST 1: SEARCH PERFORMANCE") (lit "MongoDB claims: " ++ int_repr 120 ++ lit "ms average") ++
  lines search_msgs.
Definition insert_skipped : list pystr :=
  heading (lit "TEST 2: BULK INSERT PERFORMANCE") (lit "MongoDB claims: " ++ int_grouped 50000 ++ lit " docs/sec") ++
  lines missing_msg.
Definition aggregation_skipped : list pystr :=
  heading (lit "TEST 3: AGGREGATION PERFORMANCE") (lit "MongoDB claims: " ++ int_repr 2300 ++ lit "ms on 100M docs") ++
  lines missing_msg.
Definition compression_skipped : list pystr :=
  heading (lit "TEST 4: COMPRESSION PERFORMANCE") (lit "MongoDB claims: " ++ int_repr 70 ++ lit "% reduction") ++
  lines missing_msg.

Lemma test_search_skipped data w : lit "architect_system" ∉ modules w ->
  test_search_performance fr cs arch data w = (Ok PNone, write_lines search_skipped w).
Proof.
  intros Hm. unfold test_search_performance.
  erewrite test_shell_run by (rewrite (claim_text_int _ _ _ claim_value_search); reflexivity).
  by rewrite bool_decide_false.
Qed.

Lemma test_insert_skipped data w : lit "architect_system" ∉ modules w ->
  test_insert_performance fr cs arch data w = (Ok PNone, write_lines insert_skipped w).
Proof.
  intros Hm. unfold test_insert_performance.
  erewrite test_shell_run by (rewrite (claim_text_int _ _ _ claim_value_insert); reflexivity).
  by rewrite bool_decide_false.
Qed.

Lemma test_aggregation_skipped data w : lit "architect_system" ∉ modules w ->
  test_aggregation_performance fr cs arch data w = (Ok PNone, write_lines aggregation_skipped w).
Proof.
  intros Hm. unfold test_aggregation_performance.
  erewrite test_shell_run by (rewrite (claim_text_int _ _ _ claim_value_aggregation); reflexivity).
  by rewrite bool_decide_false.
Qed.

Lemma test_compression_skipped data w : lit "architect_system" ∉ modules w ->
  test_compression fr cs arch data w = (Ok PNone, write_lines compression_skipped w).
Proof.
  intros Hm. unfold test_compression.
  erewrite test_shell_run by (rewrite (claim_text_int _ _ _ claim_value_compression); reflexivity).
  by rewrite bool_decide_false.
Qed.

Lemma hash_this_test_run file src w : fs w !! file = Some src ->
  hash_this_test sha file w = (Ok (sha src), w).
Proof. intros H. unfold hash_this_test. by rewrite io_bind_run, (open_read_run _ _ _ H). Qed.

Definition loading_line (sz : Z) : pystr := lit "Loading " ++ data_file sz ++ lit "...".

Lemma load_test_data_missing sz w : fs w !! data_file sz = None ->
  load_test_data fos sz w =
  (Ok PNone, write_lines (lines [loading_line sz; lit "ERROR: Download test data first!";
                                 lit "Run: ./download_test_data.sh"]) w).
Proof.
  intros H. unfold load_test_data. cbv zeta. io_step print_run.
  rewrite io_bind_run. unfold path_exists. cbn [fs write_lines]. rewrite H.
  rewrite bool_decide_false by (intros [? ?]; discriminate). cbn [negb]. cbv beta iota.
  io_step print_run. io_step print_run. rewrite io_ret_run, !write_lines_app. reflexivity.
Qed.

Lemma load_test_data_ok sz w bytes data n : fs w !! data_file sz = Some bytes ->
  load fos bytes = Ok data -> py_len_val data = Ok n ->
  load_test_data fos sz w =
  (Ok data, write_lines (lines [loading_line sz;
     lit "Loaded " ++ int_grouped n ++ lit " documents (" ++ int_repr sz ++ lit "GB)"]) w).
Proof.
  intros H Hl Hn. unfold load_test_data. cbv zeta. io_step print_run.
  rewrite io_bind_run. unfold path_exists. cbn [fs write_lines]. rewrite H.
  rewrite bool_decide_true by done. cbn [negb]. cbv beta iota.
  io_step open_read_run; [|cbn [fs write_lines]; exact H].
  rewrite io_bind_run, Hl, lift_Ok_run. cbv beta iota.
  rewrite io_bind_run, Hn, lift_Ok_run. cbv beta iota.
  io_step print_run. rewrite io_ret_run, write_lines_app. reflexivity.
Qed.
End Runs.

Section MainRuns.
Variables (fr : Q -> pystr) (cs : PyVal -> pystr) (fos : pystr -> Q) (sha : list Z -> pystr) (arch : Architect).

(** The banner of lines 190-195. *)
Definition banner_lines (date1 test_hash : pystr) : list pystr :=
  lines [[10] ++ glyph_line; lit "THE ARCHITECT vs MONGODB"; lit "Date: " ++ date1;
         lit "Patent: #63/841086"; lit "Test hash: " ++ take 16 test_hash ++ lit "..."; glyph_line].

(** The summary of lines 220-231, for results that are all [None]. *)
Definition closing_lines (proof_hash : pystr) : list pystr :=
  lines [[10] ++ rule60; lit "FINAL DESTRUCTION SUMMARY"; rule60;
         [10] ++ lit "PROOF HASH: " ++ proof_hash;
         [10] ++ lit "@MongoDB - These are your published benchmarks.";
         lit "Run this test yourself. Post your hash.";
         lit "Your silence is your admission of defeat.";
         [10] ++ lit "The Architect"].

Definition skipped_results : list (pystr * PyVal) :=
  [(lit "search", PNone); (lit "insert", PNone); (lit "aggregation", PNone); (lit "compression", PNone)].

(** C31: error path.  When the data file [wikipedia_10gb.json] is
    missing, [main] prints its banner (with the first 16 characters of
    the script's hash), the loading line and the two error lines of
    [load_test_data], and returns [None]: it runs no test and writes no
    file. *)
Theorem main_missing_data file d1 d2 src w :
  fs w !! file = Some src -> fs w !! data_file 10 = None ->
  main fr cs fos sha arch file d1 d2 w =
  (Ok PNone, write_lines (banner_lines d1 (sha src) ++
     lines [loading_line 10; lit "ERROR: Download test data first!"; lit "Run: ./download_test_data.sh"]) w).
Proof.
  intros Hf Hd. unfold main.
  do 4 io_step print_run. io_step (hash_this_test_run sha file src); [|exact Hf].
  do 2 io_step print_run. io_step (load_test_data_missing fos 10); [|exact Hd].
  cbn [py_truthy negb]. rewrite io_ret_run, !write_lines_app. reflexivity.
Qed.

Lemma summary_skipped : py_for skipped_results (fun '(test, result) => summary_line fr cs test result) = mret tt.
Proof. reflexivity. Qed.

Lemma main_skipped_run file d1 d2 src bytes data n w :
  fs w !! file = Some src -> fs w !! data_file 10 = Some bytes ->
  load fos bytes = Ok data -> py_len_val data = Ok n -> py_truthy data = true ->
  lit "architect_system" ∉ modules w ->
  let proof := proof_dict (sha src) d2 skipped_results in
  let out := banner_lines d1 (sha src) ++
             lines [loading_line 10; lit "Loaded " ++ int_grouped n ++ lit " documents (" ++ int_repr 10 ++ lit "GB)"] ++
             search_skipped ++ insert_skipped ++ aggregation_skipped ++ compression_skipped ++
             closing_lines (sha (encode (dumps fr true None proof))) in
  main fr cs fos sha arch file d1 d2 w =
  (write_file results_file (encode (dumps fr false (Some 2%nat) proof)) ;;
   mret (PStr (sha (encode (dumps fr true None proof))))) (write_lines out w).
Proof.
  intros Hf Hd Hl Hn Ht Hm proof out. unfold main.
  do 4 io_step print_run. io_step (hash_this_test_run sha file src); [|exact Hf].
  do 2 io_step print_run. io_step (load_test_data_ok fos 10); [|exact Hd|exact Hl|exact Hn].
  rewrite Ht. cbn [negb].
  io_step test_search_skipped; [|exact Hm]. io_step test_insert_skipped; [|exact Hm].
  io_step test_aggregation_skipped; [|exact Hm]. io_step test_compression_skipped; [|exact Hm].
  io_step (hash_this_test_run sha file src); [|exact Hf].
  do 3 io_step print_run. rewrite io_bind_run. fold skipped_results.
  rewrite summary_skipped, io_ret_run. cbv beta iota.
  do 5 io_step print_run. rewrite !write_lines_app. fold proof. do 2 f_equal.
Qed.
End MainRuns.

Lemma py_for_map {A B} (l : list A) (f : A -> B) (body1 : A -> IO unit) (body2 : B -> IO unit) :
  (forall x w, body1 x w = body2 (f x) w) -> forall w, py_for l body1 w = py_for (map f l) body2 w.
Proof.
  intros Hb. induction l as [|x l IH]; intros w; [done|]. cbn [py_for map].
  rewrite !io_bind_run, Hb. by destruct (body2 (f x) w) as [[[]|e] w'].
Qed.

(** The batches [data[i:i+batch_size]] of the insert loop. *)
Definition insert_batches (l : list PyVal) : list (list PyVal) :=
  map (fun i => py_slice l i (i + batch_size))
      (range_items 0 batch_size (Z.to_nat (range_length 0 (py_len l) batch_size))).

Lemma batch_size_pos : 0 < batch_size.
Proof. reflexivity. Qed.

Lemma insert_loop_eq arch l w :
  insert_loop arch (PList l) (py_len l) w =
  py_for (insert_batches l) (fun b => bulk_insert arch (PList b) ;; mret tt) w.
Proof.
  unfold insert_loop, insert_batches. rewrite io_bind_run. unfold py_range. cbn -[range_items range_length].
  apply py_for_map. intros i w'. reflexivity.
Qed.

Lemma insert_batches_concat l : concat (insert_batches l) = l.
Proof.
  unfold insert_batches. pose proof (range_length_pos_nonneg 0 (py_len l) batch_size batch_size_pos).
  pose proof (range_length_cover 0 (py_len l) batch_size batch_size_pos).
  rewrite concat_slices; [reflexivity | exact batch_size_pos | lia | rewrite Z2Nat.id; lia].
Qed.

Lemma insert_batches_bounded l :
  Forall (fun b => b <> [] /\ (length b <= 100000)%nat) (insert_batches l).
Proof.
  unfold insert_batches. apply Forall_map, Forall_forall. intros i Hi.
  apply elem_of_range_items in Hi as (k & Hk & ->).
  pose proof (range_length_pos_nonneg 0 (py_len l) batch_size batch_size_pos).
  pose proof (range_length_inside 0 (py_len l) batch_size (Z.of_nat k) ltac:(done) ltac:(lia)).
  split.
  - apply py_slice_nonempty; unfold batch_size in *; lia.
  - apply (length_py_slice_le l _ batch_size); unfold batch_size; lia.
Qed.

(** [c] never raises and leaves the clock alone. *)
Definition clock_free {A} (c : IO A) : Prop :=
  forall w, exists a w', c w = (Ok a, w') /\ clock w' = clock w /\ ticks w' = ticks w.

Lemma clock_free_ret {A} (a : A) : clock_free (mret a).
Proof. intros w. by exists a, w. Qed.

Lemma clock_free_bind {A B} (c : IO A) (k : A -> IO B) :
  clock_free c -> (forall a, clock_free (k a)) -> clock_free (c ≫= k).
Proof.
  intros Hc Hk w. destruct (Hc w) as (a & w1 & E1 & C1 & T1).
  destruct (Hk a w1) as (b & w2 & E2 & C2 & T2). exists b, w2.
  rewrite io_bind_run, E1. split; [done|]. split; congruence.
Qed.

Lemma clock_free_py_for {A} (l : list A) body :
  (forall x, clock_free (body x)) -> clock_free (py_for l body).
Proof.
  intros Hb. induction l as [|x l IH]; cbn [py_for]; [apply clock_free_ret|].
  apply clock_free_bind; [apply Hb | intros; apply IH].
Qed.

Lemma insert_loop_clock_free arch l :
  (forall b, clock_free (bulk_insert arch b)) -> clock_free (insert_loop arch (PList l) (py_len l)).
Proof.
  intros Hb w. pose proof (clock_free_py_for (insert_batches l) (fun b => bulk_insert arch (PList b) ;; mret tt)
    ltac:(intros b; apply clock_free_bind; [apply Hb | intros; apply clock_free_ret]) w) as H.
  rewrite <- insert_loop_eq in H. exact H.
Qed.

(** C29: round trip.  The insert loop of [test_insert_performance]
    ([for i in range(0, total_docs, batch_size)] over
    [data[i:i+batch_size]]) calls [bulk_insert] on a sequence of
    non-empty batches of at most 100000 documents whose concatenation is
    the data: every document is inserted exactly once, in order. *)
Theorem insert_loop_partition arch l :
  exists batches, concat batches = l /\
    Forall (fun b => b <> [] /\ (length b <= 100000)%nat) batches /\
    forall w, insert_loop arch (PList l) (py_len l) w =
              py_for batches (fun b => bulk_insert arch (PList b) ;; mret tt) w.
Proof.
  exists (insert_batches l). split_and!; [apply insert_batches_concat | apply insert_batches_bounded |].
  intros w. apply insert_loop_eq.
Qed.

(** C32: error path.  With [architect_system] present and a
    [bulk_insert] that neither raises nor reads the clock, a
    [time.perf_counter()] that reads the same value before and after the
    loop makes [test_insert_performance] raise [ZeroDivisionError] at
    [total_docs / elapsed] (line 106). *)
Theorem insert_zero_elapsed fr cs arch l w :
  lit "architect_system" ∈ modules w -> (forall b, clock_free (bulk_insert arch b)) ->
  (clock w (S (ticks w)) == clock w (ticks w))%Q ->
  exists w', test_insert_performance fr cs arch (PList l) w = (Raise ZeroDivisionError, w').
Proof.
  intros Hm Hb Hc. unfold test_insert_performance.
  erewrite test_shell_run by (rewrite (claim_text_int _ _ _ _ _ claim_value_insert); reflexivity).
  rewrite bool_decide_true by done.
  set (w1 := write_lines _ w).
  rewrite io_bind_run. cbn [py_len_val]. rewrite lift_Ok_run. cbv beta iota.
  io_step perf_counter_run.
  destruct (insert_loop_clock_free arch l Hb (tick w1)) as (u & w2 & E & C & T).
  rewrite io_bind_run, E. cbv beta iota. io_step perf_counter_run.
  rewrite io_bind_run, py_div_zero; [by eexists|].
  rewrite C, T. cbn [clock ticks tick w1 write_lines]. rewrite Hc. ring.
Qed.

(** C34: round trip.  [load_test_data] on a data file written by
    [json.dump(v, f, indent=...)] returns [v] and prints the loading line
    and the document count, for every value without floats whose dicts
    have distinct keys and whose strings are Unicode scalar values. *)
Theorem load_test_data_reads_dump fos fr indent v n sz w :
  fs w !! data_file sz = Some (encode (dumps fr false indent v)) -> json_safe v = true ->
  py_len_val v = Ok n ->
  load_test_data fos sz w =
  (Ok v, write_lines (lines [loading_line sz;
     lit "Loaded " ++ int_grouped n ++ lit " documents (" ++ int_repr sz ++ lit "GB)"]) w).
Proof.
  intros Hf Hs Hn. apply (load_test_data_ok _ _ _ _ _ _ Hf); [|done].
  unfold load. rewrite read_text_dump by done. by apply loads_text_roundtrip.
Qed.

Lemma results_file_dir w : dir_exists w (parent_dir results_file) = bool_decide (lit "results" ∈ dirs w).
Proof. reflexivity. Qed.

(** What [main] prints when [architect_system] is missing. *)
Definition skipped_output (date1 test_hash : pystr) (n : Z) (proof_hash : pystr) : list pystr :=
  banner_lines date1 test_hash ++
  lines [loading_line 10; lit "Loaded " ++ int_grouped n ++ lit " documents (" ++ int_repr 10 ++ lit "GB)"] ++
  search_skipped ++ insert_skipped ++ aggregation_skipped ++ compression_skipped ++
  closing_lines proof_hash.

(** C15: error path.  Without [architect_system], with a non-empty
    data file, every test prints its heading and the import error and
    returns [None]; [main] prints the summary with its proof hash and
    then raises [FileNotFoundError] when no [results] directory exists
    ([open('results/mongodb_destruction.json', 'w')], line 234), having
    written no file. *)
Theorem main_fails_without_results_dir fr cs fos sha arch file d1 d2 src bytes data n w :
  fs w !! file = Some src -> fs w !! data_file 10 = Some bytes ->
  load fos bytes = Ok data -> py_len_val data = Ok n -> py_truthy data = true ->
  lit "architect_system" ∉ modules w -> lit "results" ∉ dirs w ->
  main fr cs fos sha arch file d1 d2 w =
  (Raise FileNotFoundError,
   write_lines (skipped_output d1 (sha src) n
     (sha (encode (dumps fr true None (proof_dict (sha src) d2 skipped_results))))) w).
Proof.
  intros Hf Hd Hl Hn Ht Hm Hr. rewrite (main_skipped_run _ _ _ _ _ _ _ _ _ _ _ _ _ Hf Hd Hl Hn Ht Hm).
  rewrite io_bind_run, write_file_missing_dir; [done|].
  rewrite results_file_dir. by apply bool_decide_false.
Qed.

(** C33: functional.  In the same run with a [results] directory,
    [main] prints the same lines, saves [json.dump(proof, f, indent=2)]
    to [results/mongodb_destruction.json] and returns the SHA-256 of
    [json.dumps(proof, sort_keys=True)], where [proof] holds the hash of
    the script, the second timestamp and four [None] results. *)
Theorem main_saves_proof fr cs fos sha arch file d1 d2 src bytes data n w :
  fs w !! file = Some src -> fs w !! data_file 10 = Some bytes ->
  load fos bytes = Ok data -> py_len_val data = Ok n -> py_truthy data = true ->
  lit "architect_system" ∉ modules w -> lit "results" ∈ dirs w ->
  let proof := proof_dict (sha src) d2 skipped_results in
  let proof_hash := sha (encode (dumps fr true None proof)) in
  main fr cs fos sha arch file d1 d2 w =
  (Ok (PStr proof_hash),
   set_fs (<[results_file := encode (dumps fr false (Some 2%nat) proof)]> (fs w))
     (write_lines (skipped_output d1 (sha src) n proof_hash) w)).
Proof.
  intros Hf Hd Hl Hn Ht Hm Hr proof proof_hash.
  rewrite (main_skipped_run _ _ _ _ _ _ _ _ _ _ _ _ _ Hf Hd Hl Hn Ht Hm).
  rewrite io_bind_run, write_file_run; [done|].
  rewrite results_file_dir. by apply bool_decide_true.
Qed.

(** ** Witnesses *)

(** An [architect_system] whose functions do nothing. *)
Definition idle_architect : Architect :=
  mkArchitect (fun _ _ => mret PNone) (fun _ => mret PNone) (fun _ _ => mret PNone) (fun _ => mret []).

Definition script : pystr := lit "test_mongodb_complete.py".

Definition script_only : gmap pystr (list Z) := {[script := [35]]}.

(** A world with the script and a data file holding [[1]]. *)
Definition data_files : gmap pystr (list Z) :=
  <[script := [35]]> (<[data_file 10 := encode (lit "[1]")]> ∅).

Lemma main_missing_data_witness :
  main (fun _ => []) (fun _ => []) (fun _ => 0%Q) (fun _ => []) idle_architect script [] []
    (start_world [] script_only ∅) =
  (Ok PNone, write_lines (banner_lines [] [] ++
     lines [loading_line 10; lit "ERROR: Download test data first!"; lit "Run: ./download_test_data.sh"])
     (start_world [] script_only ∅)).
Proof.
  exact (main_missing_data (fun _ => []) (fun _ => []) (fun _ => 0%Q) (fun _ => []) idle_architect script [] []
           [35] (start_world [] script_only ∅) ltac:(vm_compute; reflexivity) ltac:(vm_compute; reflexivity)).
Defined.

Lemma main_fails_without_results_dir_witness :
  main (fun _ => []) (fun _ => []) (fun _ => 0%Q) (fun _ => []) idle_architect script [] []
    (start_world [] data_files ∅) =
  (Raise FileNotFoundError,
   write_lines (skipped_output [] [] 1 []) (start_world [] data_files ∅)).
Proof.
  exact (main_fails_without_results_dir (fun _ => []) (fun _ => []) (fun _ => 0%Q) (fun _ => []) idle_architect
           script [] [] [35] (encode (lit "[1]")) (PList [PInt 1]) 1 (start_world [] data_files ∅)
           ltac:(vm_compute; reflexivity) ltac:(vm_compute; reflexivity) ltac:(vm_compute; reflexivity)
           eq_refl eq_refl ltac:(vm_compute; set_solver) ltac:(set_solver)).
Defined.

(** The same world with a [results] directory. *)
Definition world_with_results : World :=
  mkWorld [] [] data_files ∅ {[lit "results"]} (fun _ => 0%Q) 0.

Lemma main_saves_proof_witness :
  main (fun _ => []) (fun _ => []) (fun _ => 0%Q) (fun _ => []) idle_architect script [] [] world_with_results =
  (Ok (PStr []),
   set_fs (<[results_file := encode (dumps (fun _ => []) false (Some 2%nat) (proof_dict [] [] skipped_results))]>
             data_files)
     (write_lines (skipped_output [] [] 1 []) world_with_results)).
Proof.
  exact (main_saves_proof (fun _ => []) (fun _ => []) (fun _ => 0%Q) (fun _ => []) idle_architect
           script [] [] [35] (encode (lit "[1]")) (PList [PInt 1]) 1 world_with_results
           ltac:(vm_compute; reflexivity) ltac:(vm_compute; reflexivity) ltac:(vm_compute; reflexivity)
           eq_refl eq_refl ltac:(vm_compute; set_solver) ltac:(set_solver)).
Defined.

Lemma idle_insert_clock_free b : clock_free (bulk_insert idle_architect b).
Proof. intros w. by exists PNone, w. Qed.

Lemma insert_zero_elapsed_witness :
  exists w', test_insert_performance (fun _ => []) (fun _ => []) idle_architect (PList [PInt 1])
               (start_world [] ∅ {[lit "architect_system"]}) = (Raise ZeroDivisionError, w').
Proof.
  exact (insert_zero_elapsed (fun _ => []) (fun _ => []) idle_architect [PInt 1]
           (start_world [] ∅ {[lit "architect_system"]}) ltac:(set_solver) idle_insert_clock_free
           ltac:(reflexivity)).
Defined.

(** A data file written by [json.dump([1], f, indent=2)]. *)
Definition dump_files : gmap pystr (list Z) :=
  {[data_file 10 := encode (dumps (fun _ => []) false (Some 2%nat) (PList [PInt 1]))]}.

Lemma load_test_data_reads_dump_witness :
  load_test_data (fun _ => 0%Q) 10 (start_world [] dump_files ∅) =
  (Ok (PList [PInt 1]), write_lines (lines [loading_line 10;
     lit "Loaded " ++ int_grouped 1 ++ lit " documents (" ++ int_repr 10 ++ lit "GB)"])
     (start_world [] dump_files ∅)).
Proof.
  exact (load_test_data_reads_dump (fun _ => 0%Q) (fun _ => []) (Some 2%nat) (PList [PInt 1]) 1 10
           (start_world [] dump_files ∅) ltac:(vm_compute; reflexivity) eq_refl eq_refl).
Defined.

End Mongo.
