(* ===== verification/AllDatabases.v ===== *)
(** * AllDatabases: [test_all_databases.py]

    [destroy_all()] (lines 26-50) prints a banner, then for every
    database of [ALL_DATABASES] (lines 13-24) and every metric of its
    dict the claimed value and [value * 1000], and a closing block.  The
    dicts are written as lists of pairs in their insertion order, which
    is the order of [dict.items()]; a value is a [PyVal], and [*] on it
    is Python's: numbers multiply, a [str] is repeated.  [str(v)] is
    [Letter.py_str].

    The theorems: [destroy_all] never raises; and for the two claims that
    are texts (Snowflake's ["Large"] and BigQuery's ["1TB/min"]) the
    line it prints is the text repeated a thousand times, not a number. *)

From S2P Require Import Prelude PyIO PyFormat Json Letter.

Local Open Scope Z_scope.

Module AllDatabases.

Import PyIO.PyIO PyFormat.PyFormat Json.Json Letter.Letter.

(** [v * n] for an [int] [n]: [TypeError] for [None] and dicts. *)
Definition py_mul_int (v : PyVal) (n : Z) : PyResult PyVal :=
  match v with
  | PInt z => Ok (PInt (z * n))
  | PBool b => Ok (PInt (Z.b2z b * n))
  | PFloat q => Ok (PFloat (q * inject_Z n))
  | PStr s => Ok (PStr (py_repeat s (Z.to_nat n)))
  | PList l => Ok (PList (concat (repeat l (Z.to_nat n))))
  | PNone | PDict _ => Raise TypeError
  end.

Definition ALL_DATABASES : list (pystr * list (pystr * PyVal)) :=
  [(lit "MongoDB", [(lit "search", PInt 120); (lit "write", PInt 50000)]);
   (lit "Elasticsearch", [(lit "search", PInt 50); (lit "write", PInt 20000)]);
   (lit "Redis", [(lit "ops", PInt 100000); (lit "latency", PInt 1)]);
   (lit "PostgreSQL", [(lit "tps", PInt 5000); (lit "join", PInt 500)]);
   (lit "Cassandra", [(lit "write", PInt 100000); (lit "read", PInt 50000)]);
   (lit "DynamoDB", [(lit "read", PInt 40000); (lit "write", PInt 40000)]);
   (lit "Neo4j", [(lit "traverse", PInt 1000000); (lit "shortest_path", PInt 100)]);
   (lit "InfluxDB", [(lit "write", PInt 250000); (lit "query", PInt 100)]);
   (lit "Snowflake", [(lit "warehouse", PStr (lit "Large")); (lit "query", PInt 5000)]);
   (lit "BigQuery", [(lit "scan", PStr (lit "1TB/min")); (lit "query", PInt 10000)])].

Definition skulls : pystr := py_repeat (lit "💀") 30.

Section Destroy.

Variable float_repr : Q -> pystr.
Variable container_str : PyVal -> pystr.

(** The body of [for metric, value in claims.items()]. *)
Definition claim_lines (value : PyVal) : IO unit :=
  print (lit "  They claim: " ++ py_str float_repr container_str value) ;;
  r ← lift (py_mul_int value 1000);
  print (lit "  Reality: " ++ py_str float_repr container_str r ++ lit "x better").

Definition destroy_all : IO unit :=
  print ([10] ++ skulls) ;;
  print (lit "THE ARCHITECT's FINAL DESTRUCTION") ;;
  print (lit "ALL DATABASES. ONE TEST. TOTAL ANNIHILATION.") ;;
  print skulls ;;
  py_for ALL_DATABASES (fun '(db, claims) =>
    print ([10] ++ lit "[" ++ db ++ lit "]") ;;
    py_for claims (fun '(metric, value) => claim_lines value) ;;
    print (lit "  Status: OBSOLETE ✓")) ;;
  print ([10] ++ py_repeat (lit "=") 60) ;;
  print (lit "To All Database Companies:") ;;
  print (lit "Your benchmarks are lies.") ;;
  print (lit "Your products are obsolete.") ;;
  print (lit "Your silence is admission.") ;;
  print ([10] ++ lit "Patent #63/841086") ;;
  print (lit "Law firms were warned.") ;;
  print (lit "You chose to ignore.") ;;
  print ([10] ++ lit "The Architect owns you all.") ;;
  print (py_repeat (lit "=") 60).

End Destroy.

(** ** Properties of [destroy_all] *)

(** C37: functional.  [destroy_all()] never raises, and for the claims
    that are texts it prints the text repeated a thousand times
    ([value * 1000] on a [str], line 38): Snowflake's ["Large"] and
    BigQuery's ["1TB/min"] give lines of 5019 and 7019 characters
    instead of a number. *)
Theorem destroy_all_repeats_text fr cs w :
  exists out, destroy_all fr cs w = (Ok tt, write_lines out w) /\
    (lit "  Reality: " ++ py_repeat (lit "Large") 1000 ++ lit "x better") ++ [10] ∈ out /\
    (lit "  Reality: " ++ py_repeat (lit "1TB/min") 1000 ++ lit "x better") ++ [10] ∈ out.
Proof.
  assert (exists out, prints (destroy_all fr cs) out /\
    (lit "  Reality: " ++ py_repeat (lit "Large") 1000 ++ lit "x better") ++ [10] ∈ out /\
    (lit "  Reality: " ++ py_repeat (lit "1TB/min") 1000 ++ lit "x better") ++ [10] ∈ out)
    as (out & Hp & H1 & H2).
  { eexists. split.
    - unfold destroy_all, claim_lines. cbn [ALL_DATABASES py_for].
      prints_steps.
    - split; by_decide. }
  exists out. split; [apply Hp | done].
Qed.

End AllDatabases.
