(* ===== verification/Elastic.v ===== *)
(** * Elastic: [test_elasticsearch_complete.py]

    Two timed tests against [architect_system] and a [main].  The tests
    read [ELASTICSEARCH_CLAIMS] (lines 13-19) and, when the import of
    their function fails, return [None] without printing anything more
    than their heading.  [main] (lines 91-110) calls [load_test_data]
    and [generate_proof], which the module neither defines nor imports:
    [main] takes the module's global names and, for a module that would
    define them, the two functions, as [Scripts.verify] does.

    The theorems: [main] as written raises [NameError] right after its
    two opening lines, before any test runs, whatever [load_test_data]
    and [generate_proof] a fixed module would define. *)

From S2P Require Import Prelude PyList Utf8 PyIO PyFormat Json Letter Scripts Mongo.

Local Open Scope Z_scope.

Module Elastic.

Import PyList.Slice PyIO.PyIO PyFormat.PyFormat Json.Json Letter.Letter Scripts.Scripts Mongo.Mongo.

Definition ELASTICSEARCH_CLAIMS : PyVal :=
  PDict [(lit "search", claim 50 (lit "ms") (lit "full-text search"));
         (lit "index", claim 20000 (lit "docs/sec/node") (lit "indexing rate"));
         (lit "aggregation", claim 1000 (lit "ms") (lit "1B events"));
         (lit "fuzzy", claim 100 (lit "ms") (lit "fuzzy matching"));
         (lit "autocomplete", claim 10 (lit "ms") (lit "search-as-you-type"))].

Local Open Scope py_scope.

(** [ELASTICSEARCH_CLAIMS[k]['value']]. *)
Definition es_claim_value (k : pystr) : PyResult PyVal :=
  c <- getitem ELASTICSEARCH_CLAIMS k ;; getitem c (lit "value").

Definition es_claim_num (k : pystr) : PyResult Q := v <- es_claim_value k ;; as_number v.

Local Close Scope py_scope.

(** The functions the tests import from [architect_system]. *)
Record SearchSystem := mkSearchSystem {
  fulltext_search : PyVal -> pystr -> IO PyVal;
  fuzzy_search : PyVal -> pystr -> Z -> IO PyVal   (** [fuzzy_search(data, typo, distance=d)] *)
}.

(** The global names of the module: its imports and definitions. *)
Definition es_globals : gset pystr :=
  {[ lit "hashlib"; lit "time"; lit "json"; lit "os"; lit "datetime"; lit "ELASTICSEARCH_CLAIMS";
     lit "test_fulltext_search"; lit "test_fuzzy_matching"; lit "main" ]}.

Section Tests.

Variable float_repr : Q -> pystr.
Variable container_str : PyVal -> pystr.
Variable sys : SearchSystem.

Definition es_claim_text (k : pystr) : PyResult pystr :=
  py_bind (es_claim_value k) (format_value float_repr container_str SPlain).

Definition fulltext_queries : list pystr :=
  [lit "machine learning AND neural networks"; lit "quantum OR computing";
   [34] ++ lit "exact phrase match" ++ [34]; lit "data* wild?ard";
   lit "title:(database) AND body:(performance)"].

(** The loop of lines 43-48. *)
Fixpoint time_fulltext (data : PyVal) (qs : list pystr) : IO (list Q) :=
  match qs with
  | [] => mret []
  | query :: rest =>
    start ← perf_counter;
    fulltext_search sys data query ;;
    stop ← perf_counter;
    let elapsed := ((stop - start) * 1000)%Q in
    print (lit "  '" ++ py_slice query 0 30 ++ lit "...': " ++ fmt_fixed false 3 elapsed ++ lit "ms") ;;
    times ← time_fulltext data rest;
    mret (elapsed :: times)
  end.

Definition test_fulltext_search (data : PyVal) : IO PyVal :=
  print ([10] ++ rule60) ;;
  print (lit "FULL-TEXT SEARCH DESTRUCTION") ;;
  c ← lift (es_claim_text (lit "search"));
  print (lit "Elasticsearch claims: " ++ c ++ lit "ms") ;;
  print rule60 ;;
  import_or [] ≫= fun ok : bool =>
  if ok then (
    times ← time_fulltext data fulltext_queries;
    avg_time ← lift (py_div (py_sum times) (inject_Z (py_len times)));
    claimed ← lift (es_claim_num (lit "search"));
    improvement ← lift (py_div claimed avg_time);
    print ([10] ++ lit "DESTRUCTION: " ++ fmt_fixed false 0 improvement ++ lit "x faster") ;;
    mret (PDict [(lit "search_ms", PFloat avg_time); (lit "improvement", PFloat improvement)])
  ) else mret PNone.

Definition typo_queries : list (pystr * pystr) :=
  [(lit "databse", lit "database"); (lit "elasicsearch", lit "elasticsearch");
   (lit "quntum compuing", lit "quantum computing")].

(** The loop of lines 76-81. *)
Fixpoint time_fuzzy (data : PyVal) (qs : list (pystr * pystr)) : IO (list Q) :=
  match qs with
  | [] => mret []
  | (typo, correct) :: rest =>
    start ← perf_counter;
    fuzzy_search sys data typo 2 ;;
    stop ← perf_counter;
    let elapsed := ((stop - start) * 1000)%Q in
    print (lit "  '" ++ typo ++ lit "' → '" ++ correct ++ lit "': " ++ fmt_fixed false 3 elapsed ++ lit "ms") ;;
    times ← time_fuzzy data rest;
    mret (elapsed :: times)
  end.

Definition test_fuzzy_matching (data : PyVal) : IO PyVal :=
  print ([10] ++ rule60) ;;
  print (lit "FUZZY MATCHING DESTRUCTION") ;;
  c ← lift (es_claim_text (lit "fuzzy"));
  print (lit "Elasticsearch claims: " ++ c ++ lit "ms") ;;
  print rule60 ;;
  import_or [] ≫= fun ok : bool =>
  if ok then (
    times ← time_fuzzy data typo_queries;
    avg_time ← lift (py_div (py_sum times) (inject_Z (py_len times)));
    claimed ← lift (es_claim_num (lit "fuzzy"));
    improvement ← lift (py_div claimed avg_time);
    print ([10] ++ lit "DESTRUCTION: " ++ fmt_fixed false 0 improvement ++ lit "x faster") ;;
    mret (PDict [(lit "fuzzy_ms", PFloat avg_time); (lit "improvement", PFloat improvement)])
  ) else mret PNone.

(** [main()] in a module with the global names [globals], where
    [load_test_data] and [generate_proof] would be [load] and [proof]. *)
Definition main (globals : gset pystr) (load : Z -> IO PyVal) (proof : PyVal -> IO PyVal) : IO unit :=
  print ([10] ++ lit "🔥 THE ARCHITECT vs ELASTICSEARCH 🔥") ;;
  print (lit "Their claims vs Reality") ;;
  lookup_global globals (lit "load_test_data") ;;
  data ← load 15;
  r_search ← test_fulltext_search data;
  r_fuzzy ← test_fuzzy_matching data;
  print ([10] ++ rule60) ;;
  print (lit "ELASTICSEARCH: YOUR SEARCH IS SLOW") ;;
  print (lit "ELASTICSEARCH: YOUR FUZZY IS WEAK") ;;
  print (lit "ELASTICSEARCH: YOU ARE OBSOLETE") ;;
  print rule60 ;;
  lookup_global globals (lit "generate_proof") ;;
  proof_hash ← proof (PDict [(lit "search", r_search); (lit "fuzzy", r_fuzzy)]);
  print ([10] ++ lit "PROOF: " ++ py_str float_repr container_str proof_hash) ;;
  print ([10] ++ lit "@elastic - Your move.").

End Tests.

Lemma load_test_data_not_global : lit "load_test_data" ∉ es_globals.
Proof. unfold es_globals. eval_lits. set_solver. Qed.

(** ** Properties of [main] *)

(** C35: error path.  [main()] as the module is written raises
    [NameError] at [load_test_data(15)] (line 96): it has printed its
    two opening lines and run no test. *)
Theorem es_main_name_error fr cs sys load proof w :
  main fr cs sys es_globals load proof w =
  (Raise NameError, write_lines [([10] ++ lit "🔥 THE ARCHITECT vs ELASTICSEARCH 🔥") ++ [10];
                                 lit "Their claims vs Reality" ++ [10]] w).
Proof.
  unfold main. io_step print_run. io_step print_run.
  rewrite io_bind_run, lookup_global_missing by apply load_test_data_not_global.
  by rewrite write_lines_app.
Qed.

End Elastic.
