(* ===== verification/Redis.v ===== *)
(** * Redis: [test_redis_complete.py] and [test_postgresql_complete.py]

    [test_redis_operations(data)] (test_redis_complete.py 14-43) prints
    two lines, imports [kv_operations] from [architect_system], and
    times a million [set]/[get] pairs with [time.perf_counter()]; the
    module imports nothing, so the name [time] is looked up in globals
    that lack it.  As in [Scripts], the function takes the module's
    global names, so that the module as written and one that imports
    [time] can both be stated.  The function has no [return]: it gives
    [None] on every path.

    [test_complex_joins(data)] (test_postgresql_complete.py 14-20) prints
    two lines; its body is comments.

    The theorems: [test_redis_operations] as written returns [None]
    after its two lines when [architect_system] is missing, and raises
    [NameError] after them when it is present, before any operation. *)

From S2P Require Import Prelude PyList PyIO PyFormat Json Letter Scripts Mongo.

Local Open Scope Z_scope.

Module Redis.

Import PyList.Range PyIO.PyIO PyFormat.PyFormat Json.Json Letter.Letter Scripts.Scripts Mongo.Mongo.

Definition REDIS_CLAIMS : PyVal :=
  PDict [(lit "get_set", claim 100000 (lit "ops/sec") (lit "GET/SET operations"));
         (lit "pipeline", claim 250000 (lit "ops/sec") (lit "pipelined ops"));
         (lit "sorted_set", claim 50000 (lit "ops/sec") (lit "ZADD operations"));
         (lit "memory", claim 1 (lit "ms") (lit "average latency"))].

(** The global names of the module: its two definitions. *)
Definition redis_globals : gset pystr := {[ lit "REDIS_CLAIMS"; lit "test_redis_operations" ]}.

(** [kv_operations] of [architect_system]: an object with [set] and [get]. *)
Record KV := mkKV {
  kv_set : pystr -> pystr -> IO PyVal;
  kv_get : pystr -> IO PyVal
}.

Local Open Scope py_scope.

(** [REDIS_CLAIMS[k]['value']]. *)
Definition redis_claim_value (k : pystr) : PyResult PyVal :=
  c <- getitem REDIS_CLAIMS k ;; getitem c (lit "value").

Local Close Scope py_scope.

Definition operations : Z := 1000000.

(** The end of the last line, as the source has it: the UTF-8 bytes of an
    emoji read as Windows-1252. *)
Definition mojibake : pystr := [0xf0; 0x178; 0x2dc; 0x201a].

Section Test.

Variable float_repr : Q -> pystr.
Variable container_str : PyVal -> pystr.
Variable kv : KV.

(** [time.perf_counter()], looking up [time] first. *)
Definition timed (globals : gset pystr) : IO Q :=
  lookup_global globals (lit "time") ;; perf_counter.

(** The loop of lines 28-32. *)
Definition kv_loop : IO unit :=
  indices ← lift (py_range 0 operations 1);
  py_for indices (fun i =>
    let key := lit "key_" ++ int_repr i in
    let value := lit "value_" ++ int_repr i in
    kv_set kv key value ;;
    kv_get kv key ;;
    mret tt).

Definition test_redis_operations (globals : gset pystr) (data : PyVal) : IO PyVal :=
  print ([10] ++ lit "Redis thinks it's fast because it's in-memory?") ;;
  print (lit "Watch this...") ;;
  import_or [] ≫= fun ok : bool =>
  if ok then (
    start ← timed globals;
    kv_loop ;;
    stop ← timed globals;
    let elapsed := (stop - start)%Q in
    ops_per_sec ← lift (py_div (inject_Z operations) elapsed);
    v ← lift (redis_claim_value (lit "get_set"));
    claimed ← lift (as_number v);
    improvement ← lift (py_div ops_per_sec claimed);
    print (lit "Operations: " ++ int_grouped operations) ;;
    print (lit "Time: " ++ fmt_fixed false 2 elapsed ++ lit "s") ;;
    print (lit "Rate: " ++ fmt_fixed true 0 ops_per_sec ++ lit " ops/sec") ;;
    c ← lift (py_bind (redis_claim_value (lit "get_set")) (format_value float_repr container_str SGroup));
    print (lit "Redis claims: " ++ c ++ lit " ops/sec") ;;
    print ([10] ++ lit "DESTRUCTION: " ++ fmt_fixed false 0 improvement ++ lit "x faster") ;;
    print (lit "And I'm not even in-memory only. " ++ mojibake) ;;
    mret PNone
  ) else mret PNone.

End Test.

(** ** [test_postgresql_complete.py] *)

Definition POSTGRESQL_CLAIMS : PyVal :=
  PDict [(lit "tps", claim 5000 (lit "transactions/sec") (lit "pgbench"));
         (lit "join", claim 500 (lit "ms") (lit "complex joins"));
         (lit "index", claim 50000 (lit "rows/sec") (lit "index creation"));
         (lit "json", claim 200 (lit "ms") (lit "JSONB queries"))].

(** [test_complex_joins(data)]: two lines, then the implicit [None]. *)
Definition test_complex_joins (data : PyVal) : IO PyVal :=
  print ([10] ++ lit "PostgreSQL's famous JOIN optimization?") ;;
  print (lit "Let me show you real optimization...") ;;
  mret PNone.

Lemma time_not_global : lit "time" ∉ redis_globals.
Proof. unfold redis_globals. eval_lits. set_solver. Qed.

(** ** Properties of [test_redis_operations] *)

(** C36: error path.  As the module is written, [test_redis_operations]
    never times anything: after its two lines it returns [None] when
    [architect_system] is missing, and raises [NameError] at
    [time.perf_counter()] (line 27, [time] is never imported) when it
    is present, before any [set] or [get]. *)
Theorem redis_never_runs fr cs kv data w :
  test_redis_operations fr cs kv redis_globals data w =
  (if bool_decide (lit "architect_system" ∈ modules w) then Raise NameError else Ok PNone,
   write_lines [([10] ++ lit "Redis thinks it's fast because it's in-memory?") ++ [10];
                lit "Watch this..." ++ [10]] w).
Proof.
  unfold test_redis_operations. io_step print_run. io_step print_run. rewrite write_lines_app.
  rewrite io_bind_run. case_bool_decide as Hm.
  - rewrite import_or_present by done. cbv beta iota. unfold timed.
    rewrite io_bind_run, io_bind_run, lookup_global_missing by apply time_not_global. done.
  - rewrite import_or_missing by done. cbn [lines map]. rewrite write_lines_nil. done.
Qed.

End Redis.
